(** * Universal API Schema Explorer: schema normalisation core

    A shallow embedding of the connector / converter / storage code of the
    repository, and the properties of the specification checked against it.

    Conventions of the embedding.
    - A JavaScript value that the code only inspects structurally is a
      [JsValue]; an object is the list of its own enumerable properties in
      [Object.keys] order.
    - An optional property ([x?: T]) is an [option]; [undefined] and a
      missing property are both [None].
    - A function that can throw returns a [Result]; the thrown value keeps
      its error class and message.
    - Wall-clock readings ([Date.now()], [new Date()]) are explicit
      arguments; response times and timestamps that no property observes
      are left out of the result records. *)

From Stdlib Require Import String Ascii List ZArith QArith Bool Arith Lia DecimalString.
From Stdlib Require Import Sorted Permutation.
Close Scope Q_scope.
Import ListNotations.
Local Open Scope string_scope.
Set Warnings "-register-all".

(* ================================================================== *)
(** * JavaScript values and exceptions                                 *)
(* ================================================================== *)

Module Js.

(** JSON-shaped values.  A number is the rational that the double stands
    for; the code below only observes [typeof], truthiness and
    [Number.isInteger] on it. *)
Inductive JsValue : Type :=
| JNull
| JBool (b : bool)
| JNum (q : Q)
| JStr (s : string)
| JArr (elems : list JsValue)
| JObj (props : list (string * JsValue)).

(** Error classes of [src/types/core/errors] together with the built-in
    ones the code meets. *)
Inductive ErrorClass : Type :=
| PlainError
| TypeError
| SyntaxError
| AxiosError
| ConnectionError
| AuthenticationError
| SchemaParsingError
| IntrospectionError
| StorageError.

Record JsError : Type := mkJsError { e_class : ErrorClass; e_message : string }.

(** [error.name]: the built-in classes carry their name on the prototype,
    and [APIExplorerError] sets [this.name = this.constructor.name]. *)
Definition errorName (c : ErrorClass) : string :=
  match c with
  | PlainError => "Error"
  | TypeError => "TypeError"
  | SyntaxError => "SyntaxError"
  | AxiosError => "AxiosError"
  | ConnectionError => "ConnectionError"
  | AuthenticationError => "AuthenticationError"
  | SchemaParsingError => "SchemaParsingError"
  | IntrospectionError => "IntrospectionError"
  | StorageError => "StorageError"
  end.

(** [String(error)], that is [Error.prototype.toString]: the name alone
    when the message is empty, else the name, a colon and the message. *)
Definition errorString (e : JsError) : string :=
  match e_message e with
  | EmptyString => errorName (e_class e)
  | message => (errorName (e_class e) ++ ": " ++ message)%string
  end.

Inductive Result (A : Type) : Type :=
| Ok (a : A)
| Throw (e : JsError).

Arguments Ok {A} a.
Arguments Throw {A} e.

Definition bind {A B : Type} (r : Result A) (k : A -> Result B) : Result B :=
  match r with
  | Ok a => k a
  | Throw e => Throw e
  end.

(** [xs.map(f)] where [f] may throw: the first exception aborts the map. *)
Fixpoint mapM {A B : Type} (f : A -> Result B) (xs : list A) : Result (list B) :=
  match xs with
  | [] => Ok []
  | x :: rest =>
      bind (f x) (fun y => bind (mapM f rest) (fun ys => Ok (y :: ys)))
  end.

(** [for (const x of xs) acc = body(acc, x)] where the body may throw. *)
Fixpoint foldM {A S : Type} (body : S -> A -> Result S) (xs : list A) (acc : S) : Result S :=
  match xs with
  | [] => Ok acc
  | x :: rest => bind (body acc x) (foldM body rest)
  end.

(** [obj[k] = v] on an object kept as its property list: an existing
    property keeps its position, a new one is appended. *)
Fixpoint obj_set {A : Type} (k : string) (v : A) (o : list (string * A)) : list (string * A) :=
  match o with
  | [] => [(k, v)]
  | (k', v') :: rest =>
      if String.eqb k k' then (k, v) :: rest else (k', v') :: obj_set k v rest
  end.

(** [obj[k]] *)
Fixpoint obj_get {A : Type} (k : string) (o : list (string * A)) : option A :=
  match o with
  | [] => None
  | (k', v) :: rest => if String.eqb k k' then Some v else obj_get k rest
  end.

(** The own properties of [Object.prototype], which every object literal
    inherits: eleven methods and the accessor [__proto__]. *)
Definition objectPrototypeNames : list string :=
  ["constructor"; "hasOwnProperty"; "isPrototypeOf"; "propertyIsEnumerable";
   "toLocaleString"; "toString"; "valueOf"; "__proto__";
   "__defineGetter__"; "__defineSetter__"; "__lookupGetter__"; "__lookupSetter__"].

Definition onObjectPrototype (name : string) : bool :=
  existsb (String.eqb name) objectPrototypeNames.

(** [obj[k] = v] on an object created by the literal [{}], kept as the
    list of its own properties.  Every name but [__proto__] becomes (or
    stays) an own property.  [__proto__] is the accessor of
    [Object.prototype]: its setter replaces the prototype of [obj] when
    [v] is an object and ignores any other [v]; in both cases [obj] gets
    no own property. *)
Definition plain_set {A : Type} (k : string) (v : A) (o : list (string * A))
  : list (string * A) :=
  if String.eqb k "__proto__" then o else obj_set k v o.

(** Truthiness of a string: only the empty string is falsy. *)
Definition truthy_string (s : string) : bool :=
  match s with
  | EmptyString => false
  | _ => true
  end.

(** [s ? ... : ...] for an optional string. *)
Definition truthy_opt_string (s : option string) : bool :=
  match s with
  | Some s' => truthy_string s'
  | None => false
  end.

(** Decimal text of a number, as a template literal prints it. *)
Definition natToString (n : nat) : string :=
  NilZero.string_of_uint (Nat.to_uint n).

(** [typeof v] *)
Definition typeOf (v : JsValue) : string :=
  match v with
  | JNull => "object"
  | JBool _ => "boolean"
  | JNum _ => "number"
  | JStr _ => "string"
  | JArr _ => "object"
  | JObj _ => "object"
  end.

(** [typeof v === 'object' && v !== null] *)
Definition isObject (v : JsValue) : bool :=
  match v with
  | JArr _ | JObj _ => true
  | _ => false
  end.

(** Truthiness of a value. *)
Definition truthy (v : JsValue) : bool :=
  match v with
  | JNull => false
  | JBool b => b
  | JNum q => negb (Qeq_bool q 0)
  | JStr s => match s with EmptyString => false | _ => true end
  | JArr _ | JObj _ => true
  end.

(** Truthiness of a property that may be absent ([undefined]). *)
Definition truthy_opt (v : option JsValue) : bool :=
  match v with
  | Some v' => truthy v'
  | None => false
  end.


(** The index keys ["0"], ["1"], ... of an array of the given length,
    from [start]. *)
Fixpoint indexKeys (start len : nat) : list string :=
  match len with
  | O => []
  | S n => natToString start :: indexKeys (S start) n
  end.

(** [Object.keys(v)] for an object or an array. *)
Definition keysOf (v : JsValue) : list string :=
  match v with
  | JObj props => map fst props
  | JArr elems => indexKeys 0 (length elems)
  | _ => []
  end.

(** [Object.entries(v)] for an object or an array. *)
Definition entriesOf (v : JsValue) : list (string * JsValue) :=
  match v with
  | JObj props => props
  | JArr elems => combine (indexKeys 0 (length elems)) elems
  | _ => []
  end.

(** The first of two optional values that is defined. *)
Definition orElse {A : Type} (a b : option A) : option A :=
  match a with
  | Some _ => a
  | None => b
  end.

(** [x !== undefined] *)
Definition isSome {A : Type} (a : option A) : bool :=
  match a with
  | Some _ => true
  | None => false
  end.

(** A [JSON.parse] for closed examples.  It knows the three keyword
    literals and rejects every other text with a [SyntaxError]; the examples
    only feed it those literals or text that is not JSON at all. *)
Definition JSON_parse_keywords (s : string) : Result JsValue :=
  if String.eqb s "null" then Ok JNull
  else if String.eqb s "true" then Ok (JBool true)
  else if String.eqb s "false" then Ok (JBool false)
  else Throw (mkJsError SyntaxError "Unexpected token in JSON").

End Js.
Import Js.

Notation "x <- c1 ;; c2" := (Js.bind c1 (fun x => c2))
  (at level 61, c1 at next level, right associativity).

(* ================================================================== *)
(** * Universal schema model ([src/types/core/schema.ts])              *)
(* ================================================================== *)

Module DataType.
Inductive t : Type :=
| STRING | NUMBER | INTEGER | BOOLEAN | ARRAY | OBJECT | NULL | UNKNOWN.
End DataType.

Module APIProtocol.
Inductive t : Type := REST | GRAPHQL | WEBSOCKET.
End APIProtocol.

Module GraphQLTypeKind.
Inductive t : Type :=
| SCALAR | OBJECT | INTERFACE | UNION | ENUM | INPUT_OBJECT | LIST | NON_NULL.

Definition eqb (a b : t) : bool :=
  match a, b with
  | SCALAR, SCALAR | OBJECT, OBJECT | INTERFACE, INTERFACE | UNION, UNION
  | ENUM, ENUM | INPUT_OBJECT, INPUT_OBJECT | LIST, LIST | NON_NULL, NON_NULL => true
  | _, _ => false
  end.
End GraphQLTypeKind.

Module OpenAPIDataType.
Inductive t : Type :=
| STRING | NUMBER | INTEGER | BOOLEAN | ARRAY | OBJECT | FILE.

Definition eqb (a b : t) : bool :=
  match a, b with
  | STRING, STRING | NUMBER, NUMBER | INTEGER, INTEGER | BOOLEAN, BOOLEAN
  | ARRAY, ARRAY | OBJECT, OBJECT | FILE, FILE => true
  | _, _ => false
  end.

(** The string value of each member of the enumeration. *)
Definition value (a : t) : string :=
  match a with
  | STRING => "string"
  | NUMBER => "number"
  | INTEGER => "integer"
  | BOOLEAN => "boolean"
  | ARRAY => "array"
  | OBJECT => "object"
  | FILE => "file"
  end.
End OpenAPIDataType.

Module Core.

Inductive ParamLocation : Type := LocQuery | LocPath | LocHeader | LocBody.

Record FieldConstraints : Type := mkConstraints {
  c_minimum : option Z;
  c_maximum : option Z;
  c_pattern : option string;
  c_enum : option (list JsValue);
  c_format : option string
}.

(** The [metadata: Record<string, unknown>] bag of the formats the three
    converters put into it. *)
Record OpenAPIMeta : Type := mkOpenAPIMeta {
  om_format : option string;
  om_example : option JsValue;
  om_enum : option (list JsValue);
  om_nullable : option bool;
  om_readOnly : option bool;
  om_writeOnly : option bool;
  om_deprecated : option bool
}.

Inductive SchemaField : Type :=
| mkSchemaField
    (name : string)
    (type : DataType.t)
    (required : bool)
    (description : option string)
    (defaultValue : option JsValue)
    (items : option SchemaField)
    (properties : option (list (string * SchemaField)))
    (constraints : option FieldConstraints)
    (metadata : option FieldMetadata)
with FieldMetadata : Type :=
| MetaGraphQLField (isDeprecated : bool) (deprecationReason : option string)
    (arguments : list OperationParameter)
| MetaGraphQLType (kind : GraphQLTypeKind.t)
    (interfaces : option (list (option string)))
    (possibleTypes : option (list (option string)))
| MetaOpenAPI (m : OpenAPIMeta)
| MetaWebSocketPattern (frequency : nat) (examples : list JsValue)
with OperationParameter : Type :=
| mkParameter
    (name : string)
    (location : ParamLocation)
    (schema : SchemaField)
    (required : bool)
    (description : option string).

Definition sf_name (f : SchemaField) : string :=
  match f with mkSchemaField n _ _ _ _ _ _ _ _ => n end.
Definition sf_type (f : SchemaField) : DataType.t :=
  match f with mkSchemaField _ t _ _ _ _ _ _ _ => t end.
Definition sf_required (f : SchemaField) : bool :=
  match f with mkSchemaField _ _ r _ _ _ _ _ _ => r end.
Definition sf_description (f : SchemaField) : option string :=
  match f with mkSchemaField _ _ _ d _ _ _ _ _ => d end.
Definition sf_defaultValue (f : SchemaField) : option JsValue :=
  match f with mkSchemaField _ _ _ _ d _ _ _ _ => d end.
Definition sf_items (f : SchemaField) : option SchemaField :=
  match f with mkSchemaField _ _ _ _ _ i _ _ _ => i end.
Definition sf_properties (f : SchemaField) : option (list (string * SchemaField)) :=
  match f with mkSchemaField _ _ _ _ _ _ p _ _ => p end.
Definition sf_constraints (f : SchemaField) : option FieldConstraints :=
  match f with mkSchemaField _ _ _ _ _ _ _ c _ => c end.
Definition sf_metadata (f : SchemaField) : option FieldMetadata :=
  match f with mkSchemaField _ _ _ _ _ _ _ _ m => m end.

(** [field.required = r] *)
Definition sf_set_required (r : bool) (f : SchemaField) : SchemaField :=
  match f with
  | mkSchemaField n t _ d dv i p c m => mkSchemaField n t r d dv i p c m
  end.

Definition p_name (p : OperationParameter) : string :=
  match p with mkParameter n _ _ _ _ => n end.
Definition p_location (p : OperationParameter) : ParamLocation :=
  match p with mkParameter _ l _ _ _ => l end.
Definition p_schema (p : OperationParameter) : SchemaField :=
  match p with mkParameter _ _ s _ _ => s end.
Definition p_required (p : OperationParameter) : bool :=
  match p with mkParameter _ _ _ r _ => r end.
Definition p_description (p : OperationParameter) : option string :=
  match p with mkParameter _ _ _ _ d => d end.

Record Response : Type := mkResponse {
  r_statusCode : string;
  r_description : option string;
  r_schema : option SchemaField;
  r_headers : option (list (string * SchemaField))
}.

Inductive OperationType : Type :=
| OpQuery | OpMutation | OpSubscription | OpEndpoint | OpMessage.

End Core.
Import Core.

(* ================================================================== *)
(** * GraphQL converter ([GraphQLSchemaConverter])                     *)
(* ================================================================== *)

Module GraphQL.

Inductive GraphQLTypeRef : Type :=
| mkTypeRef (kind : GraphQLTypeKind.t) (name : option string) (ofType : option GraphQLTypeRef).

Definition tr_kind (r : GraphQLTypeRef) : GraphQLTypeKind.t :=
  match r with mkTypeRef k _ _ => k end.
Definition tr_name (r : GraphQLTypeRef) : option string :=
  match r with mkTypeRef _ n _ => n end.
Definition tr_ofType (r : GraphQLTypeRef) : option GraphQLTypeRef :=
  match r with mkTypeRef _ _ o => o end.

Record GraphQLInputValue : Type := mkInputValue {
  iv_name : string;
  iv_description : option string;
  iv_type : GraphQLTypeRef;
  iv_defaultValue : option string
}.

Record GraphQLField : Type := mkField {
  gf_name : string;
  gf_description : option string;
  gf_args : list GraphQLInputValue;
  gf_type : GraphQLTypeRef;
  gf_isDeprecated : bool;
  gf_deprecationReason : option string
}.

Record GraphQLType : Type := mkType {
  gt_kind : GraphQLTypeKind.t;
  gt_name : option string;
  gt_description : option string;
  gt_fields : option (list GraphQLField);
  gt_inputFields : option (list GraphQLInputValue);
  gt_interfaces : option (list GraphQLTypeRef);
  gt_possibleTypes : option (list GraphQLTypeRef)
}.

(** The [while (currentType.ofType)] loop of
    [convertGraphQLTypeToDataType]: walks to the innermost type and
    records whether a LIST wrapper was passed. *)
Fixpoint unwrapWrappers (currentType : GraphQLTypeRef) (isList : bool)
  : GraphQLTypeRef * bool :=
  match currentType with
  | mkTypeRef k _ (Some inner) =>
      unwrapWrappers inner (if GraphQLTypeKind.eqb k GraphQLTypeKind.LIST then true else isList)
  | mkTypeRef _ _ None => (currentType, isList)
  end.

Definition mapScalarType (scalarName : option string) : DataType.t :=
  match scalarName with
  | Some "String" => DataType.STRING
  | Some "ID" => DataType.STRING
  | Some "Int" => DataType.INTEGER
  | Some "Float" => DataType.NUMBER
  | Some "Boolean" => DataType.BOOLEAN
  | _ => DataType.STRING
  end.

Definition convertGraphQLTypeToDataType (typeRef : GraphQLTypeRef) : DataType.t :=
  let '(currentType, isList) := unwrapWrappers typeRef false in
  if isList then DataType.ARRAY
  else
    match tr_kind currentType with
    | GraphQLTypeKind.SCALAR => mapScalarType (tr_name currentType)
    | GraphQLTypeKind.ENUM => DataType.STRING
    | GraphQLTypeKind.OBJECT
    | GraphQLTypeKind.INTERFACE
    | GraphQLTypeKind.UNION
    | GraphQLTypeKind.INPUT_OBJECT => DataType.OBJECT
    | _ => DataType.UNKNOWN
    end.

Definition isNonNullType (typeRef : GraphQLTypeRef) : bool :=
  GraphQLTypeKind.eqb (tr_kind typeRef) GraphQLTypeKind.NON_NULL.

Section Converter.

(** [JSON.parse], which throws a [SyntaxError] on malformed text. *)
Variable JSON_parse : string -> Result JsValue.

(** [v ? JSON.parse(v) : undefined] *)
Definition parseDefaultValue (v : option string) : Result (option JsValue) :=
  match v with
  | Some s =>
      if truthy_string s then (j <- JSON_parse s ;; Ok (Some j)) else Ok None
  | None => Ok None
  end.

Definition convertInputValueToParameter (inputValue : GraphQLInputValue) : Result OperationParameter :=
  dv <- parseDefaultValue (iv_defaultValue inputValue) ;;
  Ok (mkParameter
        (iv_name inputValue)
        LocBody
        (mkSchemaField
           (iv_name inputValue)
           (convertGraphQLTypeToDataType (iv_type inputValue))
           (isNonNullType (iv_type inputValue))
           (iv_description inputValue)
           dv
           None None None None)
        (isNonNullType (iv_type inputValue))
        (iv_description inputValue)).

(** Body of the [for (const field of type.fields)] loop of
    [convertTypeToSchemaField]: the object literal stored under
    [properties[field.name]]. *)
Definition fieldToSchemaField (field : GraphQLField) : Result SchemaField :=
  args <- mapM convertInputValueToParameter (gf_args field) ;;
  Ok (mkSchemaField
        (gf_name field)
        (convertGraphQLTypeToDataType (gf_type field))
        (isNonNullType (gf_type field))
        (gf_description field)
        None None None None
        (Some (MetaGraphQLField (gf_isDeprecated field) (gf_deprecationReason field) args))).

(** Body of the [for (const inputField of type.inputFields)] loop. *)
Definition inputFieldToSchemaField (inputField : GraphQLInputValue) : Result SchemaField :=
  dv <- parseDefaultValue (iv_defaultValue inputField) ;;
  Ok (mkSchemaField
        (iv_name inputField)
        (convertGraphQLTypeToDataType (iv_type inputField))
        (isNonNullType (iv_type inputField))
        (iv_description inputField)
        dv
        None None None None).

Definition addField (properties : list (string * SchemaField)) (field : GraphQLField)
  : Result (list (string * SchemaField)) :=
  f <- fieldToSchemaField field ;;
  Ok (obj_set (gf_name field) f properties).

Definition addInputField (properties : list (string * SchemaField)) (inputField : GraphQLInputValue)
  : Result (list (string * SchemaField)) :=
  f <- inputFieldToSchemaField inputField ;;
  Ok (obj_set (iv_name inputField) f properties).

Definition convertTypeToSchemaField (type : GraphQLType) : Result SchemaField :=
  props1 <- match gt_fields type with
            | Some fields => foldM addField fields []
            | None => Ok []
            end ;;
  props2 <- match gt_inputFields type with
            | Some inputFields => foldM addInputField inputFields props1
            | None => Ok props1
            end ;;
  Ok (mkSchemaField
        (match gt_name type with Some n => n | None => "" end)
        DataType.OBJECT
        true
        (gt_description type)
        None
        None
        (Some props2)
        None
        (Some (MetaGraphQLType (gt_kind type)
                 (option_map (map tr_name) (gt_interfaces type))
                 (option_map (map tr_name) (gt_possibleTypes type))))).

(** Where a property of a converted type comes from: the wrapped type of
    a field or of an input field of the GraphQL type with that name. *)
Definition propertyOrigin (type : GraphQLType) (n : string) (g : SchemaField) : Prop :=
  (exists fields field,
      gt_fields type = Some fields /\ In field fields /\ gf_name field = n
      /\ fieldToSchemaField field = Ok g)
  \/ (exists inputFields inputField,
         gt_inputFields type = Some inputFields /\ In inputField inputFields
         /\ iv_name inputField = n
         /\ inputFieldToSchemaField inputField = Ok g).

End Converter.

(** The reading of the specification sentence "NON_NULL wrapping anywhere
    marks the field required": some wrapper of the chain is NON_NULL. *)
Fixpoint spec_nonNullAnywhere (typeRef : GraphQLTypeRef) : bool :=
  match typeRef with
  | mkTypeRef k _ o =>
      GraphQLTypeKind.eqb k GraphQLTypeKind.NON_NULL
      || match o with
         | Some inner => spec_nonNullAnywhere inner
         | None => false
         end
  end.

(** Wrapped types written as their constructors. *)
Definition NamedType (k : GraphQLTypeKind.t) (n : string) : GraphQLTypeRef :=
  mkTypeRef k (Some n) None.
Definition ListOf (t : GraphQLTypeRef) : GraphQLTypeRef :=
  mkTypeRef GraphQLTypeKind.LIST None (Some t).
Definition NonNull (t : GraphQLTypeRef) : GraphQLTypeRef :=
  mkTypeRef GraphQLTypeKind.NON_NULL None (Some t).

(** The wrapped type [NON_NULL(LIST(NON_NULL(String)))], i.e. [[String!]!]. *)
Definition nonNullListOfNonNullString : GraphQLTypeRef :=
  NonNull (ListOf (NonNull (NamedType GraphQLTypeKind.SCALAR "String"))).

(** A small object type for closed examples:
    [type Post { tags: [String!]  title: String! }]. *)
Definition examplePostType : GraphQLType :=
  mkType GraphQLTypeKind.OBJECT (Some "Post") None
    (Some [mkField "tags" None []
             (ListOf (NonNull (NamedType GraphQLTypeKind.SCALAR "String"))) false None;
           mkField "title" None []
             (NonNull (NamedType GraphQLTypeKind.SCALAR "String")) false None])
    None None None.

Definition examplePostField : SchemaField :=
  mkSchemaField "Post" DataType.OBJECT true None None None
    (Some [("tags",
            mkSchemaField "tags" DataType.ARRAY false None None None None None
              (Some (MetaGraphQLField false None [])));
           ("title",
            mkSchemaField "title" DataType.STRING true None None None None None
              (Some (MetaGraphQLField false None [])))])
    None
    (Some (MetaGraphQLType GraphQLTypeKind.OBJECT None None)).

End GraphQL.

(* ================================================================== *)
(** * REST converter ([OpenAPISchemaConverter])                        *)
(* ================================================================== *)

Module OpenAPI.

(** [OpenAPISchema], with the properties the converter reads.  The
    schema objects come from a parsed document that nothing has checked
    against the interface, so [type] is whatever value the document
    carries under that key ([None] when the key is absent): a string of
    the enumeration, another string such as ["null"], or a value that is
    no string at all.  The other properties have the types of the
    interface. *)
Inductive OpenAPISchema : Type :=
| mkOpenAPISchema
    (type : option JsValue)
    (format : option string)
    (description : option string)
    (default : option JsValue)
    (example : option JsValue)
    (enum : option (list JsValue))
    (minimum : option Z)
    (maximum : option Z)
    (minLength : option Z)
    (maxLength : option Z)
    (pattern : option string)
    (items : option OpenAPISchema)
    (properties : option (list (string * OpenAPISchema)))
    (required : option (list string))
    (ref : option string)
    (nullable : option bool)
    (readOnly : option bool)
    (writeOnly : option bool)
    (deprecated : option bool).

Definition s_type (s : OpenAPISchema) : option JsValue :=
  match s with mkOpenAPISchema x _ _ _ _ _ _ _ _ _ _ _ _ _ _ _ _ _ _ => x end.
Definition s_format (s : OpenAPISchema) : option string :=
  match s with mkOpenAPISchema _ x _ _ _ _ _ _ _ _ _ _ _ _ _ _ _ _ _ => x end.
Definition s_description (s : OpenAPISchema) : option string :=
  match s with mkOpenAPISchema _ _ x _ _ _ _ _ _ _ _ _ _ _ _ _ _ _ _ => x end.
Definition s_default (s : OpenAPISchema) : option JsValue :=
  match s with mkOpenAPISchema _ _ _ x _ _ _ _ _ _ _ _ _ _ _ _ _ _ _ => x end.
Definition s_example (s : OpenAPISchema) : option JsValue :=
  match s with mkOpenAPISchema _ _ _ _ x _ _ _ _ _ _ _ _ _ _ _ _ _ _ => x end.
Definition s_enum (s : OpenAPISchema) : option (list JsValue) :=
  match s with mkOpenAPISchema _ _ _ _ _ x _ _ _ _ _ _ _ _ _ _ _ _ _ => x end.
Definition s_minimum (s : OpenAPISchema) : option Z :=
  match s with mkOpenAPISchema _ _ _ _ _ _ x _ _ _ _ _ _ _ _ _ _ _ _ => x end.
Definition s_maximum (s : OpenAPISchema) : option Z :=
  match s with mkOpenAPISchema _ _ _ _ _ _ _ x _ _ _ _ _ _ _ _ _ _ _ => x end.
Definition s_minLength (s : OpenAPISchema) : option Z :=
  match s with mkOpenAPISchema _ _ _ _ _ _ _ _ x _ _ _ _ _ _ _ _ _ _ => x end.
Definition s_maxLength (s : OpenAPISchema) : option Z :=
  match s with mkOpenAPISchema _ _ _ _ _ _ _ _ _ x _ _ _ _ _ _ _ _ _ => x end.
Definition s_pattern (s : OpenAPISchema) : option string :=
  match s with mkOpenAPISchema _ _ _ _ _ _ _ _ _ _ x _ _ _ _ _ _ _ _ => x end.
Definition s_items (s : OpenAPISchema) : option OpenAPISchema :=
  match s with mkOpenAPISchema _ _ _ _ _ _ _ _ _ _ _ x _ _ _ _ _ _ _ => x end.
Definition s_properties (s : OpenAPISchema) : option (list (string * OpenAPISchema)) :=
  match s with mkOpenAPISchema _ _ _ _ _ _ _ _ _ _ _ _ x _ _ _ _ _ _ => x end.
Definition s_required (s : OpenAPISchema) : option (list string) :=
  match s with mkOpenAPISchema _ _ _ _ _ _ _ _ _ _ _ _ _ x _ _ _ _ _ => x end.
Definition s_ref (s : OpenAPISchema) : option string :=
  match s with mkOpenAPISchema _ _ _ _ _ _ _ _ _ _ _ _ _ _ x _ _ _ _ => x end.
Definition s_nullable (s : OpenAPISchema) : option bool :=
  match s with mkOpenAPISchema _ _ _ _ _ _ _ _ _ _ _ _ _ _ _ x _ _ _ => x end.
Definition s_readOnly (s : OpenAPISchema) : option bool :=
  match s with mkOpenAPISchema _ _ _ _ _ _ _ _ _ _ _ _ _ _ _ _ x _ _ => x end.
Definition s_writeOnly (s : OpenAPISchema) : option bool :=
  match s with mkOpenAPISchema _ _ _ _ _ _ _ _ _ _ _ _ _ _ _ _ _ x _ => x end.
Definition s_deprecated (s : OpenAPISchema) : option bool :=
  match s with mkOpenAPISchema _ _ _ _ _ _ _ _ _ _ _ _ _ _ _ _ _ _ x => x end.

(** The schema object with no property set, [{}]. *)
Definition emptySchema : OpenAPISchema :=
  mkOpenAPISchema None None None None None None None None None None None
    None None None None None None None None.

(** [{ type: t }] *)
Definition typeOnly (t : OpenAPIDataType.t) : OpenAPISchema :=
  mkOpenAPISchema (Some (JStr (OpenAPIDataType.value t))) None None None None None None None None None None
    None None None None None None None None.

(** [{ $ref: r }] *)
Definition refOnly (r : string) : OpenAPISchema :=
  mkOpenAPISchema None None None None None None None None None None None
    None None None (Some r) None None None None.

(** [mapOpenAPITypeToDataType]: the [switch] compares with [===], so a
    value that is not one of the seven strings takes the [default]
    branch. *)
Definition mapOpenAPITypeToDataType (type : option JsValue) : DataType.t :=
  match type with
  | Some (JStr s) =>
      if String.eqb s (OpenAPIDataType.value OpenAPIDataType.STRING) then DataType.STRING
      else if String.eqb s (OpenAPIDataType.value OpenAPIDataType.NUMBER) then DataType.NUMBER
      else if String.eqb s (OpenAPIDataType.value OpenAPIDataType.INTEGER) then DataType.INTEGER
      else if String.eqb s (OpenAPIDataType.value OpenAPIDataType.BOOLEAN) then DataType.BOOLEAN
      else if String.eqb s (OpenAPIDataType.value OpenAPIDataType.ARRAY) then DataType.ARRAY
      else if String.eqb s (OpenAPIDataType.value OpenAPIDataType.OBJECT) then DataType.OBJECT
      else if String.eqb s (OpenAPIDataType.value OpenAPIDataType.FILE) then DataType.STRING
      else DataType.UNKNOWN
  | _ => DataType.UNKNOWN
  end.

(** [resolvedSchema.type || OpenAPIDataType.OBJECT] *)
Definition typeOrObject (type : option JsValue) : option JsValue :=
  match type with
  | Some v => if truthy v then Some v else Some (JStr (OpenAPIDataType.value OpenAPIDataType.OBJECT))
  | None => Some (JStr (OpenAPIDataType.value OpenAPIDataType.OBJECT))
  end.

Definition extractSchemaConstraints (schema : OpenAPISchema) : option FieldConstraints :=
  let hasConstraints :=
    isSome (s_minimum schema) || isSome (s_maximum schema)
    || isSome (s_minLength schema) || isSome (s_maxLength schema)
    || truthy_opt_string (s_pattern schema)
    || isSome (s_enum schema)
    || truthy_opt_string (s_format schema) in
  if hasConstraints then
    Some (mkConstraints
            (orElse (s_minLength schema) (s_minimum schema))
            (orElse (s_maxLength schema) (s_maximum schema))
            (if truthy_opt_string (s_pattern schema) then s_pattern schema else None)
            (s_enum schema)
            (if truthy_opt_string (s_format schema) then s_format schema else None))
  else None.

(** [resolveSchemaReference]: the placeholder of the source, which ignores
    its argument and answers [{ type: 'object' }]. *)
Definition resolveSchemaReference (_ref : string) : OpenAPISchema :=
  typeOnly OpenAPIDataType.OBJECT.

(** [resolvedSchema.required?.includes(propName) || false] *)
Definition requiredIncludes (required : option (list string)) (propName : string) : bool :=
  match required with
  | Some names => existsb (String.eqb propName) names
  | None => false
  end.

(** [resolvedSchema.type === t] *)
Definition typeIs (schema : OpenAPISchema) (t : OpenAPIDataType.t) : bool :=
  match s_type schema with
  | Some (JStr s) => String.eqb s (OpenAPIDataType.value t)
  | _ => false
  end.

(** The part of [convertOpenAPISchemaToSchemaField] after the reference has
    been resolved, given the conversions of the children of the resolved
    schema ([None] when it has no [items], no [properties]). *)
Definition fieldOfResolved (resolvedSchema : OpenAPISchema) (name : string)
    (convertedItems : option SchemaField)
    (convertedProperties : option (list (string * SchemaField))) : SchemaField :=
  mkSchemaField
    name
    (mapOpenAPITypeToDataType (typeOrObject (s_type resolvedSchema)))
    false
    (if truthy_opt_string (s_description resolvedSchema)
     then s_description resolvedSchema else None)
    (s_default resolvedSchema)
    (if typeIs resolvedSchema OpenAPIDataType.ARRAY then convertedItems else None)
    (if typeIs resolvedSchema OpenAPIDataType.OBJECT then convertedProperties else None)
    (extractSchemaConstraints resolvedSchema)
    (Some (MetaOpenAPI
             (mkOpenAPIMeta
                (s_format resolvedSchema)
                (s_example resolvedSchema)
                (s_enum resolvedSchema)
                (s_nullable resolvedSchema)
                (s_readOnly resolvedSchema)
                (s_writeOnly resolvedSchema)
                (s_deprecated resolvedSchema)))).

(** [schema.$ref ? this.resolveSchemaReference(schema.$ref) : schema] *)
Definition resolve (schema : OpenAPISchema) : OpenAPISchema :=
  match s_ref schema with
  | Some r => if truthy_string r then resolveSchemaReference r else schema
  | None => schema
  end.

(** [convertOpenAPISchemaToSchemaField].  The recursion follows [items]
    and [properties] of the resolved schema.  A resolved reference is the
    placeholder, which has neither, so the reference case needs no
    recursive call; [convertOpenAPISchemaToSchemaField_unfold] below
    restates the definition in the shape of the source. *)
Fixpoint convertOpenAPISchemaToSchemaField (schema : OpenAPISchema) (name : string)
  {struct schema} : SchemaField :=
  match schema with
  | mkOpenAPISchema _ _ _ _ _ _ _ _ _ _ _ items properties required ref _ _ _ _ =>
      if truthy_opt_string ref then
        fieldOfResolved (resolve schema) name None None
      else
        fieldOfResolved schema name
          (match items with
           | Some i => Some (convertOpenAPISchemaToSchemaField i "item")
           | None => None
           end)
          (match properties with
           | Some props =>
               Some ((fix each (ps : list (string * OpenAPISchema))
                        (acc : list (string * SchemaField)) {struct ps}
                      : list (string * SchemaField) :=
                        match ps with
                        | [] => acc
                        | (propName, propSchema) :: rest =>
                            each rest
                              (plain_set propName
                                 (sf_set_required (requiredIncludes required propName)
                                    (convertOpenAPISchemaToSchemaField propSchema propName))
                                 acc)
                        end) props [])
           | None => None
           end)
  end.

(** The [for (const [propName, propSchema] of Object.entries(...))] loop,
    named for the unfolding lemma.  [field.properties] is an object
    literal: the assignment under the name [__proto__] gives it no own
    property (the converted field becomes its prototype, and the
    [required] flag is then set on that prototype). *)
Fixpoint convertProperties (required : option (list string))
    (ps : list (string * OpenAPISchema)) (acc : list (string * SchemaField))
  : list (string * SchemaField) :=
  match ps with
  | [] => acc
  | (propName, propSchema) :: rest =>
      convertProperties required rest
        (plain_set propName
           (sf_set_required (requiredIncludes required propName)
              (convertOpenAPISchemaToSchemaField propSchema propName))
           acc)
  end.

(** The specification's reading of a reference stub: the referenced name
    can be read back from the converted field. *)
Definition spec_carriesReferencedName : Prop :=
  exists referencedName : SchemaField -> string,
    forall (r name : string),
      truthy_string r = true ->
      referencedName (convertOpenAPISchemaToSchemaField (refOnly r) name) = r.

(** The field every reference converts to. *)
Definition placeholderField (name : string) : SchemaField :=
  mkSchemaField name DataType.OBJECT false None None None None None
    (Some (MetaOpenAPI (mkOpenAPIMeta None None None None None None None))).

End OpenAPI.

(* ================================================================== *)
(** * Operations and schemas ([src/types/core/schema.ts], continued)   *)
(* ================================================================== *)

Module Schema.

Inductive Direction : Type := Incoming | Outgoing | Bidirectional.

(** One entry of [metadata.websocket.examples] of an event operation. *)
Record ExampleSummary : Type := mkExampleSummary {
  ex_data : JsValue;
  ex_timestamp : Z;
  ex_size : Z
}.

(** The [metadata] bag of an operation. *)
Inductive OperationMetadata : Type :=
| MetaWebSocketEvent (direction : Direction) (frequency : nat)
    (examples : list ExampleSummary)
| MetaWebSocketConnect (protocol : string)
    (subprotocols : option (list string))
    (headers : option (list (string * string)))
| MetaGraphQLOperation (deprecationReason : option string) (returnType : string).

Record Operation : Type := mkOperation {
  op_id : string;
  op_name : string;
  op_type : OperationType;
  op_description : option string;
  op_method : option string;
  op_path : option string;
  op_parameters : list OperationParameter;
  op_responses : list Response;
  op_tags : option (list string);
  op_deprecated : option bool;
  op_metadata : option OperationMetadata
}.

Inductive AuthenticationType : Type :=
| AuthNone | AuthApiKey | AuthBearer | AuthBasic | AuthOAuth2 | AuthCustom.

Record AuthenticationInfo : Type := mkAuthenticationInfo {
  auth_type : AuthenticationType;
  auth_description : option string;
  auth_scopes : option (list string)
}.

Record UniversalSchema : Type := mkUniversalSchema {
  id : string;
  name : string;
  version : string;
  protocol : APIProtocol.t;
  baseUrl : option string;
  description : option string;
  operations : list Operation;
  types : list (string * SchemaField);
  authentication : option AuthenticationInfo;
  (** [metadata.extensions], as the JSON value the converter builds *)
  metadata : option JsValue;
  (** [discoveredAt.getTime()], milliseconds since the epoch *)
  discoveredAt : Z;
  source : option string
}.

(** The string value of the [APIProtocol] enumeration. *)
Definition protocolString (p : APIProtocol.t) : string :=
  match p with
  | APIProtocol.REST => "rest"
  | APIProtocol.GRAPHQL => "graphql"
  | APIProtocol.WEBSOCKET => "websocket"
  end.

End Schema.
Import Schema.

(* ================================================================== *)
(** * JavaScript arrays and strings                                    *)
(* ================================================================== *)

Module JsArray.

(** [Array.prototype.sort(compare)].  The sort is stable, so for a
    comparator that is a consistent ordering its result is determined;
    it is computed here by stable insertion. *)
Section Sort.
Variable A : Type.
Variable compare : A -> A -> Z.

Fixpoint insertSorted (x : A) (sorted : list A) : list A :=
  match sorted with
  | [] => [x]
  | y :: rest =>
      if (compare y x <=? 0)%Z then y :: insertSorted x rest else x :: y :: rest
  end.

Definition sort (l : list A) : list A :=
  fold_left (fun acc x => insertSorted x acc) l [].

End Sort.

Arguments insertSorted {A} compare x sorted.
Arguments sort {A} compare l.

(** Relative index of [slice]: a negative index counts from the end, and
    the result is clamped to [0 .. len]. *)
Definition clampIndex (len : nat) (i : Z) : nat :=
  if (i <? 0)%Z then Z.to_nat (Z.max (Z.of_nat len + i) 0)
  else Nat.min (Z.to_nat i) len.

(** [arr.slice(start)] and [arr.slice(start, end)] *)
Definition slice {A : Type} (l : list A) (start : Z) (end_ : option Z) : list A :=
  let len := length l in
  let k := clampIndex len start in
  let final := match end_ with
               | Some e => clampIndex len e
               | None => len
               end in
  firstn (final - k) (skipn k l).

(** Truthiness of a number held as an integer: zero is falsy. *)
Definition truthy_number (n : Z) : bool := negb (n =? 0)%Z.

Definition truthy_opt_number (n : option Z) : bool :=
  match n with
  | Some n' => truthy_number n'
  | None => false
  end.

End JsArray.
Import JsArray.

Module JsString.

(** [s.startsWith(p)] *)
Fixpoint startsWith (s p : string) : bool :=
  match p, s with
  | EmptyString, _ => true
  | String c p', String d s' => Ascii.eqb c d && startsWith s' p'
  | String _ _, EmptyString => false
  end.

(** [s.includes(sub)] *)
Fixpoint includes (s sub : string) : bool :=
  startsWith s sub
  || match s with
     | EmptyString => false
     | String _ s' => includes s' sub
     end.

(** [s.endsWith(suffix)] *)
Fixpoint endsWith (s suffix : string) : bool :=
  String.eqb s suffix
  || match s with
     | EmptyString => false
     | String _ s' => endsWith s' suffix
     end.

(** [parts.join(sep)] *)
Fixpoint join (sep : string) (parts : list string) : string :=
  match parts with
  | [] => ""
  | [p] => p
  | p :: rest => p ++ sep ++ join sep rest
  end.

(** [toLowerCase] restricted to ASCII letters, for closed examples; the
    definitions below take the real [toLowerCase] as a parameter. *)
Definition asciiLower (c : ascii) : ascii :=
  let n := nat_of_ascii c in
  if (65 <=? n)%nat && (n <=? 90)%nat then ascii_of_nat (n + 32) else c.

Fixpoint asciiToLowerCase (s : string) : string :=
  match s with
  | EmptyString => EmptyString
  | String c s' => String (asciiLower c) (asciiToLowerCase s')
  end.

(** [String(v)], the conversion that a template literal applies, for a
    JSON-shaped value; [numberToString] is [Number.prototype.toString].
    An array joins the texts of its elements with commas, [null] counting
    as the empty text.  An object without an own [toString] is
    ["[object Object]"]; with one (a parsed document cannot hold a
    function) neither [toString] nor [valueOf] yields a primitive and the
    conversion throws. *)
Fixpoint toText (numberToString : Q -> string) (v : JsValue) {struct v} : Result string :=
  match v with
  | JNull => Ok "null"
  | JBool b => Ok (if b then "true" else "false")
  | JNum q => Ok (numberToString q)
  | JStr s => Ok s
  | JArr elems =>
      texts <- (fix each (es : list JsValue) {struct es} : Result (list string) :=
                  match es with
                  | [] => Ok []
                  | e :: rest =>
                      text <- match e with
                              | JNull => Ok ""
                              | _ => toText numberToString e
                              end ;;
                      texts <- each rest ;;
                      Ok (text :: texts)
                  end) elems ;;
      Ok (join "," texts)
  | JObj props =>
      if isSome (obj_get "toString" props)
      then Throw (mkJsError TypeError "Cannot convert object to primitive value")
      else Ok "[object Object]"
  end.

End JsString.
Import JsString.

(* ================================================================== *)
(** * Storage backends ([MemoryStorage], [FileStorage])                *)
(* ================================================================== *)

Module Storage.

(** [SchemaQuery].  Dates are their [getTime()]; [limit] and [offset] are
    the integers that [slice] truncates them to. *)
Record SchemaQuery : Type := mkSchemaQuery {
  q_id : option string;
  q_name : option string;
  q_protocol : option string;
  q_source : option string;
  q_discoveredAfter : option Z;
  q_discoveredBefore : option Z;
  q_search : option string;
  q_limit : option Z;
  q_offset : option Z
}.

Record SchemaQueryResult : Type := mkSchemaQueryResult {
  schemas : list UniversalSchema;
  totalCount : nat;
  hasMore : bool
}.

(** The query with no filter and no pagination, [{}]. *)
Definition emptyQuery : SchemaQuery :=
  mkSchemaQuery None None None None None None None None None.

(** [if (cond) results = results.filter(p)] *)
Definition filterIf {A : Type} (cond : bool) (p : A -> bool) (results : list A) : list A :=
  if cond then filter p results else results.

(** [query.offset || 0] *)
Definition offsetOrZero (offset : option Z) : Z :=
  match offset with
  | Some o => o
  | None => 0%Z
  end.

(** [query.limit ? totalCount > (query.offset || 0) + query.limit : false] *)
Definition computeHasMore (totalCount : nat) (q : SchemaQuery) : bool :=
  match q_limit q with
  | Some l =>
      if truthy_number l
      then (offsetOrZero (q_offset q) + l <? Z.of_nat totalCount)%Z
      else false
  | None => false
  end.

(** The two pagination steps of both [query] methods. *)
Definition paginate {A : Type} (q : SchemaQuery) (results : list A) : list A :=
  let afterOffset :=
    match q_offset q with
    | Some o => if truthy_number o then slice results o None else results
    | None => results
    end in
  match q_limit q with
  | Some l => if truthy_number l then slice afterOffset 0%Z (Some l) else afterOffset
  | None => afterOffset
  end.

Section WithToLowerCase.

(** [String.prototype.toLowerCase] *)
Variable toLowerCase : string -> string.

(* ---------------------------------------------------------------- *)
(** ** [MemoryStorage]                                               *)
(* ---------------------------------------------------------------- *)

(** [options] as passed to [initialize]: for each key, [None] when the
    key is absent and [Some v] when it is present with value [v]
    ([Some None] being an explicit [undefined]). *)
Record MemoryStorageOptions : Type := mkMemoryStorageOptions {
  opt_maxSchemas : option (option Z);
  opt_autoCleanup : option (option bool);
  opt_maxAge : option (option Z)
}.

Record MemoryStorageConfig : Type := mkMemoryStorageConfig {
  maxSchemas : option Z;
  autoCleanup : option bool;
  maxAge : option Z
}.

(** [this.schemas] is a [Map], kept as its entries in insertion order. *)
Record MemoryStorage : Type := mkMemoryStorage {
  m_schemas : list (string * UniversalSchema);
  m_config : MemoryStorageConfig;
  m_initialized : bool
}.

(** A freshly constructed [MemoryStorage]. *)
Definition newMemoryStorage : MemoryStorage :=
  mkMemoryStorage [] (mkMemoryStorageConfig None None None) false.

(** [{ default, ...options }] for one key *)
Definition spread {A : Type} (default : A) (o : option (option A)) : option A :=
  match o with
  | Some v => v
  | None => Some default
  end.

Definition initialize (options : MemoryStorageOptions) (st : MemoryStorage) : MemoryStorage :=
  mkMemoryStorage
    (m_schemas st)
    (mkMemoryStorageConfig
       (spread 1000%Z (opt_maxSchemas options))
       (spread true (opt_autoCleanup options))
       (spread (24 * 60 * 60 * 1000)%Z (opt_maxAge options)))
    true.

Definition ensureInitialized (what : string) (initialized : bool) : Result unit :=
  if initialized then Ok tt
  else Throw (mkJsError PlainError (what ++ " storage not initialized. Call initialize() first.")).

(** [map.delete(key)] *)
Definition mapDelete {A : Type} (key : string) (m : list (string * A)) : list (string * A) :=
  filter (fun kv => negb (String.eqb (fst kv) key)) m.

(** [Math.max(1, Math.floor(n * 0.1))]: for the sizes a store can reach the
    floating-point product floors to the integer quotient by ten. *)
Definition tenPercent (n : nat) : nat := Nat.max 1 (n / 10).

(** The loop [for (i = 0; i < toRemove; i++) this.schemas.delete(sorted[i][0])].
    Reading [sorted[i][0]] past the end of the array is a [TypeError]. *)
Fixpoint deleteOldest (toRemove : nat) (sorted : list (string * UniversalSchema))
    (m : list (string * UniversalSchema)) : Result (list (string * UniversalSchema)) :=
  match toRemove with
  | O => Ok m
  | S k =>
      match sorted with
      | [] => Throw (mkJsError TypeError "Cannot read properties of undefined (reading '0')")
      | (key, _) :: rest => deleteOldest k rest (mapDelete key m)
      end
  end.

Definition cleanup (now : Z) (st : MemoryStorage) : Result MemoryStorage :=
  if negb (truthy_opt_number (maxAge (m_config st))) then
    let sorted :=
      sort (fun a b => (discoveredAt (snd a) - discoveredAt (snd b))%Z) (m_schemas st) in
    let toRemove := tenPercent (length sorted) in
    m <- deleteOldest toRemove sorted (m_schemas st) ;;
    Ok (mkMemoryStorage m (m_config st) (m_initialized st))
  else
    let cutoffTime := (now - match maxAge (m_config st) with Some a => a | None => 0 end)%Z in
    let toDelete :=
      map fst (filter (fun kv => (discoveredAt (snd kv) <? cutoffTime)%Z) (m_schemas st)) in
    Ok (mkMemoryStorage
          (fold_left (fun m key => mapDelete key m) toDelete (m_schemas st))
          (m_config st) (m_initialized st)).

(** [this.config.maxSchemas && this.schemas.size >= this.config.maxSchemas] *)
Definition needsRoom (st : MemoryStorage) : bool :=
  match maxSchemas (m_config st) with
  | Some ceiling =>
      truthy_number ceiling && (ceiling <=? Z.of_nat (length (m_schemas st)))%Z
  | None => false
  end.

(** [store]: returns the new state and the id.  [now] is the reading of
    [Date.now()] that [cleanup] takes. *)
Definition store (now : Z) (schema : UniversalSchema) (st : MemoryStorage)
  : Result (MemoryStorage * string) :=
  _ <- ensureInitialized "Memory" (m_initialized st) ;;
  st1 <- (if needsRoom st then cleanup now st else Ok st) ;;
  Ok (mkMemoryStorage (obj_set (id schema) schema (m_schemas st1))
        (m_config st1) (m_initialized st1),
      id schema).

(** [schema.name.toLowerCase().includes(term.toLowerCase())] *)
Definition includesIgnoreCase (text term : string) : bool :=
  includes (toLowerCase text) (toLowerCase term).

(** [schema.source?.toLowerCase().includes(...)], [undefined] being falsy *)
Definition optIncludesIgnoreCase (text : option string) (term : string) : bool :=
  match text with
  | Some t => includesIgnoreCase t term
  | None => false
  end.

(** The predicate of the [search] filter.  [searchTerm] is already lower
    case; an empty description is falsy. *)
Definition searchMatches (searchTerm : string) (s : UniversalSchema) : bool :=
  includes (toLowerCase (name s)) searchTerm
  || match description s with
     | Some d => truthy_string d && includes (toLowerCase d) searchTerm
     | None => false
     end.

Definition optOr {A : Type} (o : option A) (d : A) : A :=
  match o with
  | Some a => a
  | None => d
  end.

(** The chain of [if (query.x) results = results.filter(...)] statements
    of [MemoryStorage.query]. *)
Definition applyFilters (q : SchemaQuery) (results : list UniversalSchema)
  : list UniversalSchema :=
  let r1 := filterIf (truthy_opt_string (q_id q))
              (fun s => String.eqb (id s) (optOr (q_id q) "")) results in
  let r2 := filterIf (truthy_opt_string (q_name q))
              (fun s => includesIgnoreCase (name s) (optOr (q_name q) "")) r1 in
  let r3 := filterIf (truthy_opt_string (q_protocol q))
              (fun s => String.eqb (protocolString (protocol s)) (optOr (q_protocol q) "")) r2 in
  let r4 := filterIf (truthy_opt_string (q_source q))
              (fun s => optIncludesIgnoreCase (source s) (optOr (q_source q) "")) r3 in
  let r5 := filterIf (isSome (q_discoveredAfter q))
              (fun s => (optOr (q_discoveredAfter q) 0 <=? discoveredAt s)%Z) r4 in
  let r6 := filterIf (isSome (q_discoveredBefore q))
              (fun s => (discoveredAt s <=? optOr (q_discoveredBefore q) 0)%Z) r5 in
  filterIf (truthy_opt_string (q_search q))
    (searchMatches (toLowerCase (optOr (q_search q) ""))) r6.

Definition query (q : SchemaQuery) (st : MemoryStorage) : Result SchemaQueryResult :=
  _ <- ensureInitialized "Memory" (m_initialized st) ;;
  let results := applyFilters q (map snd (m_schemas st)) in
  let sorted := sort (fun a b => (discoveredAt b - discoveredAt a)%Z) results in
  let totalCount := length sorted in
  Ok (mkSchemaQueryResult (paginate q sorted) totalCount (computeHasMore totalCount q)).

(** The specification's "schemas matching the filters": each filter that
    the query sets holds of the schema. *)
Definition spec_matches (q : SchemaQuery) (s : UniversalSchema) : bool :=
  (if truthy_opt_string (q_id q) then String.eqb (id s) (optOr (q_id q) "") else true)
  && (if truthy_opt_string (q_name q)
      then includesIgnoreCase (name s) (optOr (q_name q) "") else true)
  && (if truthy_opt_string (q_protocol q)
      then String.eqb (protocolString (protocol s)) (optOr (q_protocol q) "") else true)
  && (if truthy_opt_string (q_source q)
      then optIncludesIgnoreCase (source s) (optOr (q_source q) "") else true)
  && (match q_discoveredAfter q with
      | Some d => (d <=? discoveredAt s)%Z
      | None => true
      end)
  && (match q_discoveredBefore q with
      | Some d => (discoveredAt s <=? d)%Z
      | None => true
      end)
  && (if truthy_opt_string (q_search q)
      then searchMatches (toLowerCase (optOr (q_search q) "")) s else true).

(* ---------------------------------------------------------------- *)
(** ** [FileStorage]                                                 *)
(* ---------------------------------------------------------------- *)

(** [new Date(isoString).getTime()] for the [discoveredAt] strings of the
    index, which [store] writes with [toISOString]. *)
Variable parseDate : string -> Z.

(** One value of the index document [index.json]. *)
Record IndexEntry : Type := mkIndexEntry {
  ie_id : string;
  ie_name : string;
  ie_protocol : string;
  ie_source : option string;
  ie_discoveredAt : string;
  ie_filePath : string
}.

(** What reading the schema file of an id gives: no file, a file that
    cannot be read or parsed (with the message of the error), or the
    stored schema with [discoveredAt] rehydrated. *)
Inductive SchemaFile : Type :=
| Missing
| Unreadable (message : string)
| Stored (schema : UniversalSchema).

(** The directory as [query] sees it: the result of [loadIndex] (its
    values in [Object.values] order, [{}] when the index cannot be read)
    and the schema file of every id. *)
Record FileStorage : Type := mkFileStorage {
  f_index : list (string * IndexEntry);
  f_files : string -> SchemaFile;
  f_initialized : bool
}.

Definition retrieve (id : string) (st : FileStorage) : Result (option UniversalSchema) :=
  _ <- ensureInitialized "File" (f_initialized st) ;;
  match f_files st id with
  | Missing => Ok None
  | Stored schema => Ok (Some schema)
  | Unreadable message =>
      Throw (mkJsError StorageError
               ("Failed to retrieve schema " ++ id ++ ": " ++ message))
  end.

(** The filters of [FileStorage.query] that are answered from the index. *)
Definition applyIndexFilters (q : SchemaQuery) (results : list IndexEntry) : list IndexEntry :=
  let r1 := filterIf (truthy_opt_string (q_id q))
              (fun item => String.eqb (ie_id item) (optOr (q_id q) "")) results in
  let r2 := filterIf (truthy_opt_string (q_name q))
              (fun item => includesIgnoreCase (ie_name item) (optOr (q_name q) "")) r1 in
  let r3 := filterIf (truthy_opt_string (q_protocol q))
              (fun item => String.eqb (ie_protocol item) (optOr (q_protocol q) "")) r2 in
  let r4 := filterIf (truthy_opt_string (q_source q))
              (fun item => optIncludesIgnoreCase (ie_source item) (optOr (q_source q) "")) r3 in
  let r5 := filterIf (isSome (q_discoveredAfter q))
              (fun item => (optOr (q_discoveredAfter q) 0 <=? parseDate (ie_discoveredAt item))%Z) r4 in
  filterIf (isSome (q_discoveredBefore q))
    (fun item => (parseDate (ie_discoveredAt item) <=? optOr (q_discoveredBefore q) 0)%Z) r5.

(** Body of the search loop: [filteredResults.push(item)] when the loaded
    schema matches. *)
Definition searchStep (st : FileStorage) (searchTerm : string)
    (filteredResults : list IndexEntry) (item : IndexEntry) : Result (list IndexEntry) :=
  loaded <- retrieve (ie_id item) st ;;
  match loaded with
  | Some schema =>
      if searchMatches searchTerm schema
      then Ok (filteredResults ++ [item])%list else Ok filteredResults
  | None => Ok filteredResults
  end.

(** Body of the loading loop: [schemas.push(schema)] when the file is
    there. *)
Definition loadStep (st : FileStorage) (schemas : list UniversalSchema) (item : IndexEntry)
  : Result (list UniversalSchema) :=
  loaded <- retrieve (ie_id item) st ;;
  match loaded with
  | Some schema => Ok (schemas ++ [schema])%list
  | None => Ok schemas
  end.

(** The body of the [try] block of [FileStorage.query]. *)
Definition queryBody (q : SchemaQuery) (st : FileStorage) : Result SchemaQueryResult :=
  let results := applyIndexFilters q (map snd (f_index st)) in
  searched <- (if truthy_opt_string (q_search q)
               then foldM (searchStep st (toLowerCase (optOr (q_search q) ""))) results []
               else Ok results) ;;
  let sorted :=
    sort (fun a b => (parseDate (ie_discoveredAt b) - parseDate (ie_discoveredAt a))%Z)
      searched in
  let totalCount := length sorted in
  loadedSchemas <- foldM (loadStep st) (paginate q sorted) [] ;;
  Ok (mkSchemaQueryResult loadedSchemas totalCount (computeHasMore totalCount q)).

Definition fileQuery (q : SchemaQuery) (st : FileStorage) : Result SchemaQueryResult :=
  _ <- ensureInitialized "File" (f_initialized st) ;;
  match queryBody q st with
  | Ok r => Ok r
  | Throw e =>
      Throw (mkJsError StorageError ("Failed to query schemas: " ++ e_message e))
  end.

(** The specification's "schemas matching the filters" for the file
    backend: the index entry passes the indexed filters and, when a search
    term is set, its schema file is there and matches the term. *)
Definition spec_matchesEntry (q : SchemaQuery) (st : FileStorage) (item : IndexEntry) : bool :=
  (if truthy_opt_string (q_id q) then String.eqb (ie_id item) (optOr (q_id q) "") else true)
  && (if truthy_opt_string (q_name q)
      then includesIgnoreCase (ie_name item) (optOr (q_name q) "") else true)
  && (if truthy_opt_string (q_protocol q)
      then String.eqb (ie_protocol item) (optOr (q_protocol q) "") else true)
  && (if truthy_opt_string (q_source q)
      then optIncludesIgnoreCase (ie_source item) (optOr (q_source q) "") else true)
  && (match q_discoveredAfter q with
      | Some d => (d <=? parseDate (ie_discoveredAt item))%Z
      | None => true
      end)
  && (match q_discoveredBefore q with
      | Some d => (parseDate (ie_discoveredAt item) <=? d)%Z
      | None => true
      end)
  && (if truthy_opt_string (q_search q)
      then match f_files st (ie_id item) with
           | Stored schema => searchMatches (toLowerCase (optOr (q_search q) "")) schema
           | _ => false
           end
      else true).

(** What the loading loop of [FileStorage.query] collects for a list of
    index entries: the schemas of the entries whose schema file is
    there, in order. *)
Definition storedSchemas (st : FileStorage) (items : list IndexEntry) : list UniversalSchema :=
  flat_map
    (fun item =>
       match f_files st (ie_id item) with
       | Stored schema => [schema]
       | _ => []
       end)
    items.

End WithToLowerCase.

(** Closed examples. *)
Definition exampleSchema (id_ : string) (discovered : Z) : UniversalSchema :=
  mkUniversalSchema id_ "Pet Store" "1.0.0" APIProtocol.REST None None [] [] None None
    discovered (Some "https://example.org/openapi.json").

Definition exampleEntry (id_ : string) (iso : string) : IndexEntry :=
  mkIndexEntry id_ "Pet Store" "rest" (Some "https://example.org/openapi.json") iso
    (id_ ++ ".json").

(** A [parseDate] for the two timestamps of the examples. *)
Definition exampleParseDate (iso : string) : Z :=
  if String.eqb iso "1970-01-01T00:00:01.000Z" then 1000%Z
  else if String.eqb iso "1970-01-01T00:00:02.000Z" then 2000%Z
  else 0%Z.

(** A memory store holding two schemas, built with [initialize] and
    [store]. *)
Definition exampleMemory : MemoryStorage :=
  mkMemoryStorage
    [("a", exampleSchema "a" 1000); ("b", exampleSchema "b" 2000)]
    (mkMemoryStorageConfig (Some 1000%Z) (Some true) (Some 86400000%Z))
    true.

(** A schema directory holding the same two schemas. *)
Definition exampleDirectory : FileStorage :=
  mkFileStorage
    [("a", exampleEntry "a" "1970-01-01T00:00:01.000Z");
     ("b", exampleEntry "b" "1970-01-01T00:00:02.000Z")]
    (fun id_ =>
       if String.eqb id_ "a" then Stored (exampleSchema "a" 1000)
       else if String.eqb id_ "b" then Stored (exampleSchema "b" 2000)
       else Missing)
    true.

(** [{ limit: l }] *)
Definition limitQuery (l : Z) : SchemaQuery :=
  mkSchemaQuery None None None None None None None (Some l) None.

(** [{ limit: l, offset: o }] *)
Definition limitOffsetQuery (l o : Z) : SchemaQuery :=
  mkSchemaQuery None None None None None None None (Some l) (Some o).

End Storage.

(* ================================================================== *)
(** * The HTTP collaborator and the connector monad                    *)
(* ================================================================== *)

Module Http.

(** What a rejected axios promise carries. *)
Inductive Failure : Type :=
| HttpError (status : nat) (statusText : string) (message : string)
    (** an axios error with a response: the server answered with an error status *)
| NetworkError (message : string)
    (** an axios error without a response: refused, timed out, DNS *)
| OtherError (e : JsError)
    (** anything that is not an axios error *).

Definition isAxiosError (f : Failure) : bool :=
  match f with
  | HttpError _ _ _ | NetworkError _ => true
  | OtherError _ => false
  end.

(** [error.message] *)
Definition failureMessage (f : Failure) : string :=
  match f with
  | HttpError _ _ m | NetworkError m => m
  | OtherError e => e_message e
  end.

(** The thrown value itself. *)
Definition failureError (f : Failure) : JsError :=
  match f with
  | HttpError _ _ m | NetworkError m => mkJsError AxiosError m
  | OtherError e => e
  end.

(** [`HTTP ${error.response?.status}: ${error.response?.statusText || error.message}`] *)
Definition httpErrorText (f : Failure) : string :=
  match f with
  | HttpError status statusText message =>
      "HTTP " ++ natToString status ++ ": "
      ++ (if truthy_string statusText then statusText else message)
  | NetworkError message => "HTTP undefined: " ++ message
  | OtherError e => "HTTP undefined: " ++ e_message e
  end.

(** Computations that talk to the network.  The state is the number of
    requests made so far, so that the endpoint may answer the same request
    differently at different times. *)
Definition M (A : Type) : Type := nat -> Result A * nat.

Definition ret {A : Type} (a : A) : M A := fun t => (Ok a, t).

Definition throw {A : Type} (e : JsError) : M A := fun t => (Throw e, t).

Definition bindM {A B : Type} (m : M A) (k : A -> M B) : M B :=
  fun t =>
    match m t with
    | (Ok a, t') => k a t'
    | (Throw e, t') => (Throw e, t')
    end.

(** [try { m } catch (error) { handler(error) }] *)
Definition tryCatch {A : Type} (m : M A) (handler : JsError -> M A) : M A :=
  fun t =>
    match m t with
    | (Ok a, t') => (Ok a, t')
    | (Throw e, t') => handler e t'
    end.

(** A pure computation that may throw. *)
Definition lift {A : Type} (r : Result A) : M A := fun t => (r, t).

End Http.
Import Http.

Notation "x <~ c1 ;; c2" := (Http.bindM c1 (fun x => c2))
  (at level 61, c1 at next level, right associativity).

(* ================================================================== *)
(** * REST connector ([RESTConnector])                                 *)
(* ================================================================== *)

Module Rest.

(** [OpenAPISpecification], as the connector meets it: the four
    properties that the connector reads, of a document that was parsed
    and cast to the interface without any check.  Each is the value the
    document carries under that key, whatever its type, and [None] when
    the key is absent. *)
Record OpenAPISpecification : Type := mkOpenAPISpecification {
  openapi : option JsValue;
  swagger : option JsValue;
  info : option JsValue;
  paths : option JsValue
}.

(** [v.name] for a truthy [v] and a name that no prototype defines and
    that is no array index ([title], [version]): only an object has
    it. *)
Definition propertyOf (v : JsValue) (name : string) : option JsValue :=
  match v with
  | JObj props => obj_get name props
  | _ => None
  end.

(** [Object.keys(v).length === 0] for a truthy [v]: a string has its
    indices as keys, a number or a boolean has none. *)
Definition hasNoKeys (v : JsValue) : bool :=
  match v with
  | JObj props => Nat.eqb (length props) 0
  | JArr elems => Nat.eqb (length elems) 0
  | JStr s => negb (truthy_string s)
  | _ => true
  end.

(** A value that [parseSpecification] hands on "as OpenAPISpecification":
    an object, seen through the properties above; [null]; or a primitive,
    every property of which reads as [undefined]. *)
Inductive Parsed : Type :=
| ParsedObject (spec : OpenAPISpecification)
| ParsedNull
| ParsedPrimitive.

(** [response.data] *)
Inductive ResponseData : Type :=
| DataObject (spec : OpenAPISpecification)
| DataString (s : string)
| DataNumber (n : Z)
| DataBoolean (b : bool)
| DataNull
| DataUndefined.

Definition truthy_data (d : ResponseData) : bool :=
  match d with
  | DataObject _ => true
  | DataString s => truthy_string s
  | DataNumber n => truthy_number n
  | DataBoolean b => b
  | DataNull | DataUndefined => false
  end.

Inductive HeadOutcome : Type :=
| HeadResponse (contentType : option string)
| HeadRejected.

Inductive GetOutcome : Type :=
| GetResponse (data : ResponseData)
| GetRejected (failure : Http.Failure).

(** The collaborators of the connector: the endpoint behind axios (the
    answer may depend on how many requests were made before), the two
    parsers, and the converter. *)
Record World : Type := mkWorld {
  axios_head : nat -> string -> HeadOutcome;
  axios_get : nat -> string -> GetOutcome;
  JSON_parse : string -> Result Parsed;
  yaml_parse : string -> Result Parsed;
  convertSchema : OpenAPISpecification -> string -> Result UniversalSchema;
  numberToString : Q -> string
}.

(** The fields of [RESTConnectorConfig] that the connector itself reads;
    headers, timeout, user agent and redirects only travel to axios. *)
Record RESTConnectorConfig : Type := mkRESTConnectorConfig {
  url : string;
  specUrl : option string;
  tryCommonPaths : option bool;
  customPaths : option (list string)
}.

Definition COMMON_OPENAPI_PATHS : list string :=
  [ "/openapi.json";
    "/openapi.yaml";
    "/swagger.json";
    "/swagger.yaml";
    "/api-docs";
    "/api/docs";
    "/docs/openapi.json";
    "/docs/swagger.json";
    "/v1/openapi.json";
    "/v1/swagger.json";
    "/api/v1/openapi.json";
    "/api/v1/swagger.json" ].

(** The [metadata] of the results of [testConnection] and [introspect];
    [specSize] and [introspectionTimestamp] are not kept. *)
Inductive ResultMetadata : Type :=
| MetaTriedPaths (endpoint : string) (triedPaths : list string)
| MetaSpecFound (endpoint : string) (specUrl : string) (specFormat : string)
| MetaEmptySpec (endpoint : string) (specUrl : string)
| MetaHttpFailure (endpoint : string) (httpStatus : option nat) (httpStatusText : option string)
| MetaValidation (endpoint : string) (specUrl : string) (validationErrors : list string)
| MetaIntrospected (endpoint : string) (specUrl : string) (specFormat : string)
    (operationCount : nat) (typeCount : nat).

Record ConnectionTestResult : Type := mkConnectionTestResult {
  ct_success : bool;
  ct_error : option string;
  ct_metadata : option ResultMetadata
}.

Record IntrospectionResult : Type := mkIntrospectionResult {
  success : bool;
  schema : option UniversalSchema;
  error : option string;
  warnings : option (list string);
  metadata : option ResultMetadata
}.

Record ValidationResult : Type := mkValidationResult {
  valid : bool;
  errors : list string;
  warnings_ : list string
}.

(** [arr.push(x)] when [cond] holds *)
Definition pushIf (cond : bool) (x : string) (arr : list string) : list string :=
  if cond then (arr ++ [x])%list else arr.

Definition isDigit (c : ascii) : bool :=
  let n := nat_of_ascii c in (48 <=? n)%nat && (n <=? 57)%nat.

(** Strips the digits at the head of [s]: how many there were, and the rest. *)
Fixpoint takeDigits (s : string) : nat * string :=
  match s with
  | String c rest =>
      if isDigit c then let '(n, r) := takeDigits rest in (S n, r) else (O, s)
  | EmptyString => (O, s)
  end.

(** [v !== '2.0'], negated *)
Definition isTwoPointZero (v : JsValue) : bool :=
  match v with
  | JStr s => String.eqb s "2.0"
  | _ => false
  end.

(** [s.match(/^3\.\d+\.\d+$/)] is not null *)
Definition matchesOpenAPI3 (s : string) : bool :=
  match s with
  | String "3" (String "." rest) =>
      let '(n1, r1) := takeDigits rest in
      match n1, r1 with
      | S _, String "." r2 =>
          let '(n2, r3) := takeDigits r2 in
          match n2, r3 with
          | S _, EmptyString => true
          | _, _ => false
          end
      | _, _ => false
      end
  | _ => false
  end.

(** [validateSpecification].  The checks read the properties by their
    truthiness; [spec.openapi.match(...)] is a call on whatever value the
    key holds, so a truthy [openapi] that is not a string throws (a
    number, say, has no [match]); the warning for [swagger] converts the
    value to text. *)
Definition validateSpecification (numberToString : Q -> string) (spec : OpenAPISpecification)
  : Result ValidationResult :=
  let errors1 :=
    match info spec with
    | Some i =>
        if truthy i then
          pushIf (negb (truthy_opt (propertyOf i "version")))
            "Missing required field: info.version"
            (pushIf (negb (truthy_opt (propertyOf i "title")))
               "Missing required field: info.title" [])
        else ["Missing required field: info"]
    | None => ["Missing required field: info"]
    end in
  let errors2 :=
    pushIf (negb (truthy_opt (paths spec))) "Missing required field: paths" errors1 in
  let warnings1 :=
    match paths spec with
    | Some p =>
        pushIf (truthy p && hasNoKeys p) "No paths defined in specification" []
    | None => []
    end in
  let errors3 :=
    pushIf (negb (truthy_opt (openapi spec)) && negb (truthy_opt (swagger spec)))
      "Missing version field (openapi or swagger)" errors2 in
  warnings2 <- match openapi spec with
               | Some (JStr v) =>
                   Ok (pushIf (truthy_string v && negb (matchesOpenAPI3 v))
                         ("Unsupported OpenAPI version: " ++ v)%string warnings1)
               | Some v =>
                   if truthy v
                   then Throw (mkJsError TypeError "spec.openapi.match is not a function")
                   else Ok warnings1
               | None => Ok warnings1
               end ;;
  warnings3 <- match swagger spec with
               | Some v =>
                   if truthy v && negb (isTwoPointZero v) then
                     text <- toText numberToString v ;;
                     Ok (warnings2 ++ [("Unsupported Swagger version: " ++ text)%string])%list
                   else Ok warnings2
               | None => Ok warnings2
               end ;;
  Ok (mkValidationResult (Nat.eqb (length errors3) 0) errors3 warnings3).

(** [validateSpecification] on whatever [parseSpecification] returned:
    reading [spec.info] of [null] is a [TypeError]. *)
Definition validateParsed (numberToString : Q -> string) (p : Parsed) : Result ValidationResult :=
  match p with
  | ParsedObject spec => validateSpecification numberToString spec
  | ParsedPrimitive =>
      validateSpecification numberToString (mkOpenAPISpecification None None None None)
  | ParsedNull =>
      Throw (mkJsError TypeError "Cannot read properties of null (reading 'info')")
  end.

(** [detectSpecificationFormat]: the template literals convert the
    version to text. *)
Definition detectSpecificationFormat (numberToString : Q -> string) (data : ResponseData)
  : Result string :=
  match data with
  | DataObject spec =>
      if truthy_opt (openapi spec) then
        text <- toText numberToString (match openapi spec with Some v => v | None => JNull end) ;;
        Ok ("OpenAPI " ++ text)
      else if truthy_opt (swagger spec) then
        text <- toText numberToString (match swagger spec with Some v => v | None => JNull end) ;;
        Ok ("Swagger " ++ text)
      else Ok "Unknown"
  | _ => Ok "Unknown"
  end.

Definition getPathsToTry (config : RESTConnectorConfig) : list string :=
  let paths1 := match customPaths config with
                | Some custom => custom
                | None => []
                end in
  match tryCommonPaths config with
  | Some false => paths1
  | _ => (paths1 ++ COMMON_OPENAPI_PATHS)%list
  end.

(** [url.replace(/\/$/, '')]: drops one trailing slash. *)
Fixpoint removeTrailingSlash (s : string) : string :=
  match s with
  | EmptyString => EmptyString
  | String c EmptyString => if Ascii.eqb c "/" then EmptyString else s
  | String c rest => String c (removeTrailingSlash rest)
  end.

Section Connector.

Variable toLowerCase : string -> string.
Variable world : World.

Definition looksLikeSpecUrl (url : string) : bool :=
  let lowerUrl := toLowerCase url in
  includes lowerUrl "swagger"
  || includes lowerUrl "openapi"
  || endsWith lowerUrl ".json"
  || endsWith lowerUrl ".yaml"
  || endsWith lowerUrl ".yml"
  || includes lowerUrl "api-docs".

(** [axios.head(specUrl, ...)]: one request *)
Definition head (specUrl : string) : nat -> HeadOutcome * nat :=
  fun t => (axios_head world t specUrl, S t).

(** [response.headers['content-type'] || ''] looked up for the three
    accepted kinds *)
Definition acceptableContentType (contentType : option string) : bool :=
  let ct := match contentType with Some c => c | None => "" end in
  includes ct "json" || includes ct "yaml" || includes ct "text".

(** The probing loop of [discoverSpecificationUrl]. *)
Fixpoint probePaths (baseUrl : string) (pathsToTry : list string) : Http.M (option string) :=
  match pathsToTry with
  | [] => Http.ret None
  | path :: rest =>
      fun t =>
        let specUrl := baseUrl ++ path in
        match head specUrl t with
        | (HeadResponse contentType, t') =>
            if acceptableContentType contentType
            then (Ok (Some specUrl), t')
            else probePaths baseUrl rest t'
        | (HeadRejected, t') => probePaths baseUrl rest t'
        end
  end.

Definition discoverSpecificationUrl (config : RESTConnectorConfig) : Http.M (option string) :=
  if truthy_opt_string (specUrl config) then Http.ret (specUrl config)
  else if looksLikeSpecUrl (url config) then Http.ret (Some (url config))
  else probePaths (removeTrailingSlash (url config)) (getPathsToTry config).

(** [fetchSpecification]: resolves with the response data or rejects. *)
Definition fetchSpecification (url : string) : nat -> GetOutcome * nat :=
  fun t => (axios_get world t url, S t).

Definition parseSpecification (data : ResponseData) (sourceUrl : string) : Result Parsed :=
  let attempt : Result Parsed :=
    match data with
    | DataObject spec => Ok (ParsedObject spec)
    | DataString s =>
        match JSON_parse world s with
        | Ok p => Ok p
        | Throw _ => yaml_parse world s
        end
    | _ => Throw (mkJsError PlainError "Invalid specification format")
    end in
  match attempt with
  | Ok p => Ok p
  | Throw e =>
      Throw (mkJsError SchemaParsingError
               ("Failed to parse OpenAPI specification: " ++ e_message e))
  end.

Definition testConnection (config : RESTConnectorConfig) : Http.M ConnectionTestResult :=
  found <~ discoverSpecificationUrl config ;;
  match found with
  | None =>
      Http.ret (mkConnectionTestResult false
                  (Some "Could not discover OpenAPI specification URL")
                  (Some (MetaTriedPaths (url config) (getPathsToTry config))))
  | Some specUrl =>
      fun t =>
        match fetchSpecification specUrl t with
        | (GetResponse data, t') =>
            if truthy_data data then
              match detectSpecificationFormat (numberToString world) data with
              | Ok specFormat =>
                  (Ok (mkConnectionTestResult true None
                         (Some (MetaSpecFound (url config) specUrl specFormat))), t')
              | Throw e =>
                  (Throw (mkJsError ConnectionError
                            ("Failed to connect to REST endpoint: " ++ e_message e)), t')
              end
            else
              (Ok (mkConnectionTestResult false
                     (Some "Empty or invalid OpenAPI specification")
                     (Some (MetaEmptySpec (url config) specUrl))), t')
        | (GetRejected failure, t') =>
            if Http.isAxiosError failure then
              (Ok (mkConnectionTestResult false
                     (Some (Http.httpErrorText failure))
                     (Some (match failure with
                            | Http.HttpError status statusText _ =>
                                MetaHttpFailure (url config) (Some status) (Some statusText)
                            | _ => MetaHttpFailure (url config) None None
                            end))), t')
            else
              (Throw (mkJsError ConnectionError
                        ("Failed to connect to REST endpoint: "
                         ++ Http.failureMessage failure)), t')
        end
  end.

(** [introspect] from the validation on: the specification was fetched
    from [specUrl] as [data] and parsed to [spec]. *)
Definition introspectParsed (config : RESTConnectorConfig) (specUrl : string)
    (data : ResponseData) (spec : Parsed) : Result IntrospectionResult :=
  validationResult <- validateParsed (numberToString world) spec ;;
  if negb (valid validationResult) then
    Ok (mkIntrospectionResult false None
          (Some ("Invalid OpenAPI specification: "
                 ++ join ", " (errors validationResult)))
          None
          (Some (MetaValidation (url config) specUrl (errors validationResult))))
  else
    converted <- (match spec with
                  | ParsedObject s => convertSchema world s specUrl
                  | ParsedPrimitive =>
                      convertSchema world (mkOpenAPISpecification None None None None) specUrl
                  | ParsedNull =>
                      Throw (mkJsError TypeError "Cannot read properties of null")
                  end) ;;
    specFormat <- detectSpecificationFormat (numberToString world) data ;;
    Ok (mkIntrospectionResult true (Some converted) None
          (Some (warnings_ validationResult))
          (Some (MetaIntrospected (url config) specUrl
                   specFormat
                   (length (operations converted))
                   (length (types converted))))).

(** The body of the [try] block of [introspect]. *)
Definition introspectBody (config : RESTConnectorConfig) : Http.M IntrospectionResult :=
  connectionTest <~ testConnection config ;;
  if negb (ct_success connectionTest) then
    Http.ret (mkIntrospectionResult false None
                (Some ("Connection test failed: "
                       ++ match ct_error connectionTest with
                          | Some e => e
                          | None => "undefined"
                          end))
                None
                (ct_metadata connectionTest))
  else
    found <~ discoverSpecificationUrl config ;;
    match found with
    | None =>
        Http.ret (mkIntrospectionResult false None
                    (Some "Could not discover OpenAPI specification URL")
                    None
                    (Some (MetaTriedPaths (url config) (getPathsToTry config))))
    | Some specUrl =>
        fun t =>
          match fetchSpecification specUrl t with
          | (GetResponse data, t') =>
              (spec <- parseSpecification data specUrl ;;
               introspectParsed config specUrl data spec, t')
          | (GetRejected failure, t') => (Throw (Http.failureError failure), t')
          end
    end.

Definition introspect (config : RESTConnectorConfig) : Http.M IntrospectionResult :=
  Http.tryCatch (introspectBody config)
    (fun e =>
       match e_class e with
       | ConnectionError => Http.throw e
       | _ =>
           Http.throw (mkJsError IntrospectionError
                         ("REST introspection failed: " ++ e_message e))
       end).

End Connector.

(** [getDefaultConfig()] merged with a target URL.  The defaults put
    [tryCommonPaths: true] and [customPaths: []] under [options], so the
    properties that the connector reads on the configuration itself stay
    unset. *)
Definition defaultConfig (url : string) : RESTConnectorConfig :=
  mkRESTConnectorConfig url None None None.

(** A probe that does not settle the discovery: rejected, or answered
    with a content type that is none of json, yaml, text. *)
Definition probeFails (o : HeadOutcome) : Prop :=
  match o with
  | HeadRejected => True
  | HeadResponse contentType => acceptableContentType contentType = false
  end.

(** What the [catch] block of [introspect] throws for a caught [e]. *)
Definition rethrown (e : JsError) : JsError :=
  match e_class e with
  | ConnectionError => e
  | _ => mkJsError IntrospectionError ("REST introspection failed: " ++ e_message e)
  end.








(** A configuration that names the specification URL. *)
Definition explicitConfig (url specUrl : string) : RESTConnectorConfig :=
  mkRESTConnectorConfig url (Some specUrl) None None.

(** The specification's "an error mentioning the count of tried paths":
    the decimal text of the count occurs in the error message. *)
Definition spec_mentionsCount (r : IntrospectionResult) (count : nat) : bool :=
  match error r with
  | Some e => includes e (natToString count)
  | None => false
  end.

(** The result of an exhausted discovery. *)
Definition discoveryFailed (url : string) : IntrospectionResult :=
  mkIntrospectionResult false None
    (Some "Connection test failed: Could not discover OpenAPI specification URL")
    None
    (Some (MetaTriedPaths url COMMON_OPENAPI_PATHS)).

(** *** Closed examples *)

(** [Number.prototype.toString] on the integers; the closed examples
    hold no other number. *)
Definition integerToString (q : Q) : string :=
  let z := (Qnum q / Zpos (Qden q))%Z in
  if (z <? 0)%Z then "-" ++ natToString (Z.to_nat (- z)) else natToString (Z.to_nat z).

(** An endpoint where nothing answers: every request is refused. *)
Definition deadWorld : World :=
  mkWorld
    (fun _ _ => HeadRejected)
    (fun _ _ => GetRejected (Http.NetworkError "connect ECONNREFUSED"))
    (fun _ => Throw (mkJsError SyntaxError "Unexpected end of JSON input"))
    (fun _ => Throw (mkJsError PlainError "Unexpected end of YAML input"))
    (fun _ _ => Throw (mkJsError PlainError "Cannot convert"))
    integerToString.

(** [spec.info.title] when it is a string. *)
Definition titleOf (spec : OpenAPISpecification) : option string :=
  match info spec with
  | Some i =>
      match propertyOf i "title" with
      | Some (JStr t) => Some t
      | _ => None
      end
  | None => None
  end.

(** The schema that the example converter answers with. *)
Definition convertedExample (title : option string) (sourceUrl : string) : UniversalSchema :=
  mkUniversalSchema "rest_example" (match title with Some t => t | None => "" end)
    "1.0.0" APIProtocol.REST None None [] [] None None 0%Z (Some sourceUrl).

(** An endpoint that serves [body] at [/openapi.json] (found by the first
    probe) with a JSON content type.  On the one malformed text that the
    examples serve, [{ unclosed], both parsers throw. *)
Definition servingWorld (body : ResponseData) : World :=
  mkWorld
    (fun _ _ => HeadResponse (Some "application/json"))
    (fun _ _ => GetResponse body)
    (fun _ => Throw (mkJsError SyntaxError
                       "Expected property name or '}' in JSON at position 2"))
    (fun _ => Throw (mkJsError PlainError
                       "Flow map must end with a } at line 1, column 11"))
    (fun spec sourceUrl => Ok (convertedExample (titleOf spec) sourceUrl))
    integerToString.

(** An endpoint that serves a specification for the connection test and
    answers the second fetch with [503 Service Unavailable]. *)
Definition flakyWorld (body : ResponseData) : World :=
  mkWorld
    (fun _ _ => HeadResponse (Some "application/json"))
    (fun t _ =>
       if Nat.eqb t 1 then GetResponse body
       else GetRejected (Http.HttpError 503 "Service Unavailable"
                           "Request failed with status code 503"))
    (fun _ => Throw (mkJsError SyntaxError "Unexpected token"))
    (fun _ => Throw (mkJsError PlainError "unexpected"))
    (fun spec sourceUrl => Ok (convertedExample (titleOf spec) sourceUrl))
    integerToString.

(** [{ title: "Petstore", version: "1.0.0" }] *)
Definition petstoreInfo : JsValue :=
  JObj [("title", JStr "Petstore"); ("version", JStr "1.0.0")].

(** [{ openapi: v, info: { title, version }, paths: { "/pets": {} } }] *)
Definition petstoreSpec (v : string) : OpenAPISpecification :=
  mkOpenAPISpecification (Some (JStr v)) None (Some petstoreInfo)
    (Some (JObj [("/pets", JObj [])])).

(** The same document with [openapi: 3], a number, as YAML reads
    [openapi: 3.0]. *)
Definition numericVersionSpec : OpenAPISpecification :=
  mkOpenAPISpecification (Some (JNum (inject_Z 3))) None (Some petstoreInfo)
    (Some (JObj [("/pets", JObj [])])).

(** A document without [info] and [paths] whose [swagger] is the number
    2, as YAML reads [swagger: 2.0]. *)
Definition numericSwaggerSpec : OpenAPISpecification :=
  mkOpenAPISpecification None (Some (JNum (inject_Z 2))) None None.

End Rest.

(* ================================================================== *)
(** * GraphQL connector ([GraphQLConnector])                           *)
(* ================================================================== *)

Module GraphQLConn.

Record GraphQLIntrospectionSchema : Type := mkIntrospectionSchema {
  queryType : option string;
  mutationType : option string;
  subscriptionType : option string;
  types : list GraphQL.GraphQLType
}.

(** [response.data], a [GraphQLIntrospectionResponse]: [data.__schema]
    and the messages of [errors]. *)
Record GraphQLIntrospectionResponse : Type := mkIntrospectionResponse {
  data_schema : option GraphQLIntrospectionSchema;
  errors : option (list string)
}.

Inductive PostOutcome : Type :=
| PostResponse (data : GraphQLIntrospectionResponse)
| PostRejected (failure : Http.Failure).

(** The collaborators: the endpoint behind [axios.post] (asked with the
    request count, the URL and the query text) and the converter. *)
Record World : Type := mkWorld {
  axios_post : nat -> string -> string -> PostOutcome;
  convertSchema : GraphQLIntrospectionSchema -> string -> Result UniversalSchema
}.

Record GraphQLConnectorConfig : Type := mkGraphQLConnectorConfig {
  url : string;
  customQuery : option string;
  useSimpleQuery : option bool
}.

Inductive ResultMetadata : Type :=
| MetaHasSchema (endpoint : string)
| MetaErrors (endpoint : string) (errors : list string)
| MetaResponse (endpoint : string) (response : GraphQLIntrospectionResponse)
| MetaHttpFailure (endpoint : string) (httpStatus : option nat) (httpStatusText : option string)
| MetaIntrospected (endpoint : string) (typeCount : nat) (operationCount : nat)
| MetaConversionError (endpoint : string) (conversionError : string).

Record ConnectionTestResult : Type := mkConnectionTestResult {
  ct_success : bool;
  ct_error : option string;
  ct_metadata : option ResultMetadata
}.

Record IntrospectionResult : Type := mkIntrospectionResult {
  success : bool;
  schema : option UniversalSchema;
  error : option string;
  warnings : option (list string);
  metadata : option ResultMetadata
}.

Section Connector.

(** The three query texts of [introspection-query.ts]. *)
Variable INTROSPECTION_QUERY : string.
Variable SIMPLE_INTROSPECTION_QUERY : string.
Variable HEALTH_CHECK_QUERY : string.

Variable world : World.

Definition executeGraphQLQuery (config : GraphQLConnectorConfig) (query : string)
  : nat -> PostOutcome * nat :=
  fun t => (axios_post world t (url config) query, S t).

Definition selectIntrospectionQuery (config : GraphQLConnectorConfig) : string :=
  if truthy_opt_string (customQuery config)
  then match customQuery config with Some q => q | None => "" end
  else match useSimpleQuery config with
       | Some true => SIMPLE_INTROSPECTION_QUERY
       | _ => INTROSPECTION_QUERY
       end.

(** [error.response?.status === 401 || error.response?.status === 403] *)
Definition isAuthFailure (failure : Http.Failure) : bool :=
  match failure with
  | Http.HttpError status _ _ => Nat.eqb status 401 || Nat.eqb status 403
  | _ => false
  end.

Definition testConnection (config : GraphQLConnectorConfig) : Http.M ConnectionTestResult :=
  fun t =>
    match executeGraphQLQuery config HEALTH_CHECK_QUERY t with
    | (PostResponse data, t') =>
        match data_schema data, errors data with
        | Some _, _ =>
            (Ok (mkConnectionTestResult true None (Some (MetaHasSchema (url config)))), t')
        | None, Some errs =>
            (Ok (mkConnectionTestResult false
                   (Some ("GraphQL errors: " ++ join ", " errs))
                   (Some (MetaErrors (url config) errs))), t')
        | None, None =>
            (Ok (mkConnectionTestResult false
                   (Some "Invalid GraphQL response format")
                   (Some (MetaResponse (url config) data))), t')
        end
    | (PostRejected failure, t') =>
        if Http.isAxiosError failure then
          if isAuthFailure failure then
            (Throw (mkJsError AuthenticationError
                      ("Authentication failed: "
                       ++ match failure with
                          | Http.HttpError _ statusText _ => statusText
                          | _ => ""
                          end)), t')
          else
            (Ok (mkConnectionTestResult false
                   (Some (Http.httpErrorText failure))
                   (Some (match failure with
                          | Http.HttpError status statusText _ =>
                              MetaHttpFailure (url config) (Some status) (Some statusText)
                          | _ => MetaHttpFailure (url config) None None
                          end))), t')
        else
          (Throw (mkJsError ConnectionError
                    ("Failed to connect to GraphQL endpoint: "
                     ++ Http.failureMessage failure)), t')
    end.

Definition processIntrospectionResult (introspectionSchema : GraphQLIntrospectionSchema)
    (sourceUrl : string) (warnings : list string) : IntrospectionResult :=
  match convertSchema world introspectionSchema sourceUrl with
  | Ok converted =>
      mkIntrospectionResult true (Some converted) None (Some warnings)
        (Some (MetaIntrospected sourceUrl
                 (length (Schema.types converted))
                 (length (operations converted))))
  | Throw e =>
      mkIntrospectionResult false None
        (Some ("Failed to convert GraphQL schema: " ++ e_message e))
        (Some warnings)
        (Some (MetaConversionError sourceUrl (errorString e)))
  end.

(** [errors && errors.length > 0] *)
Definition hasErrors (data : GraphQLIntrospectionResponse) : bool :=
  match errors data with
  | Some (_ :: _) => true
  | _ => false
  end.

Definition introspectionFailed (config : GraphQLConnectorConfig)
    (data : GraphQLIntrospectionResponse) : IntrospectionResult :=
  let errs := match errors data with Some e => e | None => [] end in
  mkIntrospectionResult false None
    (Some ("Introspection failed: " ++ join ", " errs))
    None
    (Some (MetaErrors (url config) errs)).

(** The body of the [try] block of [introspect]. *)
Definition introspectBody (config : GraphQLConnectorConfig) : Http.M IntrospectionResult :=
  connectionTest <~ testConnection config ;;
  if negb (ct_success connectionTest) then
    Http.ret (mkIntrospectionResult false None
                (Some ("Connection test failed: "
                       ++ match ct_error connectionTest with
                          | Some e => e
                          | None => "undefined"
                          end))
                None
                (ct_metadata connectionTest))
  else
    let query := selectIntrospectionQuery config in
    fun t =>
      match executeGraphQLQuery config query t with
      | (PostRejected failure, t') => (Throw (Http.failureError failure), t')
      | (PostResponse data, t') =>
          if hasErrors data then
            if String.eqb query INTROSPECTION_QUERY then
              match executeGraphQLQuery config SIMPLE_INTROSPECTION_QUERY t' with
              | (PostRejected failure, t'') => (Throw (Http.failureError failure), t'')
              | (PostResponse simpleData, t'') =>
                  match data_schema simpleData with
                  | Some s =>
                      (Ok (processIntrospectionResult s (url config)
                             ["Used simplified introspection query due to errors in full query"]),
                       t'')
                  | None => (Ok (introspectionFailed config data), t'')
                  end
              end
            else (Ok (introspectionFailed config data), t')
          else
            match data_schema data with
            | None =>
                (Ok (mkIntrospectionResult false None
                       (Some "Invalid introspection response: missing schema data")
                       None
                       (Some (MetaResponse (url config) data))), t')
            | Some s => (Ok (processIntrospectionResult s (url config) []), t')
            end
      end.

Definition introspect (config : GraphQLConnectorConfig) : Http.M IntrospectionResult :=
  Http.tryCatch (introspectBody config)
    (fun e =>
       match e_class e with
       | ConnectionError | AuthenticationError => Http.throw e
       | _ =>
           Http.throw (mkJsError IntrospectionError
                         ("GraphQL introspection failed: " ++ e_message e))
       end).

End Connector.

(** *** Closed examples *)

(** An endpoint that answers every request with [401 Unauthorized]. *)
Definition unauthorizedWorld : World :=
  mkWorld
    (fun _ _ _ => PostRejected (Http.HttpError 401 "Unauthorized"
                                  "Request failed with status code 401"))
    (fun _ _ => Throw (mkJsError PlainError "Cannot convert")).

(** An endpoint that answers every request with [500 Internal Server Error]. *)
Definition brokenWorld : World :=
  mkWorld
    (fun _ _ _ => PostRejected (Http.HttpError 500 "Internal Server Error"
                                  "Request failed with status code 500"))
    (fun _ _ => Throw (mkJsError PlainError "Cannot convert")).

Definition exampleConfig : GraphQLConnectorConfig :=
  mkGraphQLConnectorConfig "https://api.example.com/graphql" None None.

(** The stand-ins for the three query texts in the closed examples. *)
Definition exampleFullQuery : string := "query IntrospectionQuery { __schema { types { name } } }".
Definition exampleSimpleQuery : string := "query SimpleIntrospectionQuery { __schema { queryType { name } } }".
Definition exampleHealthQuery : string := "query HealthCheck { __schema { queryType { name } } }".

End GraphQLConn.

(* ================================================================== *)
(** * WebSocket connector: pattern inference ([WebSocketConnector])    *)
(* ================================================================== *)

Module WebSocket.

Inductive WebSocketMessageType : Type :=
| TEXT | BINARY | JSON | PING | PONG | CLOSE | ERROR.

Inductive MessageDirection : Type := MsgIncoming | MsgOutgoing.

(** [message.data]: the text of a text frame or the bytes of a [Buffer]. *)
Inductive MessageData : Type :=
| TextData (text : string)
| BinaryData (bytes : list Z).

Record WebSocketMessage : Type := mkWebSocketMessage {
  msg_id : string;
  msg_type : WebSocketMessageType;
  msg_direction : MessageDirection;
  msg_data : MessageData;
  msg_parsed : option JsValue;
  msg_timestamp : Z;
  msg_size : Z;
  msg_event : option string
}.

(** [WebSocketMessagePattern]; [fieldTypes] is a plain object (its
    prototype is [Object.prototype]), kept as its own properties. *)
Record WebSocketMessagePattern : Type := mkWebSocketMessagePattern {
  wp_id : string;
  wp_name : string;
  wp_description : option string;
  wp_template : option JsValue;
  wp_requiredFields : list string;
  wp_optionalFields : list string;
  wp_fieldTypes : list (string * string);
  wp_frequency : nat;
  wp_examples : list JsValue
}.

(** JavaScript's default order on strings, as a comparator. *)
Definition compareStrings (a b : string) : Z :=
  match String.compare a b with
  | Lt => (-1)%Z
  | Eq => 0%Z
  | Gt => 1%Z
  end.

(** [getMessageSignature] on an object or an array:
    [Object.keys(obj).sort().join(',')]. *)
Definition getMessageSignature (obj : JsValue) : string :=
  if isObject obj then join "," (sort compareStrings (keysOf obj))
  else typeOf obj.

(** A [Set<string>] as the list of its elements in insertion order. *)
Definition setAdd (x : string) (s : list string) : list string :=
  if existsb (String.eqb x) s then s else (s ++ [x])%list.

(** The two accumulators of [analyzeObjectFields]: [fields], a
    [Set<string>], and [fieldTypes], a [Map<string, Set<string>>]. *)
Record FieldAnalysis : Type := mkFieldAnalysis {
  fa_fields : list string;
  fa_fieldTypes : list (string * list string)
}.

Definition emptyAnalysis : FieldAnalysis := mkFieldAnalysis [] [].

(** [fields.add(fieldName)], then [fieldTypes.get(fieldName).add(type)]
    on a set that is created when missing. *)
Definition recordField (st : FieldAnalysis) (observation : string * string) : FieldAnalysis :=
  let '(fieldName, type) := observation in
  mkFieldAnalysis
    (setAdd fieldName (fa_fields st))
    (obj_set fieldName
       (setAdd type (match obj_get fieldName (fa_fieldTypes st) with
                     | Some types => types
                     | None => []
                     end))
       (fa_fieldTypes st)).

(** [prefix ? `${prefix}.${key}` : key] *)
Definition qualify (prefix key : string) : string :=
  if truthy_string prefix then prefix ++ "." ++ key else key.

(** [prefix.split('.').length] *)
Fixpoint splitLength (prefix : string) : nat :=
  match prefix with
  | EmptyString => 1
  | String c rest => if Ascii.eqb c "." then S (splitLength rest) else splitLength rest
  end.

(** Body of the [for (const [key, value] of Object.entries(obj))] loop of
    [analyzeObjectFields]; [nested] is the recursive call on [value]. *)
Definition analyzeEntry (prefix key : string) (value : JsValue)
    (nested : FieldAnalysis -> FieldAnalysis) (st : FieldAnalysis) : FieldAnalysis :=
  let st1 := recordField st (qualify prefix key, typeOf value) in
  if isObject value && (splitLength prefix <? 3)%nat then nested st1 else st1.

Fixpoint analyzeObjectFields (obj : JsValue) (prefix : string) (st : FieldAnalysis)
  {struct obj} : FieldAnalysis :=
  match obj with
  | JObj props =>
      (fix each (ps : list (string * JsValue)) (st : FieldAnalysis) {struct ps} : FieldAnalysis :=
         match ps with
         | [] => st
         | (key, value) :: rest =>
             each rest
               (analyzeEntry prefix key value
                  (analyzeObjectFields value (qualify prefix key)) st)
         end) props st
  | JArr elems =>
      (fix each (es : list JsValue) (i : nat) (st : FieldAnalysis) {struct es} : FieldAnalysis :=
         match es with
         | [] => st
         | value :: rest =>
             each rest (S i)
               (analyzeEntry prefix (natToString i) value
                  (analyzeObjectFields value (qualify prefix (natToString i))) st)
         end) elems 0 st
  | _ => st
  end.

(** The value of one entry of [patternMap]. *)
Record PatternData : Type := mkPatternData {
  pd_signature : string;
  pd_examples : list JsValue;
  pd_analysis : FieldAnalysis
}.

(** Body of the first loop of [analyzeMessagePatterns] for a message that
    passed the guard: [parsed] is [message.parsed]. *)
Definition addExample (patternMap : list (string * PatternData)) (parsed : JsValue)
  : list (string * PatternData) :=
  let signature := getMessageSignature parsed in
  let pattern := match obj_get signature patternMap with
                 | Some p => p
                 | None => mkPatternData signature [] emptyAnalysis
                 end in
  obj_set signature
    (mkPatternData (pd_signature pattern)
       (pd_examples pattern ++ [parsed])
       (analyzeObjectFields parsed "" (pd_analysis pattern)))
    patternMap.

(** The guard [!message.parsed || typeof message.parsed !== 'object'] of
    the first loop, negated: the payloads that enter the analysis. *)
Definition analysedPayload (message : WebSocketMessage) : option JsValue :=
  match msg_parsed message with
  | Some parsed => if truthy parsed && isObject parsed then Some parsed else None
  | None => None
  end.

Definition analysedPayloads (messages : list WebSocketMessage) : list JsValue :=
  flat_map (fun m => match analysedPayload m with Some p => [p] | None => [] end) messages.

(** [patternMap] after the first loop. *)
Definition buildPatternMap (messages : list WebSocketMessage) : list (string * PatternData) :=
  fold_left
    (fun patternMap message =>
       match analysedPayload message with
       | Some parsed => addExample patternMap parsed
       | None => patternMap
       end)
    messages [].

(** [Array.from(types)[0]] of the set recorded for [field], if any. *)
Definition firstType (fieldTypes : list (string * list string)) (field : string) : option string :=
  match obj_get field fieldTypes with
  | Some (t :: _) => Some t
  | _ => None
  end.

Section WithPrototypes.

(** [inherited v name]: whether [name] is a property of [v] that
    [Object.keys] does not list but the [in] operator finds: one that [v]
    inherits from its prototype chain ([Object.prototype],
    [Array.prototype]) or the [length] of an array. *)
Variable inherited : JsValue -> string -> bool.

(** [field in ex] *)
Definition hasProperty (ex : JsValue) (field : string) : bool :=
  existsb (String.eqb field) (keysOf ex) || inherited ex field.

(** [patternData.examples.every(ex => field in ex)] *)
Definition appearsInAll (examples : list JsValue) (field : string) : bool :=
  forallb (fun ex => hasProperty ex field) examples.

(** The pattern that the second loop of [analyzeMessagePatterns] pushes
    for one entry of [patternMap], under the running [patternId].
    [fieldTypes] is an object literal filled by assignment, so the field
    [__proto__] (a key that a parsed payload can have) gets no entry: the
    assigned type is a string, which the setter of [__proto__] ignores. *)
Definition patternOf (patternId : nat) (signature : string) (patternData : PatternData)
  : WebSocketMessagePattern :=
  let fields := fa_fields (pd_analysis patternData) in
  let requiredFields := filter (appearsInAll (pd_examples patternData)) fields in
  let optionalFields :=
    filter (fun f => negb (appearsInAll (pd_examples patternData) f)) fields in
  let fieldTypes :=
    fold_left
      (fun acc field =>
         match firstType (fa_fieldTypes (pd_analysis patternData)) field with
         | Some t => plain_set field t acc
         | None => acc
         end)
      fields [] in
  mkWebSocketMessagePattern
    ("pattern_" ++ natToString patternId)
    ("Pattern_" ++ substring 0 8 signature)
    (Some ("Message pattern with " ++ natToString (length requiredFields)
           ++ " required and " ++ natToString (length optionalFields)
           ++ " optional fields"))
    (nth_error (pd_examples patternData) 0)
    requiredFields
    optionalFields
    fieldTypes
    (length (pd_examples patternData))
    (firstn 3 (pd_examples patternData)).

(** The second loop, keeping the signature with each pushed pattern. *)
Fixpoint emitPatterns (patternId : nat) (entries : list (string * PatternData))
  : list (string * WebSocketMessagePattern) :=
  match entries with
  | [] => []
  | (signature, patternData) :: rest =>
      if (length (pd_examples patternData) <? 2)%nat then emitPatterns patternId rest
      else (signature, patternOf patternId signature patternData)
           :: emitPatterns (S patternId) rest
  end.

Definition patternEntries (messages : list WebSocketMessage)
  : list (string * WebSocketMessagePattern) :=
  emitPatterns 1 (buildPatternMap messages).

Definition analyzeMessagePatterns (messages : list WebSocketMessage)
  : list WebSocketMessagePattern :=
  map snd (patternEntries messages).

End WithPrototypes.

(** *** The specification's vocabulary *)

(** The payloads with signature [s], in the order of capture. *)
Definition groupOf (s : string) (payloads : list JsValue) : list JsValue :=
  filter (fun p => String.eqb (getMessageSignature p) s) payloads.

(** The signatures met, in the order of their first payload. *)
Definition signaturesOf (payloads : list JsValue) : list string :=
  fold_left (fun acc p => setAdd (getMessageSignature p) acc) payloads [].

(** The field analysis of a list of examples, run from empty accumulators. *)
Definition analysisOf (examples : list JsValue) : FieldAnalysis :=
  fold_left (fun st ex => analyzeObjectFields ex "" st) examples emptyAnalysis.

(** The entry of [patternMap] for signature [s]. *)
Definition patternDataOf (payloads : list JsValue) (s : string) : PatternData :=
  mkPatternData s (groupOf s payloads) (analysisOf (groupOf s payloads)).

(** The examples of the group with signature [s]. *)
Definition group (s : string) (messages : list WebSocketMessage) : list JsValue :=
  groupOf s (analysedPayloads messages).


(** The (name, type) pairs that [analyzeObjectFields] records for one
    value, in the order in which it records them. *)
Fixpoint observations (obj : JsValue) (prefix : string) {struct obj} : list (string * string) :=
  match obj with
  | JObj props =>
      (fix each (ps : list (string * JsValue)) {struct ps} : list (string * string) :=
         match ps with
         | [] => []
         | (key, value) :: rest =>
             ((qualify prefix key, typeOf value)
              :: (if isObject value && (splitLength prefix <? 3)%nat
                  then observations value (qualify prefix key) else []))
             ++ each rest
         end)%list props
  | JArr elems =>
      (fix each (es : list JsValue) (i : nat) {struct es} : list (string * string) :=
         match es with
         | [] => []
         | value :: rest =>
             ((qualify prefix (natToString i), typeOf value)
              :: (if isObject value && (splitLength prefix <? 3)%nat
                  then observations value (qualify prefix (natToString i)) else []))
             ++ each rest (S i)
         end)%list elems 0
  | _ => []
  end.




(** *** Closed examples *)

(** The properties that every object inherits from [Object.prototype]. *)
Definition objectPrototype (v : JsValue) (name : string) : bool :=
  isObject v
  && existsb (String.eqb name)
       ["constructor"; "hasOwnProperty"; "isPrototypeOf"; "propertyIsEnumerable";
        "toLocaleString"; "toString"; "valueOf"; "__proto__";
        "__defineGetter__"; "__defineSetter__"; "__lookupGetter__"; "__lookupSetter__"].


(** [{ "status": "ok", "id": n }] *)
Definition statusPayload (n : Z) : JsValue :=
  JObj [("status", JStr "ok"); ("id", JNum (inject_Z n))].


(** An incoming JSON text frame with the given parsed payload; its raw
    text, which the inference does not read, is left out. *)
Definition jsonMessage (parsed : JsValue) : WebSocketMessage :=
  mkWebSocketMessage "msg" JSON MsgIncoming (TextData "") (Some parsed) 0%Z 0%Z None.

(** Three messages with the keys [status], [id] and one with the key
    [error]. *)
Definition statusCapture : list WebSocketMessage :=
  [ jsonMessage (statusPayload 1);
    jsonMessage (JObj [("error", JStr "denied")]);
    jsonMessage (statusPayload 2);
    jsonMessage (statusPayload 3) ].

(** The pattern that the inference yields for [statusCapture]. *)
Definition statusPattern : WebSocketMessagePattern :=
  mkWebSocketMessagePattern
    "pattern_1" "Pattern_id,statu"
    (Some "Message pattern with 2 required and 0 optional fields")
    (Some (statusPayload 1))
    ["status"; "id"] []
    [("status", "string"); ("id", "number")]
    3
    [statusPayload 1; statusPayload 2; statusPayload 3].

(** [{ "__proto__": "x", "id": n }], as [JSON.parse] builds it: with an
    own property named [__proto__]. *)
Definition protoPayload (n : Z) : JsValue :=
  JObj [("__proto__", JStr "x"); ("id", JNum (inject_Z n))].


(** The pattern that the inference yields for [protoCapture]: both keys
    are required, and only [id] has a type. *)
Definition protoPattern : WebSocketMessagePattern :=
  mkWebSocketMessagePattern
    "pattern_1" "Pattern___proto_"
    (Some "Message pattern with 2 required and 0 optional fields")
    (Some (protoPayload 1))
    ["__proto__"; "id"] []
    [("id", "number")]
    2
    [protoPayload 1; protoPayload 2].



End WebSocket.

(* ================================================================== *)
(** * WebSocket converter ([WebSocketSchemaConverter])                 *)
(* ================================================================== *)

Module WebSocketConv.
Import WebSocket.

Inductive WebSocketProtocol : Type :=
| RAW | SOCKET_IO | SOCKJS | STOMP | MQTT | CUSTOM.

(** The string value of the [WebSocketProtocol] enumeration. *)
Definition protocolName (p : WebSocketProtocol) : string :=
  match p with
  | RAW => "raw"
  | SOCKET_IO => "socket.io"
  | SOCKJS => "sockjs"
  | STOMP => "stomp"
  | MQTT => "mqtt"
  | CUSTOM => "custom"
  end.

Record WebSocketEvent : Type := mkWebSocketEvent {
  ev_name : string;
  ev_description : option string;
  ev_direction : Direction;
  ev_examples : list WebSocketMessage;
  ev_frequency : nat;
  ev_deprecated : option bool
}.

Inductive EndpointAuthType : Type :=
| EndpointAuthNone | EndpointAuthToken | EndpointAuthCookie | EndpointAuthCustom.

Definition endpointAuthName (t : EndpointAuthType) : string :=
  match t with
  | EndpointAuthNone => "none"
  | EndpointAuthToken => "token"
  | EndpointAuthCookie => "cookie"
  | EndpointAuthCustom => "custom"
  end.

Record EndpointAuthentication : Type := mkEndpointAuthentication {
  ea_type : EndpointAuthType;
  ea_description : option string
}.

Record WebSocketEndpoint : Type := mkWebSocketEndpoint {
  ep_url : string;
  ep_protocol : WebSocketProtocol;
  ep_subprotocols : option (list string);
  ep_headers : option (list (string * string));
  ep_authentication : option EndpointAuthentication
}.

Record SessionStatistics : Type := mkSessionStatistics {
  st_totalMessages : nat;
  st_messagesByType : list (string * nat);
  st_averageMessageSize : Q;
  st_connectionDuration : Z
}.

Record WebSocketSession : Type := mkWebSocketSession {
  ss_endpoint : WebSocketEndpoint;
  ss_messages : list WebSocketMessage;
  ss_events : list WebSocketEvent;
  ss_statistics : SessionStatistics
}.

Record ProtocolDetectionResult : Type := mkProtocolDetectionResult {
  pdr_protocol : WebSocketProtocol;
  pdr_confidence : Q;
  pdr_reasoning : list string
}.

(** A [Buffer] seen as a value: an object (not an array) whose keys are
    the indices and whose values are the bytes. *)
Definition bufferValue (bytes : list Z) : JsValue :=
  JObj (combine (indexKeys 0 (length bytes)) (map (fun b => JNum (inject_Z b)) bytes)).

(** [message.parsed || message.data] *)
Definition payloadOf (message : WebSocketMessage) : JsValue :=
  let data := match msg_data message with
              | TextData text => JStr text
              | BinaryData bytes => bufferValue bytes
              end in
  match msg_parsed message with
  | Some parsed => if truthy parsed then parsed else data
  | None => data
  end.

(** [Number.isInteger(q)] *)
Definition isInteger (q : Q) : bool :=
  Pos.eqb (Qden (Qred q)) 1.

Definition inferDataType (value : JsValue) : DataType.t :=
  match value with
  | JNull => DataType.NULL
  | JStr _ => DataType.STRING
  | JNum q => if isInteger q then DataType.INTEGER else DataType.NUMBER
  | JBool _ => DataType.BOOLEAN
  | JArr _ => DataType.ARRAY
  | JObj _ => DataType.OBJECT
  end.

Definition inferSchemaFromExamples (examples : list WebSocketMessage) : SchemaField :=
  match examples with
  | [] => mkSchemaField "message" DataType.UNKNOWN true None None None None None None
  | firstExample :: _ =>
      let data := payloadOf firstExample in
      if isObject data then
        mkSchemaField "message" DataType.OBJECT true None None None
          (Some (fold_left
                   (fun properties kv =>
                      plain_set (fst kv)
                        (mkSchemaField (fst kv) (inferDataType (snd kv)) true
                           None None None None None None)
                        properties)
                   (entriesOf data) []))
          None None
      else
        mkSchemaField "message" (inferDataType data) true None None None None None None
  end.

(** The operation that [createConnectionOperation] builds. *)
Definition createConnectionOperation (endpoint : WebSocketEndpoint) : Operation :=
  mkOperation
    "websocket_connect"
    "Connect"
    OpEndpoint
    (Some "Establish WebSocket connection")
    None None
    []
    [ mkResponse "101" (Some "WebSocket connection established") None None;
      mkResponse "400" (Some "Bad request - connection failed") None None;
      mkResponse "401" (Some "Unauthorized - authentication required") None None ]
    None None
    (Some (MetaWebSocketConnect
             (protocolName (ep_protocol endpoint))
             (ep_subprotocols endpoint)
             (ep_headers endpoint))).

Definition extractAuthentication (session : WebSocketSession) : option AuthenticationInfo :=
  match ep_authentication (ss_endpoint session) with
  | None => Some (mkAuthenticationInfo AuthNone None None)
  | Some auth =>
      match ea_type auth with
      | EndpointAuthNone => Some (mkAuthenticationInfo AuthNone None None)
      | t =>
          Some (mkAuthenticationInfo AuthCustom
                  (Some (if truthy_opt_string (ea_description auth)
                         then match ea_description auth with Some d => d | None => "" end
                         else endpointAuthName t ++ " authentication required"))
                  None)
      end
  end.

Definition createDescription (session : WebSocketSession)
    (protocolDetection : ProtocolDetectionResult) : string :=
  let protocol := match pdr_protocol protocolDetection with
                  | RAW => "WebSocket"
                  | p => protocolName p
                  end in
  protocol ++ " API discovered via introspection. Found "
  ++ natToString (length (ss_events session)) ++ " events from "
  ++ natToString (length (ss_messages session)) ++ " captured messages.".

(** [createMetadata]: the value of [metadata.extensions]. *)
Definition createMetadata (session : WebSocketSession)
    (protocolDetection : ProtocolDetectionResult) : JsValue :=
  JObj [("websocket",
         JObj [("protocol", JStr (protocolName (pdr_protocol protocolDetection)));
               ("confidence", JNum (pdr_confidence protocolDetection));
               ("sessionDuration",
                JNum (inject_Z (st_connectionDuration (ss_statistics session))));
               ("totalMessages",
                JNum (inject_Z (Z.of_nat (st_totalMessages (ss_statistics session)))));
               ("messagesByType",
                JObj (map (fun kv => (fst kv, JNum (inject_Z (Z.of_nat (snd kv)))))
                        (st_messagesByType (ss_statistics session))));
               ("averageMessageSize",
                JNum (st_averageMessageSize (ss_statistics session)));
               ("detectionReasoning",
                JArr (map JStr (pdr_reasoning protocolDetection)))])].

Section Converter.

Variable toLowerCase : string -> string.
Variable inherited : JsValue -> string -> bool.

(** [generateSchemaId] (a 32-bit hash of the URL and the clock) and
    [extractApiName] (the host name of the URL), which no property below
    looks into. *)
Variable generateSchemaId : string -> string.
Variable extractApiName : string -> string.

Definition mapFieldType (fieldType : string) : DataType.t :=
  let t := toLowerCase fieldType in
  if String.eqb t "string" then DataType.STRING
  else if String.eqb t "number" || String.eqb t "float" || String.eqb t "double"
  then DataType.NUMBER
  else if String.eqb t "integer" || String.eqb t "int" then DataType.INTEGER
  else if String.eqb t "boolean" || String.eqb t "bool" then DataType.BOOLEAN
  else if String.eqb t "array" then DataType.ARRAY
  else if String.eqb t "object" then DataType.OBJECT
  else if String.eqb t "null" then DataType.NULL
  else DataType.UNKNOWN.

(** What [mapFieldType] throws when it is handed a value without
    [toLowerCase]. *)
Definition notAString : JsError :=
  mkJsError TypeError "fieldType.toLowerCase is not a function".

(** [this.mapFieldType(pattern.fieldTypes[field] || 'unknown')].
    [fieldTypes] is a plain object, kept as its own properties, and the
    read goes through its prototype chain.  An own entry gives its string
    (the empty one is falsy and gives ['unknown']).  Without an own entry
    a field that names a property of [Object.prototype] reads that
    property: a function, or for [__proto__] the prototype itself; it is
    truthy and has no [toLowerCase], so [mapFieldType] throws.  Any other
    field without an entry reads [undefined] and gives ['unknown']. *)
Definition fieldTypeOf (pattern : WebSocketMessagePattern) (field : string)
  : Result DataType.t :=
  match obj_get field (wp_fieldTypes pattern) with
  | Some t => Ok (mapFieldType (if truthy_string t then t else "unknown"))
  | None =>
      if onObjectPrototype field
      then Throw notAString
      else Ok (mapFieldType "unknown")
  end.

(** The type of [field] can be looked up: it has an own entry, or its
    name is not one of [Object.prototype]. *)
Definition typeReadable (pattern : WebSocketMessagePattern) (field : string) : bool :=
  isSome (obj_get field (wp_fieldTypes pattern)) || negb (onObjectPrototype field).

(** Every field that the pattern lists has a type that can be looked
    up. *)
Definition typesReadable (pattern : WebSocketMessagePattern) : bool :=
  forallb (typeReadable pattern) (wp_requiredFields pattern ++ wp_optionalFields pattern)%list.

Definition messageMatchesPattern (message : WebSocketMessage)
    (pattern : WebSocketMessagePattern) : bool :=
  let data := payloadOf message in
  if negb (isObject data) then false
  else forallb (fun field => hasProperty inherited data field) (wp_requiredFields pattern).

(** One assignment [properties[field] = { name: field, type:
    this.mapFieldType(...), ... }] of the three loops over the fields of
    a pattern; [properties] is an object literal. *)
Definition setFieldProperty (pattern : WebSocketMessagePattern) (required : bool)
    (description : option string) (properties : list (string * SchemaField)) (field : string)
  : Result (list (string * SchemaField)) :=
  type <- fieldTypeOf pattern field ;;
  Ok (plain_set field
        (mkSchemaField field type required description None None None None None)
        properties).

Definition extractFieldsFromPattern (pattern : WebSocketMessagePattern)
  : Result (list (string * SchemaField)) :=
  foldM
    (fun properties field =>
       setFieldProperty pattern (existsb (String.eqb field) (wp_requiredFields pattern)) None
         properties field)
    (wp_requiredFields pattern ++ wp_optionalFields pattern)%list [].

Definition convertPatternToSchemaField (pattern : WebSocketMessagePattern)
  : Result SchemaField :=
  withRequired <-
    foldM (setFieldProperty pattern true (Some ("Required field for " ++ wp_name pattern)))
      (wp_requiredFields pattern) [] ;;
  properties <-
    foldM (setFieldProperty pattern false (Some ("Optional field for " ++ wp_name pattern)))
      (wp_optionalFields pattern) withRequired ;;
  Ok (mkSchemaField (wp_name pattern) DataType.OBJECT true (wp_description pattern)
        None None (Some properties) None
        (Some (MetaWebSocketPattern (wp_frequency pattern) (firstn 2 (wp_examples pattern))))).

(** [patterns.find(p => event.examples.some(example =>
    this.messageMatchesPattern(example, p)))] *)
Definition findMatchingPattern (event : WebSocketEvent)
    (patterns : list WebSocketMessagePattern) : option WebSocketMessagePattern :=
  find (fun p => existsb (fun example => messageMatchesPattern example p)
                   (ev_examples event))
    patterns.

Definition convertEventToOperation (event : WebSocketEvent)
    (patterns : list WebSocketMessagePattern) : Result Operation :=
  let matchingPattern := findMatchingPattern event patterns in
  parameters <-
    match matchingPattern with
    | Some p =>
        properties <- extractFieldsFromPattern p ;;
        Ok [mkParameter "message" LocBody
              (mkSchemaField "message" DataType.OBJECT true
                 (Some ("Message data for " ++ ev_name event ++ " event"))
                 None None (Some properties) None None)
              true
              (Some ("Message payload for " ++ ev_name event ++ " event"))]
    | None =>
        match ev_examples event with
        | [] => Ok []
        | _ :: _ =>
            Ok [mkParameter "message" LocBody
                  (inferSchemaFromExamples (ev_examples event))
                  true
                  (Some ("Message payload for " ++ ev_name event ++ " event"))]
        end
    end ;;
  let responses :=
    match ev_direction event with
    | Bidirectional | Incoming =>
        [mkResponse "success"
           (Some ("Successful " ++ ev_name event ++ " event response"))
           (match matchingPattern with
            | Some _ =>
                Some (mkSchemaField "response" DataType.OBJECT true
                        (Some ("Response data for " ++ ev_name event ++ " event"))
                        None None None None None)
            | None => None
            end)
           None]
    | Outgoing => []
    end in
  Ok (mkOperation
        ("websocket_" ++ ev_name event)
        (ev_name event)
        OpMessage
        (Some (if truthy_opt_string (ev_description event)
               then match ev_description event with Some d => d | None => "" end
               else "WebSocket " ++ ev_name event ++ " event"))
        None None
        parameters
        responses
        None
        (ev_deprecated event)
        (Some (MetaWebSocketEvent (ev_direction event) (ev_frequency event)
                 (map (fun ex => mkExampleSummary (payloadOf ex) (msg_timestamp ex) (msg_size ex))
                    (firstn 3 (ev_examples event)))))).

(** [convertSession]; [now] is the reading of the clock for
    [discoveredAt].  [types] is an object literal filled by assignment
    under the pattern names; the conversions of the patterns and of the
    events can throw, and what they throw leaves [convertSession]. *)
Definition convertSession (now : Z) (session : WebSocketSession)
    (patterns : list WebSocketMessagePattern)
    (protocolDetection : ProtocolDetectionResult)
    (sourceUrl : string) (apiName : option string) : Result UniversalSchema :=
  types <-
    foldM
      (fun types pattern =>
         converted <- convertPatternToSchemaField pattern ;;
         Ok (plain_set (wp_name pattern) converted types))
      patterns [] ;;
  pushed <- mapM (fun event => convertEventToOperation event patterns) (ss_events session) ;;
  let operations := createConnectionOperation (ss_endpoint session) :: pushed in
  Ok (mkUniversalSchema
        (generateSchemaId sourceUrl)
        (if truthy_opt_string apiName
         then match apiName with Some n => n | None => "" end
         else extractApiName sourceUrl)
        "1.0.0"
        APIProtocol.WEBSOCKET
        (Some sourceUrl)
        (Some (createDescription session protocolDetection))
        operations
        types
        (extractAuthentication session)
        (Some (createMetadata session protocolDetection))
        now
        (Some sourceUrl)).

End Converter.

(** *** Closed examples *)

(** A session on [wss://echo.example.org] with one event, [message],
    whose one example is a status message. *)
Definition exampleSession : WebSocketSession :=
  mkWebSocketSession
    (mkWebSocketEndpoint "wss://echo.example.org" RAW None None None)
    [jsonMessage (statusPayload 1)]
    [mkWebSocketEvent "message" None Incoming [jsonMessage (statusPayload 1)] 1 None]
    (mkSessionStatistics 1 [("json", 1)] 0%Q 0%Z).

End WebSocketConv.

(* ================================================================== *)
(** * [MemoryStorage]: the remaining methods                           *)
(* ================================================================== *)

Module Memory.
Import Storage.

(** [StorageStats] *)
Record StorageStats : Type := mkStorageStats {
  totalSchemas : nat;
  schemasByProtocol : list (string * nat);
  storageSize : option nat;
  lastUpdated : Z
}.

(** [this.schemas.has(id)] *)
Definition mapHas {A : Type} (key : string) (m : list (string * A)) : bool :=
  isSome (obj_get key m).

(** [retrieve]: a stored schema is an object, hence truthy. *)
Definition retrieve (id_ : string) (st : MemoryStorage) : Result (option UniversalSchema) :=
  _ <- ensureInitialized "Memory" (m_initialized st) ;;
  Ok (obj_get id_ (m_schemas st)).

(** [update]: returns the new state and the flag. *)
Definition update (id_ : string) (schema : UniversalSchema) (st : MemoryStorage)
  : Result (MemoryStorage * bool) :=
  _ <- ensureInitialized "Memory" (m_initialized st) ;;
  if negb (mapHas id_ (m_schemas st)) then Ok (st, false)
  else Ok (mkMemoryStorage (obj_set id_ schema (m_schemas st))
             (m_config st) (m_initialized st),
           true).

(** [delete]: [Map.prototype.delete] answers whether the key was there. *)
Definition delete (id_ : string) (st : MemoryStorage) : Result (MemoryStorage * bool) :=
  _ <- ensureInitialized "Memory" (m_initialized st) ;;
  Ok (mkMemoryStorage (mapDelete id_ (m_schemas st)) (m_config st) (m_initialized st),
      mapHas id_ (m_schemas st)).

Definition listIds (st : MemoryStorage) : Result (list string) :=
  _ <- ensureInitialized "Memory" (m_initialized st) ;;
  Ok (map fst (m_schemas st)).

(** [n || 0] *)
Definition orZero (n : option nat) : nat :=
  match n with
  | Some (S k) => S k
  | _ => 0
  end.

(** Body of the counting loop of [getStats]:
    [byProtocol[p] = (byProtocol[p] || 0) + 1]. *)
Definition countProtocol (byProtocol : list (string * nat)) (schema : UniversalSchema)
  : list (string * nat) :=
  let p := protocolString (protocol schema) in
  obj_set p (orZero (obj_get p byProtocol) + 1) byProtocol.

Section Stats.

(** [JSON.stringify(schemas).length] *)
Variable stringifiedLength : list UniversalSchema -> nat.

(** [getStats]; [now] is the reading of [new Date()]. *)
Definition getStats (now : Z) (st : MemoryStorage) : Result StorageStats :=
  _ <- ensureInitialized "Memory" (m_initialized st) ;;
  let values := map snd (m_schemas st) in
  Ok (mkStorageStats
        (length (m_schemas st))
        (fold_left countProtocol values [])
        (Some (stringifiedLength values * 2))
        now).

End Stats.

Definition clear (st : MemoryStorage) : Result (MemoryStorage * bool) :=
  _ <- ensureInitialized "Memory" (m_initialized st) ;;
  Ok (mkMemoryStorage [] (m_config st) (m_initialized st), true).

Definition close (st : MemoryStorage) : MemoryStorage :=
  mkMemoryStorage [] (m_config st) false.

(** One call on a storage object; [run] gives the state it leaves.  A
    call that throws leaves the state as it was. *)
Inductive Call : Type :=
| CallInitialize (options : MemoryStorageOptions)
| CallStore (now : Z) (schema : UniversalSchema)
| CallUpdate (id_ : string) (schema : UniversalSchema)
| CallDelete (id_ : string)
| CallClear
| CallClose.

Definition stateAfter {A : Type} (st : MemoryStorage) (r : Result (MemoryStorage * A))
  : MemoryStorage :=
  match r with
  | Ok (st', _) => st'
  | Throw _ => st
  end.

Definition run (st : MemoryStorage) (c : Call) : MemoryStorage :=
  match c with
  | CallInitialize options => initialize options st
  | CallStore now schema => stateAfter st (store now schema st)
  | CallUpdate id_ schema => stateAfter st (update id_ schema st)
  | CallDelete id_ => stateAfter st (delete id_ st)
  | CallClear => stateAfter st (clear st)
  | CallClose => close st
  end.

(** The state after a sequence of calls on a fresh [MemoryStorage]. *)
Definition runAll (calls : list Call) : MemoryStorage :=
  fold_left run calls newMemoryStorage.

Section Answer.
Variable toLowerCase : string -> string.

(** The array that [query] paginates: the stored schemas that pass the
    filters, sorted by discovery date, newest first. *)
Definition sortedResults (q : SchemaQuery) (st : MemoryStorage) : list UniversalSchema :=
  sort (fun a b => (discoveredAt b - discoveredAt a)%Z)
    (applyFilters toLowerCase q (map snd (m_schemas st))).

End Answer.

(** [{ offset: o, limit: l }] *)
Definition pageQuery (o l : Z) : SchemaQuery :=
  mkSchemaQuery None None None None None None None (Some l) (Some o).

(** A store with ceiling two, no age limit, holding two schemas. *)
Definition fullMemory : MemoryStorage :=
  mkMemoryStorage
    [("a", exampleSchema "a" 1000); ("b", exampleSchema "b" 2000)]
    (mkMemoryStorageConfig (Some 2%Z) (Some true) None)
    true.

End Memory.

(* ================================================================== *)
(** * GraphQL converter: [convertSchema]                               *)
(* ================================================================== *)

Module GraphQLConvert.
Import GraphQL.

(** [GraphQLIntrospectionSchema] as it arrives in the response: the names
    of the root types ([queryType?.name]), the types, and the names of the
    directives.  [directives] is absent from a response to a query that
    does not select it. *)
Record IntrospectionSchema : Type := mkIntrospectionSchema {
  queryType : option string;
  mutationType : option string;
  subscriptionType : option string;
  types : list GraphQLType;
  directives : option (list string)
}.

Definition builtInTypes : list string :=
  ["__Schema"; "__Type"; "__TypeKind"; "__Field"; "__InputValue";
   "__EnumValue"; "__Directive"; "__DirectiveLocation"].

Definition isBuiltInType (typeName : option string) : bool :=
  if negb (truthy_opt_string typeName) then true
  else
    let n := match typeName with Some n => n | None => "" end in
    startsWith n "__" || existsb (String.eqb n) builtInTypes.

(** [typeName === root?.name] for a [typeName] that is a string *)
Definition namesRoot (typeName : string) (root : option string) : bool :=
  match root with
  | Some n => String.eqb typeName n
  | None => false
  end.

Definition isRootType (typeName : option string) (schema : IntrospectionSchema) : bool :=
  if negb (truthy_opt_string typeName) then false
  else
    let n := match typeName with Some n => n | None => "" end in
    namesRoot n (queryType schema)
    || namesRoot n (mutationType schema)
    || namesRoot n (subscriptionType schema).

Definition getOperationType (typeName : string) (schema : IntrospectionSchema) : OperationType :=
  if namesRoot typeName (queryType schema) then OpQuery
  else if namesRoot typeName (mutationType schema) then OpMutation
  else if namesRoot typeName (subscriptionType schema) then OpSubscription
  else OpQuery.

(** The string of an operation type, as the template of the id prints it. *)
Definition operationTypeString (t : OperationType) : string :=
  match t with
  | OpQuery => "query"
  | OpMutation => "mutation"
  | OpSubscription => "subscription"
  | OpEndpoint => "endpoint"
  | OpMessage => "message"
  end.

Fixpoint getTypeString (typeRef : GraphQLTypeRef) : string :=
  match typeRef with
  | mkTypeRef k n (Some inner) =>
      if GraphQLTypeKind.eqb k GraphQLTypeKind.NON_NULL then getTypeString inner ++ "!"
      else if GraphQLTypeKind.eqb k GraphQLTypeKind.LIST then "[" ++ getTypeString inner ++ "]"
      else if truthy_opt_string n then match n with Some s => s | None => "" end
      else "Unknown"
  | mkTypeRef _ n None =>
      if truthy_opt_string n then match n with Some s => s | None => "" end
      else "Unknown"
  end.

(** A type is kept as a reusable type when it is an object, an input
    object or an interface. *)
Definition isReusableKind (k : GraphQLTypeKind.t) : bool :=
  GraphQLTypeKind.eqb k GraphQLTypeKind.OBJECT
  || GraphQLTypeKind.eqb k GraphQLTypeKind.INPUT_OBJECT
  || GraphQLTypeKind.eqb k GraphQLTypeKind.INTERFACE.

Definition inferAuthentication : AuthenticationInfo :=
  mkAuthenticationInfo AuthCustom
    (Some "Authentication method not determined from schema introspection") None.

(** [createMetadata]; reading [.length] of an absent [directives] is a
    [TypeError]. *)
Definition createMetadata (schema : IntrospectionSchema) : Result JsValue :=
  match directives schema with
  | None =>
      Throw (mkJsError TypeError "Cannot read properties of undefined (reading 'length')")
  | Some ds =>
      Ok (JObj [("extensions",
                 JObj [("graphql",
                        JObj [("typeCount", JNum (inject_Z (Z.of_nat (length (types schema)))));
                              ("directiveCount", JNum (inject_Z (Z.of_nat (length ds))));
                              ("hasQuery", JBool (isSome (queryType schema)));
                              ("hasMutation", JBool (isSome (mutationType schema)));
                              ("hasSubscription", JBool (isSome (subscriptionType schema)))])])])
  end.

Section Converter.

Variable JSON_parse : string -> Result JsValue.

(** [generateSchemaId] (base64 of the URL and the clock) and
    [extractApiName] (the host name of the URL). *)
Variable generateSchemaId : string -> string.
Variable extractApiName : string -> string.

(** The object literal that [extractOperationsFromType] maps a field to. *)
Definition fieldToOperation (operationType : OperationType) (field : GraphQLField)
  : Result Operation :=
  parameters <- mapM (convertInputValueToParameter JSON_parse) (gf_args field) ;;
  Ok (mkOperation
        (operationTypeString operationType ++ "_" ++ gf_name field)
        (gf_name field)
        operationType
        (gf_description field)
        None
        None
        parameters
        [mkResponse "200" (Some "Successful response")
           (Some (mkSchemaField "response"
                    (convertGraphQLTypeToDataType (gf_type field))
                    true
                    (Some ("Response for " ++ gf_name field))
                    None None None None None))
           None]
        None
        (Some (gf_isDeprecated field))
        (Some (MetaGraphQLOperation (gf_deprecationReason field)
                 (getTypeString (gf_type field))))).

Definition extractOperationsFromType (type : GraphQLType) (schema : IntrospectionSchema)
  : Result (list Operation) :=
  match gt_fields type with
  | None => Ok []
  | Some fields =>
      let operationType :=
        getOperationType (match gt_name type with Some n => n | None => "" end) schema in
      mapM (fieldToOperation operationType) fields
  end.

(** Body of the loop of [convertSchema] over [introspectionSchema.types];
    the state is the pair of [operations] and [types]. *)
Definition convertType (schema : IntrospectionSchema)
    (acc : list Operation * list (string * SchemaField)) (type : GraphQLType)
  : Result (list Operation * list (string * SchemaField)) :=
  let '(operations, types) := acc in
  if isBuiltInType (gt_name type) then Ok (operations, types)
  else
    types' <- (if isReusableKind (gt_kind type)
               then
                 f <- convertTypeToSchemaField JSON_parse type ;;
                 Ok (obj_set (match gt_name type with Some n => n | None => "" end) f types)
               else Ok types) ;;
    operations' <- (if isRootType (gt_name type) schema
                    then
                      ops <- extractOperationsFromType type schema ;;
                      Ok (operations ++ ops)%list
                    else Ok operations) ;;
    Ok (operations', types').

(** [convertSchema]; [now] is the reading of [new Date()]. *)
Definition convertSchema (now : Z) (introspectionSchema : IntrospectionSchema)
    (sourceUrl : string) (apiName : option string) : Result UniversalSchema :=
  acc <- foldM (convertType introspectionSchema) (types introspectionSchema) ([], []) ;;
  let '(operations, types) := acc in
  metadata <- createMetadata introspectionSchema ;;
  Ok (mkUniversalSchema
        (generateSchemaId sourceUrl)
        (if truthy_opt_string apiName
         then match apiName with Some n => n | None => "" end
         else extractApiName sourceUrl)
        "1.0.0"
        APIProtocol.GRAPHQL
        (Some sourceUrl)
        (Some "GraphQL API discovered via introspection")
        operations
        types
        (Some inferAuthentication)
        (Some metadata)
        now
        (Some sourceUrl)).

(** A type of the introspection data that [convertSchema] keeps as a
    reusable type under the name [n]. *)
Definition keptAs (schema : IntrospectionSchema) (n : string) (t : GraphQLType) : Prop :=
  In t (types schema) /\ gt_name t = Some n
  /\ isBuiltInType (gt_name t) = false /\ isReusableKind (gt_kind t) = true.

(** [op] is what [extractOperationsFromType] makes of a field of a root
    type of the introspection data. *)
Definition rootField (schema : IntrospectionSchema) (op : Operation) : Prop :=
  exists t n fields field,
    In t (types schema) /\ gt_name t = Some n
    /\ isBuiltInType (gt_name t) = false /\ isRootType (gt_name t) schema = true
    /\ gt_fields t = Some fields /\ In field fields
    /\ fieldToOperation (getOperationType n schema) field = Ok op.

End Converter.

(** Whether some wrapper of the chain, i.e. a node with an [ofType], is a
    LIST. *)
Fixpoint wrapsList (typeRef : GraphQLTypeRef) : bool :=
  match typeRef with
  | mkTypeRef k _ (Some inner) =>
      GraphQLTypeKind.eqb k GraphQLTypeKind.LIST || wrapsList inner
  | mkTypeRef _ _ None => false
  end.

(** The innermost node of the chain, the one without [ofType]. *)
Fixpoint innermost (typeRef : GraphQLTypeRef) : GraphQLTypeRef :=
  match typeRef with
  | mkTypeRef _ _ (Some inner) => innermost inner
  | mkTypeRef _ _ None => typeRef
  end.

(** [type Query { post(id: ID!): Post }] and the schema made of it and
    of [Post]. *)
Definition exampleQueryType : GraphQLType :=
  mkType GraphQLTypeKind.OBJECT (Some "Query") None
    (Some [mkField "post" None
             [mkInputValue "id" None (NonNull (NamedType GraphQLTypeKind.SCALAR "ID")) None]
             (NamedType GraphQLTypeKind.OBJECT "Post") false None])
    None None None.

Definition exampleIntrospection : IntrospectionSchema :=
  mkIntrospectionSchema (Some "Query") None None
    [exampleQueryType; examplePostType;
     mkType GraphQLTypeKind.OBJECT (Some "__Schema") None (Some []) None None None]
    (Some ["include"; "skip"]).

End GraphQLConvert.

(* ================================================================== *)
(** * REST converter: type definitions, authentication, schema id      *)
(* ================================================================== *)

Module OpenAPIConvert.
Import OpenAPI.

(** The part of [OpenAPISpecification] that [extractTypeDefinitions] and
    [extractAuthentication] read.  [components] is [None] when the
    specification has no [components] object. *)
Inductive SecuritySchemeType : Type := API_KEY | HTTP | OAUTH2 | OPEN_ID_CONNECT.

(** One flow of [flows]: the keys of its [scopes] object. *)
Record OAuthFlow : Type := mkOAuthFlow {
  flow_scopes : option (list string)
}.

(** [OpenAPISecurityScheme]; [sec_type] is [None] for a [type] string
    outside the enumeration (Swagger 2.0 has ["basic"]). *)
Record SecurityScheme : Type := mkSecurityScheme {
  sec_type : option SecuritySchemeType;
  sec_description : option string;
  sec_scheme : option string;
  sec_flows : option (list (string * OAuthFlow))
}.

Record Components : Type := mkComponents {
  comp_schemas : option (list (string * OpenAPISchema));
  comp_securitySchemes : option (list (string * SecurityScheme))
}.

Record Specification : Type := mkSpecification {
  components : option Components;
  definitions : option (list (string * OpenAPISchema));
  securityDefinitions : option (list (string * SecurityScheme))
}.

(** One [for (const [name, schema] of Object.entries(schemas))] loop of
    [extractTypeDefinitions].  [types] is the object literal that
    [convertSchema] created: [types[name] = ...] under the name
    [__proto__] gives it no own property. *)
Definition addTypeDefinitions (schemas : list (string * OpenAPISchema))
    (types : list (string * SchemaField)) : list (string * SchemaField) :=
  fold_left
    (fun types entry =>
       plain_set (fst entry) (convertOpenAPISchemaToSchemaField (snd entry) (fst entry)) types)
    schemas types.

(** [extractTypeDefinitions(spec, types)], returning the filled [types]. *)
Definition extractTypeDefinitions (spec : Specification) (types : list (string * SchemaField))
  : list (string * SchemaField) :=
  let types1 :=
    match components spec with
    | Some c =>
        match comp_schemas c with
        | Some schemas => addTypeDefinitions schemas types
        | None => types
        end
    | None => types
    end in
  match definitions spec with
  | Some schemas => addTypeDefinitions schemas types1
  | None => types1
  end.

(** [spec.components?.schemas] and [spec.definitions] as entry lists,
    empty when absent. *)
Definition componentSchemas (spec : Specification) : list (string * OpenAPISchema) :=
  match components spec with
  | Some c => match comp_schemas c with Some schemas => schemas | None => [] end
  | None => []
  end.

Definition swaggerDefinitions (spec : Specification) : list (string * OpenAPISchema) :=
  match definitions spec with
  | Some schemas => schemas
  | None => []
  end.

(** [[...new Set(scopes)]] *)
Definition dedupe (scopes : list string) : list string :=
  fold_left (fun seen s => WebSocket.setAdd s seen) scopes [].

Definition extractOAuth2Scopes (scheme : SecurityScheme) : list string :=
  let scopes :=
    match sec_flows scheme with
    | Some flows =>
        fold_left
          (fun scopes flow =>
             match flow_scopes (snd flow) with
             | Some names => (scopes ++ names)%list
             | None => scopes
             end)
          flows []
    | None => []
    end in
  dedupe scopes.

(** [if (firstScheme.description) auth.description = firstScheme.description] *)
Definition descriptionOf (scheme : SecurityScheme) : option string :=
  if truthy_opt_string (sec_description scheme) then sec_description scheme else None.

(** [spec.components?.securitySchemes || spec.securityDefinitions] *)
Definition securitySchemesOf (spec : Specification) : option (list (string * SecurityScheme)) :=
  match components spec with
  | Some c => orElse (comp_securitySchemes c) (securityDefinitions spec)
  | None => securityDefinitions spec
  end.

(** [extractAuthentication].  The [metadata] bag of the result is left
    out of [AuthenticationInfo]. *)
Definition extractAuthentication (spec : Specification) : option AuthenticationInfo :=
  match securitySchemesOf spec with
  | None | Some [] => Some (mkAuthenticationInfo AuthNone None None)
  | Some ((_, firstScheme) :: _) =>
      match sec_type firstScheme with
      | Some API_KEY =>
          Some (mkAuthenticationInfo AuthApiKey (descriptionOf firstScheme) None)
      | Some HTTP =>
          Some (mkAuthenticationInfo
                  (match sec_scheme firstScheme with
                   | Some s => if String.eqb s "bearer" then AuthBearer else AuthBasic
                   | None => AuthBasic
                   end)
                  (descriptionOf firstScheme) None)
      | Some OAUTH2 =>
          Some (mkAuthenticationInfo AuthOAuth2 (descriptionOf firstScheme)
                  (Some (extractOAuth2Scopes firstScheme)))
      | Some OPEN_ID_CONNECT =>
          Some (mkAuthenticationInfo AuthOAuth2 (descriptionOf firstScheme) None)
      | None =>
          Some (mkAuthenticationInfo AuthCustom (descriptionOf firstScheme) None)
      end
  end.

(** ** The hash of [generateSchemaId] *)

(** [ToInt32]: the integer modulo 2^32, read as a signed 32-bit number. *)
Definition toInt32 (z : Z) : Z :=
  ((z + 2147483648) mod 4294967296 - 2147483648)%Z.

(** Body of the loop: [hash = ((hash << 5) - hash) + char; hash = hash & hash].
    The shift wraps to 32 bits; the subtraction and the addition are exact
    on doubles of this size; [&] wraps again. *)
Definition hashStep (hash char : Z) : Z :=
  toInt32 (toInt32 (Z.shiftl hash 5) - hash + char)%Z.

(** The loop over the UTF-16 code units [sourceUrl.charCodeAt(i)]. *)
Definition hashCode (codeUnits : list Z) : Z :=
  fold_left hashStep codeUnits 0%Z.

(** The polynomial [c0 * 31^(n-1) + ... + c(n-1)], computed without
    wrapping. *)
Definition polynomial31 (codeUnits : list Z) : Z :=
  fold_left (fun h c => (31 * h + c)%Z) codeUnits 0%Z.

(** ** Shape of a converted field *)

Definition constraintsSet (c : FieldConstraints) : bool :=
  isSome (c_minimum c) || isSome (c_maximum c) || isSome (c_pattern c)
  || isSome (c_enum c) || isSome (c_format c).

Definition isArrayType (t : DataType.t) : bool :=
  match t with DataType.ARRAY => true | _ => false end.

Definition isObjectType (t : DataType.t) : bool :=
  match t with DataType.OBJECT => true | _ => false end.

(** The seven strings that [mapOpenAPITypeToDataType] knows. *)
Definition knownType (v : JsValue) : bool :=
  match v with
  | JStr s =>
      existsb (String.eqb s)
        ["string"; "number"; "integer"; "boolean"; "array"; "object"; "file"]
  | _ => false
  end.

(** A field of the shape the schema conversion produces, at every depth:
    its type is one of the six JSON Schema types or [unknown], never
    [null]; [items] occurs only on an array, is named ["item"] and is not
    required; [properties] occurs only on an object, each property is
    stored under its own name and none under [__proto__]; constraints,
    when present, set something; and the metadata is the OpenAPI bag. *)
Fixpoint wellFormed (f : SchemaField) : bool :=
  match f with
  | mkSchemaField _ t _ _ _ items props constraints metadata =>
      match t with
      | DataType.NULL => false
      | _ => true
      end
      && match items with
         | Some i =>
             isArrayType t && String.eqb (sf_name i) "item" && negb (sf_required i)
             && wellFormed i
         | None => true
         end
      && match props with
         | Some ps =>
             isObjectType t
             && forallb (fun kv => String.eqb (sf_name (snd kv)) (fst kv)
                                   && negb (String.eqb (fst kv) "__proto__")
                                   && wellFormed (snd kv)) ps
         | None => true
         end
      && match constraints with
         | Some c => constraintsSet c
         | None => true
         end
      && match metadata with
         | Some (MetaOpenAPI _) => true
         | _ => false
         end
  end.

(** The entries of a parsed object that an object literal keeps as own
    properties when they are assigned to it one by one: all but the one
    named [__proto__]. *)
Definition ownEntries {A : Type} (entries : list (string * A)) : list (string * A) :=
  filter (fun kv => negb (String.eqb (fst kv) "__proto__")) entries.

(** The properties [{ id: { type: 'integer' }, tags: { type: 'array',
    items: { type: 'string' } }, "__proto__": { type: 'null' } }]. *)
Definition petProperties : list (string * OpenAPISchema) :=
  [("id", typeOnly OpenAPIDataType.INTEGER);
   ("tags",
    mkOpenAPISchema (Some (JStr "array")) None None None None None None None
      None None None (Some (typeOnly OpenAPIDataType.STRING)) None None None None None
      None None);
   ("__proto__",
    mkOpenAPISchema (Some (JStr "null")) None None None None None None None
      None None None None None None None None None None None)].

(** [{ type: 'object', required: ['id'], properties: ... }] with these
    properties. *)
Definition petSchema : OpenAPISchema :=
  mkOpenAPISchema (Some (JStr "object")) None None None None None None None None None
    None None (Some petProperties) (Some ["id"]) None None None None None.

(** A specification with two component schemas, one of them named
    [__proto__], and one Swagger definition. *)
Definition exampleSpecification : Specification :=
  mkSpecification
    (Some (mkComponents
             (Some [("Pet", petSchema); ("__proto__", typeOnly OpenAPIDataType.STRING)])
             None))
    (Some [("Order", typeOnly OpenAPIDataType.OBJECT)])
    (Some [("oauth",
            mkSecurityScheme (Some OAUTH2) None None
              (Some [("implicit", mkOAuthFlow (Some ["read"; "write"]));
                     ("password", mkOAuthFlow (Some ["write"; "admin"]))]))]).

End OpenAPIConvert.

(* ================================================================== *)
(** * REST connector: outcomes of discovery and introspection          *)
(* ================================================================== *)

Module RestOutcomes.
Import Rest.

(** A probe that settles the discovery: answered, with a content type
    that mentions json, yaml or text. *)
Definition probeAccepts (o : HeadOutcome) : Prop :=
  match o with
  | HeadResponse contentType => acceptableContentType contentType = true
  | HeadRejected => False
  end.

(** The shape of an [IntrospectionResult]: a success carries a schema and
    no error, a failure an error and no schema. *)
Definition resultShaped (r : IntrospectionResult) : Prop :=
  if success r
  then isSome (schema r) = true /\ error r = None /\ isSome (warnings r) = true
  else schema r = None /\ isSome (error r) = true.

(** An endpoint that serves its specification at [/swagger.json] only. *)
Definition swaggerWorld (body : ResponseData) : World :=
  mkWorld
    (fun _ u =>
       if String.eqb u "https://api.example.com/swagger.json"
       then HeadResponse (Some "application/json")
       else HeadRejected)
    (fun _ _ => GetResponse body)
    (fun _ => Throw (mkJsError SyntaxError "Unexpected token"))
    (fun _ => Throw (mkJsError PlainError "unexpected"))
    (fun spec sourceUrl => Ok (convertedExample (titleOf spec) sourceUrl))
    integerToString.

End RestOutcomes.

(* ================================================================== *)
(** * GraphQL connector: outcomes of introspection                     *)
(* ================================================================== *)

Module GraphQLOutcomes.
Import GraphQLConn.

(** The shape of an [IntrospectionResult] of the GraphQL connector. *)
Definition resultShaped (r : IntrospectionResult) : Prop :=
  if success r
  then isSome (schema r) = true /\ error r = None /\ isSome (warnings r) = true
  else schema r = None /\ isSome (error r) = true.

End GraphQLOutcomes.

(* ================================================================== *)
(** * WebSocket connector: events and protocol detection               *)
(* ================================================================== *)

Module WebSocketEvents.
Import WebSocket WebSocketConv.

Definition directionOf (d : MessageDirection) : Direction :=
  match d with
  | MsgIncoming => Incoming
  | MsgOutgoing => Outgoing
  end.

(** [a === b] on directions *)
Definition sameDirection (a b : Direction) : bool :=
  match a, b with
  | Incoming, Incoming | Outgoing, Outgoing | Bidirectional, Bidirectional => true
  | _, _ => false
  end.

(** [message.event || 'message'] *)
Definition eventNameOf (message : WebSocketMessage) : string :=
  if truthy_opt_string (msg_event message)
  then match msg_event message with Some n => n | None => "" end
  else "message".

(** What the body of the loop of [extractEvents] does to the event it
    looked up: count the message, widen the direction, keep the message as
    an example while there are fewer than five. *)
Definition countMessage (event : WebSocketEvent) (message : WebSocketMessage) : WebSocketEvent :=
  mkWebSocketEvent
    (ev_name event)
    (ev_description event)
    (if sameDirection (ev_direction event) (directionOf (msg_direction message))
     then ev_direction event else Bidirectional)
    (if (length (ev_examples event) <? 5)%nat
     then (ev_examples event ++ [message])%list else ev_examples event)
    (S (ev_frequency event))
    (ev_deprecated event).

(** Body of the loop of [extractEvents]; [eventMap] is a [Map] kept as its
    entries in insertion order. *)
Definition recordMessage (eventMap : list (string * WebSocketEvent)) (message : WebSocketMessage)
  : list (string * WebSocketEvent) :=
  let eventName := eventNameOf message in
  let event :=
    match obj_get eventName eventMap with
    | Some e => e
    | None =>
        mkWebSocketEvent eventName None (directionOf (msg_direction message)) [] 0 None
    end in
  obj_set eventName (countMessage event message) eventMap.

Definition eventMapOf (messages : list WebSocketMessage) : list (string * WebSocketEvent) :=
  fold_left recordMessage messages [].

Definition extractEvents (messages : list WebSocketMessage) : list WebSocketEvent :=
  map snd (eventMapOf messages).

(** The messages of one event, in the order of capture. *)
Definition messagesOf (eventName : string) (messages : list WebSocketMessage)
  : list WebSocketMessage :=
  filter (fun m => String.eqb (eventNameOf m) eventName) messages.

(** The direction that the loop leaves on an event whose messages are
    [group]: the direction they share, or [bidirectional]. *)
Definition summaryDirection (group : list WebSocketMessage) : Direction :=
  match group with
  | [] => Bidirectional
  | first :: rest =>
      if forallb (fun m => sameDirection (directionOf (msg_direction first))
                             (directionOf (msg_direction m))) rest
      then directionOf (msg_direction first)
      else Bidirectional
  end.

(** The event that the messages [group] of one name add up to. *)
Definition eventOf (eventName : string) (group : list WebSocketMessage) : WebSocketEvent :=
  mkWebSocketEvent eventName None (summaryDirection group) (firstn 5 group) (length group) None.

(** ** [detectProtocol] *)

(** The double quote character. *)
Definition quote : string := String (ascii_of_nat 34) EmptyString.

Definition looksLikeSocketIO (msg : WebSocketMessage) : bool :=
  match msg_data msg with
  | TextData text =>
      startsWith text "42"
      || includes text (quote ++ "event" ++ quote)
      || includes text (quote ++ "data" ++ quote)
  | BinaryData _ => false
  end.

Definition looksLikeSTOMP (msg : WebSocketMessage) : bool :=
  match msg_data msg with
  | TextData text =>
      startsWith text "CONNECT" || startsWith text "SEND" || startsWith text "MESSAGE"
  | BinaryData _ => false
  end.

Definition isJSONMessage (msg : WebSocketMessage) : bool :=
  match msg_type msg with
  | JSON => true
  | _ => false
  end.

(** [detectProtocol]; the [metadata] counters of the result are left
    out. *)
Definition detectProtocol (messages : list WebSocketMessage) : ProtocolDetectionResult :=
  let hasSocketIOPatterns := existsb looksLikeSocketIO messages in
  let '(protocol1, confidence1, reasoning1) :=
    if hasSocketIOPatterns
    then (SOCKET_IO, (4 # 5)%Q, ["Detected Socket.IO message patterns"])
    else (RAW, (1 # 2)%Q, []) in
  let hasSTOMPPatterns := existsb looksLikeSTOMP messages in
  let '(protocol2, confidence2, reasoning2) :=
    if hasSTOMPPatterns
    then (STOMP, (9 # 10)%Q, (reasoning1 ++ ["Detected STOMP protocol commands"])%list)
    else (protocol1, confidence1, reasoning1) in
  let jsonMessages := filter isJSONMessage messages in
  let '(confidence3, reasoning3) :=
    if (0 <? length jsonMessages)%nat
    then (if Qle_bool (7 # 10)%Q confidence2 then confidence2 else (7 # 10)%Q,
          (reasoning2
           ++ [("Found " ++ natToString (length jsonMessages) ++ " JSON messages")%string])%list)
    else (confidence2, reasoning2) in
  let reasoning4 :=
    if Nat.eqb (length reasoning3) 0
    then (reasoning3
          ++ ["No specific protocol patterns detected, assuming raw WebSocket"])%list
    else reasoning3 in
  mkProtocolDetectionResult protocol2 confidence3 reasoning4.

(** A captured text frame with an event name. *)
Definition eventMessage (event : string) (direction : MessageDirection) : WebSocketMessage :=
  mkWebSocketMessage "msg" TEXT direction (TextData "hello") None 0 5 (Some event).

End WebSocketEvents.

(* ================================================================== *)
(** * The explorer: connector registry and [introspect]                *)
(* ================================================================== *)

Module Explorer.

(** What the connectors read of [new URL(url)]: the protocol, the path,
    and whether the query string has a [query] parameter. *)
Record URL : Type := mkURL {
  u_protocol : string;
  u_pathname : string;
  u_hasQueryParameter : bool
}.

(** An [APIConnector], as the registry sees it. *)
Record Connector : Type := mkConnector {
  c_protocol : APIProtocol.t;
  c_canHandle : string -> bool
}.

Definition sameProtocol (a b : APIProtocol.t) : bool :=
  match a, b with
  | APIProtocol.REST, APIProtocol.REST
  | APIProtocol.GRAPHQL, APIProtocol.GRAPHQL
  | APIProtocol.WEBSOCKET, APIProtocol.WEBSOCKET => true
  | _, _ => false
  end.

(** [SimpleConnectorRegistry]: a [Map<APIProtocol, APIConnector>], kept
    as its entries in insertion order. *)
Fixpoint register (connector : Connector) (connectors : list (APIProtocol.t * Connector))
  : list (APIProtocol.t * Connector) :=
  match connectors with
  | [] => [(c_protocol connector, connector)]
  | (p, c) :: rest =>
      if sameProtocol (c_protocol connector) p
      then (c_protocol connector, connector) :: rest
      else (p, c) :: register connector rest
  end.

Fixpoint getConnector (protocol : APIProtocol.t) (connectors : list (APIProtocol.t * Connector))
  : option Connector :=
  match connectors with
  | [] => None
  | (p, c) :: rest => if sameProtocol protocol p then Some c else getConnector protocol rest
  end.

Definition getAllConnectors (connectors : list (APIProtocol.t * Connector)) : list Connector :=
  map snd connectors.

Definition findConnectorForUrl (connectors : list (APIProtocol.t * Connector)) (url : string)
  : option Connector :=
  find (fun connector => c_canHandle connector url) (getAllConnectors connectors).

Section Connectors.

(** [new URL(url)]: [None] when the constructor throws. *)
Variable parseURL : string -> option URL.
Variable toLowerCase : string -> string.

(** [RESTConnector.canHandle] *)
Definition restCanHandle (url : string) : bool :=
  match parseURL url with
  | Some urlObj =>
      let path := toLowerCase (u_pathname urlObj) in
      if existsb (fun indicator => includes path indicator)
           ["openapi"; "swagger"; "api-docs"; "docs"]
      then true
      else if endsWith path ".json" || endsWith path ".yaml" || endsWith path ".yml"
      then true
      else true
  | None => false
  end.

(** [GraphQLConnector.canHandle] *)
Definition graphqlCanHandle (url : string) : bool :=
  match parseURL url with
  | Some urlObj =>
      let path := toLowerCase (u_pathname urlObj) in
      existsb (fun pattern => includes path pattern)
        ["/graphql"; "/graphiql"; "/api/graphql"; "/v1/graphql"; "/query"]
      || u_hasQueryParameter urlObj
      || includes url "graphql"
  | None => false
  end.

(** [WebSocketConnector.canHandle] *)
Definition websocketCanHandle (url : string) : bool :=
  match parseURL url with
  | Some urlObj =>
      String.eqb (u_protocol urlObj) "ws:" || String.eqb (u_protocol urlObj) "wss:"
  | None => false
  end.

Definition GraphQLConnector : Connector := mkConnector APIProtocol.GRAPHQL graphqlCanHandle.
Definition RESTConnector : Connector := mkConnector APIProtocol.REST restCanHandle.
Definition WebSocketConnector : Connector :=
  mkConnector APIProtocol.WEBSOCKET websocketCanHandle.

(** The registry after [initialize]: GraphQL, REST, WebSocket, registered
    in this order. *)
Definition defaultRegistry : list (APIProtocol.t * Connector) :=
  register WebSocketConnector (register RESTConnector (register GraphQLConnector [])).

End Connectors.

(** ** [UniversalAPIExplorer.introspect] *)

(** What the [catch] block of [introspect] throws for a caught [e]. *)
Definition rethrown (e : JsError) : JsError :=
  match e_class e with
  | IntrospectionError | ConnectionError => e
  | _ => mkJsError IntrospectionError ("Introspection failed: " ++ e_message e)
  end.

Section Facade.

(** The [IntrospectionResult] of the connector, and the storage behind
    the [SchemaStorage] interface: [store] answers with the id or throws,
    and leaves a storage. *)
Variable R : Type.
Variable successOf : R -> bool.
Variable schemaOf : R -> option UniversalSchema.
Variable S : Type.
Variable store : UniversalSchema -> S -> Result string * S.

(** The storage classes: [construct type] is [new MemoryStorage()] or
    [new FileStorage()] for the types ['memory'] and ['file'], and
    [initializeOf] is [storage.initialize(this.config.storage)], which
    leaves a storage and may throw. *)
Variable construct : string -> S.
Variable initializeOf : S -> Result unit * S.

(** The fields of [UniversalAPIExplorer] that [introspect] reads and
    writes. *)
Record State : Type := mkState {
  ex_initialized : bool;
  ex_storage : S
}.

(** [initializeStorage]; [configured] is [this.config.storage?.type].
    The new storage is assigned before it is initialized, and a type that
    is neither ['memory'] nor ['file'] (the interface also allows
    ['database']) is a plain [Error]. *)
Definition initializeStorage (configured : option string) (storage : S) : Result unit * S :=
  match configured with
  | None => (Ok tt, storage)
  | Some type =>
      if String.eqb type "memory" || String.eqb type "file"
      then initializeOf (construct type)
      else (Throw (mkJsError PlainError ("Unsupported storage type: " ++ type)), storage)
  end.

(** [ensureInitialized], that is [initialize] on an explorer that is not
    initialized: the default connectors are registered, the storage is
    set up, and only then the explorer counts as initialized. *)
Definition ensureInitialized (configured : option string) (explorer : State)
  : Result unit * State :=
  if ex_initialized explorer then (Ok tt, explorer)
  else
    match initializeStorage configured (ex_storage explorer) with
    | (Ok _, storage) => (Ok tt, mkState true storage)
    | (Throw e, storage) => (Throw e, mkState false storage)
    end.

(** The auto-save step: a failure of the storage is logged and dropped. *)
Definition autoSaveResult (autoSave : bool) (result : R) (storage : S) : S :=
  if autoSave && successOf result then
    match schemaOf result with
    | Some schema => snd (store schema storage)
    | None => storage
    end
  else storage.

(** The [try] statement of [introspect], with its [catch].  [connector]
    is the [introspect] of the connector that the registry holds for the
    protocol once the explorer is initialized, applied to the merged
    configuration, or [None] when it holds none. *)
Definition tryIntrospect (connector : option (Http.M R)) (protocolName : string)
    (autoSave : bool) (t : nat) (storage : S) : Result R * nat * S :=
  match connector with
  | None =>
      (Throw (rethrown (mkJsError IntrospectionError
                          ("No connector available for protocol: " ++ protocolName))),
       t, storage)
  | Some introspectOf =>
      match introspectOf t with
      | (Ok result, t') => (Ok result, t', autoSaveResult autoSave result storage)
      | (Throw e, t') => (Throw (rethrown e), t', storage)
      end
  end.

(** [introspect]: [await this.ensureInitialized()] stands before the
    [try], so what the initialization throws leaves [introspect] as it
    is. *)
Definition introspect (configured : option string) (connector : option (Http.M R))
    (protocolName : string) (autoSave : bool) (t : nat) (explorer : State)
  : Result R * nat * State :=
  match ensureInitialized configured explorer with
  | (Throw e, explorer') => (Throw e, t, explorer')
  | (Ok _, explorer') =>
      match tryIntrospect connector protocolName autoSave t (ex_storage explorer') with
      | (out, t', storage) => (out, t', mkState (ex_initialized explorer') storage)
      end
  end.

End Facade.

Arguments mkState {S} _ _.
Arguments ex_initialized {S} _.
Arguments ex_storage {S} _.

(** [MemoryStorage.store] behind the storage interface.  A [store] that
    throws has not changed the map: it throws before the first deletion. *)
Definition memoryStore (now : Z) (schema : UniversalSchema) (storage : Storage.MemoryStorage)
  : Result string * Storage.MemoryStorage :=
  match Storage.store now schema storage with
  | Ok (storage', id_) => (Ok id_, storage')
  | Throw e => (Throw e, storage)
  end.

(** The memory storage behind the two storage classes of the closed
    examples: a new [MemoryStorage], and its [initialize] with no
    options, which never throws. *)
Definition memoryConstruct (type : string) : Storage.MemoryStorage :=
  Storage.newMemoryStorage.

Definition memoryInitialize (storage : Storage.MemoryStorage)
  : Result unit * Storage.MemoryStorage :=
  (Ok tt, Storage.initialize (Storage.mkMemoryStorageOptions None None None) storage).

(** A [URL] parser for closed examples: it knows one WebSocket URL. *)
Definition exampleParseURL (url : string) : option URL :=
  if String.eqb url "wss://echo.example.org/socket"
  then Some (mkURL "wss:" "/socket" false)
  else None.

End Explorer.

(* ================================================================== *)
(** * Properties                                                       *)
(* ================================================================== *)

(* ------------------------------------------------------------------ *)
(** ** Generic facts about the JavaScript helpers                      *)
(* ------------------------------------------------------------------ *)

Lemma In_obj_set {A : Type} (k : string) (v : A) (o : list (string * A)) (k0 : string) (v0 : A) :
  In (k0, v0) (obj_set k v o) -> (k0 = k /\ v0 = v) \/ In (k0, v0) o.
Proof.
  induction o as [| [k' v'] rest IH]; simpl.
  - intros [H | []]. inversion H. now left.
  - destruct (String.eqb k k') eqn:E; simpl.
    + intros [H | H]; [inversion H; now left | right; now right].
    + intros [H | H]; [right; now left |].
      destruct (IH H) as [Hl | Hr]; [now left | right; now right].
Qed.

Lemma obj_get_obj_set {A : Type} (k : string) (v : A) (o : list (string * A)) (k0 : string) :
  obj_get k0 (obj_set k v o) = if String.eqb k0 k then Some v else obj_get k0 o.
Proof.
  induction o as [| [k' v'] rest IH]; simpl.
  - reflexivity.
  - destruct (String.eqb k k') eqn:E; simpl.
    + apply String.eqb_eq in E. subst k'.
      destruct (String.eqb k0 k); reflexivity.
    + rewrite IH. destruct (String.eqb k0 k) eqn:E0; [| reflexivity].
      apply String.eqb_eq in E0. subst k0. now rewrite E.
Qed.

Lemma foldM_invariant {A S : Type} (body : S -> A -> Result S) (P : S -> Prop) (xs : list A) :
  (forall acc x acc', In x xs -> P acc -> body acc x = Ok acc' -> P acc') ->
  forall acc acc', P acc -> foldM body xs acc = Ok acc' -> P acc'.
Proof.
  induction xs as [| x rest IH]; simpl; intros Hstep acc acc' Hacc Hrun.
  - now inversion Hrun; subst.
  - destruct (body acc x) as [acc1 | e] eqn:E; simpl in Hrun; [| discriminate].
    apply (IH (fun a y a' Hy => Hstep a y a' (or_intror Hy)) acc1 acc'); [| exact Hrun].
    apply (Hstep acc x acc1); auto.
Qed.

Lemma mapM_total {A B : Type} (f : A -> Result B) (xs : list A) :
  (forall x, In x xs -> exists y, f x = Ok y) -> exists ys, mapM f xs = Ok ys.
Proof.
  induction xs as [| x rest IH]; simpl; intros H.
  - now exists [].
  - destruct (H x (or_introl eq_refl)) as [y Hy]. rewrite Hy. simpl.
    destruct (IH (fun z Hz => H z (or_intror Hz))) as [ys Hys]. rewrite Hys. simpl.
    now exists (y :: ys).
Qed.

(* ------------------------------------------------------------------ *)
(** ** GraphQL converter                                               *)
(* ------------------------------------------------------------------ *)

Section GraphQLFacts.
Import GraphQL.

Variable JSON_parse : string -> Result JsValue.

Lemma isNonNullType_outermost (t : GraphQLTypeRef) :
  isNonNullType t = true <-> tr_kind t = GraphQLTypeKind.NON_NULL.
Proof.
  unfold isNonNullType. destruct (tr_kind t); simpl; split; intros H; congruence.
Qed.

Lemma convertInputValueToParameter_required (iv : GraphQLInputValue) (p : OperationParameter) :
  convertInputValueToParameter JSON_parse iv = Ok p ->
  p_required p = isNonNullType (iv_type iv)
  /\ sf_required (p_schema p) = isNonNullType (iv_type iv)
  /\ sf_type (p_schema p) = convertGraphQLTypeToDataType (iv_type iv).
Proof.
  unfold convertInputValueToParameter.
  destruct (parseDefaultValue JSON_parse (iv_defaultValue iv)); simpl; [| discriminate].
  intros H. inversion H; subst. simpl. auto.
Qed.

Lemma fieldToSchemaField_required (field : GraphQLField) (sf : SchemaField) :
  fieldToSchemaField JSON_parse field = Ok sf ->
  sf_name sf = gf_name field
  /\ sf_required sf = isNonNullType (gf_type field)
  /\ sf_type sf = convertGraphQLTypeToDataType (gf_type field).
Proof.
  unfold fieldToSchemaField.
  destruct (mapM _ (gf_args field)); simpl; [| discriminate].
  intros H. inversion H; subst. simpl. auto.
Qed.

Lemma inputFieldToSchemaField_required (inputField : GraphQLInputValue) (sf : SchemaField) :
  inputFieldToSchemaField JSON_parse inputField = Ok sf ->
  sf_name sf = iv_name inputField
  /\ sf_required sf = isNonNullType (iv_type inputField)
  /\ sf_type sf = convertGraphQLTypeToDataType (iv_type inputField).
Proof.
  unfold inputFieldToSchemaField.
  destruct (parseDefaultValue JSON_parse (iv_defaultValue inputField)); simpl; [| discriminate].
  intros H. inversion H; subst. simpl. auto.
Qed.

Lemma convertTypeToSchemaField_properties (type : GraphQLType) (sf : SchemaField) :
  convertTypeToSchemaField JSON_parse type = Ok sf ->
  exists props,
    sf_properties sf = Some props
    /\ forall n g, In (n, g) props -> propertyOrigin JSON_parse type n g.
Proof.
  unfold convertTypeToSchemaField. intros H.
  set (P := fun props : list (string * SchemaField) =>
              forall n g, In (n, g) props -> propertyOrigin JSON_parse type n g).
  assert (P0 : P []) by (intros n g []).
  destruct (match gt_fields type with
            | Some fields => foldM (addField JSON_parse) fields []
            | None => Ok []
            end) as [props1 | e1] eqn:E1; simpl in H; [| discriminate].
  assert (P1 : P props1).
  { destruct (gt_fields type) as [fields |] eqn:Ef.
    - revert E1. apply foldM_invariant; [| exact P0].
      intros acc x acc' Hin Hacc Hbody n g Hng.
      unfold addField in Hbody.
      destruct (fieldToSchemaField JSON_parse x) as [f |] eqn:Ex; simpl in Hbody; [| discriminate].
      inversion Hbody; subst acc'.
      apply In_obj_set in Hng. destruct Hng as [[-> ->] | Hold]; [| now apply Hacc].
      left. exists fields, x. auto.
    - inversion E1; subst. exact P0. }
  destruct (match gt_inputFields type with
            | Some inputFields => foldM (addInputField JSON_parse) inputFields props1
            | None => Ok props1
            end) as [props2 | e2] eqn:E2; simpl in H; [| discriminate].
  assert (P2 : P props2).
  { destruct (gt_inputFields type) as [inputFields |] eqn:Ei.
    - revert E2. apply foldM_invariant; [| exact P1].
      intros acc x acc' Hin Hacc Hbody n g Hng.
      unfold addInputField in Hbody.
      destruct (inputFieldToSchemaField JSON_parse x) as [f |] eqn:Ex; simpl in Hbody; [| discriminate].
      inversion Hbody; subst acc'.
      apply In_obj_set in Hng. destruct Hng as [[-> ->] | Hold]; [| now apply Hacc].
      right. exists inputFields, x. auto.
    - inversion E2; subst. exact P1. }
  inversion H; subst. exists props2. split; [reflexivity | exact P2].
Qed.

End GraphQLFacts.

(** Claim C4, as the code has it: the [required] flag of a converted
    argument, field or input field is [true] exactly when the OUTERMOST
    wrapper of its introspected type is NON_NULL (a NON_NULL nested under a
    LIST does not count).  For arguments this is read off the returned
    parameter and its schema; for fields and input fields it is read off
    every property of the converted type. *)
Theorem C4_required_iff_outermost_non_null :
  forall JSON_parse : string -> Result JsValue,
    (forall inputValue p,
        GraphQL.convertInputValueToParameter JSON_parse inputValue = Ok p ->
        (p_required p = true <->
           GraphQL.tr_kind (GraphQL.iv_type inputValue) = GraphQLTypeKind.NON_NULL)
        /\ (sf_required (p_schema p) = true <->
              GraphQL.tr_kind (GraphQL.iv_type inputValue) = GraphQLTypeKind.NON_NULL))
    /\ (forall type sf,
           GraphQL.convertTypeToSchemaField JSON_parse type = Ok sf ->
           exists props,
             sf_properties sf = Some props
             /\ forall n g, In (n, g) props ->
                  (exists fields field,
                      GraphQL.gt_fields type = Some fields /\ In field fields
                      /\ GraphQL.gf_name field = n
                      /\ (sf_required g = true <->
                            GraphQL.tr_kind (GraphQL.gf_type field) = GraphQLTypeKind.NON_NULL))
                  \/ (exists inputFields inputField,
                         GraphQL.gt_inputFields type = Some inputFields
                         /\ In inputField inputFields
                         /\ GraphQL.iv_name inputField = n
                         /\ (sf_required g = true <->
                               GraphQL.tr_kind (GraphQL.iv_type inputField) = GraphQLTypeKind.NON_NULL))).
Proof.
  intros JSON_parse. split.
  - intros inputValue p H.
    destruct (convertInputValueToParameter_required JSON_parse inputValue p H) as (Hp & Hs & _).
    rewrite Hp, Hs. split; apply isNonNullType_outermost.
  - intros type sf H.
    destruct (convertTypeToSchemaField_properties JSON_parse type sf H) as (props & Hprops & Horigin).
    exists props. split; [exact Hprops |].
    intros n g Hin. destruct (Horigin n g Hin) as [(fs & f & Hfs & Hf & Hn & Hc) | (ifs & i & Hifs & Hi & Hn & Hc)].
    + left. exists fs, f. repeat split; auto.
      * destruct (fieldToSchemaField_required JSON_parse f g Hc) as (_ & Hr & _).
        rewrite Hr. apply isNonNullType_outermost.
      * destruct (fieldToSchemaField_required JSON_parse f g Hc) as (_ & Hr & _).
        rewrite Hr. apply isNonNullType_outermost.
    + right. exists ifs, i. repeat split; auto.
      * destruct (inputFieldToSchemaField_required JSON_parse i g Hc) as (_ & Hr & _).
        rewrite Hr. apply isNonNullType_outermost.
      * destruct (inputFieldToSchemaField_required JSON_parse i g Hc) as (_ & Hr & _).
        rewrite Hr. apply isNonNullType_outermost.
Qed.

(** The theorem at the argument [tags: [String!]] and at the type
    [Post { tags: [String!]  title: String! }]. *)
Lemma C4_witness :
  (p_required
     (mkParameter "tags" LocBody
        (mkSchemaField "tags" DataType.ARRAY false None None None None None None)
        false None) = true
   <-> GraphQL.tr_kind
         (GraphQL.ListOf (GraphQL.NonNull (GraphQL.NamedType GraphQLTypeKind.SCALAR "String")))
       = GraphQLTypeKind.NON_NULL)
  /\ exists props,
       sf_properties GraphQL.examplePostField = Some props
       /\ forall n g, In (n, g) props ->
            (exists fields field,
                GraphQL.gt_fields GraphQL.examplePostType = Some fields /\ In field fields
                /\ GraphQL.gf_name field = n
                /\ (sf_required g = true <->
                      GraphQL.tr_kind (GraphQL.gf_type field) = GraphQLTypeKind.NON_NULL))
            \/ (exists inputFields inputField,
                   GraphQL.gt_inputFields GraphQL.examplePostType = Some inputFields
                   /\ In inputField inputFields
                   /\ GraphQL.iv_name inputField = n
                   /\ (sf_required g = true <->
                         GraphQL.tr_kind (GraphQL.iv_type inputField) = GraphQLTypeKind.NON_NULL)).
Proof.
  split.
  - exact (proj1
             (proj1 (C4_required_iff_outermost_non_null JSON_parse_keywords)
                (GraphQL.mkInputValue "tags" None
                   (GraphQL.ListOf (GraphQL.NonNull (GraphQL.NamedType GraphQLTypeKind.SCALAR "String")))
                   None)
                _ eq_refl)).
  - exact (proj2 (C4_required_iff_outermost_non_null JSON_parse_keywords)
             GraphQL.examplePostType GraphQL.examplePostField eq_refl).
Defined.

(** Claim C4 as stated fails: the argument [tags: [String!]] has a NON_NULL
    wrapper in its chain, under the LIST, and converts to [required: false]
    both on the parameter and on its schema. *)
Lemma C4_counterexample :
  GraphQL.spec_nonNullAnywhere
    (GraphQL.ListOf (GraphQL.NonNull (GraphQL.NamedType GraphQLTypeKind.SCALAR "String"))) = true
  /\ GraphQL.convertInputValueToParameter JSON_parse_keywords
       (GraphQL.mkInputValue "tags" None
          (GraphQL.ListOf (GraphQL.NonNull (GraphQL.NamedType GraphQLTypeKind.SCALAR "String")))
          None)
     = Ok (mkParameter "tags" LocBody
             (mkSchemaField "tags" DataType.ARRAY false None None None None None None)
             false None)
  /\ ~ (forall inputValue p,
           GraphQL.convertInputValueToParameter JSON_parse_keywords inputValue = Ok p ->
           p_required p = GraphQL.spec_nonNullAnywhere (GraphQL.iv_type inputValue)).
Proof.
  split; [reflexivity |]. split; [reflexivity |].
  intros H.
  specialize (H (GraphQL.mkInputValue "tags" None
                   (GraphQL.ListOf (GraphQL.NonNull (GraphQL.NamedType GraphQLTypeKind.SCALAR "String")))
                   None) _ eq_refl).
  discriminate H.
Qed.

(** Claim C5: a field of wrapped type [NON_NULL(LIST(NON_NULL(String)))]
    converts to a SchemaField of type [array] with [required: true].  With
    no arguments the conversion returns exactly that field; with arguments
    it returns such a field unless an argument's default value makes
    [JSON.parse] throw; and the converted parent type stores it under the
    field's name. *)
Theorem C5_non_null_list_of_non_null_string :
  forall (JSON_parse : string -> Result JsValue)
         (name : string) (description : option string)
         (isDeprecated : bool) (deprecationReason : option string),
    GraphQL.fieldToSchemaField JSON_parse
      (GraphQL.mkField name description [] GraphQL.nonNullListOfNonNullString
         isDeprecated deprecationReason)
    = Ok (mkSchemaField name DataType.ARRAY true description None None None None
            (Some (MetaGraphQLField isDeprecated deprecationReason [])))
    /\ (forall args,
           match GraphQL.fieldToSchemaField JSON_parse
                   (GraphQL.mkField name description args GraphQL.nonNullListOfNonNullString
                      isDeprecated deprecationReason) with
           | Ok sf => sf_type sf = DataType.ARRAY /\ sf_required sf = true
           | Throw e => mapM (GraphQL.convertInputValueToParameter JSON_parse) args = Throw e
           end)
    /\ (forall kind typeName typeDescription,
           option_map sf_properties
             (match GraphQL.convertTypeToSchemaField JSON_parse
                      (GraphQL.mkType kind typeName typeDescription
                         (Some [GraphQL.mkField name description []
                                  GraphQL.nonNullListOfNonNullString
                                  isDeprecated deprecationReason])
                         None None None) with
              | Ok sf => Some sf
              | Throw _ => None
              end)
           = Some (Some [(name,
                          mkSchemaField name DataType.ARRAY true description None None None None
                            (Some (MetaGraphQLField isDeprecated deprecationReason [])))])).
Proof.
  intros JSON_parse name description isDeprecated deprecationReason.
  split; [reflexivity |]. split.
  - intros args. unfold GraphQL.fieldToSchemaField. simpl.
    destruct (mapM (GraphQL.convertInputValueToParameter JSON_parse) args); simpl; auto.
  - intros kind typeName typeDescription. reflexivity.
Qed.

(* ------------------------------------------------------------------ *)
(** ** REST converter                                                  *)
(* ------------------------------------------------------------------ *)

(** The definition of [convertOpenAPISchemaToSchemaField], in the shape of
    the source: resolve, then convert [items] and [properties] of the
    resolved schema. *)
Lemma convertOpenAPISchemaToSchemaField_unfold (schema : OpenAPI.OpenAPISchema) (name : string) :
  OpenAPI.convertOpenAPISchemaToSchemaField schema name
  = let resolvedSchema := OpenAPI.resolve schema in
    OpenAPI.fieldOfResolved resolvedSchema name
      (option_map (fun i => OpenAPI.convertOpenAPISchemaToSchemaField i "item")
         (OpenAPI.s_items resolvedSchema))
      (option_map (fun props =>
                     OpenAPI.convertProperties (OpenAPI.s_required resolvedSchema) props [])
         (OpenAPI.s_properties resolvedSchema)).
Proof.
  destruct schema as [ty fmt desc dflt ex en mn mx mnl mxl pat items props req ref nul ro wo dep].
  simpl. unfold OpenAPI.resolve. simpl.
  destruct ref as [r |]; simpl.
  - destruct (truthy_string r); simpl; [reflexivity |].
    f_equal. destruct props as [ps |]; simpl; [| reflexivity].
    f_equal. generalize (@nil (string * SchemaField)).
    induction ps as [| [pn psch] rest IH]; intros acc; simpl; [reflexivity | apply IH].
  - f_equal. destruct props as [ps |]; simpl; [| reflexivity].
    f_equal. generalize (@nil (string * SchemaField)).
    induction ps as [| [pn psch] rest IH]; intros acc; simpl; [reflexivity | apply IH].
Qed.

(** Claim C6, as the code has it: a schema object with a [$ref] converts to
    a fixed placeholder: a field of type [object] named after the
    conversion context, not required, with no [items], no [properties], no
    constraints and empty OpenAPI metadata.  Nothing of the referenced
    schema is inlined, and nothing of the reference (or of the sibling
    keys of the schema object) reaches the field. *)
Theorem C6_ref_converts_to_placeholder :
  forall (schema : OpenAPI.OpenAPISchema) (name : string),
    truthy_opt_string (OpenAPI.s_ref schema) = true ->
    OpenAPI.convertOpenAPISchemaToSchemaField schema name = OpenAPI.placeholderField name
    /\ sf_items (OpenAPI.convertOpenAPISchemaToSchemaField schema name) = None
    /\ sf_properties (OpenAPI.convertOpenAPISchemaToSchemaField schema name) = None.
Proof.
  intros schema name Href.
  assert (H : OpenAPI.convertOpenAPISchemaToSchemaField schema name
              = OpenAPI.placeholderField name).
  { destruct schema as [ty fmt desc dflt ex en mn mx mnl mxl pat items props req ref nul ro wo dep].
    simpl in Href. unfold OpenAPI.convertOpenAPISchemaToSchemaField.
    rewrite Href. unfold OpenAPI.resolve. simpl.
    destruct ref as [r |]; [| discriminate]. simpl in Href. rewrite Href. reflexivity. }
  rewrite H. repeat split.
Qed.

Lemma C6_witness :
  OpenAPI.convertOpenAPISchemaToSchemaField
    (OpenAPI.refOnly "#/components/schemas/Pet") "owner"
  = OpenAPI.placeholderField "owner"
  /\ sf_items (OpenAPI.convertOpenAPISchemaToSchemaField
                 (OpenAPI.refOnly "#/components/schemas/Pet") "owner") = None
  /\ sf_properties (OpenAPI.convertOpenAPISchemaToSchemaField
                      (OpenAPI.refOnly "#/components/schemas/Pet") "owner") = None.
Proof.
  exact (C6_ref_converts_to_placeholder
           (OpenAPI.refOnly "#/components/schemas/Pet") "owner" eq_refl).
Defined.

(** Claim C6 as stated fails: the references to [Pet] and to [Order]
    convert, under a property named [owner], to one and the same field, so
    the field cannot carry the referenced name. *)
Lemma C6_counterexample :
  OpenAPI.convertOpenAPISchemaToSchemaField
    (OpenAPI.refOnly "#/components/schemas/Pet") "owner"
  = OpenAPI.convertOpenAPISchemaToSchemaField
      (OpenAPI.refOnly "#/components/schemas/Order") "owner"
  /\ ~ OpenAPI.spec_carriesReferencedName.
Proof.
  split; [reflexivity |].
  intros [referencedName H].
  pose proof (H "#/components/schemas/Pet" "owner" eq_refl) as HPet.
  pose proof (H "#/components/schemas/Order" "owner" eq_refl) as HOrder.
  change (OpenAPI.convertOpenAPISchemaToSchemaField
            (OpenAPI.refOnly "#/components/schemas/Order") "owner")
    with (OpenAPI.convertOpenAPISchemaToSchemaField
            (OpenAPI.refOnly "#/components/schemas/Pet") "owner") in HOrder.
  rewrite HPet in HOrder. discriminate HOrder.
Qed.
(* ------------------------------------------------------------------ *)
(** ** Arrays: sort, slice, filter                                     *)
(* ------------------------------------------------------------------ *)

Lemma insertSorted_length {A : Type} (compare : A -> A -> Z) (x : A) (l : list A) :
  length (insertSorted compare x l) = S (length l).
Proof.
  induction l as [| y rest IH]; simpl; [reflexivity |].
  destruct (compare y x <=? 0)%Z; simpl; [now rewrite IH | reflexivity].
Qed.

Lemma sort_length {A : Type} (compare : A -> A -> Z) (l : list A) :
  length (sort compare l) = length l.
Proof.
  unfold sort.
  assert (H : forall acc,
             length (fold_left (fun acc x => insertSorted compare x acc) l acc)
             = length l + length acc).
  { induction l as [| x rest IH]; intros acc; simpl; [reflexivity |].
    rewrite IH, insertSorted_length. lia. }
  rewrite H. simpl. lia.
Qed.

Lemma filter_filter_andb {A : Type} (p q : A -> bool) (l : list A) :
  filter p (filter q l) = filter (fun x => q x && p x) l.
Proof.
  induction l as [| x rest IH]; simpl; [reflexivity |].
  destruct (q x); simpl; [destruct (p x) |]; now rewrite IH.
Qed.

Lemma filterIf_filter {A : Type} (cond : bool) (p : A -> bool) (l : list A) :
  Storage.filterIf cond p l = filter (fun x => if cond then p x else true) l.
Proof.
  unfold Storage.filterIf. destruct cond; [reflexivity |].
  induction l as [| x rest IH]; simpl; [reflexivity | now rewrite <- IH].
Qed.

Lemma clampIndex_le (len : nat) (i : Z) : clampIndex len i <= len.
Proof.
  unfold clampIndex. destruct (i <? 0)%Z eqn:E; [| apply Nat.le_min_r].
  apply Z.ltb_lt in E. lia.
Qed.

Lemma slice_length_le {A : Type} (l : list A) (start : Z) (end_ : option Z) :
  length (slice l start end_) <= length l.
Proof.
  unfold slice. rewrite length_firstn, length_skipn. lia.
Qed.

Lemma slice_to_limit_length {A : Type} (l : list A) (limit : Z) :
  (0 < limit)%Z -> (Z.of_nat (length (slice l 0 (Some limit))) <= limit)%Z.
Proof.
  intros Hpos. unfold slice. rewrite length_firstn.
  assert (Hc : clampIndex (length l) limit <= Z.to_nat limit).
  { unfold clampIndex. destruct (limit <? 0)%Z eqn:E; [apply Z.ltb_lt in E; lia |].
    apply Nat.le_min_l. }
  lia.
Qed.

(* ------------------------------------------------------------------ *)
(** ** Storage queries                                                 *)
(* ------------------------------------------------------------------ *)

Section StorageFacts.
Import Storage.

Variable toLowerCase : string -> string.
Variable parseDate : string -> Z.

Lemma paginate_length_le_limit {A : Type} (q : SchemaQuery) (limit : Z) (l : list A) :
  q_limit q = Some limit -> (0 < limit)%Z ->
  (Z.of_nat (length (paginate q l)) <= limit)%Z.
Proof.
  intros Hl Hpos. unfold paginate. rewrite Hl.
  assert (Ht : truthy_number limit = true).
  { unfold truthy_number. destruct (limit =? 0)%Z eqn:E; [apply Z.eqb_eq in E; lia | reflexivity]. }
  rewrite Ht. now apply slice_to_limit_length.
Qed.

Lemma paginate_length_le {A : Type} (q : SchemaQuery) (l : list A) :
  length (paginate q l) <= length l.
Proof.
  unfold paginate.
  set (afterOffset := match q_offset q with
                      | Some o => if truthy_number o then slice l o None else l
                      | None => l
                      end).
  assert (H1 : length afterOffset <= length l).
  { subst afterOffset. destruct (q_offset q) as [o |]; [| lia].
    destruct (truthy_number o); [apply slice_length_le | lia]. }
  destruct (q_limit q) as [lim |]; [| exact H1].
  destruct (truthy_number lim); [| exact H1].
  pose proof (slice_length_le afterOffset 0 (Some lim)). lia.
Qed.

Lemma computeHasMore_limit (total : nat) (q : SchemaQuery) (limit : Z) :
  q_limit q = Some limit -> limit <> 0%Z ->
  computeHasMore total q = (offsetOrZero (q_offset q) + limit <? Z.of_nat total)%Z.
Proof.
  intros Hl Hnz. unfold computeHasMore. rewrite Hl.
  unfold truthy_number. destruct (limit =? 0)%Z eqn:E; [apply Z.eqb_eq in E; contradiction |].
  reflexivity.
Qed.

Lemma applyFilters_spec (q : SchemaQuery) (l : list UniversalSchema) :
  applyFilters toLowerCase q l = filter (spec_matches toLowerCase q) l.
Proof.
  unfold applyFilters. rewrite !filterIf_filter, !filter_filter_andb.
  apply filter_ext. intros s. unfold spec_matches. rewrite !andb_assoc.
  destruct (q_discoveredAfter q), (q_discoveredBefore q); reflexivity.
Qed.

Lemma applyIndexFilters_spec (q : SchemaQuery) (l : list IndexEntry) :
  applyIndexFilters toLowerCase parseDate q l
  = filter (fun item =>
              (if truthy_opt_string (q_id q)
               then String.eqb (ie_id item) (optOr (q_id q) "") else true)
              && (if truthy_opt_string (q_name q)
                  then includesIgnoreCase toLowerCase (ie_name item) (optOr (q_name q) "")
                  else true)
              && (if truthy_opt_string (q_protocol q)
                  then String.eqb (ie_protocol item) (optOr (q_protocol q) "") else true)
              && (if truthy_opt_string (q_source q)
                  then optIncludesIgnoreCase toLowerCase (ie_source item) (optOr (q_source q) "")
                  else true)
              && (match q_discoveredAfter q with
                  | Some d => (d <=? parseDate (ie_discoveredAt item))%Z
                  | None => true
                  end)
              && (match q_discoveredBefore q with
                  | Some d => (parseDate (ie_discoveredAt item) <=? d)%Z
                  | None => true
                  end)) l.
Proof.
  unfold applyIndexFilters. rewrite !filterIf_filter, !filter_filter_andb.
  apply filter_ext. intros s. rewrite !andb_assoc.
  destruct (q_discoveredAfter q), (q_discoveredBefore q); reflexivity.
Qed.

(** The search loop keeps the entries whose schema file is there and
    matches, provided no file is unreadable. *)
Lemma search_loop_spec (st : FileStorage) (term : string) (items acc out : list IndexEntry) :
  foldM (searchStep toLowerCase st term) items acc = Ok out ->
  out = (acc ++ filter (fun item =>
                          match f_files st (ie_id item) with
                          | Stored schema => searchMatches toLowerCase term schema
                          | _ => false
                          end) items)%list.
Proof.
  revert acc. induction items as [| item rest IH]; simpl; intros acc H.
  - inversion H. now rewrite app_nil_r.
  - unfold searchStep at 1 in H. unfold retrieve in H.
    destruct (ensureInitialized "File" (f_initialized st)); simpl in H; [| discriminate].
    destruct (f_files st (ie_id item)) as [| msg | schema]; simpl in H; try discriminate.
    + now apply IH.
    + destruct (searchMatches toLowerCase term schema).
      * apply IH in H. rewrite H, <- app_assoc. reflexivity.
      * now apply IH.
Qed.

Lemma load_loop_length (st : FileStorage) (items : list IndexEntry)
    (acc out : list UniversalSchema) :
  foldM (loadStep st) items acc = Ok out ->
  length out <= length acc + length items.
Proof.
  revert acc. induction items as [| item rest IH]; simpl; intros acc H.
  - inversion H. lia.
  - unfold loadStep at 1 in H.
    destruct (retrieve (ie_id item) st) as [[schema |] | e]; simpl in H; try discriminate.
    + apply IH in H. rewrite length_app in H. simpl in H. lia.
    + apply IH in H. lia.
Qed.

End StorageFacts.

Lemma memory_query_returns (toLowerCase : string -> string)
    (q : Storage.SchemaQuery) (st : Storage.MemoryStorage) :
  Storage.m_initialized st = true ->
  Storage.query toLowerCase q st
  = Ok (Storage.mkSchemaQueryResult
          (Storage.paginate q
             (sort (fun a b => (discoveredAt b - discoveredAt a)%Z)
                (Storage.applyFilters toLowerCase q (map snd (Storage.m_schemas st)))))
          (length (Storage.applyFilters toLowerCase q (map snd (Storage.m_schemas st))))
          (Storage.computeHasMore
             (length (Storage.applyFilters toLowerCase q (map snd (Storage.m_schemas st)))) q)).
Proof.
  intros Hinit. unfold Storage.query, Storage.ensureInitialized. rewrite Hinit. simpl.
  now rewrite sort_length.
Qed.

Lemma file_query_inversion (toLowerCase : string -> string) (parseDate : string -> Z)
    (q : Storage.SchemaQuery) (st : Storage.FileStorage) (r : Storage.SchemaQueryResult) :
  Storage.fileQuery toLowerCase parseDate q st = Ok r ->
  Storage.totalCount r
  = length (filter (Storage.spec_matchesEntry toLowerCase parseDate q st)
              (map snd (Storage.f_index st)))
  /\ length (Storage.schemas r)
     <= length (Storage.paginate q
                  (sort (fun a b => (parseDate (Storage.ie_discoveredAt b)
                                     - parseDate (Storage.ie_discoveredAt a))%Z)
                     (filter (Storage.spec_matchesEntry toLowerCase parseDate q st)
                        (map snd (Storage.f_index st)))))
  /\ Storage.hasMore r = Storage.computeHasMore (Storage.totalCount r) q.
Proof.
  unfold Storage.fileQuery.
  destruct (Storage.ensureInitialized "File" (Storage.f_initialized st)); simpl; [| discriminate].
  destruct (Storage.queryBody toLowerCase parseDate q st) as [r' | e] eqn:Hbody; [| discriminate].
  intros H. inversion H; subst r'. clear H.
  unfold Storage.queryBody in Hbody.
  set (results := Storage.applyIndexFilters toLowerCase parseDate q
                    (map snd (Storage.f_index st))) in *.
  destruct (if truthy_opt_string (Storage.q_search q)
            then foldM (Storage.searchStep toLowerCase st
                          (toLowerCase (Storage.optOr (Storage.q_search q) ""))) results []
            else Ok results) as [searched | e] eqn:Hsearch; simpl in Hbody; [| discriminate].
  assert (Hs : searched
               = filter (Storage.spec_matchesEntry toLowerCase parseDate q st)
                   (map snd (Storage.f_index st))).
  { subst results. rewrite applyIndexFilters_spec in Hsearch.
    destruct (truthy_opt_string (Storage.q_search q)) eqn:Et.
    - apply search_loop_spec in Hsearch. simpl in Hsearch. rewrite Hsearch.
      rewrite filter_filter_andb. apply filter_ext. intros item.
      unfold Storage.spec_matchesEntry. rewrite Et. reflexivity.
    - inversion Hsearch. apply filter_ext. intros item.
      unfold Storage.spec_matchesEntry. rewrite Et. now rewrite andb_true_r. }
  destruct (foldM (Storage.loadStep st) _ []) as [loaded | e] eqn:Hload;
    simpl in Hbody; [| discriminate].
  inversion Hbody; subst r; simpl. clear Hbody.
  apply load_loop_length in Hload. simpl in Hload.
  rewrite sort_length, <- Hs. repeat split; auto.
Qed.

(** With a zero limit the pagination is the offset step alone. *)
Lemma paginate_limit_zero {A : Type} (q : Storage.SchemaQuery) (l : list A) :
  Storage.q_limit q = Some 0%Z ->
  Storage.paginate q l = slice l (Storage.offsetOrZero (Storage.q_offset q)) None.
Proof.
  intros Hl. unfold Storage.paginate, Storage.offsetOrZero. rewrite Hl. cbn [truthy_number].
  assert (Hall : slice l 0 None = l).
  { unfold slice, clampIndex. simpl. rewrite Nat.sub_0_r. apply firstn_all. }
  destruct (Storage.q_offset q) as [o |]; [| now rewrite Hall].
  unfold truthy_number. destruct (o =? 0)%Z eqn:E; [| reflexivity].
  apply Z.eqb_eq in E. subst o. now rewrite Hall.
Qed.

Lemma computeHasMore_limit_zero (total : nat) (q : Storage.SchemaQuery) :
  Storage.q_limit q = Some 0%Z -> Storage.computeHasMore total q = false.
Proof. intros Hl. unfold Storage.computeHasMore. now rewrite Hl. Qed.

(** The loading loop collects the schemas whose file is there. *)
Lemma load_loop_spec (st : Storage.FileStorage) (items : list Storage.IndexEntry)
    (acc out : list UniversalSchema) :
  foldM (Storage.loadStep st) items acc = Ok out ->
  out = (acc ++ Storage.storedSchemas st items)%list.
Proof.
  revert acc. induction items as [| item rest IH]; simpl; intros acc H.
  - inversion H. now rewrite app_nil_r.
  - unfold Storage.loadStep at 1 in H. unfold Storage.retrieve in H.
    destruct (Storage.ensureInitialized "File" (Storage.f_initialized st));
      simpl in H; [| discriminate].
    destruct (Storage.f_files st (Storage.ie_id item)) as [| message | schema];
      simpl in H; try discriminate.
    + now apply IH in H.
    + apply IH in H. now rewrite <- app_assoc in H.
Qed.

(** The schemas that [FileStorage.query] returns are those it could load
    for the page of index entries. *)
Lemma file_query_schemas (toLowerCase : string -> string) (parseDate : string -> Z)
    (q : Storage.SchemaQuery) (st : Storage.FileStorage) (r : Storage.SchemaQueryResult) :
  Storage.fileQuery toLowerCase parseDate q st = Ok r ->
  Storage.schemas r
  = Storage.storedSchemas st
      (Storage.paginate q
         (sort (fun a b => (parseDate (Storage.ie_discoveredAt b)
                            - parseDate (Storage.ie_discoveredAt a))%Z)
            (filter (Storage.spec_matchesEntry toLowerCase parseDate q st)
               (map snd (Storage.f_index st))))).
Proof.
  unfold Storage.fileQuery.
  destruct (Storage.ensureInitialized "File" (Storage.f_initialized st)); simpl; [| discriminate].
  destruct (Storage.queryBody toLowerCase parseDate q st) as [r' | e] eqn:Hbody; [| discriminate].
  intros H. inversion H; subst r'. clear H.
  unfold Storage.queryBody in Hbody.
  set (results := Storage.applyIndexFilters toLowerCase parseDate q
                    (map snd (Storage.f_index st))) in *.
  destruct (if truthy_opt_string (Storage.q_search q)
            then foldM (Storage.searchStep toLowerCase st
                          (toLowerCase (Storage.optOr (Storage.q_search q) ""))) results []
            else Ok results) as [searched | e] eqn:Hsearch; simpl in Hbody; [| discriminate].
  assert (Hs : searched
               = filter (Storage.spec_matchesEntry toLowerCase parseDate q st)
                   (map snd (Storage.f_index st))).
  { subst results. rewrite applyIndexFilters_spec in Hsearch.
    destruct (truthy_opt_string (Storage.q_search q)) eqn:Et.
    - apply search_loop_spec in Hsearch. simpl in Hsearch. rewrite Hsearch.
      rewrite filter_filter_andb. apply filter_ext. intros item.
      unfold Storage.spec_matchesEntry. rewrite Et. reflexivity.
    - inversion Hsearch. apply filter_ext. intros item.
      unfold Storage.spec_matchesEntry. rewrite Et. now rewrite andb_true_r. }
  destruct (foldM (Storage.loadStep st) _ []) as [loaded | e] eqn:Hload;
    simpl in Hbody; [| discriminate].
  inversion Hbody; subst r; simpl. clear Hbody.
  apply load_loop_spec in Hload. simpl in Hload. now rewrite Hload, Hs.
Qed.

(** Claim C3, as the code has it.  For a query with a POSITIVE [limit] L
    (and any offset O, absent meaning 0) both backends return at most L
    schemas, [totalCount] is the number of stored schemas that match the
    filters, counted before pagination, and [hasMore] is
    [totalCount > O + L].  A [limit] of 0 is no limit: [totalCount] is
    the same count, [hasMore] is [false], and the schemas are all the
    matches from the offset on, newest first (from the file backend:
    those of them whose schema file is there).  The memory backend
    returns such a result whenever it is initialized; the file backend
    whenever its query returns at all. *)
Theorem C3_query_pagination :
  forall (toLowerCase : string -> string) (parseDate : string -> Z)
         (q : Storage.SchemaQuery),
    (forall limit : Z,
        Storage.q_limit q = Some limit ->
        (0 < limit)%Z ->
        (forall st : Storage.MemoryStorage,
            Storage.m_initialized st = true ->
            exists r,
              Storage.query toLowerCase q st = Ok r
              /\ (Z.of_nat (length (Storage.schemas r)) <= limit)%Z
              /\ Storage.totalCount r
                 = length (filter (Storage.spec_matches toLowerCase q)
                             (map snd (Storage.m_schemas st)))
              /\ Storage.hasMore r
                 = (Storage.offsetOrZero (Storage.q_offset q) + limit
                    <? Z.of_nat (Storage.totalCount r))%Z)
        /\ (forall (st : Storage.FileStorage) (r : Storage.SchemaQueryResult),
               Storage.fileQuery toLowerCase parseDate q st = Ok r ->
               (Z.of_nat (length (Storage.schemas r)) <= limit)%Z
               /\ Storage.totalCount r
                  = length (filter (Storage.spec_matchesEntry toLowerCase parseDate q st)
                              (map snd (Storage.f_index st)))
               /\ Storage.hasMore r
                  = (Storage.offsetOrZero (Storage.q_offset q) + limit
                     <? Z.of_nat (Storage.totalCount r))%Z))
    /\ (Storage.q_limit q = Some 0%Z ->
        (forall st : Storage.MemoryStorage,
            Storage.m_initialized st = true ->
            exists r,
              Storage.query toLowerCase q st = Ok r
              /\ Storage.schemas r
                 = slice
                     (sort (fun a b => (discoveredAt b - discoveredAt a)%Z)
                        (filter (Storage.spec_matches toLowerCase q)
                           (map snd (Storage.m_schemas st))))
                     (Storage.offsetOrZero (Storage.q_offset q)) None
              /\ Storage.totalCount r
                 = length (filter (Storage.spec_matches toLowerCase q)
                             (map snd (Storage.m_schemas st)))
              /\ Storage.hasMore r = false)
        /\ (forall (st : Storage.FileStorage) (r : Storage.SchemaQueryResult),
               Storage.fileQuery toLowerCase parseDate q st = Ok r ->
               Storage.schemas r
               = Storage.storedSchemas st
                   (slice
                      (sort (fun a b => (parseDate (Storage.ie_discoveredAt b)
                                         - parseDate (Storage.ie_discoveredAt a))%Z)
                         (filter (Storage.spec_matchesEntry toLowerCase parseDate q st)
                            (map snd (Storage.f_index st))))
                      (Storage.offsetOrZero (Storage.q_offset q)) None)
               /\ Storage.totalCount r
                  = length (filter (Storage.spec_matchesEntry toLowerCase parseDate q st)
                              (map snd (Storage.f_index st)))
               /\ Storage.hasMore r = false)).
Proof.
  intros toLowerCase parseDate q. split.
  - intros limit Hlimit Hpos. split.
    + intros st Hinit. eexists. split; [now apply memory_query_returns |]. simpl.
      split; [now apply paginate_length_le_limit |].
      split; [now rewrite applyFilters_spec |].
      apply computeHasMore_limit; [exact Hlimit | lia].
    + intros st r H.
      destruct (file_query_inversion toLowerCase parseDate q st r H) as (Ht & Hlen & Hm).
      split.
      * pose proof (paginate_length_le_limit q limit
                      (sort (fun a b => (parseDate (Storage.ie_discoveredAt b)
                                         - parseDate (Storage.ie_discoveredAt a))%Z)
                         (filter (Storage.spec_matchesEntry toLowerCase parseDate q st)
                            (map snd (Storage.f_index st)))) Hlimit Hpos).
        lia.
      * split; [exact Ht |]. rewrite Hm.
        apply computeHasMore_limit; [exact Hlimit | lia].
  - intros Hzero. split.
    + intros st Hinit. eexists. split; [now apply memory_query_returns |]. simpl.
      split; [now rewrite paginate_limit_zero, applyFilters_spec |].
      split; [now rewrite applyFilters_spec |].
      now apply computeHasMore_limit_zero.
    + intros st r H.
      destruct (file_query_inversion toLowerCase parseDate q st r H) as (Ht & _ & Hm).
      split; [| split; [exact Ht |]].
      * rewrite (file_query_schemas toLowerCase parseDate q st r H).
        now rewrite paginate_limit_zero.
      * rewrite Hm. now apply computeHasMore_limit_zero.
Qed.

(** The theorem at [{ limit: 1 }] and at [{ limit: 0, offset: 1 }] on a
    memory store and on a schema directory that each hold two schemas:
    the first query returns the newer schema and reports more, the second
    returns the older one and reports no more. *)
Lemma C3_witness :
  ((exists r,
       Storage.query asciiToLowerCase (Storage.limitQuery 1) Storage.exampleMemory = Ok r
       /\ (Z.of_nat (length (Storage.schemas r)) <= 1)%Z
       /\ Storage.totalCount r
          = length (filter (Storage.spec_matches asciiToLowerCase (Storage.limitQuery 1))
                      (map snd (Storage.m_schemas Storage.exampleMemory)))
       /\ Storage.hasMore r
          = (Storage.offsetOrZero (Storage.q_offset (Storage.limitQuery 1)) + 1
             <? Z.of_nat (Storage.totalCount r))%Z)
   /\ ((Z.of_nat (length [Storage.exampleSchema "b" 2000]) <= 1)%Z
       /\ 2 = length (filter (Storage.spec_matchesEntry asciiToLowerCase
                                Storage.exampleParseDate (Storage.limitQuery 1)
                                Storage.exampleDirectory)
                        (map snd (Storage.f_index Storage.exampleDirectory)))
       /\ true = (Storage.offsetOrZero (Storage.q_offset (Storage.limitQuery 1)) + 1
                  <? Z.of_nat 2)%Z))
  /\ ((exists r,
          Storage.query asciiToLowerCase (Storage.limitOffsetQuery 0 1) Storage.exampleMemory
          = Ok r
          /\ Storage.schemas r = [Storage.exampleSchema "a" 1000]
          /\ Storage.totalCount r = 2
          /\ Storage.hasMore r = false)
      /\ Storage.fileQuery asciiToLowerCase Storage.exampleParseDate
           (Storage.limitOffsetQuery 0 1) Storage.exampleDirectory
         = Ok (Storage.mkSchemaQueryResult [Storage.exampleSchema "a" 1000] 2 false)).
Proof.
  split; [split |].
  - exact (proj1 (proj1 (C3_query_pagination asciiToLowerCase Storage.exampleParseDate
                           (Storage.limitQuery 1)) 1%Z eq_refl eq_refl)
             Storage.exampleMemory eq_refl).
  - exact (proj2 (proj1 (C3_query_pagination asciiToLowerCase Storage.exampleParseDate
                           (Storage.limitQuery 1)) 1%Z eq_refl eq_refl)
             Storage.exampleDirectory
             (Storage.mkSchemaQueryResult [Storage.exampleSchema "b" 2000] 2 true)
             eq_refl).
  - split.
    + exact (proj1 (proj2 (C3_query_pagination asciiToLowerCase Storage.exampleParseDate
                             (Storage.limitOffsetQuery 0 1)) eq_refl)
               Storage.exampleMemory eq_refl).
    + reflexivity.
Defined.

(** Claim C3 as stated fails at [limit = 0]: both backends treat a zero
    limit as no limit, return both stored schemas (more than L = 0) and
    answer [hasMore: false] although [totalCount = 2 > 0 + 0]. *)
Lemma C3_counterexample :
  Storage.query asciiToLowerCase (Storage.limitQuery 0) Storage.exampleMemory
  = Ok (Storage.mkSchemaQueryResult
          [Storage.exampleSchema "b" 2000; Storage.exampleSchema "a" 1000] 2 false)
  /\ Storage.fileQuery asciiToLowerCase Storage.exampleParseDate (Storage.limitQuery 0)
       Storage.exampleDirectory
     = Ok (Storage.mkSchemaQueryResult
             [Storage.exampleSchema "b" 2000; Storage.exampleSchema "a" 1000] 2 false)
  /\ ~ (Z.of_nat (length [Storage.exampleSchema "b" 2000; Storage.exampleSchema "a" 1000])
        <= 0)%Z
  /\ false <> (0 + 0 <? Z.of_nat 2)%Z.
Proof.
  split; [reflexivity |]. split; [reflexivity |]. split; [simpl; lia | discriminate].
Qed.

(* ------------------------------------------------------------------ *)
(** ** The [maxSchemas] ceiling of the memory backend                  *)
(* ------------------------------------------------------------------ *)

Lemma obj_set_length {A : Type} (k : string) (v : A) (o : list (string * A)) :
  length (obj_set k v o) <= S (length o).
Proof.
  induction o as [| [k' v'] rest IH]; simpl; [lia |].
  destruct (String.eqb k k'); simpl; lia.
Qed.

Lemma mapDelete_length_le {A : Type} (key : string) (m : list (string * A)) :
  length (Storage.mapDelete key m) <= length m.
Proof. apply filter_length_le. Qed.

Lemma mapDelete_length_lt {A : Type} (key : string) (v : A) (m : list (string * A)) :
  In (key, v) m -> length (Storage.mapDelete key m) < length m.
Proof.
  induction m as [| [k' v'] rest IH]; simpl; [intros [] |].
  intros [H | H].
  - inversion H; subst. rewrite String.eqb_refl. simpl.
    pose proof (mapDelete_length_le key rest). unfold Storage.mapDelete in *. lia.
  - specialize (IH H). unfold Storage.mapDelete in *.
    destruct (negb (String.eqb k' key)); simpl; lia.
Qed.

Lemma deleteOldest_length_le (n : nat) (sorted m m' : list (string * UniversalSchema)) :
  Storage.deleteOldest n sorted m = Ok m' -> length m' <= length m.
Proof.
  revert sorted m. induction n as [| k IH]; simpl; intros sorted m H.
  - inversion H. lia.
  - destruct sorted as [| [key s] rest]; [discriminate |].
    apply IH in H. pose proof (mapDelete_length_le key m). lia.
Qed.

Lemma In_insertSorted {A : Type} (compare : A -> A -> Z) (x y : A) (l : list A) :
  In y (insertSorted compare x l) -> y = x \/ In y l.
Proof.
  induction l as [| z rest IH]; simpl.
  - intros [H | []]. now left.
  - destruct (compare z x <=? 0)%Z; simpl.
    + intros [H | H]; [right; now left |].
      destruct (IH H); [now left | right; now right].
    + intros [H | [H | H]]; [now left | right; now left | right; now right].
Qed.

Lemma In_sort {A : Type} (compare : A -> A -> Z) (y : A) (l : list A) :
  In y (sort compare l) -> In y l.
Proof.
  unfold sort.
  assert (H : forall acc,
             In y (fold_left (fun acc x => insertSorted compare x acc) l acc) ->
             In y l \/ In y acc).
  { induction l as [| x rest IH]; intros acc; simpl; [now right |].
    intros Hin. destruct (IH _ Hin) as [Hr | Hacc]; [left; now right |].
    destruct (In_insertSorted _ _ _ _ Hacc); [left; now left | now right]. }
  intros Hin. destruct (H [] Hin) as [Hl | []]. exact Hl.
Qed.

(** With no [maxAge] configured (the oldest-tenth eviction) a [store] on a
    store that is within a positive ceiling leaves it within the ceiling. *)
Lemma store_within_maxSchemas_without_maxAge
    (now : Z) (schema : UniversalSchema) (st st' : Storage.MemoryStorage)
    (ceiling : Z) (i : string) :
  truthy_opt_number (Storage.maxAge (Storage.m_config st)) = false ->
  Storage.maxSchemas (Storage.m_config st) = Some ceiling ->
  (0 < ceiling)%Z ->
  (Z.of_nat (length (Storage.m_schemas st)) <= ceiling)%Z ->
  Storage.store now schema st = Ok (st', i) ->
  (Z.of_nat (length (Storage.m_schemas st')) <= ceiling)%Z
  /\ Storage.m_config st' = Storage.m_config st.
Proof.
  intros Hage Hmax Hpos Hinv. unfold Storage.store.
  destruct (Storage.ensureInitialized "Memory" (Storage.m_initialized st)); simpl; [| discriminate].
  unfold Storage.needsRoom. rewrite Hmax.
  assert (Ht : truthy_number ceiling = true).
  { unfold truthy_number. destruct (ceiling =? 0)%Z eqn:E; [apply Z.eqb_eq in E; lia | reflexivity]. }
  rewrite Ht. simpl.
  destruct (ceiling <=? Z.of_nat (length (Storage.m_schemas st)))%Z eqn:Efull.
  - unfold Storage.cleanup. rewrite Hage. simpl.
    set (sorted := sort _ (Storage.m_schemas st)).
    destruct (Storage.deleteOldest (Storage.tenPercent (length sorted)) sorted
                (Storage.m_schemas st)) as [m |] eqn:Edel; simpl; [| discriminate].
    intros H. inversion H; subst st' i. simpl. split; [| reflexivity].
    assert (Hlt : length m < length (Storage.m_schemas st)).
    { unfold Storage.tenPercent in Edel.
      destruct (Nat.max 1 (length sorted / 10)) as [| k] eqn:Ek; [lia |].
      simpl in Edel. destruct sorted as [| [key s] rest] eqn:Es; [discriminate |].
      assert (Hin : In (key, s) (Storage.m_schemas st)).
      { apply (In_sort (fun a b => (discoveredAt (snd a) - discoveredAt (snd b))%Z)).
        fold sorted. rewrite Es. now left. }
      apply deleteOldest_length_le in Edel.
      pose proof (mapDelete_length_lt key s _ Hin). lia. }
    pose proof (obj_set_length (id schema) schema m). lia.
  - intros H. inversion H; subst st' i. simpl. split; [| reflexivity].
    apply Z.leb_gt in Efull.
    pose proof (obj_set_length (id schema) schema (Storage.m_schemas st)). lia.
Qed.

(** Claim C8 on the code: a memory store initialized with
    [{ maxSchemas: 1 }] keeps the default [maxAge] of 24 hours; storing two
    schemas discovered at the time of the calls evicts nothing, and the
    store then holds 2 schemas, above its ceiling of 1. *)
Theorem C8_store_exceeds_maxSchemas :
  exists st1 st2 : Storage.MemoryStorage,
    Storage.store 5000 (Storage.exampleSchema "a" 5000)
      (Storage.initialize
         (Storage.mkMemoryStorageOptions (Some (Some 1%Z)) None None)
         Storage.newMemoryStorage)
    = Ok (st1, "a")
    /\ Storage.store 5000 (Storage.exampleSchema "b" 5000) st1 = Ok (st2, "b")
    /\ Storage.maxSchemas (Storage.m_config st2) = Some 1%Z
    /\ Storage.maxAge (Storage.m_config st2) = Some 86400000%Z
    /\ length (Storage.m_schemas st2) = 2.
Proof.
  eexists. eexists. split; [reflexivity |]. split; [reflexivity |].
  repeat split.
Qed.

(* ------------------------------------------------------------------ *)
(** ** REST connector: discovery                                       *)
(* ------------------------------------------------------------------ *)

Section RestFacts.
Import Rest.

Variable toLowerCase : string -> string.
Variable world : World.

Lemma probePaths_exhausted (baseUrl : string) (pathsToTry : list string) (t : nat) :
  (forall t' path, In path pathsToTry -> probeFails (axios_head world t' (baseUrl ++ path))) ->
  probePaths world baseUrl pathsToTry t = (Ok None, t + length pathsToTry).
Proof.
  revert t. induction pathsToTry as [| path rest IH]; intros t H; simpl.
  - unfold Http.ret. f_equal. lia.
  - unfold head. pose proof (H t path (or_introl eq_refl)) as Hp.
    destruct (axios_head world t (baseUrl ++ path)) as [contentType |]; simpl in Hp.
    + rewrite Hp. rewrite IH; [f_equal; lia |].
      intros t' p Hin. apply H. now right.
    + rewrite IH; [f_equal; lia |].
      intros t' p Hin. apply H. now right.
Qed.

Lemma introspect_connection_test_failed (config : RESTConnectorConfig) (t t1 : nat)
    (ct : ConnectionTestResult) :
  testConnection toLowerCase world config t = (Ok ct, t1) ->
  ct_success ct = false ->
  introspect toLowerCase world config t
  = (Ok (mkIntrospectionResult false None
           (Some ("Connection test failed: "
                  ++ match ct_error ct with Some e => e | None => "undefined" end))
           None (ct_metadata ct)), t1).
Proof.
  intros Htest Hfail. unfold introspect, Http.tryCatch, introspectBody, Http.bindM.
  rewrite Htest, Hfail. reflexivity.
Qed.

Lemma introspect_after_fetch (config : RESTConnectorConfig) (t t1 t2 : nat)
    (ct : ConnectionTestResult) (specUrl : string) (data : ResponseData) :
  testConnection toLowerCase world config t = (Ok ct, t1) ->
  ct_success ct = true ->
  discoverSpecificationUrl toLowerCase world config t1 = (Ok (Some specUrl), t2) ->
  axios_get world t2 specUrl = GetResponse data ->
  introspect toLowerCase world config t
  = (match (spec <- parseSpecification world data specUrl ;;
            introspectParsed world config specUrl data spec) with
     | Ok r => Ok r
     | Throw e => Throw (rethrown e)
     end, S t2).
Proof.
  intros Htest Hok Hdisc Hget.
  unfold introspect, Http.tryCatch, introspectBody, Http.bindM.
  rewrite Htest, Hok. simpl. rewrite Hdisc. unfold fetchSpecification. rewrite Hget.
  destruct (spec <- parseSpecification world data specUrl ;;
            introspectParsed world config specUrl data spec) as [r | e]; [reflexivity |].
  unfold rethrown, Http.throw. destruct (e_class e); reflexivity.
Qed.

End RestFacts.

(** Claim C9, as the code has it: under the default configuration, for a
    base URL that does not itself look like a specification URL and where
    none of the 12 common paths answers the probe acceptably, REST
    [introspect] returns [success: false] after 12 probes, with the error
    "Connection test failed: Could not discover OpenAPI specification URL"
    and [metadata.triedPaths] the 12 common paths. *)
Theorem C9_discovery_exhausted :
  forall (toLowerCase : string -> string) (world : Rest.World) (url : string) (t : nat),
    Rest.looksLikeSpecUrl toLowerCase url = false ->
    (forall t' path,
        In path Rest.COMMON_OPENAPI_PATHS ->
        Rest.probeFails (Rest.axios_head world t' (Rest.removeTrailingSlash url ++ path))) ->
    Rest.introspect toLowerCase world (Rest.defaultConfig url) t
    = (Ok (Rest.discoveryFailed url), t + 12)
    /\ Rest.success (Rest.discoveryFailed url) = false
    /\ Rest.metadata (Rest.discoveryFailed url)
       = Some (Rest.MetaTriedPaths url Rest.COMMON_OPENAPI_PATHS)
    /\ length Rest.COMMON_OPENAPI_PATHS = 12.
Proof.
  intros toLowerCase world url t Hlooks Hprobes.
  split; [| repeat split].
  assert (Htest : Rest.testConnection toLowerCase world (Rest.defaultConfig url) t
                  = (Ok (Rest.mkConnectionTestResult false
                           (Some "Could not discover OpenAPI specification URL")
                           (Some (Rest.MetaTriedPaths url Rest.COMMON_OPENAPI_PATHS))),
                     t + 12)).
  { assert (Hdisc : Rest.discoverSpecificationUrl toLowerCase world (Rest.defaultConfig url) t
                      = (Ok None, t + 12)).
    { unfold Rest.discoverSpecificationUrl.
      change (Rest.url (Rest.defaultConfig url)) with url.
      change (truthy_opt_string (Rest.specUrl (Rest.defaultConfig url))) with false.
      change (Rest.getPathsToTry (Rest.defaultConfig url)) with Rest.COMMON_OPENAPI_PATHS.
      cbv iota. rewrite Hlooks.
      exact (probePaths_exhausted world _ _ t Hprobes). }
    unfold Rest.testConnection, Http.bindM. rewrite Hdisc. reflexivity. }
  rewrite (introspect_connection_test_failed toLowerCase world _ t (t + 12) _ Htest eq_refl).
  reflexivity.
Qed.

Lemma C9_witness :
  Rest.introspect asciiToLowerCase Rest.deadWorld
    (Rest.defaultConfig "https://api.example.com") 0
  = (Ok (Rest.discoveryFailed "https://api.example.com"), 0 + 12)
  /\ Rest.success (Rest.discoveryFailed "https://api.example.com") = false
  /\ Rest.metadata (Rest.discoveryFailed "https://api.example.com")
     = Some (Rest.MetaTriedPaths "https://api.example.com" Rest.COMMON_OPENAPI_PATHS)
  /\ length Rest.COMMON_OPENAPI_PATHS = 12.
Proof.
  apply (C9_discovery_exhausted asciiToLowerCase Rest.deadWorld "https://api.example.com" 0).
  - reflexivity.
  - intros t' path _. exact I.
Defined.

(** Claim C9 as stated fails: where every probe is refused, the error of
    the result is the fixed text "Connection test failed: Could not
    discover OpenAPI specification URL", in which the count 12 (indeed any
    digit) does not occur. *)
Lemma C9_counterexample :
  Rest.introspect asciiToLowerCase Rest.deadWorld
    (Rest.defaultConfig "https://api.example.com") 0
  = (Ok (Rest.discoveryFailed "https://api.example.com"), 12)
  /\ Rest.error (Rest.discoveryFailed "https://api.example.com")
     = Some "Connection test failed: Could not discover OpenAPI specification URL"
  /\ Rest.spec_mentionsCount (Rest.discoveryFailed "https://api.example.com") 12 = false
  /\ existsb Rest.isDigit
       (list_ascii_of_string
          "Connection test failed: Could not discover OpenAPI specification URL") = false.
Proof. repeat split. Qed.

(* ------------------------------------------------------------------ *)
(** ** REST connector: validation                                      *)
(* ------------------------------------------------------------------ *)

(** Induction on a JSON value with the hypothesis for every element of an
    array and every property value of an object. *)
Lemma JsValue_nested_ind (P : JsValue -> Prop) :
  P JNull ->
  (forall b, P (JBool b)) ->
  (forall q, P (JNum q)) ->
  (forall s, P (JStr s)) ->
  (forall elems, Forall P elems -> P (JArr elems)) ->
  (forall props, Forall (fun kv => P (snd kv)) props -> P (JObj props)) ->
  forall v, P v.
Proof.
  intros Hnull Hbool Hnum Hstr Harr Hobj.
  fix IH 1. intros [| b | q | s | elems | props].
  - exact Hnull.
  - apply Hbool.
  - apply Hnum.
  - apply Hstr.
  - apply Harr. induction elems as [| x rest IHrest]; constructor; [apply IH | exact IHrest].
  - apply Hobj. induction props as [| [k x] rest IHrest]; constructor; [apply IH | exact IHrest].
Qed.










Example matchesOpenAPI3_examples :
  Rest.matchesOpenAPI3 "3.0.0" = true
  /\ Rest.matchesOpenAPI3 "3.10.22" = true
  /\ Rest.matchesOpenAPI3 "3.1" = false
  /\ Rest.matchesOpenAPI3 "3.0.0-rc1" = false
  /\ Rest.matchesOpenAPI3 "13.0.0" = false
  /\ Rest.matchesOpenAPI3 "3..0" = false
  /\ Rest.matchesOpenAPI3 "" = false.
Proof. repeat split. Qed.






(* ------------------------------------------------------------------ *)
(** ** Connectors: recoverable failures and thrown errors              *)
(* ------------------------------------------------------------------ *)

Lemma parseSpecification_throws (world : Rest.World) (data : Rest.ResponseData)
    (sourceUrl : string) (e : JsError) :
  Rest.parseSpecification world data sourceUrl = Throw e ->
  e_class e = SchemaParsingError.
Proof.
  unfold Rest.parseSpecification.
  destruct data as [spec | s | n | b | |]; simpl;
    try (intros H; inversion H; reflexivity).
  destruct (Rest.JSON_parse world s); [discriminate |].
  destruct (Rest.yaml_parse world s); [discriminate |].
  intros H; inversion H; reflexivity.
Qed.

Lemma rest_testConnection_http_failure (toLowerCase : string -> string) (world : Rest.World)
    (config : Rest.RESTConnectorConfig) (t t1 : nat) (specUrl : string)
    (failure : Http.Failure) :
  Rest.discoverSpecificationUrl toLowerCase world config t = (Ok (Some specUrl), t1) ->
  Rest.axios_get world t1 specUrl = Rest.GetRejected failure ->
  Http.isAxiosError failure = true ->
  exists meta,
    Rest.testConnection toLowerCase world config t
    = (Ok (Rest.mkConnectionTestResult false (Some (Http.httpErrorText failure)) (Some meta)),
       S t1).
Proof.
  intros Hdisc Hget Hax. unfold Rest.testConnection, Http.bindM.
  rewrite Hdisc. unfold Rest.fetchSpecification. rewrite Hget, Hax.
  eexists. reflexivity.
Qed.

(** Claim C1, as the code has it.
    - REST: an axios failure (an HTTP error response, or no response at
      all) of the fetch made by the connection test gives the result
      [success: false] with the error "Connection test failed: HTTP ...".
    - REST: when the connection test passed, a failure to parse the body
      fetched afterwards, or an axios failure of that second fetch, makes
      [introspect] throw an [IntrospectionError] "REST introspection
      failed: ...".
    - GraphQL: an axios failure of the health-check request gives the
      result [success: false] with the error "Connection test failed:
      HTTP ...", except for the statuses 401 and 403, on which
      [introspect] throws an [AuthenticationError]. *)
Theorem C1_connection_failures_and_thrown_errors :
  (forall (toLowerCase : string -> string) (world : Rest.World)
          (config : Rest.RESTConnectorConfig) (t t1 : nat) (specUrl : string)
          (failure : Http.Failure),
      Rest.discoverSpecificationUrl toLowerCase world config t = (Ok (Some specUrl), t1) ->
      Rest.axios_get world t1 specUrl = Rest.GetRejected failure ->
      Http.isAxiosError failure = true ->
      exists meta,
        Rest.introspect toLowerCase world config t
        = (Ok (Rest.mkIntrospectionResult false None
                 (Some ("Connection test failed: " ++ Http.httpErrorText failure))
                 None (Some meta)), S t1))
  /\ (forall (toLowerCase : string -> string) (world : Rest.World)
             (config : Rest.RESTConnectorConfig) (t t1 t2 : nat)
             (ct : Rest.ConnectionTestResult) (specUrl : string)
             (data : Rest.ResponseData) (e : JsError),
         Rest.testConnection toLowerCase world config t = (Ok ct, t1) ->
         Rest.ct_success ct = true ->
         Rest.discoverSpecificationUrl toLowerCase world config t1 = (Ok (Some specUrl), t2) ->
         Rest.axios_get world t2 specUrl = Rest.GetResponse data ->
         Rest.parseSpecification world data specUrl = Throw e ->
         Rest.introspect toLowerCase world config t
         = (Throw (mkJsError IntrospectionError
                     ("REST introspection failed: " ++ e_message e)), S t2))
  /\ (forall (toLowerCase : string -> string) (world : Rest.World)
             (config : Rest.RESTConnectorConfig) (t t1 t2 : nat)
             (ct : Rest.ConnectionTestResult) (specUrl : string)
             (failure : Http.Failure),
         Rest.testConnection toLowerCase world config t = (Ok ct, t1) ->
         Rest.ct_success ct = true ->
         Rest.discoverSpecificationUrl toLowerCase world config t1 = (Ok (Some specUrl), t2) ->
         Rest.axios_get world t2 specUrl = Rest.GetRejected failure ->
         Http.isAxiosError failure = true ->
         Rest.introspect toLowerCase world config t
         = (Throw (mkJsError IntrospectionError
                     ("REST introspection failed: " ++ Http.failureMessage failure)), S t2))
  /\ (forall (INTROSPECTION_QUERY SIMPLE_INTROSPECTION_QUERY HEALTH_CHECK_QUERY : string)
             (world : GraphQLConn.World) (config : GraphQLConn.GraphQLConnectorConfig)
             (t : nat) (failure : Http.Failure),
         GraphQLConn.axios_post world t (GraphQLConn.url config) HEALTH_CHECK_QUERY
         = GraphQLConn.PostRejected failure ->
         Http.isAxiosError failure = true ->
         if GraphQLConn.isAuthFailure failure then
           exists message,
             GraphQLConn.introspect INTROSPECTION_QUERY SIMPLE_INTROSPECTION_QUERY
               HEALTH_CHECK_QUERY world config t
             = (Throw (mkJsError AuthenticationError message), S t)
         else
           exists meta,
             GraphQLConn.introspect INTROSPECTION_QUERY SIMPLE_INTROSPECTION_QUERY
               HEALTH_CHECK_QUERY world config t
             = (Ok (GraphQLConn.mkIntrospectionResult false None
                      (Some ("Connection test failed: " ++ Http.httpErrorText failure))
                      None (Some meta)), S t)).
Proof.
  repeat split.
  - intros toLowerCase world config t t1 specUrl failure Hdisc Hget Hax.
    destruct (rest_testConnection_http_failure toLowerCase world config t t1 specUrl failure
                Hdisc Hget Hax) as [meta Htest].
    exists meta.
    now rewrite (introspect_connection_test_failed toLowerCase world config t (S t1) _ Htest eq_refl).
  - intros toLowerCase world config t t1 t2 ct specUrl data e Htest Hok Hdisc Hget Hparse.
    rewrite (introspect_after_fetch toLowerCase world config t t1 t2 ct specUrl data
               Htest Hok Hdisc Hget).
    rewrite Hparse. simpl. unfold Rest.rethrown.
    now rewrite (parseSpecification_throws world data specUrl e Hparse).
  - intros toLowerCase world config t t1 t2 ct specUrl failure Htest Hok Hdisc Hget Hax.
    unfold Rest.introspect, Http.tryCatch, Rest.introspectBody, Http.bindM.
    rewrite Htest, Hok. simpl. rewrite Hdisc. unfold Rest.fetchSpecification. rewrite Hget.
    destruct failure as [status statusText message | message | e]; simpl in *;
      [reflexivity | reflexivity | discriminate].
  - intros IQ SQ HQ world config t failure Hpost Hax.
    unfold GraphQLConn.introspect, Http.tryCatch, GraphQLConn.introspectBody, Http.bindM,
      GraphQLConn.testConnection, GraphQLConn.executeGraphQLQuery.
    rewrite Hpost, Hax.
    destruct (GraphQLConn.isAuthFailure failure); simpl; eexists; reflexivity.
Qed.

(** The theorem on four closed runs: a REST endpoint that answers the
    first fetch with 503; one that serves the malformed text [{ unclosed];
    one that serves a document and then answers the second fetch with 503;
    and a GraphQL endpoint that answers with 500. *)
Lemma C1_witness :
  (exists meta,
      Rest.introspect asciiToLowerCase (Rest.flakyWorld Rest.DataNull)
        (Rest.explicitConfig "https://api.example.com" "https://api.example.com/openapi.json") 0
      = (Ok (Rest.mkIntrospectionResult false None
               (Some ("Connection test failed: "
                      ++ Http.httpErrorText
                           (Http.HttpError 503 "Service Unavailable"
                              "Request failed with status code 503")))
               None (Some meta)), 1))
  /\ Rest.introspect asciiToLowerCase (Rest.servingWorld (Rest.DataString "{ unclosed"))
       (Rest.explicitConfig "https://api.example.com" "https://api.example.com/openapi.json") 0
     = (Throw (mkJsError IntrospectionError
                 ("REST introspection failed: "
                  ++ "Failed to parse OpenAPI specification: Flow map must end with a } at line 1, column 11")),
        2)
  /\ Rest.introspect asciiToLowerCase
       (Rest.flakyWorld (Rest.DataObject (Rest.petstoreSpec "3.0.0")))
       (Rest.explicitConfig "https://api.example.com" "https://api.example.com/openapi.json") 1
     = (Throw (mkJsError IntrospectionError
                 ("REST introspection failed: " ++ "Request failed with status code 503")), 3)
  /\ (exists meta,
         GraphQLConn.introspect GraphQLConn.exampleFullQuery GraphQLConn.exampleSimpleQuery
           GraphQLConn.exampleHealthQuery GraphQLConn.brokenWorld GraphQLConn.exampleConfig 0
         = (Ok (GraphQLConn.mkIntrospectionResult false None
                  (Some ("Connection test failed: "
                         ++ Http.httpErrorText
                              (Http.HttpError 500 "Internal Server Error"
                                 "Request failed with status code 500")))
                  None (Some meta)), 1)).
Proof.
  destruct C1_connection_failures_and_thrown_errors as (H1 & H2 & H3 & H4).
  split; [| split; [| split]].
  - exact (H1 asciiToLowerCase (Rest.flakyWorld Rest.DataNull)
             (Rest.explicitConfig "https://api.example.com"
                "https://api.example.com/openapi.json")
             0 0 "https://api.example.com/openapi.json" _ eq_refl eq_refl eq_refl).
  - exact (H2 asciiToLowerCase (Rest.servingWorld (Rest.DataString "{ unclosed"))
             (Rest.explicitConfig "https://api.example.com"
                "https://api.example.com/openapi.json")
             0 1 1 _ "https://api.example.com/openapi.json" _ _
             eq_refl eq_refl eq_refl eq_refl eq_refl).
  - exact (H3 asciiToLowerCase
             (Rest.flakyWorld (Rest.DataObject (Rest.petstoreSpec "3.0.0")))
             (Rest.explicitConfig "https://api.example.com"
                "https://api.example.com/openapi.json")
             1 2 2 _ "https://api.example.com/openapi.json" _
             eq_refl eq_refl eq_refl eq_refl eq_refl).
  - exact (H4 GraphQLConn.exampleFullQuery GraphQLConn.exampleSimpleQuery
             GraphQLConn.exampleHealthQuery GraphQLConn.brokenWorld
             GraphQLConn.exampleConfig 0 _ eq_refl eq_refl).
Defined.

(** Claim C1 as stated fails.  Under the default configuration, a REST
    endpoint that serves the malformed text [{ unclosed] at
    [/openapi.json] passes the connection test, and the parse failure is
    thrown as an [IntrospectionError]; a served document followed by a 503
    on the second fetch is thrown likewise; and a GraphQL endpoint that
    answers 401 makes [introspect] throw an [AuthenticationError]. *)
Lemma C1_counterexample :
  Rest.introspect asciiToLowerCase (Rest.servingWorld (Rest.DataString "{ unclosed"))
    (Rest.defaultConfig "https://api.example.com") 0
  = (Throw (mkJsError IntrospectionError
              "REST introspection failed: Failed to parse OpenAPI specification: Flow map must end with a } at line 1, column 11"),
     4)
  /\ Rest.introspect asciiToLowerCase
       (Rest.flakyWorld (Rest.DataObject (Rest.petstoreSpec "3.0.0")))
       (Rest.explicitConfig "https://api.example.com" "https://api.example.com/openapi.json") 1
     = (Throw (mkJsError IntrospectionError
                 "REST introspection failed: Request failed with status code 503"), 3)
  /\ GraphQLConn.introspect GraphQLConn.exampleFullQuery GraphQLConn.exampleSimpleQuery
       GraphQLConn.exampleHealthQuery GraphQLConn.unauthorizedWorld
       GraphQLConn.exampleConfig 0
     = (Throw (mkJsError AuthenticationError "Authentication failed: Unauthorized"), 1).
Proof. repeat split. Qed.

(* ------------------------------------------------------------------ *)
(** ** WebSocket pattern inference: the field analysis                 *)
(* ------------------------------------------------------------------ *)

Section PatternFacts.
Import WebSocket.

(** The stateful analysis records exactly the observations, in order. *)
Lemma analyzeObjectFields_observations (obj : JsValue) :
  forall (prefix : string) (st : FieldAnalysis),
    analyzeObjectFields obj prefix st
    = fold_left recordField (observations obj prefix) st.
Proof.
  induction obj as [| b | q | s | elems IH | props IH] using JsValue_nested_ind;
    intros prefix st; try reflexivity.
  - simpl. set (limit := 3). generalize 0 as i. revert st.
    induction IH as [| value rest Hvalue _ IHrest]; intros st i; subst limit; [reflexivity |].
    simpl. rewrite fold_left_app. rewrite <- IHrest. f_equal.
    unfold analyzeEntry. simpl.
    destruct (isObject value && (splitLength prefix <? 3)%nat); [apply Hvalue | reflexivity].
  - simpl. revert st.
    induction IH as [| [key value] rest Hvalue _ IHrest]; intros st; [reflexivity |].
    simpl. rewrite fold_left_app. rewrite <- IHrest. f_equal.
    unfold analyzeEntry. simpl in *.
    destruct (isObject value && (splitLength prefix <? 3)%nat); [apply Hvalue | reflexivity].
Qed.

Lemma In_setAdd (x y : string) (s : list string) :
  In y (setAdd x s) <-> y = x \/ In y s.
Proof.
  unfold setAdd. destruct (existsb (String.eqb x) s) eqn:E.
  - split; [now right |]. intros [-> | H]; [| exact H].
    apply existsb_exists in E. destruct E as (z & Hz & Heq).
    apply String.eqb_eq in Heq. now subst.
  - rewrite in_app_iff. simpl. split.
    + intros [H | [H | []]]; [now right | now left].
    + intros [H | H]; [right; now left | now left].
Qed.

Lemma NoDup_setAdd (x : string) (s : list string) : NoDup s -> NoDup (setAdd x s).
Proof.
  intros H. unfold setAdd. destruct (existsb (String.eqb x) s) eqn:E; [exact H |].
  apply NoDup_app; [exact H | repeat constructor; intros [] | ].
  intros y Hy [Hx | []]. subst y.
  assert (Ht : existsb (String.eqb x) s = true).
  { apply existsb_exists. exists x. split; [exact Hy | apply String.eqb_refl]. }
  congruence.
Qed.

Lemma setAdd_head (x t : string) (rest : list string) :
  exists rest', setAdd x (t :: rest) = t :: rest'.
Proof.
  unfold setAdd. destruct (existsb (String.eqb x) (t :: rest)); eexists; reflexivity.
Qed.

Lemma find_append {A : Type} (p : A -> bool) (l1 l2 : list A) :
  find p (l1 ++ l2) = match find p l1 with
                      | Some x => Some x
                      | None => find p l2
                      end.
Proof.
  induction l1 as [| x rest IH]; simpl; [reflexivity |].
  destruct (p x); [reflexivity | exact IH].
Qed.

(** What a run of [recordField] over a list of observations leaves in the
    two accumulators. *)
Lemma recordField_run (obs : list (string * string)) :
  let st := fold_left recordField obs emptyAnalysis in
  (forall f, In f (fa_fields st) <-> In f (map fst obs))
  /\ NoDup (fa_fields st)
  /\ (forall f, firstType (fa_fieldTypes st) f
                = option_map snd (find (fun o => String.eqb f (fst o)) obs))
  /\ (forall f, obj_get f (fa_fieldTypes st) <> Some []).
Proof.
  induction obs as [| [name ty] obs IH] using rev_ind; simpl.
  - repeat split; try (intros []); try constructor; try discriminate.
  - rewrite fold_left_app. simpl.
    destruct IH as (Hfields & Hnodup & Htypes & Hnonempty).
    set (st := fold_left recordField obs emptyAnalysis) in *.
    repeat split.
    + rewrite In_setAdd, map_app, in_app_iff, Hfields. simpl. intros [-> | H]; auto.
    + rewrite In_setAdd, map_app, in_app_iff, Hfields. simpl. intros [H | [H | []]]; auto.
    + now apply NoDup_setAdd.
    + intros f. rewrite find_append. unfold firstType in *. rewrite obj_get_obj_set.
      specialize (Htypes f). specialize (Hnonempty f). simpl.
      destruct (String.eqb f name) eqn:Ef.
      * apply String.eqb_eq in Ef. subst f.
        destruct (obj_get name (fa_fieldTypes st)) as [[| t rest] |].
        -- contradiction.
        -- destruct (setAdd_head ty t rest) as [rest' ->].
           destruct (find (fun o => String.eqb name (fst o)) obs); [exact Htypes | discriminate].
        -- destruct (find (fun o => String.eqb name (fst o)) obs); [discriminate | reflexivity].
      * rewrite Htypes. destruct (find (fun o => String.eqb f (fst o)) obs); reflexivity.
    + intros f. rewrite obj_get_obj_set. destruct (String.eqb f name); [| apply Hnonempty].
      destruct (obj_get name (fa_fieldTypes st)) as [[| t rest] |].
      * unfold setAdd. simpl. discriminate.
      * destruct (setAdd_head ty t rest) as [rest' ->]. discriminate.
      * unfold setAdd. simpl. discriminate.
Qed.

(* ------------------------------------------------------------------ *)
(** ** WebSocket pattern inference: the grouping                       *)
(* ------------------------------------------------------------------ *)

Lemma buildPatternMap_payloads (messages : list WebSocketMessage) :
  buildPatternMap messages = fold_left addExample (analysedPayloads messages) [].
Proof.
  unfold buildPatternMap, analysedPayloads. generalize (@nil (string * PatternData)).
  induction messages as [| m rest IH]; intros acc; simpl; [reflexivity |].
  rewrite fold_left_app, IH.
  destruct (analysedPayload m); reflexivity.
Qed.

Lemma signaturesOf_snoc (payloads : list JsValue) (x : JsValue) :
  signaturesOf (payloads ++ [x]) = setAdd (getMessageSignature x) (signaturesOf payloads).
Proof. unfold signaturesOf. now rewrite fold_left_app. Qed.

Lemma signaturesOf_NoDup (payloads : list JsValue) : NoDup (signaturesOf payloads).
Proof.
  induction payloads as [| x rest IH] using rev_ind; [constructor |].
  rewrite signaturesOf_snoc. now apply NoDup_setAdd.
Qed.

Lemma signaturesOf_complete (payloads : list JsValue) (s : string) :
  In s (signaturesOf payloads) <-> exists p, In p payloads /\ getMessageSignature p = s.
Proof.
  induction payloads as [| x rest IH] using rev_ind.
  - simpl. split; [intros [] | intros (p & [] & _)].
  - rewrite signaturesOf_snoc, In_setAdd, IH. split.
    + intros [-> | (p & Hp & Hs)].
      * exists x. split; [apply in_or_app; right; now left | reflexivity].
      * exists p. split; [apply in_or_app; now left | exact Hs].
    + intros (p & Hp & Hs). apply in_app_or in Hp. destruct Hp as [Hp | [-> | []]].
      * right. now exists p.
      * now left.
Qed.

Lemma groupOf_snoc (s : string) (payloads : list JsValue) (x : JsValue) :
  groupOf s (payloads ++ [x])
  = (groupOf s payloads
     ++ (if String.eqb (getMessageSignature x) s then [x] else []))%list.
Proof. unfold groupOf. rewrite filter_app. reflexivity. Qed.

Lemma groupOf_unknown_signature (s : string) (payloads : list JsValue) :
  ~ In s (signaturesOf payloads) -> groupOf s payloads = [].
Proof.
  intros Hnot. unfold groupOf.
  destruct (filter (fun p => String.eqb (getMessageSignature p) s) payloads) as [| p rest] eqn:E;
    [reflexivity |].
  exfalso. apply Hnot. apply signaturesOf_complete.
  assert (Hin : In p (filter (fun p => String.eqb (getMessageSignature p) s) payloads))
    by (rewrite E; now left).
  apply filter_In in Hin. destruct Hin as [Hin Heq]. apply String.eqb_eq in Heq.
  now exists p.
Qed.

Lemma obj_get_map_key {A : Type} (F : string -> A) (keys : list string) (k : string) :
  obj_get k (map (fun s => (s, F s)) keys) = if existsb (String.eqb k) keys then Some (F k) else None.
Proof.
  induction keys as [| s rest IH]; simpl; [reflexivity |].
  destruct (String.eqb k s) eqn:E; simpl; [| exact IH].
  apply String.eqb_eq in E. now subst.
Qed.

Lemma obj_set_map_present {A : Type} (F G : string -> A) (keys : list string) (k : string) :
  NoDup keys -> In k keys ->
  (forall s, s <> k -> G s = F s) ->
  obj_set k (G k) (map (fun s => (s, F s)) keys) = map (fun s => (s, G s)) keys.
Proof.
  intros Hnodup Hin Hsame. induction keys as [| s rest IH]; [destruct Hin |].
  simpl. inversion Hnodup as [| ? ? Hnotin Hrest]; subst.
  destruct (String.eqb k s) eqn:E.
  - apply String.eqb_eq in E. subst s. f_equal.
    apply map_ext_in. intros s Hs. f_equal. symmetry. apply Hsame.
    intros ->. contradiction.
  - apply String.eqb_neq in E. destruct Hin as [-> | Hin]; [contradiction |].
    f_equal; [f_equal; symmetry; apply Hsame; congruence | now apply IH].
Qed.

Lemma obj_set_map_absent {A : Type} (F : string -> A) (keys : list string) (k : string) (v : A) :
  ~ In k keys ->
  obj_set k v (map (fun s => (s, F s)) keys) = (map (fun s => (s, F s)) keys ++ [(k, v)])%list.
Proof.
  intros Hnot. induction keys as [| s rest IH]; simpl; [reflexivity |].
  destruct (String.eqb k s) eqn:E.
  - apply String.eqb_eq in E. subst. exfalso. apply Hnot. now left.
  - f_equal. apply IH. intros H. apply Hnot. now right.
Qed.

Lemma existsb_eqb_In (k : string) (keys : list string) :
  existsb (String.eqb k) keys = true <-> In k keys.
Proof.
  rewrite existsb_exists. split.
  - intros (x & Hx & E). apply String.eqb_eq in E. now subst.
  - intros H. exists k. split; [exact H | apply String.eqb_refl].
Qed.

(** The first loop of [analyzeMessagePatterns] groups the payloads by
    signature: [patternMap] has one entry per signature, in the order of
    first occurrence, holding the payloads of that signature in the order
    of capture and their field analysis. *)
Lemma patternMap_groups (payloads : list JsValue) :
  fold_left addExample payloads []
  = map (fun s => (s, patternDataOf payloads s)) (signaturesOf payloads).
Proof.
  induction payloads as [| x rest IH] using rev_ind; [reflexivity |].
  rewrite fold_left_app. simpl. rewrite IH. unfold addExample.
  set (sx := getMessageSignature x).
  rewrite obj_get_map_key, signaturesOf_snoc. fold sx.
  destruct (existsb (String.eqb sx) (signaturesOf rest)) eqn:E.
  - apply existsb_eqb_In in E.
    assert (Hset : setAdd sx (signaturesOf rest) = signaturesOf rest).
    { unfold setAdd. now rewrite (proj2 (existsb_eqb_In sx _) E). }
    rewrite Hset.
    assert (Hnew : mkPatternData (pd_signature (patternDataOf rest sx))
                     (pd_examples (patternDataOf rest sx) ++ [x])
                     (analyzeObjectFields x "" (pd_analysis (patternDataOf rest sx)))
                   = patternDataOf (rest ++ [x]) sx).
    { unfold patternDataOf. simpl. rewrite groupOf_snoc. fold sx. rewrite String.eqb_refl.
      unfold analysisOf. now rewrite fold_left_app. }
    rewrite Hnew.
    apply (obj_set_map_present (patternDataOf rest) (patternDataOf (rest ++ [x]))).
    + apply signaturesOf_NoDup.
    + exact E.
    + intros s Hs. unfold patternDataOf. rewrite groupOf_snoc. fold sx.
      destruct (String.eqb sx s) eqn:Es; [apply String.eqb_eq in Es; congruence |].
      now rewrite app_nil_r.
  - assert (Hnot : ~ In sx (signaturesOf rest)).
    { intros H. apply existsb_eqb_In in H. congruence. }
    assert (Hset : setAdd sx (signaturesOf rest) = (signaturesOf rest ++ [sx])%list).
    { unfold setAdd. now rewrite E. }
    rewrite Hset, map_app. simpl.
    rewrite obj_set_map_absent by exact Hnot.
    f_equal.
    + apply map_ext_in. intros s Hs. f_equal. unfold patternDataOf.
      rewrite groupOf_snoc. fold sx.
      destruct (String.eqb sx s) eqn:Es; [apply String.eqb_eq in Es; subst s; contradiction |].
      now rewrite app_nil_r.
    + f_equal. f_equal. unfold patternDataOf. rewrite groupOf_snoc. fold sx.
      rewrite String.eqb_refl, (groupOf_unknown_signature sx rest Hnot). reflexivity.
Qed.

(* ------------------------------------------------------------------ *)
(** ** WebSocket pattern inference: the emitted patterns               *)
(* ------------------------------------------------------------------ *)


Lemma emitPatterns_In (inherited : JsValue -> string -> bool) (entries : list (string * PatternData))
    (s : string) (p : WebSocketMessagePattern) :
  forall patternId,
    In (s, p) (emitPatterns inherited patternId entries) ->
    exists patternId' pd,
      In (s, pd) entries /\ 2 <= length (pd_examples pd)
      /\ p = patternOf inherited patternId' s pd.
Proof.
  induction entries as [| [s' pd] rest IH]; intros patternId; simpl; [intros [] |].
  destruct (length (pd_examples pd) <? 2)%nat eqn:E.
  - intros H. destruct (IH _ H) as (i & pd' & Hin & Hlen & Hp).
    exists i, pd'. auto.
  - apply Nat.ltb_ge in E. intros [H | H].
    + inversion H; subst. exists patternId, pd. auto.
    + destruct (IH _ H) as (i & pd' & Hin & Hlen & Hp). exists i, pd'. auto.
Qed.






Lemma analysisOf_observations (examples : list JsValue) :
  analysisOf examples
  = fold_left recordField (flat_map (fun ex => observations ex "") examples) emptyAnalysis.
Proof.
  unfold analysisOf. generalize emptyAnalysis.
  induction examples as [| ex rest IH]; intros st; simpl; [reflexivity |].
  now rewrite fold_left_app, IH, analyzeObjectFields_observations.
Qed.







Lemma fieldTypes_lookup (F : string -> option string) (fields : list string) (k : string) :
  obj_get k
    (fold_left (fun acc field => match F field with
                                 | Some t => plain_set field t acc
                                 | None => acc
                                 end) fields [])
  = if String.eqb k "__proto__" then None
    else if existsb (String.eqb k) fields then F k else None.
Proof.
  induction fields as [| f rest IH] using rev_ind; [now destruct (String.eqb k "__proto__") |].
  rewrite fold_left_app, existsb_app. cbn [fold_left existsb]. rewrite orb_false_r.
  destruct (F f) as [t |] eqn:EF.
  - unfold plain_set at 1. destruct (String.eqb f "__proto__") eqn:Ef.
    + rewrite IH. destruct (String.eqb k "__proto__") eqn:Ek; [reflexivity |].
      destruct (String.eqb k f) eqn:E.
      * apply String.eqb_eq in E. subst f. congruence.
      * now rewrite orb_false_r.
    + rewrite obj_get_obj_set, IH. destruct (String.eqb k f) eqn:E.
      * apply String.eqb_eq in E. subst f. now rewrite Ef, orb_true_r, EF.
      * now rewrite orb_false_r.
  - rewrite IH. destruct (String.eqb k "__proto__"); [reflexivity |].
    destruct (String.eqb k f) eqn:E.
    + apply String.eqb_eq in E. subst f. rewrite orb_true_r, EF.
      now destruct (existsb (String.eqb k) rest).
    + now rewrite orb_false_r.
Qed.





End PatternFacts.




(* ------------------------------------------------------------------ *)
(** ** WebSocket converter                                             *)
(* ------------------------------------------------------------------ *)

Section ConverterOutcomes.
Import WebSocket WebSocketConv.

Variable toLowerCase : string -> string.
Variable inherited : JsValue -> string -> bool.

Lemma fieldTypeOf_outcome (p : WebSocketMessagePattern) (field : string) :
  if typeReadable p field
  then exists t, fieldTypeOf toLowerCase p field = Ok t
  else fieldTypeOf toLowerCase p field = Throw notAString.
Proof.
  unfold typeReadable, fieldTypeOf.
  destruct (obj_get field (wp_fieldTypes p)) as [t |]; simpl; [eexists; reflexivity |].
  destruct (onObjectPrototype field); simpl; [reflexivity | eexists; reflexivity].
Qed.

(** A loop that assigns one property per field returns when the type of
    every field can be looked up and throws at the first field whose type
    cannot. *)
Lemma fields_loop_outcome {S : Type} (p : WebSocketMessagePattern)
    (body : S -> string -> Result S) (g : S -> string -> DataType.t -> S) :
  (forall acc field,
      body acc field = (type <- fieldTypeOf toLowerCase p field ;; Ok (g acc field type))) ->
  forall (fields : list string) (acc : S),
    if forallb (typeReadable p) fields
    then exists out, foldM body fields acc = Ok out
    else foldM body fields acc = Throw notAString.
Proof.
  intros Hbody fields. induction fields as [| f rest IH]; intros acc; simpl.
  - eexists. reflexivity.
  - rewrite Hbody. pose proof (fieldTypeOf_outcome p f) as Hf.
    destruct (typeReadable p f); simpl.
    + destruct Hf as [t Ht]. rewrite Ht. simpl. apply IH.
    + now rewrite Hf.
Qed.

Lemma extractFieldsFromPattern_outcome (p : WebSocketMessagePattern) :
  if typesReadable p
  then exists properties, extractFieldsFromPattern toLowerCase p = Ok properties
  else extractFieldsFromPattern toLowerCase p = Throw notAString.
Proof.
  unfold typesReadable, extractFieldsFromPattern.
  apply (fields_loop_outcome p _
           (fun properties field type =>
              plain_set field
                (mkSchemaField field type (existsb (String.eqb field) (wp_requiredFields p))
                   None None None None None None)
                properties)).
  reflexivity.
Qed.

Lemma convertPatternToSchemaField_outcome (p : WebSocketMessagePattern) :
  if typesReadable p
  then exists converted, convertPatternToSchemaField toLowerCase p = Ok converted
  else convertPatternToSchemaField toLowerCase p = Throw notAString.
Proof.
  unfold typesReadable, convertPatternToSchemaField. rewrite forallb_app.
  pose proof (fields_loop_outcome p
                (setFieldProperty toLowerCase p true
                   (Some ("Required field for " ++ wp_name p)))
                (fun properties field type =>
                   plain_set field
                     (mkSchemaField field type true
                        (Some ("Required field for " ++ wp_name p)) None None None None None)
                     properties)
                (fun _ _ => eq_refl) (wp_requiredFields p) []) as Hrequired.
  destruct (forallb (typeReadable p) (wp_requiredFields p)); cbn [andb].
  - destruct Hrequired as [withRequired Hr]. rewrite Hr. cbn [Js.bind].
    pose proof (fields_loop_outcome p
                  (setFieldProperty toLowerCase p false
                     (Some ("Optional field for " ++ wp_name p)))
                  (fun properties field type =>
                     plain_set field
                       (mkSchemaField field type false
                          (Some ("Optional field for " ++ wp_name p)) None None None None None)
                       properties)
                  (fun _ _ => eq_refl) (wp_optionalFields p) withRequired) as Hoptional.
    destruct (forallb (typeReadable p) (wp_optionalFields p)).
    + destruct Hoptional as [properties Ho]. rewrite Ho. cbn [Js.bind]. eexists. reflexivity.
    + now rewrite Hoptional.
  - now rewrite Hrequired.
Qed.

(** The loop [types[pattern.name] = this.convertPatternToSchemaField(pattern)]. *)
Lemma types_loop_outcome (patterns : list WebSocketMessagePattern)
    (acc : list (string * SchemaField)) :
  if forallb typesReadable patterns
  then exists types,
         foldM (fun types pattern =>
                  converted <- convertPatternToSchemaField toLowerCase pattern ;;
                  Ok (plain_set (wp_name pattern) converted types))
           patterns acc = Ok types
  else foldM (fun types pattern =>
                converted <- convertPatternToSchemaField toLowerCase pattern ;;
                Ok (plain_set (wp_name pattern) converted types))
         patterns acc = Throw notAString.
Proof.
  revert acc. induction patterns as [| p rest IH]; intros acc; simpl.
  - eexists. reflexivity.
  - pose proof (convertPatternToSchemaField_outcome p) as Hp.
    destruct (typesReadable p); simpl.
    + destruct Hp as [converted Hc]. rewrite Hc. simpl. apply IH.
    + now rewrite Hp.
Qed.

Lemma forallb_In {A : Type} (f : A -> bool) (l : list A) (x : A) :
  forallb f l = true -> In x l -> f x = true.
Proof. intros H Hin. rewrite forallb_forall in H. now apply H. Qed.

(** The conversion of an event returns when every pattern can be typed:
    the pattern it finds is one of the list. *)
Lemma convertEventToOperation_returns (event : WebSocketEvent)
    (patterns : list WebSocketMessagePattern) :
  forallb typesReadable patterns = true ->
  exists operation,
    convertEventToOperation toLowerCase inherited event patterns = Ok operation.
Proof.
  intros Hall. unfold convertEventToOperation. cbv zeta.
  destruct (findMatchingPattern inherited event patterns) as [p |] eqn:Efind.
  - unfold findMatchingPattern in Efind. apply find_some in Efind. destruct Efind as [Hin _].
    pose proof (extractFieldsFromPattern_outcome p) as Hp.
    rewrite (forallb_In _ _ _ Hall Hin) in Hp. destruct Hp as [properties Hp].
    rewrite Hp. simpl. eexists. reflexivity.
  - destruct (ev_examples event); simpl; eexists; reflexivity.
Qed.

Lemma mapM_returns {A B : Type} (f : A -> Result B) (xs : list A) :
  (forall x, In x xs -> exists y, f x = Ok y) ->
  exists ys, mapM f xs = Ok ys /\ length ys = length xs.
Proof.
  induction xs as [| x rest IH]; intros H; simpl.
  - exists []. auto.
  - destruct (H x (or_introl eq_refl)) as [y Hy]. rewrite Hy. simpl.
    destruct (IH (fun z Hz => H z (or_intror Hz))) as [ys [Hys Hlen]].
    rewrite Hys. simpl. exists (y :: ys). simpl. auto.
Qed.

End ConverterOutcomes.

(** Claim C10.  [convertSession] returns a schema exactly when the type
    of every field that the patterns list can be looked up in
    [fieldTypes]; otherwise it throws the [TypeError] of [mapFieldType]
    (a field [__proto__], for which the inference records no type, reads
    the prototype instead of a string).  When it returns, the operations
    begin with the synthetic [Connect] operation (id [websocket_connect],
    type [endpoint], responses 101, 400 and 401), followed by one
    operation per detected event, in order; so there is exactly one more
    operation than there are events.  The [Connect] operation is built
    from the endpoint alone: sessions on the same endpoint get the same
    one, whatever was captured and whatever patterns were inferred. *)
Theorem C10_connect_operation_first :
  forall (toLowerCase : string -> string) (inherited : JsValue -> string -> bool)
         (generateSchemaId extractApiName : string -> string) (now : Z)
         (endpoint : WebSocketConv.WebSocketEndpoint)
         (messages : list WebSocket.WebSocketMessage)
         (events : list WebSocketConv.WebSocketEvent)
         (statistics : WebSocketConv.SessionStatistics)
         (patterns : list WebSocket.WebSocketMessagePattern)
         (protocolDetection : WebSocketConv.ProtocolDetectionResult)
         (sourceUrl : string) (apiName : option string),
    (if forallb WebSocketConv.typesReadable patterns
     then
       exists converted pushed,
         WebSocketConv.convertSession toLowerCase inherited generateSchemaId extractApiName now
           (WebSocketConv.mkWebSocketSession endpoint messages events statistics)
           patterns protocolDetection sourceUrl apiName
         = Ok converted
         /\ mapM (fun event =>
                    WebSocketConv.convertEventToOperation toLowerCase inherited event patterns)
              events
            = Ok pushed
         /\ operations converted = WebSocketConv.createConnectionOperation endpoint :: pushed
         /\ length (operations converted) = S (length events)
         /\ hd_error (operations converted)
            = Some (WebSocketConv.createConnectionOperation endpoint)
     else
       WebSocketConv.convertSession toLowerCase inherited generateSchemaId extractApiName now
         (WebSocketConv.mkWebSocketSession endpoint messages events statistics)
         patterns protocolDetection sourceUrl apiName
       = Throw WebSocketConv.notAString)
    /\ op_id (WebSocketConv.createConnectionOperation endpoint) = "websocket_connect"
    /\ op_name (WebSocketConv.createConnectionOperation endpoint) = "Connect"
    /\ op_type (WebSocketConv.createConnectionOperation endpoint) = OpEndpoint
    /\ map r_statusCode (op_responses (WebSocketConv.createConnectionOperation endpoint))
       = ["101"; "400"; "401"].
Proof.
  intros. split; [| repeat split].
  unfold WebSocketConv.convertSession.
  pose proof (types_loop_outcome toLowerCase patterns []) as Htypes.
  destruct (forallb WebSocketConv.typesReadable patterns) eqn:Hall.
  - destruct Htypes as [types Htypes]. rewrite Htypes. cbn [Js.bind].
    destruct (mapM_returns
                (fun event =>
                   WebSocketConv.convertEventToOperation toLowerCase inherited event patterns)
                events
                (fun event _ =>
                   convertEventToOperation_returns toLowerCase inherited event patterns Hall))
      as [pushed [Hpushed Hlen]].
    cbn [WebSocketConv.ss_events WebSocketConv.ss_endpoint]. rewrite Hpushed. cbn [Js.bind].
    eexists. exists pushed. split; [reflexivity |]. split; [reflexivity |].
    cbn [operations]. split; [reflexivity |]. split; [| reflexivity].
    cbn [length]. now rewrite Hlen.
  - now rewrite Htypes.
Qed.

(** The conversion on closed inputs.  A session with one event and the
    pattern inferred from three status messages converts to a schema with
    two operations, [Connect] first.  With the pattern inferred from two
    messages that carry the key [__proto__] the conversion throws. *)
Example convertSession_examples :
  option_map (map op_id)
    (match WebSocketConv.convertSession asciiToLowerCase WebSocket.objectPrototype
             (fun _ => "websocket_id") (fun _ => "echo.example.org") 0%Z
             WebSocketConv.exampleSession [WebSocket.statusPattern]
             (WebSocketConv.mkProtocolDetectionResult WebSocketConv.RAW (1 # 2) [])
             "wss://echo.example.org" None with
     | Ok converted => Some (operations converted)
     | Throw _ => None
     end)
  = Some ["websocket_connect"; "websocket_message"]
  /\ WebSocketConv.convertSession asciiToLowerCase WebSocket.objectPrototype
       (fun _ => "websocket_id") (fun _ => "echo.example.org") 0%Z
       WebSocketConv.exampleSession [WebSocket.protoPattern]
       (WebSocketConv.mkProtocolDetectionResult WebSocketConv.RAW (1 # 2) [])
       "wss://echo.example.org" None
     = Throw WebSocketConv.notAString.
Proof. split; reflexivity. Qed.

(* ------------------------------------------------------------------ *)
(** ** Memory storage: the life of a stored schema                     *)
(* ------------------------------------------------------------------ *)

Lemma filter_all_true {A : Type} (p : A -> bool) (l : list A) :
  (forall x, In x l -> p x = true) -> filter p l = l.
Proof.
  induction l as [| x rest IH]; simpl; intros H; [reflexivity |].
  rewrite (H x (or_introl eq_refl)). f_equal. apply IH. intros y Hy. apply H. now right.
Qed.

(** Looking a key up after a filter that decides on keys alone. *)
Lemma obj_get_filter_keys {A : Type} (p : string -> bool) (k : string) (m : list (string * A)) :
  obj_get k (filter (fun kv => p (fst kv)) m) = if p k then obj_get k m else None.
Proof.
  induction m as [| [k' v'] rest IH]; simpl.
  - now destruct (p k).
  - destruct (String.eqb k k') eqn:E.
    + apply String.eqb_eq in E. subst k'.
      destruct (p k) eqn:Ep; simpl; [now rewrite String.eqb_refl | exact IH].
    + destruct (p k'); simpl; [rewrite E |]; exact IH.
Qed.

Lemma obj_get_mapDelete {A : Type} (key k : string) (m : list (string * A)) :
  obj_get k (Storage.mapDelete key m) = if String.eqb k key then None else obj_get k m.
Proof.
  unfold Storage.mapDelete.
  rewrite (obj_get_filter_keys (fun x => negb (String.eqb x key)) k m).
  now destruct (String.eqb k key).
Qed.

(** Deleting a list of keys one by one is one filter. *)
Lemma fold_mapDelete {A : Type} (keys : list string) (m : list (string * A)) :
  fold_left (fun m key => Storage.mapDelete key m) keys m
  = filter (fun kv => negb (existsb (String.eqb (fst kv)) keys)) m.
Proof.
  revert m. induction keys as [| key rest IH]; intros m; simpl.
  - symmetry. now apply filter_all_true.
  - rewrite IH. unfold Storage.mapDelete. rewrite filter_filter_andb.
    apply filter_ext. intros kv. now rewrite negb_orb.
Qed.

Lemma deleteOldest_returns (n : nat) (sorted m : list (string * UniversalSchema)) :
  n <= length sorted ->
  Storage.deleteOldest n sorted m
  = Ok (filter (fun kv => negb (existsb (String.eqb (fst kv)) (map fst (firstn n sorted)))) m).
Proof.
  revert sorted m. induction n as [| k IH]; intros sorted m Hn; simpl.
  - f_equal. symmetry. now apply filter_all_true.
  - destruct sorted as [| [key s] rest]; simpl in Hn; [lia |].
    rewrite IH by lia. f_equal. unfold Storage.mapDelete. rewrite filter_filter_andb.
    apply filter_ext. intros kv. simpl. now rewrite negb_orb.
Qed.

Lemma tenPercent_le (n : nat) : 1 <= n -> Storage.tenPercent n <= n.
Proof.
  intros Hn. unfold Storage.tenPercent.
  assert (n / 10 <= n) by (apply Nat.Div0.div_le_upper_bound; lia).
  lia.
Qed.

(** [cleanup] removes the entries of some list of keys and changes nothing
    else; it returns unless it is asked to evict from an empty store. *)
Lemma cleanup_returns (now : Z) (st : Storage.MemoryStorage) :
  Storage.m_schemas st <> [] \/ truthy_opt_number (Storage.maxAge (Storage.m_config st)) = true ->
  exists removed,
    Storage.cleanup now st
    = Ok (Storage.mkMemoryStorage
            (filter (fun kv => negb (existsb (String.eqb (fst kv)) removed)) (Storage.m_schemas st))
            (Storage.m_config st) (Storage.m_initialized st)).
Proof.
  intros H. unfold Storage.cleanup.
  destruct (truthy_opt_number (Storage.maxAge (Storage.m_config st))) eqn:Eage; simpl.
  - eexists. rewrite fold_mapDelete. reflexivity.
  - destruct H as [H | H]; [| discriminate].
    rewrite deleteOldest_returns.
    + simpl. eexists. reflexivity.
    + rewrite sort_length. apply tenPercent_le.
      destruct (Storage.m_schemas st); [contradiction | simpl; lia].
Qed.

Lemma needsRoom_nonempty (st : Storage.MemoryStorage) :
  (forall ceiling, Storage.maxSchemas (Storage.m_config st) = Some ceiling -> (0 <= ceiling)%Z) ->
  Storage.needsRoom st = true -> Storage.m_schemas st <> [].
Proof.
  intros Hc. unfold Storage.needsRoom.
  destruct (Storage.maxSchemas (Storage.m_config st)) as [ceiling |]; [| discriminate].
  specialize (Hc ceiling eq_refl). unfold truthy_number.
  destruct (ceiling =? 0)%Z eqn:E0; simpl; [discriminate |].
  apply Z.eqb_neq in E0. intros Hle. apply Z.leb_le in Hle.
  destruct (Storage.m_schemas st); [simpl in Hle; lia | discriminate].
Qed.

(** What [store] does to the map: some keys are evicted, then the schema
    is set under its id. *)
Lemma store_returns (now : Z) (schema : UniversalSchema) (st : Storage.MemoryStorage) :
  Storage.m_initialized st = true ->
  (forall ceiling, Storage.maxSchemas (Storage.m_config st) = Some ceiling -> (0 <= ceiling)%Z) ->
  exists removed,
    Storage.store now schema st
    = Ok (Storage.mkMemoryStorage
            (obj_set (id schema) schema
               (filter (fun kv => negb (existsb (String.eqb (fst kv)) removed))
                  (Storage.m_schemas st)))
            (Storage.m_config st) true,
          id schema)
    /\ (Storage.needsRoom st = false -> removed = []).
Proof.
  intros Hinit Hc. unfold Storage.store, Storage.ensureInitialized. rewrite Hinit. simpl.
  destruct (Storage.needsRoom st) eqn:Eroom.
  - destruct (cleanup_returns now st) as [removed Hclean].
    { left. now apply needsRoom_nonempty. }
    rewrite Hclean. simpl. rewrite Hinit. exists removed. split; [reflexivity | discriminate].
  - simpl. exists []. rewrite Hinit. split; [| reflexivity].
    simpl. rewrite filter_all_true by reflexivity. reflexivity.
Qed.

Lemma store_inversion (now : Z) (schema : UniversalSchema) (st st' : Storage.MemoryStorage)
    (i : string) :
  Storage.store now schema st = Ok (st', i) ->
  Storage.m_initialized st = true
  /\ i = id schema
  /\ Storage.m_initialized st' = true
  /\ Storage.m_config st' = Storage.m_config st
  /\ exists removed,
       Storage.m_schemas st'
       = obj_set (id schema) schema
           (filter (fun kv => negb (existsb (String.eqb (fst kv)) removed))
              (Storage.m_schemas st))
       /\ (Storage.needsRoom st = false -> removed = []).
Proof.
  unfold Storage.store, Storage.ensureInitialized.
  destruct (Storage.m_initialized st) eqn:Hinit; simpl; [| discriminate].
  destruct (Storage.needsRoom st) eqn:Eroom.
  - destruct (Storage.cleanup now st) as [st1 |] eqn:Eclean; simpl; [| discriminate].
    intros H. inversion H; subst st' i. simpl. clear H.
    assert (Hne : Storage.m_schemas st <> []
                  \/ truthy_opt_number (Storage.maxAge (Storage.m_config st)) = true).
    { destruct (Storage.m_schemas st) eqn:Em; [| left; discriminate].
      right. unfold Storage.cleanup in Eclean. rewrite Em in Eclean.
      destruct (truthy_opt_number (Storage.maxAge (Storage.m_config st))); [reflexivity |].
      simpl in Eclean. discriminate. }
    destruct (cleanup_returns now st Hne) as [removed Hclean].
    rewrite Hclean in Eclean. inversion Eclean; subst st1. simpl.
    repeat split; auto. exists removed. split; [reflexivity | discriminate].
  - simpl. intros H. inversion H; subst st' i. simpl. repeat split; auto.
    exists []. simpl. rewrite filter_all_true by reflexivity. split; reflexivity.
Qed.

Lemma retrieve_returns (k : string) (st : Storage.MemoryStorage) :
  Storage.m_initialized st = true ->
  Memory.retrieve k st = Ok (obj_get k (Storage.m_schemas st)).
Proof.
  intros Hinit. unfold Memory.retrieve, Storage.ensureInitialized. now rewrite Hinit.
Qed.

(** X1: on an initialized store whose ceiling is not negative, [store]
    returns the id of the schema, and [retrieve] of that id then returns
    the schema that was stored. *)
Theorem memory_store_then_retrieve :
  forall (now : Z) (schema : UniversalSchema) (st : Storage.MemoryStorage),
    Storage.m_initialized st = true ->
    (forall ceiling,
        Storage.maxSchemas (Storage.m_config st) = Some ceiling -> (0 <= ceiling)%Z) ->
    exists st',
      Storage.store now schema st = Ok (st', id schema)
      /\ Memory.retrieve (id schema) st' = Ok (Some schema).
Proof.
  intros now schema st Hinit Hc.
  destruct (store_returns now schema st Hinit Hc) as [removed [Hstore _]].
  eexists. split; [exact Hstore |].
  rewrite retrieve_returns by reflexivity. simpl.
  now rewrite obj_get_obj_set, String.eqb_refl.
Qed.

Lemma memory_store_then_retrieve_witness :
  exists st',
    Storage.store 3000 (Storage.exampleSchema "c" 3000) Memory.fullMemory
    = Ok (st', id (Storage.exampleSchema "c" 3000))
    /\ Memory.retrieve (id (Storage.exampleSchema "c" 3000)) st'
       = Ok (Some (Storage.exampleSchema "c" 3000)).
Proof.
  apply (memory_store_then_retrieve 3000 (Storage.exampleSchema "c" 3000) Memory.fullMemory).
  - reflexivity.
  - intros ceiling H. inversion H. lia.
Defined.

(** X2: a [store] never changes the schema held under another id: after
    it, [retrieve] of another id returns what it returned before, or, when
    the store had to make room, [null] (the schema was evicted). *)
Theorem memory_store_keeps_other_ids :
  forall (now : Z) (schema : UniversalSchema) (st st' : Storage.MemoryStorage)
         (i other : string),
    Storage.store now schema st = Ok (st', i) ->
    other <> id schema ->
    Memory.retrieve other st' = Memory.retrieve other st
    \/ (Storage.needsRoom st = true /\ Memory.retrieve other st' = Ok None).
Proof.
  intros now schema st st' i other Hstore Hother.
  destruct (store_inversion _ _ _ _ _ Hstore) as [Hinit [_ [Hinit' [_ [removed [Hm Hroom]]]]]].
  rewrite !retrieve_returns by assumption. rewrite Hm, obj_get_obj_set.
  destruct (String.eqb other (id schema)) eqn:E; [apply String.eqb_eq in E; contradiction |].
  rewrite (obj_get_filter_keys (fun x => negb (existsb (String.eqb x) removed))).
  destruct (Storage.needsRoom st) eqn:Eroom.
  - destruct (negb (existsb (String.eqb other) removed)); [now left | right; now split].
  - rewrite (Hroom eq_refl). now left.
Qed.

Lemma memory_store_keeps_other_ids_witness :
  Memory.retrieve "b"
    (Storage.mkMemoryStorage
       [("b", Storage.exampleSchema "b" 2000); ("c", Storage.exampleSchema "c" 3000)]
       (Storage.m_config Memory.fullMemory) true)
  = Memory.retrieve "b" Memory.fullMemory
  \/ (Storage.needsRoom Memory.fullMemory = true
      /\ Memory.retrieve "b"
           (Storage.mkMemoryStorage
              [("b", Storage.exampleSchema "b" 2000); ("c", Storage.exampleSchema "c" 3000)]
              (Storage.m_config Memory.fullMemory) true)
         = Ok None).
Proof.
  apply (memory_store_keeps_other_ids 3000 (Storage.exampleSchema "c" 3000)
           Memory.fullMemory _ "c" "b").
  - reflexivity.
  - discriminate.
Defined.

Lemma keys_obj_set {A : Type} (k : string) (v : A) (m : list (string * A)) :
  map fst (obj_set k v m)
  = if isSome (obj_get k m) then map fst m else (map fst m ++ [k])%list.
Proof.
  induction m as [| [k' v'] rest IH]; simpl; [reflexivity |].
  destruct (String.eqb k k') eqn:E; simpl.
  - apply String.eqb_eq in E. now subst k'.
  - rewrite IH. now destruct (isSome (obj_get k rest)).
Qed.

Lemma obj_get_None_keys {A : Type} (k : string) (m : list (string * A)) :
  obj_get k m = None <-> ~ In k (map fst m).
Proof.
  induction m as [| [k' v'] rest IH]; simpl; [tauto |].
  destruct (String.eqb k k') eqn:E.
  - apply String.eqb_eq in E. subst k'. split; [discriminate | intros H; exfalso; apply H; now left].
  - apply String.eqb_neq in E. rewrite IH. split.
    + intros H [H1 | H1]; [now apply E | now apply H].
    + intros H H1. apply H. now right.
Qed.

Lemma update_returns (k : string) (schema : UniversalSchema) (st : Storage.MemoryStorage) :
  Storage.m_initialized st = true ->
  Memory.update k schema st
  = Ok (if Memory.mapHas k (Storage.m_schemas st)
        then (Storage.mkMemoryStorage (obj_set k schema (Storage.m_schemas st))
                (Storage.m_config st) true, true)
        else (st, false)).
Proof.
  intros Hinit. unfold Memory.update, Storage.ensureInitialized. rewrite Hinit. simpl.
  destruct (Memory.mapHas k (Storage.m_schemas st)); reflexivity.
Qed.

(** X3: [update] never creates an entry.  On an initialized store it
    returns [true] exactly when the id is stored; then [retrieve] of the id
    gives the new schema.  Otherwise the store is left as it was.  In both
    cases the list of ids and the schema of every other id are unchanged. *)
Theorem memory_update_never_creates :
  forall (id_ : string) (schema : UniversalSchema) (st : Storage.MemoryStorage),
    Storage.m_initialized st = true ->
    exists (st' : Storage.MemoryStorage) (updated : bool),
      Memory.update id_ schema st = Ok (st', updated)
      /\ (updated = true <-> exists old, Memory.retrieve id_ st = Ok (Some old))
      /\ Memory.retrieve id_ st' = Ok (if updated then Some schema else None)
      /\ (if updated then True else st' = st)
      /\ Memory.listIds st' = Memory.listIds st
      /\ (forall other, other <> id_ -> Memory.retrieve other st' = Memory.retrieve other st).
Proof.
  intros k schema st Hinit. rewrite (update_returns k schema st Hinit).
  unfold Memory.mapHas.
  destruct (obj_get k (Storage.m_schemas st)) as [old |] eqn:Eget; simpl.
  - eexists. exists true. split; [reflexivity |].
    rewrite !retrieve_returns by (assumption || reflexivity). simpl. rewrite Eget.
    split; [split; [intros _; now exists old | reflexivity] |].
    split; [now rewrite obj_get_obj_set, String.eqb_refl |].
    split; [exact I |].
    split.
    + unfold Memory.listIds, Storage.ensureInitialized. simpl. rewrite Hinit. simpl.
      now rewrite keys_obj_set, Eget.
    + intros other Hother. rewrite !retrieve_returns by (assumption || reflexivity).
      simpl. rewrite obj_get_obj_set.
      destruct (String.eqb other k) eqn:E; [apply String.eqb_eq in E; contradiction |].
      reflexivity.
  - exists st, false. split; [reflexivity |].
    rewrite !retrieve_returns by assumption.
    split; [split; [discriminate | intros [old H]; congruence] |].
    rewrite Eget. repeat split.
Qed.

Lemma memory_update_never_creates_witness :
  exists (st' : Storage.MemoryStorage) (updated : bool),
    Memory.update "zz" (Storage.exampleSchema "zz" 1) Storage.exampleMemory = Ok (st', updated)
    /\ (updated = true
        <-> exists old, Memory.retrieve "zz" Storage.exampleMemory = Ok (Some old))
    /\ Memory.retrieve "zz" st'
       = Ok (if updated then Some (Storage.exampleSchema "zz" 1) else None)
    /\ (if updated then True else st' = Storage.exampleMemory)
    /\ Memory.listIds st' = Memory.listIds Storage.exampleMemory
    /\ (forall other, other <> "zz" ->
        Memory.retrieve other st' = Memory.retrieve other Storage.exampleMemory).
Proof.
  exact (memory_update_never_creates "zz" (Storage.exampleSchema "zz" 1)
           Storage.exampleMemory eq_refl).
Defined.

(** X4: on an initialized store [delete] answers whether the id was
    stored; afterwards [retrieve] of that id is [null], and every other id
    still retrieves what it did before. *)
Theorem memory_delete_removes_only_that_id :
  forall (id_ : string) (st : Storage.MemoryStorage),
    Storage.m_initialized st = true ->
    exists (st' : Storage.MemoryStorage) (deleted : bool),
      Memory.delete id_ st = Ok (st', deleted)
      /\ (deleted = true <-> exists old, Memory.retrieve id_ st = Ok (Some old))
      /\ Memory.retrieve id_ st' = Ok None
      /\ (forall other, other <> id_ -> Memory.retrieve other st' = Memory.retrieve other st).
Proof.
  intros k st Hinit. unfold Memory.delete, Storage.ensureInitialized. rewrite Hinit. simpl.
  eexists. eexists. split; [reflexivity |].
  rewrite !retrieve_returns by (assumption || reflexivity). simpl.
  split; [| split].
  - unfold Memory.mapHas. destruct (obj_get k (Storage.m_schemas st)) as [old |]; simpl.
    + split; [intros _; now exists old | reflexivity].
    + split; [discriminate | intros [old H]; congruence].
  - now rewrite obj_get_mapDelete, String.eqb_refl.
  - intros other Hother. rewrite !retrieve_returns by (assumption || reflexivity).
    simpl. rewrite obj_get_mapDelete.
    destruct (String.eqb other k) eqn:E; [apply String.eqb_eq in E; contradiction |].
    reflexivity.
Qed.

Lemma memory_delete_removes_only_that_id_witness :
  exists (st' : Storage.MemoryStorage) (deleted : bool),
    Memory.delete "a" Storage.exampleMemory = Ok (st', deleted)
    /\ (deleted = true <-> exists old, Memory.retrieve "a" Storage.exampleMemory = Ok (Some old))
    /\ Memory.retrieve "a" st' = Ok None
    /\ (forall other, other <> "a" ->
        Memory.retrieve other st' = Memory.retrieve other Storage.exampleMemory).
Proof.
  exact (memory_delete_removes_only_that_id "a" Storage.exampleMemory eq_refl).
Defined.

Lemma NoDup_keys_filter {A : Type} (p : string * A -> bool) (m : list (string * A)) :
  NoDup (map fst m) -> NoDup (map fst (filter p m)).
Proof.
  induction m as [| [k v] rest IH]; simpl; intros H; [constructor |].
  inversion H as [| x l Hnotin Hrest]; subst.
  destruct (p (k, v)); simpl; [| now apply IH].
  constructor; [| now apply IH].
  intros Hin. apply Hnotin. apply in_map_iff in Hin. destruct Hin as [[k' v'] [Hk Hin]].
  apply filter_In in Hin. apply in_map_iff. exists (k', v'). tauto.
Qed.

Lemma NoDup_keys_obj_set {A : Type} (k : string) (v : A) (m : list (string * A)) :
  NoDup (map fst m) -> NoDup (map fst (obj_set k v m)).
Proof.
  intros H. rewrite keys_obj_set.
  destruct (obj_get k m) eqn:E; simpl; [exact H |].
  apply obj_get_None_keys in E.
  apply NoDup_app; [exact H | constructor; [intros [] | constructor] |].
  intros x Hx [Hk | []]. subst x. contradiction.
Qed.

Lemma run_keeps_ids_distinct (st : Storage.MemoryStorage) (c : Memory.Call) :
  NoDup (map fst (Storage.m_schemas st)) ->
  NoDup (map fst (Storage.m_schemas (Memory.run st c))).
Proof.
  intros H. destruct c as [options | now schema | k schema | k | |]; simpl.
  - exact H.
  - destruct (Storage.store now schema st) as [[st' i] |] eqn:E; simpl; [| exact H].
    destruct (store_inversion _ _ _ _ _ E) as [_ [_ [_ [_ [removed [Hm _]]]]]].
    rewrite Hm. apply NoDup_keys_obj_set. now apply NoDup_keys_filter.
  - unfold Memory.update.
    destruct (Storage.ensureInitialized "Memory" (Storage.m_initialized st)); simpl; [| exact H].
    destruct (Memory.mapHas k (Storage.m_schemas st)); simpl; [| exact H].
    now apply NoDup_keys_obj_set.
  - unfold Memory.delete.
    destruct (Storage.ensureInitialized "Memory" (Storage.m_initialized st)); simpl; [| exact H].
    unfold Storage.mapDelete. now apply NoDup_keys_filter.
  - unfold Memory.clear.
    destruct (Storage.ensureInitialized "Memory" (Storage.m_initialized st)); simpl; [| exact H].
    constructor.
  - constructor.
Qed.

(** X5: whatever sequence of [initialize], [store], [update], [delete],
    [clear] and [close] calls is made on a fresh memory store, the ids it
    lists are pairwise distinct: no id is ever stored twice. *)
Theorem memory_ids_stay_distinct :
  forall calls : list Memory.Call,
    NoDup (map fst (Storage.m_schemas (Memory.runAll calls)))
    /\ (Storage.m_initialized (Memory.runAll calls) = true ->
        exists ids, Memory.listIds (Memory.runAll calls) = Ok ids /\ NoDup ids).
Proof.
  intros calls.
  assert (H : NoDup (map fst (Storage.m_schemas (Memory.runAll calls)))).
  { unfold Memory.runAll.
    assert (G : forall st, NoDup (map fst (Storage.m_schemas st)) ->
                           NoDup (map fst (Storage.m_schemas (fold_left Memory.run calls st)))).
    { induction calls as [| c rest IH]; intros st Hst; simpl; [exact Hst |].
      apply IH. now apply run_keeps_ids_distinct. }
    apply G. constructor. }
  split; [exact H |].
  intros Hinit. unfold Memory.listIds, Storage.ensureInitialized. rewrite Hinit. simpl.
  eexists. split; [reflexivity | exact H].
Qed.

(* ------------------------------------------------------------------ *)
(** ** Memory storage: statistics                                      *)
(* ------------------------------------------------------------------ *)

Lemma orZero_Some (n : nat) : Memory.orZero (Some n) = n.
Proof. now destruct n. Qed.

(** Setting a counter to its successor adds one to the sum of the
    counters. *)
Lemma list_sum_count (k : string) (acc : list (string * nat)) :
  list_sum (map snd (obj_set k (Memory.orZero (obj_get k acc) + 1) acc))
  = list_sum (map snd acc) + 1.
Proof.
  induction acc as [| [k' n] rest IH]; simpl; [reflexivity |].
  destruct (String.eqb k k') eqn:E; simpl.
  - destruct n; simpl; lia.
  - rewrite IH. lia.
Qed.

Lemma obj_get_In_pair {A : Type} (k : string) (v : A) (o : list (string * A)) :
  obj_get k o = Some v -> In (k, v) o.
Proof.
  induction o as [| [k' v'] rest IH]; simpl; [discriminate |].
  destruct (String.eqb k k') eqn:E; [| intros H; right; now apply IH].
  apply String.eqb_eq in E. subst k'. intros H. inversion H. now left.
Qed.

Lemma countProtocol_sum (values : list UniversalSchema) (acc : list (string * nat)) :
  list_sum (map snd (fold_left Memory.countProtocol values acc))
  = list_sum (map snd acc) + length values.
Proof.
  revert acc. induction values as [| s rest IH]; intros acc; simpl; [lia |].
  rewrite IH. unfold Memory.countProtocol. rewrite list_sum_count. lia.
Qed.

Lemma countProtocol_lookup (p : string) (values : list UniversalSchema)
    (acc : list (string * nat)) :
  Memory.orZero (obj_get p (fold_left Memory.countProtocol values acc))
  = Memory.orZero (obj_get p acc)
    + length (filter (fun s => String.eqb (protocolString (protocol s)) p) values).
Proof.
  revert acc. induction values as [| s rest IH]; intros acc; [simpl; lia |].
  cbn [fold_left filter]. rewrite IH. unfold Memory.countProtocol. rewrite obj_get_obj_set.
  rewrite (String.eqb_sym (protocolString (protocol s)) p).
  destruct (String.eqb p (protocolString (protocol s))) eqn:E.
  - apply String.eqb_eq in E. subst p. rewrite orZero_Some. cbn [length]. lia.
  - lia.
Qed.

Lemma countProtocol_positive (values : list UniversalSchema) (acc : list (string * nat)) :
  (forall k n, In (k, n) acc -> 0 < n) ->
  forall k n, In (k, n) (fold_left Memory.countProtocol values acc) -> 0 < n.
Proof.
  revert acc. induction values as [| s rest IH]; intros acc Hacc k n; simpl; [apply Hacc |].
  apply IH. intros k' n' Hin. unfold Memory.countProtocol in Hin.
  apply In_obj_set in Hin. destruct Hin as [[_ Hn] | Hin]; [lia | now apply (Hacc k')].
Qed.

(** X6: on an initialized store [getStats] returns; [totalSchemas] is the
    number of stored schemas, the counters of [schemasByProtocol] add up to
    it, and the counter of a protocol is the number of stored schemas of
    that protocol: a protocol with no schema has no key, and no key holds
    zero. *)
Theorem memory_getStats_counts :
  forall (stringifiedLength : list UniversalSchema -> nat) (now : Z)
         (st : Storage.MemoryStorage),
    Storage.m_initialized st = true ->
    exists stats,
      Memory.getStats stringifiedLength now st = Ok stats
      /\ Memory.totalSchemas stats = length (Storage.m_schemas st)
      /\ list_sum (map snd (Memory.schemasByProtocol stats)) = Memory.totalSchemas stats
      /\ (forall p : APIProtocol.t,
            obj_get (protocolString p) (Memory.schemasByProtocol stats)
            = match length (filter (fun kv => String.eqb (protocolString (protocol (snd kv)))
                                                (protocolString p))
                              (Storage.m_schemas st)) with
              | O => None
              | S n => Some (S n)
              end).
Proof.
  intros stringifiedLength now st Hinit.
  unfold Memory.getStats, Storage.ensureInitialized. rewrite Hinit. simpl.
  eexists. split; [reflexivity |]. simpl. split; [reflexivity |].
  split; [rewrite countProtocol_sum; simpl; now rewrite length_map |].
  intros p.
  pose proof (countProtocol_lookup (protocolString p) (map snd (Storage.m_schemas st)) [])
    as Hlook.
  simpl in Hlook.
  assert (Hlen : length (filter (fun s => String.eqb (protocolString (protocol s))
                                            (protocolString p))
                           (map snd (Storage.m_schemas st)))
                 = length (filter (fun kv => String.eqb (protocolString (protocol (snd kv)))
                                               (protocolString p))
                             (Storage.m_schemas st))).
  { clear Hlook. generalize (Storage.m_schemas st) as m.
    induction m as [| [k s] rest IH]; cbn [map filter snd]; [reflexivity |].
    destruct (String.eqb (protocolString (protocol s)) (protocolString p));
      cbn [length]; now rewrite IH. }
  rewrite Hlen in Hlook. clear Hlen.
  destruct (obj_get (protocolString p)
              (fold_left Memory.countProtocol (map snd (Storage.m_schemas st)) []))
    as [n |] eqn:Eget.
  - assert (Hpos : 0 < n).
    { apply (countProtocol_positive (map snd (Storage.m_schemas st)) []
               (fun k m (H : In (k, m) []) => match H with end) (protocolString p)).
      now apply obj_get_In_pair. }
    rewrite orZero_Some in Hlook. rewrite <- Hlook. destruct n; [lia | reflexivity].
  - simpl in Hlook. now rewrite <- Hlook.
Qed.

Lemma memory_getStats_counts_witness :
  exists stats,
    Memory.getStats (fun _ => 0) 5000 Storage.exampleMemory = Ok stats
    /\ Memory.totalSchemas stats = length (Storage.m_schemas Storage.exampleMemory)
    /\ list_sum (map snd (Memory.schemasByProtocol stats)) = Memory.totalSchemas stats
    /\ (forall p : APIProtocol.t,
          obj_get (protocolString p) (Memory.schemasByProtocol stats)
          = match length (filter (fun kv => String.eqb (protocolString (protocol (snd kv)))
                                              (protocolString p))
                            (Storage.m_schemas Storage.exampleMemory)) with
            | O => None
            | S n => Some (S n)
            end).
Proof.
  exact (memory_getStats_counts (fun _ => 0) 5000 Storage.exampleMemory eq_refl).
Defined.

(* ------------------------------------------------------------------ *)
(** ** Sorting                                                         *)
(* ------------------------------------------------------------------ *)

Lemma insertSorted_Permutation {A : Type} (compare : A -> A -> Z) (x : A) (l : list A) :
  Permutation (insertSorted compare x l) (x :: l).
Proof.
  induction l as [| y rest IH]; simpl; [reflexivity |].
  destruct (compare y x <=? 0)%Z; [| reflexivity].
  rewrite IH. apply perm_swap.
Qed.

Lemma sort_Permutation {A : Type} (compare : A -> A -> Z) (l : list A) :
  Permutation (sort compare l) l.
Proof.
  unfold sort.
  assert (H : forall acc,
             Permutation (fold_left (fun acc x => insertSorted compare x acc) l acc)
               (l ++ acc)).
  { induction l as [| x rest IH]; intros acc; simpl; [reflexivity |].
    rewrite IH, insertSorted_Permutation. symmetry. apply Permutation_middle. }
  rewrite H. now rewrite app_nil_r.
Qed.

Section SortedBy.
Variable A : Type.
Variable compare : A -> A -> Z.
Variable before : A -> A -> Prop.
Hypothesis before_le : forall a b, (compare a b <= 0)%Z -> before a b.
Hypothesis before_gt : forall a b, (0 < compare a b)%Z -> before b a.
Hypothesis before_trans : forall a b c, before a b -> before b c -> before a c.

Lemma insertSorted_sorted (x : A) (l : list A) :
  StronglySorted before l -> StronglySorted before (insertSorted compare x l).
Proof.
  induction 1 as [| y rest Hrest IH Hy]; simpl.
  - constructor; constructor.
  - destruct (compare y x <=? 0)%Z eqn:E.
    + apply Z.leb_le in E. constructor; [exact IH |].
      apply Forall_forall. intros z Hz. apply In_insertSorted in Hz.
      destruct Hz as [Hz | Hz]; [subst z; now apply before_le |].
      rewrite Forall_forall in Hy. now apply Hy.
    + apply Z.leb_gt in E. constructor; [now constructor |].
      constructor; [now apply before_gt |].
      apply Forall_forall. intros z Hz. rewrite Forall_forall in Hy.
      apply before_trans with y; [now apply before_gt | now apply Hy].
Qed.

Lemma sort_sorted (l : list A) : StronglySorted before (sort compare l).
Proof.
  unfold sort.
  assert (H : forall acc, StronglySorted before acc ->
                          StronglySorted before
                            (fold_left (fun acc x => insertSorted compare x acc) l acc)).
  { induction l as [| x rest IH]; intros acc Hacc; simpl; [exact Hacc |].
    apply IH. now apply insertSorted_sorted. }
  apply H. constructor.
Qed.

End SortedBy.

Lemma StronglySorted_skipn {A : Type} (R : A -> A -> Prop) (n : nat) (l : list A) :
  StronglySorted R l -> StronglySorted R (skipn n l).
Proof.
  revert l. induction n as [| k IH]; intros l H; [exact H |].
  destruct l as [| x rest]; [exact H |]. simpl. apply IH. now inversion H.
Qed.

Lemma StronglySorted_firstn {A : Type} (R : A -> A -> Prop) (n : nat) (l : list A) :
  StronglySorted R l -> StronglySorted R (firstn n l).
Proof.
  revert l. induction n as [| k IH]; intros l H; [constructor |].
  destruct l as [| x rest]; [constructor |]. simpl.
  inversion H as [| y r Hr Hx]; subst. constructor; [now apply IH |].
  rewrite Forall_forall in *. intros z Hz. apply Hx.
  rewrite <- (firstn_skipn k rest). apply in_or_app. now left.
Qed.

Lemma In_slice {A : Type} (l : list A) (start : Z) (end_ : option Z) (x : A) :
  In x (slice l start end_) -> In x l.
Proof.
  unfold slice. intros H.
  set (k := clampIndex (length l) start) in *.
  rewrite <- (firstn_skipn k l). apply in_or_app. right.
  set (rest := skipn k l) in *.
  rewrite <- (firstn_skipn (match end_ with
                            | Some e => clampIndex (length l) e
                            | None => length l
                            end - k) rest).
  apply in_or_app. now left.
Qed.

Lemma In_paginate {A : Type} (q : Storage.SchemaQuery) (l : list A) (x : A) :
  In x (Storage.paginate q l) -> In x l.
Proof.
  unfold Storage.paginate.
  set (afterOffset := match Storage.q_offset q with
                      | Some o => if truthy_number o then slice l o None else l
                      | None => l
                      end).
  assert (H1 : In x afterOffset -> In x l).
  { subst afterOffset. destruct (Storage.q_offset q) as [o |]; [| auto].
    destruct (truthy_number o); [apply In_slice | auto]. }
  destruct (Storage.q_limit q) as [lim |]; [| exact H1].
  destruct (truthy_number lim); [| exact H1].
  intros H. apply H1. now apply In_slice in H.
Qed.

Lemma paginate_sorted {A : Type} (R : A -> A -> Prop) (q : Storage.SchemaQuery) (l : list A) :
  StronglySorted R l -> StronglySorted R (Storage.paginate q l).
Proof.
  intros H. unfold Storage.paginate.
  set (afterOffset := match Storage.q_offset q with
                      | Some o => if truthy_number o then slice l o None else l
                      | None => l
                      end).
  assert (H1 : StronglySorted R afterOffset).
  { subst afterOffset. destruct (Storage.q_offset q) as [o |]; [| exact H].
    destruct (truthy_number o); [| exact H].
    unfold slice. now apply StronglySorted_firstn, StronglySorted_skipn. }
  destruct (Storage.q_limit q) as [lim |]; [| exact H1].
  destruct (truthy_number lim); [| exact H1].
  unfold slice. now apply StronglySorted_firstn, StronglySorted_skipn.
Qed.

(* ------------------------------------------------------------------ *)
(** ** Memory storage: what a query returns                            *)
(* ------------------------------------------------------------------ *)

Lemma sortedResults_sorted (toLowerCase : string -> string)
    (q : Storage.SchemaQuery) (st : Storage.MemoryStorage) :
  StronglySorted (fun a b => (discoveredAt b <= discoveredAt a)%Z)
    (Memory.sortedResults toLowerCase q st).
Proof.
  unfold Memory.sortedResults.
  apply (sort_sorted _ (fun a b => (discoveredAt b - discoveredAt a)%Z)
           (fun a b => (discoveredAt b <= discoveredAt a)%Z)); intros; lia.
Qed.

Lemma In_sortedResults (toLowerCase : string -> string)
    (q : Storage.SchemaQuery) (st : Storage.MemoryStorage) (s : UniversalSchema) :
  In s (Memory.sortedResults toLowerCase q st)
  <-> In s (map snd (Storage.m_schemas st)) /\ Storage.spec_matches toLowerCase q s = true.
Proof.
  unfold Memory.sortedResults. rewrite applyFilters_spec, <- filter_In.
  split; apply Permutation_in; [| symmetry]; apply sort_Permutation.
Qed.

Lemma memory_query_sortedResults (toLowerCase : string -> string)
    (q : Storage.SchemaQuery) (st : Storage.MemoryStorage) :
  Storage.m_initialized st = true ->
  Storage.query toLowerCase q st
  = Ok (Storage.mkSchemaQueryResult
          (Storage.paginate q (Memory.sortedResults toLowerCase q st))
          (length (Memory.sortedResults toLowerCase q st))
          (Storage.computeHasMore (length (Memory.sortedResults toLowerCase q st)) q)).
Proof.
  intros Hinit. unfold Storage.query, Storage.ensureInitialized. rewrite Hinit. reflexivity.
Qed.

(** X7: on an initialized memory store a query returns its schemas
    newest first; every schema it returns is stored and passes every filter
    the query sets; and a query without [offset] and [limit] returns every
    stored schema that passes the filters. *)
Theorem memory_query_sorted_sound_complete :
  forall (toLowerCase : string -> string) (q : Storage.SchemaQuery)
         (st : Storage.MemoryStorage),
    Storage.m_initialized st = true ->
    exists r,
      Storage.query toLowerCase q st = Ok r
      /\ StronglySorted (fun a b => (discoveredAt b <= discoveredAt a)%Z) (Storage.schemas r)
      /\ (forall s, In s (Storage.schemas r) ->
                    In s (map snd (Storage.m_schemas st))
                    /\ Storage.spec_matches toLowerCase q s = true)
      /\ (truthy_opt_number (Storage.q_offset q) = false ->
          truthy_opt_number (Storage.q_limit q) = false ->
          forall s, In s (map snd (Storage.m_schemas st)) ->
                    Storage.spec_matches toLowerCase q s = true ->
                    In s (Storage.schemas r)).
Proof.
  intros toLowerCase q st Hinit.
  rewrite (memory_query_sortedResults toLowerCase q st Hinit).
  eexists. split; [reflexivity |]. simpl. split; [| split].
  - apply paginate_sorted, sortedResults_sorted.
  - intros s Hs. apply In_paginate in Hs. now apply In_sortedResults in Hs.
  - intros Hoff Hlim s Hin Hmatch. unfold Storage.paginate.
    unfold truthy_opt_number in Hoff, Hlim.
    destruct (Storage.q_offset q) as [o |]; [rewrite Hoff |];
      (destruct (Storage.q_limit q) as [l |]; [rewrite Hlim |]);
      now apply In_sortedResults.
Qed.

Lemma memory_query_sorted_sound_complete_witness :
  exists r,
    Storage.query asciiToLowerCase Storage.emptyQuery Storage.exampleMemory = Ok r
    /\ StronglySorted (fun a b => (discoveredAt b <= discoveredAt a)%Z) (Storage.schemas r)
    /\ (forall s, In s (Storage.schemas r) ->
                  In s (map snd (Storage.m_schemas Storage.exampleMemory))
                  /\ Storage.spec_matches asciiToLowerCase Storage.emptyQuery s = true)
    /\ (truthy_opt_number (Storage.q_offset Storage.emptyQuery) = false ->
        truthy_opt_number (Storage.q_limit Storage.emptyQuery) = false ->
        forall s, In s (map snd (Storage.m_schemas Storage.exampleMemory)) ->
                  Storage.spec_matches asciiToLowerCase Storage.emptyQuery s = true ->
                  In s (Storage.schemas r)).
Proof.
  exact (memory_query_sorted_sound_complete asciiToLowerCase Storage.emptyQuery
           Storage.exampleMemory eq_refl).
Defined.

Lemma skipn_min_length {A : Type} (n : nat) (l : list A) :
  skipn (Nat.min n (length l)) l = skipn n l.
Proof.
  destruct (Nat.le_gt_cases n (length l)) as [H | H].
  - now rewrite Nat.min_l.
  - rewrite Nat.min_r by lia. rewrite skipn_all. symmetry. apply skipn_all2. lia.
Qed.

Lemma firstn_min_length {A : Type} (n : nat) (l : list A) :
  firstn (Nat.min n (length l)) l = firstn n l.
Proof.
  destruct (Nat.le_gt_cases n (length l)) as [H | H].
  - now rewrite Nat.min_l.
  - rewrite Nat.min_r by lia. rewrite firstn_all. symmetry. apply firstn_all2. lia.
Qed.

(** [slice] with indices that are not negative. *)
Lemma slice_from {A : Type} (l : list A) (start : Z) :
  (0 <= start)%Z -> slice l start None = skipn (Z.to_nat start) l.
Proof.
  intros H. unfold slice, clampIndex.
  destruct (start <? 0)%Z eqn:E; [apply Z.ltb_lt in E; lia |].
  rewrite skipn_min_length. apply firstn_all2. rewrite length_skipn. lia.
Qed.

Lemma slice_upto {A : Type} (l : list A) (limit : Z) :
  (0 <= limit)%Z -> slice l 0 (Some limit) = firstn (Z.to_nat limit) l.
Proof.
  intros H. unfold slice, clampIndex.
  destruct (limit <? 0)%Z eqn:E; [apply Z.ltb_lt in E; lia |].
  simpl. rewrite Nat.sub_0_r. apply firstn_min_length.
Qed.

Lemma paginate_window {A : Type} (q : Storage.SchemaQuery) (limit : Z) (l : list A) :
  Storage.q_limit q = Some limit -> (0 < limit)%Z ->
  (0 <= Storage.offsetOrZero (Storage.q_offset q))%Z ->
  Storage.paginate q l
  = firstn (Z.to_nat limit) (skipn (Z.to_nat (Storage.offsetOrZero (Storage.q_offset q))) l).
Proof.
  intros Hl Hpos Hoff. unfold Storage.paginate. rewrite Hl.
  assert (Ht : truthy_number limit = true).
  { unfold truthy_number. destruct (limit =? 0)%Z eqn:E; [apply Z.eqb_eq in E; lia | reflexivity]. }
  rewrite Ht, slice_upto by lia. f_equal.
  destruct (Storage.q_offset q) as [o |]; simpl in *; [| reflexivity].
  unfold truthy_number. destruct (o =? 0)%Z eqn:E.
  - apply Z.eqb_eq in E. now subst o.
  - now apply slice_from.
Qed.

(** X8: pages tile the sorted results.  For a positive [limit] L and an
    [offset] O that is not negative (absent meaning 0), the page is the
    window of L schemas starting at position O of the sorted results; when
    [hasMore] is true the page is full, and when it is false the page runs
    to the end of the results. *)
Theorem memory_query_pages_tile :
  forall (toLowerCase : string -> string) (q : Storage.SchemaQuery)
         (st : Storage.MemoryStorage) (limit : Z),
    Storage.m_initialized st = true ->
    Storage.q_limit q = Some limit ->
    (0 < limit)%Z ->
    (0 <= Storage.offsetOrZero (Storage.q_offset q))%Z ->
    exists r,
      Storage.query toLowerCase q st = Ok r
      /\ Storage.schemas r
         = firstn (Z.to_nat limit)
             (skipn (Z.to_nat (Storage.offsetOrZero (Storage.q_offset q)))
                (Memory.sortedResults toLowerCase q st))
      /\ (if Storage.hasMore r
          then length (Storage.schemas r) = Z.to_nat limit
          else Storage.schemas r
               = skipn (Z.to_nat (Storage.offsetOrZero (Storage.q_offset q)))
                   (Memory.sortedResults toLowerCase q st)).
Proof.
  intros toLowerCase q st limit Hinit Hl Hpos Hoff.
  rewrite (memory_query_sortedResults toLowerCase q st Hinit).
  eexists. split; [reflexivity |]. simpl.
  rewrite (paginate_window q limit _ Hl Hpos Hoff). split; [reflexivity |].
  rewrite (computeHasMore_limit _ q limit Hl) by lia.
  set (all := Memory.sortedResults toLowerCase q st).
  set (o := Storage.offsetOrZero (Storage.q_offset q)) in *.
  destruct (o + limit <? Z.of_nat (length all))%Z eqn:E.
  - apply Z.ltb_lt in E. rewrite length_firstn, length_skipn. lia.
  - apply Z.ltb_ge in E. apply firstn_all2. rewrite length_skipn. lia.
Qed.

Lemma memory_query_pages_tile_witness :
  exists r,
    Storage.query asciiToLowerCase (Memory.pageQuery 1 1) Storage.exampleMemory = Ok r
    /\ Storage.schemas r
       = firstn (Z.to_nat 1)
           (skipn (Z.to_nat (Storage.offsetOrZero (Storage.q_offset (Memory.pageQuery 1 1))))
              (Memory.sortedResults asciiToLowerCase (Memory.pageQuery 1 1)
                 Storage.exampleMemory))
    /\ (if Storage.hasMore r
        then length (Storage.schemas r) = Z.to_nat 1
        else Storage.schemas r
             = skipn (Z.to_nat (Storage.offsetOrZero (Storage.q_offset (Memory.pageQuery 1 1))))
                 (Memory.sortedResults asciiToLowerCase (Memory.pageQuery 1 1)
                    Storage.exampleMemory)).
Proof.
  apply (memory_query_pages_tile asciiToLowerCase (Memory.pageQuery 1 1)
           Storage.exampleMemory 1).
  - reflexivity.
  - reflexivity.
  - lia.
  - simpl. lia.
Defined.

(* ------------------------------------------------------------------ *)
(** ** Memory storage: eviction                                        *)
(* ------------------------------------------------------------------ *)

Lemma existsb_keys_In (k : string) (keys : list string) :
  existsb (String.eqb k) keys = true <-> In k keys.
Proof.
  rewrite existsb_exists. split.
  - intros [x [Hin Heq]]. apply String.eqb_eq in Heq. now subst x.
  - intros Hin. exists k. split; [exact Hin | apply String.eqb_refl].
Qed.

(** With distinct keys an entry is determined by its key. *)
Lemma NoDup_keys_unique {A : Type} (k : string) (a b : A) (m : list (string * A)) :
  NoDup (map fst m) -> In (k, a) m -> In (k, b) m -> a = b.
Proof.
  induction m as [| [k0 v0] rest IH]; [intros _ [] |].
  simpl. intros Hnd Ha Hb. inversion Hnd as [| x l Hnotin Hrest]; subst.
  destruct Ha as [Ha | Ha], Hb as [Hb | Hb].
  - congruence.
  - inversion Ha; subst. exfalso. apply Hnotin. apply in_map_iff. now exists (k, b).
  - inversion Hb; subst. exfalso. apply Hnotin. apply in_map_iff. now exists (k, a).
  - now apply IH.
Qed.

(** X9: with a [maxAge] configured (and not zero), [cleanup] leaves no
    schema discovered before the cutoff [now - maxAge], and, the ids being
    distinct, it keeps every schema discovered at or after the cutoff, in
    order. *)
Theorem memory_cleanup_by_age :
  forall (now age : Z) (st : Storage.MemoryStorage),
    Storage.maxAge (Storage.m_config st) = Some age ->
    age <> 0%Z ->
    exists st',
      Storage.cleanup now st = Ok st'
      /\ (forall k s, In (k, s) (Storage.m_schemas st') -> (now - age <= discoveredAt s)%Z)
      /\ (NoDup (map fst (Storage.m_schemas st)) ->
          Storage.m_schemas st'
          = filter (fun kv => (now - age <=? discoveredAt (snd kv))%Z) (Storage.m_schemas st)).
Proof.
  intros now age st Hage Hnz. unfold Storage.cleanup. rewrite Hage.
  assert (Ht : truthy_opt_number (Some age) = true).
  { unfold truthy_opt_number, truthy_number.
    destruct (age =? 0)%Z eqn:E; [apply Z.eqb_eq in E; contradiction | reflexivity]. }
  rewrite Ht. simpl. eexists. split; [reflexivity |]. simpl.
  rewrite fold_mapDelete.
  set (old := filter (fun kv => (discoveredAt (snd kv) <? now - age)%Z) (Storage.m_schemas st)).
  split.
  - intros k s Hin. apply filter_In in Hin. destruct Hin as [Hin Hkeep].
    destruct (Z.le_gt_cases (now - age) (discoveredAt s)) as [H | H]; [exact H |].
    exfalso. apply negb_true_iff in Hkeep.
    assert (Hk : existsb (String.eqb (fst (k, s))) (map fst old) = true).
    { apply existsb_keys_In. apply in_map_iff. exists (k, s). split; [reflexivity |].
      subst old. apply filter_In. split; [exact Hin |]. apply Z.ltb_lt. exact H. }
    congruence.
  - intros Hnd. apply filter_ext_in. intros [k s] Hin. simpl.
    destruct (now - age <=? discoveredAt s)%Z eqn:E.
    + apply negb_true_iff. apply not_true_iff_false. intros Hk.
      apply existsb_keys_In in Hk. apply in_map_iff in Hk.
      destruct Hk as [[k' s'] [Hkey Hold]]. simpl in Hkey. subst k'.
      subst old. apply filter_In in Hold. destruct Hold as [Hin' Hlt]. simpl in Hlt.
      assert (s' = s) by exact (NoDup_keys_unique k s' s _ Hnd Hin' Hin).
      subst s'. apply Z.leb_le in E. apply Z.ltb_lt in Hlt. lia.
    + apply negb_false_iff. apply existsb_keys_In. apply in_map_iff.
      exists (k, s). split; [reflexivity |]. subst old. apply filter_In.
      split; [exact Hin |]. simpl. apply Z.leb_gt in E. now apply Z.ltb_lt.
Qed.

Lemma memory_cleanup_by_age_witness :
  exists st',
    Storage.cleanup 86401500 Storage.exampleMemory = Ok st'
    /\ (forall k s, In (k, s) (Storage.m_schemas st') -> (86401500 - 86400000 <= discoveredAt s)%Z)
    /\ (NoDup (map fst (Storage.m_schemas Storage.exampleMemory)) ->
        Storage.m_schemas st'
        = filter (fun kv => (86401500 - 86400000 <=? discoveredAt (snd kv))%Z)
            (Storage.m_schemas Storage.exampleMemory)).
Proof.
  apply (memory_cleanup_by_age 86401500 86400000 Storage.exampleMemory).
  - reflexivity.
  - lia.
Defined.

Lemma NoDup_app_disjoint {A : Type} (l1 l2 : list A) (x : A) :
  NoDup (l1 ++ l2) -> In x l1 -> In x l2 -> False.
Proof.
  induction l1 as [| y rest IH]; simpl; [intros _ [] |].
  intros Hnd [Hx | Hx] H2; inversion Hnd as [| z l Hnotin Hrest]; subst.
  - apply Hnotin. apply in_or_app. now right.
  - now apply IH.
Qed.

Lemma StronglySorted_app_order {A : Type} (R : A -> A -> Prop) (l1 l2 : list A) (a b : A) :
  StronglySorted R (l1 ++ l2) -> In a l1 -> In b l2 -> R a b.
Proof.
  induction l1 as [| y rest IH]; simpl; [intros _ [] |].
  intros Hs [Ha | Ha] Hb; inversion Hs as [| z l Hrest Hall]; subst.
  - rewrite Forall_forall in Hall. apply Hall. apply in_or_app. now right.
  - now apply IH.
Qed.

Lemma filter_all_false {A : Type} (p : A -> bool) (l : list A) :
  (forall x, In x l -> p x = false) -> filter p l = [].
Proof.
  induction l as [| x rest IH]; simpl; intros H; [reflexivity |].
  rewrite (H x (or_introl eq_refl)). apply IH. intros y Hy. apply H. now right.
Qed.

Lemma Permutation_filter_length {A : Type} (p : A -> bool) (l1 l2 : list A) :
  Permutation l1 l2 -> length (filter p l1) = length (filter p l2).
Proof.
  induction 1 as [| x l l' _ IH | x y l | l l' l'' _ IH1 _ IH2]; simpl.
  - reflexivity.
  - destruct (p x); simpl; now rewrite IH.
  - destruct (p x), (p y); reflexivity.
  - now rewrite IH1.
Qed.

(** X10: with no [maxAge] configured, [cleanup] of a store that is not
    empty and whose ids are distinct evicts exactly [max(1, floor(n / 10))]
    of its n schemas, and the evicted ones are the oldest: every evicted
    schema was discovered no later than every schema that is kept. *)
Theorem memory_cleanup_evicts_oldest_tenth :
  forall (now : Z) (st : Storage.MemoryStorage),
    truthy_opt_number (Storage.maxAge (Storage.m_config st)) = false ->
    Storage.m_schemas st <> [] ->
    NoDup (map fst (Storage.m_schemas st)) ->
    exists st',
      Storage.cleanup now st = Ok st'
      /\ length (Storage.m_schemas st')
         = length (Storage.m_schemas st) - Nat.max 1 (length (Storage.m_schemas st) / 10)
      /\ (forall kept, In kept (Storage.m_schemas st') -> In kept (Storage.m_schemas st))
      /\ (forall evicted kept,
            In evicted (Storage.m_schemas st) ->
            ~ In evicted (Storage.m_schemas st') ->
            In kept (Storage.m_schemas st') ->
            (discoveredAt (snd evicted) <= discoveredAt (snd kept))%Z).
Proof.
  intros now st Hage Hne Hnd. unfold Storage.cleanup. rewrite Hage. simpl.
  set (compare := fun a b : string * UniversalSchema =>
                    (discoveredAt (snd a) - discoveredAt (snd b))%Z).
  set (m := Storage.m_schemas st) in *.
  set (sorted := sort compare m).
  assert (Hperm : Permutation sorted m) by apply sort_Permutation.
  assert (Hlen : length sorted = length m) by apply sort_length.
  assert (Hn : Storage.tenPercent (length sorted) <= length sorted).
  { apply tenPercent_le. rewrite Hlen. destruct m; [contradiction | simpl; lia]. }
  rewrite (deleteOldest_returns _ sorted m Hn). simpl.
  set (n := Storage.tenPercent (length sorted)) in *.
  set (first := firstn n sorted). set (rest := skipn n sorted).
  assert (Hsplit : sorted = (first ++ rest)%list) by (symmetry; apply firstn_skipn).
  assert (Hnds : NoDup (map fst sorted)).
  { apply (Permutation_NoDup (l := map fst m)); [| exact Hnd].
    symmetry. now apply Permutation_map. }
  assert (Hsorted : StronglySorted
                      (fun a b => (discoveredAt (snd a) <= discoveredAt (snd b))%Z) sorted).
  { apply (sort_sorted _ compare); unfold compare; intros; lia. }
  set (keep := fun kv : string * UniversalSchema =>
                 negb (existsb (String.eqb (fst kv)) (map fst first))).
  assert (Hfirst : forall kv, In kv m -> keep kv = false -> In kv first).
  { intros [k s] Hin Hk. apply negb_false_iff in Hk. apply existsb_keys_In in Hk.
    apply in_map_iff in Hk. destruct Hk as [[k' s'] [Hkey Hin']]. simpl in Hkey. subst k'.
    assert (Hs' : In (k, s') sorted) by (rewrite Hsplit; apply in_or_app; now left).
    assert (Hs : In (k, s) sorted) by now apply (Permutation_in _ (Permutation_sym Hperm)).
    now rewrite <- (NoDup_keys_unique k s' s sorted Hnds Hs' Hs). }
  assert (Hrest : forall kv, In kv rest -> keep kv = true).
  { intros kv Hin. apply negb_true_iff. apply not_true_iff_false. intros Hk.
    apply existsb_keys_In in Hk.
    apply (NoDup_app_disjoint (map fst first) (map fst rest) (fst kv)).
    - rewrite <- map_app, <- Hsplit. exact Hnds.
    - exact Hk.
    - now apply in_map. }
  eexists. split; [reflexivity |]. simpl. fold keep. split; [| split].
  - rewrite (Permutation_filter_length keep m sorted (Permutation_sym Hperm)).
    rewrite Hsplit, filter_app, length_app.
    assert (H1 : filter keep first = []).
    { apply filter_all_false. intros kv Hin.
      unfold keep. apply negb_false_iff. apply existsb_keys_In. now apply in_map. }
    rewrite H1, (filter_all_true keep rest Hrest). simpl.
    unfold rest. rewrite length_skipn. unfold n, Storage.tenPercent. now rewrite Hlen.
  - intros kept Hin. apply filter_In in Hin. tauto.
  - intros evicted kept Hin Hgone Hkept.
    apply (StronglySorted_app_order
             (fun a b : string * UniversalSchema =>
                (discoveredAt (snd a) <= discoveredAt (snd b))%Z) first rest);
      [now rewrite <- Hsplit | |].
    + apply Hfirst; [exact Hin |]. destruct (keep evicted) eqn:E; [| reflexivity].
      exfalso. apply Hgone. apply filter_In. now split.
    + apply filter_In in Hkept. destruct Hkept as [Hin' Hk].
      assert (Hs : In kept sorted) by now apply (Permutation_in _ (Permutation_sym Hperm)).
      rewrite Hsplit in Hs. apply in_app_or in Hs. destruct Hs as [Hs | Hs]; [| exact Hs].
      exfalso. unfold keep in Hk. apply negb_true_iff in Hk.
      apply not_true_iff_false in Hk. apply Hk. apply existsb_keys_In. now apply in_map.
Qed.

Lemma memory_cleanup_evicts_oldest_tenth_witness :
  exists st',
    Storage.cleanup 5000 Memory.fullMemory = Ok st'
    /\ length (Storage.m_schemas st')
       = length (Storage.m_schemas Memory.fullMemory)
         - Nat.max 1 (length (Storage.m_schemas Memory.fullMemory) / 10)
    /\ (forall kept, In kept (Storage.m_schemas st') ->
                     In kept (Storage.m_schemas Memory.fullMemory))
    /\ (forall evicted kept,
          In evicted (Storage.m_schemas Memory.fullMemory) ->
          ~ In evicted (Storage.m_schemas st') ->
          In kept (Storage.m_schemas st') ->
          (discoveredAt (snd evicted) <= discoveredAt (snd kept))%Z).
Proof.
  apply (memory_cleanup_evicts_oldest_tenth 5000 Memory.fullMemory).
  - reflexivity.
  - discriminate.
  - repeat constructor; simpl; intuition discriminate.
Defined.

(* ------------------------------------------------------------------ *)
(** ** GraphQL converter: wrapped types                                *)
(* ------------------------------------------------------------------ *)

Lemma unwrapWrappers_innermost (t : GraphQL.GraphQLTypeRef) (isList : bool) :
  GraphQL.unwrapWrappers t isList
  = (GraphQLConvert.innermost t, GraphQLConvert.wrapsList t || isList).
Proof.
  revert t isList. fix IH 1. intros [k n [inner |]] isList; simpl.
  - rewrite IH. f_equal.
    destruct (GraphQLTypeKind.eqb k GraphQLTypeKind.LIST); simpl; [now rewrite orb_true_r | reflexivity].
  - reflexivity.
Qed.

Lemma innermost_is_leaf (t : GraphQL.GraphQLTypeRef) :
  GraphQL.tr_ofType (GraphQLConvert.innermost t) = None.
Proof.
  revert t. fix IH 1. intros [k n [inner |]]; simpl; [apply IH | reflexivity].
Qed.

Lemma mapScalarType_not_array (n : option string) :
  GraphQL.mapScalarType n <> DataType.ARRAY.
Proof.
  unfold GraphQL.mapScalarType.
  repeat match goal with
         | |- context [match ?x with _ => _ end] => destruct x
         end; discriminate.
Qed.

Lemma leaf_not_array (t : GraphQL.GraphQLTypeRef) :
  GraphQL.tr_ofType t = None -> GraphQL.convertGraphQLTypeToDataType t <> DataType.ARRAY.
Proof.
  destruct t as [k n [inner |]]; simpl; [discriminate |]. intros _.
  unfold GraphQL.convertGraphQLTypeToDataType. simpl.
  destruct k; try discriminate. apply mapScalarType_not_array.
Qed.

(** X11: only a LIST wrapper makes a GraphQL type an array, and every
    other wrapper is transparent.  A type reference converts to [array]
    exactly when some node of its chain that has an [ofType] is a LIST;
    otherwise it converts to what its innermost named type converts to.  In
    particular NON_NULL around a type changes nothing and LIST around any
    type gives [array]. *)
Theorem graphql_list_wrapper_decides_array :
  forall t : GraphQL.GraphQLTypeRef,
    GraphQL.convertGraphQLTypeToDataType t
    = (if GraphQLConvert.wrapsList t then DataType.ARRAY
       else GraphQL.convertGraphQLTypeToDataType (GraphQLConvert.innermost t))
    /\ (GraphQL.convertGraphQLTypeToDataType t = DataType.ARRAY
        <-> GraphQLConvert.wrapsList t = true)
    /\ GraphQL.convertGraphQLTypeToDataType (GraphQL.NonNull t)
       = GraphQL.convertGraphQLTypeToDataType t
    /\ GraphQL.convertGraphQLTypeToDataType (GraphQL.ListOf t) = DataType.ARRAY.
Proof.
  intros t.
  assert (H : GraphQL.convertGraphQLTypeToDataType t
              = (if GraphQLConvert.wrapsList t then DataType.ARRAY
                 else GraphQL.convertGraphQLTypeToDataType (GraphQLConvert.innermost t))).
  { unfold GraphQL.convertGraphQLTypeToDataType at 1. rewrite unwrapWrappers_innermost.
    rewrite orb_false_r. destruct (GraphQLConvert.wrapsList t); [reflexivity |].
    pose proof (innermost_is_leaf t) as Hleaf.
    destruct (GraphQLConvert.innermost t) as [k n [inner |]]; [discriminate |]. reflexivity. }
  split; [exact H |]. split; [| split].
  - rewrite H. destruct (GraphQLConvert.wrapsList t); [tauto |].
    split; [| discriminate]. intros Harr. exfalso.
    exact (leaf_not_array _ (innermost_is_leaf t) Harr).
  - unfold GraphQL.convertGraphQLTypeToDataType, GraphQL.NonNull. simpl. reflexivity.
  - unfold GraphQL.convertGraphQLTypeToDataType, GraphQL.ListOf. simpl.
    rewrite unwrapWrappers_innermost. now rewrite orb_true_r.
Qed.

(* ------------------------------------------------------------------ *)
(** ** GraphQL converter: [convertSchema]                              *)
(* ------------------------------------------------------------------ *)

Lemma In_keys_obj_set {A : Type} (k : string) (v : A) (m : list (string * A)) (n : string) :
  In n (map fst (obj_set k v m)) <-> n = k \/ In n (map fst m).
Proof.
  rewrite keys_obj_set. destruct (obj_get k m) eqn:E; simpl.
  - split; [now right |]. intros [H | H]; [| exact H]. subst n.
    destruct (in_dec string_dec k (map fst m)) as [Hin | Hnot]; [exact Hin |].
    apply obj_get_None_keys in Hnot. congruence.
  - rewrite in_app_iff. simpl. intuition.
Qed.

Lemma mapM_In {A B : Type} (f : A -> Result B) (xs : list A) (ys : list B) :
  mapM f xs = Ok ys ->
  forall y, In y ys <-> exists x, In x xs /\ f x = Ok y.
Proof.
  revert ys. induction xs as [| x rest IH]; simpl; intros ys H.
  - inversion H. simpl. intros y. split; [intros [] | intros [x [[] _]]].
  - destruct (f x) as [y0 |] eqn:Ef; simpl in H; [| discriminate].
    destruct (mapM f rest) as [ys0 |] eqn:Em; simpl in H; [| discriminate].
    inversion H; subst ys. clear H. intros y. simpl. rewrite (IH ys0 eq_refl y). split.
    + intros [Hy | [x' [Hin Hx']]]; [subst y0; exists x; auto | exists x'; auto].
    + intros [x' [[Hx | Hin] Hf]]; [subst x'; left; congruence | right; now exists x'].
Qed.

Section GraphQLConvertFacts.
Import GraphQL GraphQLConvert.

Variable JSON_parse : string -> Result JsValue.
Variable generateSchemaId : string -> string.
Variable extractApiName : string -> string.

Lemma notBuiltIn_named (t : GraphQLType) :
  isBuiltInType (gt_name t) = false ->
  exists n, gt_name t = Some n /\ truthy_string n = true /\ startsWith n "__" = false.
Proof.
  unfold isBuiltInType. destruct (gt_name t) as [n |]; simpl; [| discriminate].
  destruct (truthy_string n) eqn:Et; simpl; [| discriminate].
  intros H. apply orb_false_iff in H. exists n. tauto.
Qed.

Lemma convert_loop (schema : IntrospectionSchema) (ts : list GraphQLType)
    (acc acc' : list Operation * list (string * SchemaField)) :
  foldM (convertType JSON_parse schema) ts acc = Ok acc' ->
  (forall n f, In (n, f) (snd acc') ->
     In (n, f) (snd acc)
     \/ exists t, In t ts /\ gt_name t = Some n
                  /\ isBuiltInType (gt_name t) = false /\ isReusableKind (gt_kind t) = true
                  /\ convertTypeToSchemaField JSON_parse t = Ok f)
  /\ (forall n, In n (map fst (snd acc)) -> In n (map fst (snd acc')))
  /\ (forall t n, In t ts -> gt_name t = Some n ->
        isBuiltInType (gt_name t) = false -> isReusableKind (gt_kind t) = true ->
        In n (map fst (snd acc')))
  /\ (forall op, In op (fst acc') <->
        In op (fst acc)
        \/ exists t n fields field,
             In t ts /\ gt_name t = Some n
             /\ isBuiltInType (gt_name t) = false /\ isRootType (gt_name t) schema = true
             /\ gt_fields t = Some fields /\ In field fields
             /\ fieldToOperation JSON_parse (getOperationType n schema) field = Ok op).
Proof.
  revert acc. induction ts as [| t rest IH]; simpl; intros [ops tys] H.
  - inversion H; subst acc'. simpl. split; [auto | split; [auto | split]].
    + intros t n [].
    + intros op. split; [now left |].
      intros [Hin | [t [n [fs [fd [[] _]]]]]]. exact Hin.
  - unfold convertType at 1 in H.
    destruct (isBuiltInType (gt_name t)) eqn:Ebuilt; simpl in H.
    + destruct (IH _ H) as [H1 [H2 [H3 H4]]]. simpl in *. repeat split.
      * intros n f Hin. destruct (H1 n f Hin) as [Hl | [t' [Hin' Hrest]]]; [now left |].
        right. exists t'. tauto.
      * exact H2.
      * intros t' n [Ht | Ht] Hn Hb Hk; [subst t'; congruence | now apply (H3 t' n)].
      * intros Hop. apply H4 in Hop.
        destruct Hop as [Hl | [t' [n [fs [fd [Hin' Hrest]]]]]]; [now left |].
        right. exists t', n, fs, fd. tauto.
      * intros [Hl | [t' [n [fs [fd [[Ht | Ht] Hrest]]]]]]; apply H4.
        -- now left.
        -- subst t'. destruct Hrest as [_ [Hb _]]. congruence.
        -- right. exists t', n, fs, fd. tauto.
    + destruct (notBuiltIn_named t Ebuilt) as [nt [Hnt _]].
      set (tys1 := if isReusableKind (gt_kind t)
                   then f <- convertTypeToSchemaField JSON_parse t ;;
                        Ok (obj_set (match gt_name t with Some n => n | None => "" end) f tys)
                   else Ok tys) in H.
      destruct tys1 as [tys' |] eqn:Etys; simpl in H; [| discriminate].
      set (ops1 := if isRootType (gt_name t) schema
                   then ops0 <- extractOperationsFromType JSON_parse t schema ;;
                        Ok (ops ++ ops0)%list
                   else Ok ops) in H.
      destruct ops1 as [ops' |] eqn:Eops; simpl in H; [| discriminate].
      destruct (IH _ H) as [H1 [H2 [H3 H4]]]. simpl in *.
      subst tys1 ops1. rewrite Hnt in Etys.
      assert (Htys : forall n f, In (n, f) tys' ->
                 In (n, f) tys
                 \/ (n = nt /\ isReusableKind (gt_kind t) = true
                     /\ convertTypeToSchemaField JSON_parse t = Ok f)).
      { intros n f Hin. destruct (isReusableKind (gt_kind t)).
        - destruct (convertTypeToSchemaField JSON_parse t) as [f0 |]; simpl in Etys;
            [| discriminate].
          inversion Etys; subst tys'. apply In_obj_set in Hin.
          destruct Hin as [[Hn Hf] | Hin]; [right; subst; auto | now left].
        - inversion Etys; subst tys'. now left. }
      assert (Hkeys : forall n, In n (map fst tys) -> In n (map fst tys')).
      { intros n Hin. destruct (isReusableKind (gt_kind t)).
        - destruct (convertTypeToSchemaField JSON_parse t) as [f0 |]; simpl in Etys;
            [| discriminate].
          inversion Etys; subst tys'. apply In_keys_obj_set. now right.
        - now inversion Etys; subst tys'. }
      assert (Hnew : isReusableKind (gt_kind t) = true -> In nt (map fst tys')).
      { intros Hk. rewrite Hk in Etys.
        destruct (convertTypeToSchemaField JSON_parse t) as [f0 |]; simpl in Etys;
          [| discriminate].
        inversion Etys; subst tys'. apply In_keys_obj_set. now left. }
      assert (Hops : forall op, In op ops' <->
                 In op ops
                 \/ (isRootType (gt_name t) schema = true
                     /\ exists fields field,
                          gt_fields t = Some fields /\ In field fields
                          /\ fieldToOperation JSON_parse (getOperationType nt schema) field
                             = Ok op)).
      { intros op. destruct (isRootType (gt_name t) schema).
        - unfold extractOperationsFromType in Eops. rewrite Hnt in Eops.
          destruct (gt_fields t) as [fields |]; simpl in Eops.
          + destruct (mapM (fieldToOperation JSON_parse (getOperationType nt schema)) fields)
              as [ops0 |] eqn:Emap; simpl in Eops; [| discriminate].
            inversion Eops; subst ops'. rewrite in_app_iff.
            rewrite (mapM_In _ _ _ Emap op). split.
            * intros [Hl | [fd [Hin Hf]]]; [now left |].
              right. split; [reflexivity |]. now exists fields, fd.
            * intros [Hl | [_ [fs [fd [Hfs [Hin Hf]]]]]]; [now left |].
              right. inversion Hfs; subst fs. now exists fd.
          + inversion Eops; subst ops'. rewrite app_nil_r. split; [now left |].
            intros [Hl | [_ [fs [fd [Hfs _]]]]]; [exact Hl | discriminate].
        - inversion Eops; subst ops'. split; [now left |].
          intros [Hl | [Hr _]]; [exact Hl | discriminate]. }
      repeat split.
      * intros n f Hin. destruct (H1 n f Hin) as [Hl | [t' [Hin' Hrest]]].
        -- destruct (Htys n f Hl) as [Hold | [Hn [Hk Hf]]]; [now left |].
           right. exists t. subst n. repeat split; auto.
        -- right. exists t'. tauto.
      * intros n Hin. apply H2. now apply Hkeys.
      * intros t' n [Ht | Ht] Hn Hb Hk; [| now apply (H3 t' n)].
        subst t'. apply H2. rewrite Hnt in Hn. inversion Hn; subst n. now apply Hnew.
      * intros Hop. apply H4 in Hop.
        destruct Hop as [Hl | [t' [n [fs [fd [Hin' Hrest]]]]]].
        -- apply Hops in Hl. destruct Hl as [Hold | [Hroot [fs [fd [Hfs [Hin Hf]]]]]];
             [now left |].
           right. exists t, nt, fs, fd. repeat split; auto.
        -- right. exists t', n, fs, fd. tauto.
      * intros [Hl | [t' [n [fs [fd [[Ht | Ht] Hrest]]]]]]; apply H4.
        -- left. apply Hops. now left.
        -- subst t'. left. apply Hops. right.
           destruct Hrest as [Hn [_ [Hroot [Hfs [Hin Hf]]]]].
           rewrite Hnt in Hn. inversion Hn; subst n. split; [exact Hroot |]. now exists fs, fd.
        -- right. exists t', n, fs, fd. tauto.
Qed.

(** X12: the reusable types of a converted GraphQL schema are exactly the
    named types of kind OBJECT, INPUT_OBJECT or INTERFACE that are not
    built in: no key of [types] begins with two underscores, every key is
    the name of such a type, and every such type has its key.  The field
    stored under a key is the conversion of a type of that name. *)
Theorem graphql_convertSchema_types :
  forall (now : Z) (schema : IntrospectionSchema) (sourceUrl : string)
         (apiName : option string) (u : UniversalSchema),
    convertSchema JSON_parse generateSchemaId extractApiName now schema sourceUrl apiName
    = Ok u ->
    (forall n, In n (map fst (Schema.types u)) <-> exists t, keptAs schema n t)
    /\ (forall n f, In (n, f) (Schema.types u) ->
          startsWith n "__" = false
          /\ exists t, keptAs schema n t /\ convertTypeToSchemaField JSON_parse t = Ok f).
Proof.
  intros now schema sourceUrl apiName u. unfold convertSchema.
  destruct (foldM (convertType JSON_parse schema) (types schema) ([], []))
    as [[ops tys] |] eqn:Eloop; simpl; [| discriminate].
  destruct (createMetadata schema) as [md |]; simpl; [| discriminate].
  intros H. inversion H; subst u. simpl. clear H.
  destruct (convert_loop schema _ _ _ Eloop) as [H1 [_ [H3 _]]]. simpl in *.
  assert (Hval : forall n f, In (n, f) tys ->
             startsWith n "__" = false
             /\ exists t, keptAs schema n t /\ convertTypeToSchemaField JSON_parse t = Ok f).
  { intros n f Hin. destruct (H1 n f Hin) as [[] | [t [Hin' [Hn [Hb [Hk Hf]]]]]].
    split.
    - destruct (notBuiltIn_named t Hb) as [n' [Hn' [_ Hs]]]. congruence.
    - exists t. unfold keptAs. tauto. }
  split; [| exact Hval].
  intros n. split.
  - intros Hin. apply in_map_iff in Hin. destruct Hin as [[n' f] [Hn Hin]].
    simpl in Hn. subst n'. destruct (Hval n f Hin) as [_ [t [Hk _]]]. now exists t.
  - intros [t [Hin [Hn [Hb Hk]]]]. now apply (H3 t n).
Qed.

(** X13: the operations of a converted GraphQL schema are exactly the
    fields of its root types (the types named by [queryType],
    [mutationType] and [subscriptionType]); fields of other types never
    become operations.  Each operation is a query, a mutation or a
    subscription, its id is its type and its name joined by an underscore,
    it has the single response "200", and all its parameters are body
    parameters. *)
Theorem graphql_convertSchema_operations :
  forall (now : Z) (schema : IntrospectionSchema) (sourceUrl : string)
         (apiName : option string) (u : UniversalSchema),
    convertSchema JSON_parse generateSchemaId extractApiName now schema sourceUrl apiName
    = Ok u ->
    (forall op, In op (operations u) <-> rootField JSON_parse schema op)
    /\ (forall op, In op (operations u) ->
          op_id op = operationTypeString (op_type op) ++ "_" ++ op_name op
          /\ (op_type op = OpQuery \/ op_type op = OpMutation \/ op_type op = OpSubscription)
          /\ (exists r, op_responses op = [r] /\ r_statusCode r = "200")
          /\ (forall p, In p (op_parameters op) -> p_location p = LocBody)).
Proof.
  intros now schema sourceUrl apiName u. unfold convertSchema.
  destruct (foldM (convertType JSON_parse schema) (types schema) ([], []))
    as [[ops tys] |] eqn:Eloop; simpl; [| discriminate].
  destruct (createMetadata schema) as [md |]; simpl; [| discriminate].
  intros H. inversion H; subst u. simpl. clear H.
  destruct (convert_loop schema _ _ _ Eloop) as [_ [_ [_ H4]]]. simpl in *.
  assert (Hiff : forall op, In op ops <-> rootField JSON_parse schema op).
  { intros op. rewrite (H4 op). unfold rootField. split; [intros [[] | H]; exact H | now right]. }
  split; [exact Hiff |].
  intros op Hin. apply Hiff in Hin.
  destruct Hin as [t [n [fs [fd [_ [_ [_ [_ [_ [_ Hop]]]]]]]]]].
  unfold fieldToOperation in Hop.
  destruct (mapM (convertInputValueToParameter JSON_parse) (gf_args fd)) as [ps |] eqn:Eps;
    simpl in Hop; [| discriminate].
  inversion Hop; subst op. simpl. clear Hop.
  split; [reflexivity |]. split.
  - unfold getOperationType.
    destruct (namesRoot n (queryType schema)); [now left |].
    destruct (namesRoot n (mutationType schema)); [right; now left |].
    destruct (namesRoot n (subscriptionType schema)); [right; now right | now left].
  - split; [eexists; split; reflexivity |].
    intros p Hp. apply (mapM_In _ _ _ Eps) in Hp. destruct Hp as [iv [_ Hiv]].
    unfold convertInputValueToParameter in Hiv.
    destruct (parseDefaultValue JSON_parse (iv_defaultValue iv)); simpl in Hiv; [| discriminate].
    inversion Hiv. reflexivity.
Qed.

(** X14: [convertSchema] needs the directives.  On introspection data
    without [directives] (the simplified introspection query does not ask
    for them) it throws and never returns a schema. *)
Theorem graphql_convertSchema_needs_directives :
  forall (now : Z) (schema : IntrospectionSchema) (sourceUrl : string)
         (apiName : option string),
    directives schema = None ->
    exists e,
      convertSchema JSON_parse generateSchemaId extractApiName now schema sourceUrl apiName
      = Throw e.
Proof.
  intros now schema sourceUrl apiName Hd. unfold convertSchema.
  destruct (foldM (convertType JSON_parse schema) (types schema) ([], []))
    as [[ops tys] |]; simpl; [| now eexists].
  unfold createMetadata. rewrite Hd. simpl. now eexists.
Qed.

End GraphQLConvertFacts.

Lemma graphql_convertSchema_types_witness :
  exists u,
    GraphQLConvert.convertSchema JSON_parse_keywords (fun s => s) (fun s => s) 5000
      GraphQLConvert.exampleIntrospection "https://example.org/graphql" None = Ok u
    /\ (forall n, In n (map fst (Schema.types u))
                  <-> exists t, GraphQLConvert.keptAs GraphQLConvert.exampleIntrospection n t)
    /\ (forall n f, In (n, f) (Schema.types u) ->
          startsWith n "__" = false
          /\ exists t, GraphQLConvert.keptAs GraphQLConvert.exampleIntrospection n t
                       /\ GraphQL.convertTypeToSchemaField JSON_parse_keywords t = Ok f).
Proof.
  eexists. split; [reflexivity |].
  exact (graphql_convertSchema_types JSON_parse_keywords (fun s => s) (fun s => s) 5000
           GraphQLConvert.exampleIntrospection "https://example.org/graphql" None _ eq_refl).
Defined.

Lemma graphql_convertSchema_operations_witness :
  exists u,
    GraphQLConvert.convertSchema JSON_parse_keywords (fun s => s) (fun s => s) 5000
      GraphQLConvert.exampleIntrospection "https://example.org/graphql" None = Ok u
    /\ (forall op, In op (operations u)
                   <-> GraphQLConvert.rootField JSON_parse_keywords
                         GraphQLConvert.exampleIntrospection op)
    /\ (forall op, In op (operations u) ->
          op_id op = GraphQLConvert.operationTypeString (op_type op) ++ "_" ++ op_name op
          /\ (op_type op = OpQuery \/ op_type op = OpMutation \/ op_type op = OpSubscription)
          /\ (exists r, op_responses op = [r] /\ r_statusCode r = "200")
          /\ (forall p, In p (op_parameters op) -> p_location p = LocBody)).
Proof.
  eexists. split; [reflexivity |].
  exact (graphql_convertSchema_operations JSON_parse_keywords (fun s => s) (fun s => s) 5000
           GraphQLConvert.exampleIntrospection "https://example.org/graphql" None _ eq_refl).
Defined.

Lemma graphql_convertSchema_needs_directives_witness :
  exists e,
    GraphQLConvert.convertSchema JSON_parse_keywords (fun s => s) (fun s => s) 5000
      (GraphQLConvert.mkIntrospectionSchema (Some "Query") None None
         [GraphQLConvert.exampleQueryType] None)
      "https://example.org/graphql" None
    = Throw e.
Proof.
  exact (graphql_convertSchema_needs_directives JSON_parse_keywords (fun s => s) (fun s => s)
           5000
           (GraphQLConvert.mkIntrospectionSchema (Some "Query") None None
              [GraphQLConvert.exampleQueryType] None)
           "https://example.org/graphql" None eq_refl).
Defined.

(* ------------------------------------------------------------------ *)
(** ** REST converter: the shape of converted schemas                  *)
(* ------------------------------------------------------------------ *)

Lemma OpenAPISchema_nested_ind (P : OpenAPI.OpenAPISchema -> Prop) :
  (forall ty fmt desc dflt ex en mn mx mnl mxl pat items props req ref nul ro wo dep,
      (forall i, items = Some i -> P i) ->
      (forall ps, props = Some ps -> Forall (fun kv => P (snd kv)) ps) ->
      P (OpenAPI.mkOpenAPISchema ty fmt desc dflt ex en mn mx mnl mxl pat items props req ref
           nul ro wo dep)) ->
  forall s, P s.
Proof.
  intros H. fix IH 1.
  intros [ty fmt desc dflt ex en mn mx mnl mxl pat items props req ref nul ro wo dep].
  apply H.
  - destruct items as [i |]; intros i' Hi; [| discriminate].
    inversion Hi; subst i'. apply IH.
  - destruct props as [ps |]; intros ps' Hps; [| discriminate].
    inversion Hps; subst ps'. clear Hps.
    induction ps as [| [k x] rest IHrest]; constructor; [apply IH | exact IHrest].
Qed.

Section OpenAPIConvertFacts.
Import OpenAPI OpenAPIConvert.

Lemma obj_get_plain_set {A : Type} (k : string) (v : A) (o : list (string * A)) (k0 : string) :
  obj_get k0 (plain_set k v o)
  = if String.eqb k "__proto__" then obj_get k0 o
    else if String.eqb k0 k then Some v else obj_get k0 o.
Proof.
  unfold plain_set. destruct (String.eqb k "__proto__"); [reflexivity |].
  apply obj_get_obj_set.
Qed.

Lemma convertProperties_fold (required : option (list string))
    (ps : list (string * OpenAPISchema)) (acc : list (string * SchemaField)) :
  convertProperties required ps acc
  = fold_left
      (fun acc kv =>
         plain_set (fst kv)
           (sf_set_required (requiredIncludes required (fst kv))
              (convertOpenAPISchemaToSchemaField (snd kv) (fst kv)))
           acc)
      ps acc.
Proof.
  revert acc. induction ps as [| [n s] rest IH]; intros acc; simpl; [reflexivity | apply IH].
Qed.

Lemma converted_name (schema : OpenAPISchema) (name : string) :
  sf_name (convertOpenAPISchemaToSchemaField schema name) = name
  /\ sf_required (convertOpenAPISchemaToSchemaField schema name) = false.
Proof.
  rewrite convertOpenAPISchemaToSchemaField_unfold. split; reflexivity.
Qed.

Lemma constraints_set (schema : OpenAPISchema) (c : FieldConstraints) :
  extractSchemaConstraints schema = Some c -> constraintsSet c = true.
Proof.
  unfold extractSchemaConstraints, constraintsSet.
  destruct (s_minimum schema), (s_maximum schema), (s_minLength schema), (s_maxLength schema),
    (s_enum schema), (truthy_opt_string (s_pattern schema)) eqn:Ep,
    (truthy_opt_string (s_format schema)) eqn:Ef; simpl;
    intros H; inversion H; subst c; simpl; try reflexivity;
    try (destruct (s_pattern schema); [reflexivity | discriminate]);
    try (destruct (s_format schema); [now rewrite ?orb_true_r | discriminate]).
Qed.

Lemma forallb_obj_set {A : Type} (p : string * A -> bool) (k : string) (v : A)
    (m : list (string * A)) :
  p (k, v) = true -> forallb p m = true -> forallb p (obj_set k v m) = true.
Proof.
  intros Hp. induction m as [| [k' v'] rest IH]; simpl.
  - intros _. now rewrite Hp.
  - destruct (String.eqb k k'); simpl; intros H; apply andb_true_iff in H; destruct H as [H1 H2].
    + now rewrite Hp.
    + rewrite H1. now apply IH.
Qed.

Lemma wellFormed_set_required (r : bool) (f : SchemaField) :
  wellFormed (sf_set_required r f) = wellFormed f
  /\ sf_name (sf_set_required r f) = sf_name f.
Proof. destruct f. split; reflexivity. Qed.

(** The [switch] of [mapOpenAPITypeToDataType] has no [null] branch. *)
Lemma mapped_never_null (type : option JsValue) :
  match mapOpenAPITypeToDataType type with
  | DataType.NULL => false
  | _ => true
  end = true.
Proof.
  unfold mapOpenAPITypeToDataType. destruct type as [[| b | q | s | elems | props] |];
    try reflexivity.
  repeat match goal with |- context [if ?c then _ else _] => destruct c; try reflexivity end.
Qed.

Lemma typeIs_mapped (rs : OpenAPISchema) (t : OpenAPIDataType.t) :
  typeIs rs t = true ->
  mapOpenAPITypeToDataType (typeOrObject (s_type rs))
  = mapOpenAPITypeToDataType (Some (JStr (OpenAPIDataType.value t))).
Proof.
  unfold typeIs, typeOrObject. destruct (s_type rs) as [[| b | q | s | elems | props] |];
    try discriminate.
  intros H. apply String.eqb_eq in H. subst s. now destruct t.
Qed.

Lemma mapped_unknown_string (s : string) :
  mapOpenAPITypeToDataType (Some (JStr s)) = DataType.UNKNOWN <-> knownType (JStr s) = false.
Proof.
  unfold mapOpenAPITypeToDataType, knownType. cbn [OpenAPIDataType.value existsb].
  repeat match goal with
         | |- context [String.eqb s ?x] =>
             destruct (String.eqb s x); [split; intros H; simpl in H; discriminate H |]
         end.
  simpl. split; reflexivity.
Qed.

(** The converted type is [unknown] exactly for a truthy [type] outside
    the seven strings. *)
Lemma mapped_unknown (type : option JsValue) :
  mapOpenAPITypeToDataType (typeOrObject type) = DataType.UNKNOWN
  <-> exists v, type = Some v /\ truthy v = true /\ knownType v = false.
Proof.
  unfold typeOrObject. destruct type as [v |].
  - destruct (truthy v) eqn:Et.
    + split.
      * intros H. exists v. repeat split; auto.
        destruct v as [| b | q | s | elems | props]; try reflexivity.
        now apply mapped_unknown_string.
      * intros (v' & Hv & _ & Hk). inversion Hv; subst v'. clear Hv.
        destruct v as [| b | q | s | elems | props]; try reflexivity.
        now apply mapped_unknown_string.
    + split; [discriminate |].
      intros (v' & Hv & Ht & _). inversion Hv; subst v'. congruence.
  - split; [discriminate | intros (v & Hv & _); discriminate].
Qed.

Lemma fieldOfResolved_wellFormed (rs : OpenAPISchema) (name : string)
    (ci : option SchemaField) (cp : option (list (string * SchemaField))) :
  (forall i, ci = Some i ->
             sf_name i = "item" /\ sf_required i = false /\ wellFormed i = true) ->
  (forall ps, cp = Some ps ->
              forallb (fun kv => String.eqb (sf_name (snd kv)) (fst kv)
                                 && negb (String.eqb (fst kv) "__proto__")
                                 && wellFormed (snd kv)) ps
              = true) ->
  wellFormed (fieldOfResolved rs name ci cp) = true.
Proof.
  intros Hi Hp. unfold fieldOfResolved. cbn [wellFormed].
  rewrite !andb_true_iff. repeat split.
  - apply mapped_never_null.
  - destruct (typeIs rs OpenAPIDataType.ARRAY) eqn:Et; [| reflexivity].
    rewrite (typeIs_mapped rs _ Et).
    destruct ci as [i |]; [| reflexivity].
    destruct (Hi i eq_refl) as [Hn [Hr Hw]]. rewrite Hn, Hr, Hw. reflexivity.
  - destruct (typeIs rs OpenAPIDataType.OBJECT) eqn:Et; [| reflexivity].
    rewrite (typeIs_mapped rs _ Et).
    destruct cp as [ps |]; [| reflexivity]. exact (Hp ps eq_refl).
  - destruct (extractSchemaConstraints rs) as [c |] eqn:Ec; [| reflexivity].
    exact (constraints_set rs c Ec).
Qed.

Lemma properties_loop_wellFormed (req : option (list string))
    (ps : list (string * OpenAPISchema)) :
  Forall (fun kv => forall name,
            wellFormed (convertOpenAPISchemaToSchemaField (snd kv) name) = true) ps ->
  forall acc,
    forallb (fun kv => String.eqb (sf_name (snd kv)) (fst kv)
                       && negb (String.eqb (fst kv) "__proto__")
                       && wellFormed (snd kv)) acc = true ->
    forallb (fun kv => String.eqb (sf_name (snd kv)) (fst kv)
                       && negb (String.eqb (fst kv) "__proto__")
                       && wellFormed (snd kv))
      (fold_left
         (fun acc kv =>
            plain_set (fst kv)
              (sf_set_required (requiredIncludes req (fst kv))
                 (convertOpenAPISchemaToSchemaField (snd kv) (fst kv)))
              acc)
         ps acc) = true.
Proof.
  induction 1 as [| [n s] rest Hs Hrest IH]; intros acc Hacc; simpl; [exact Hacc |].
  apply IH. unfold plain_set. destruct (String.eqb n "__proto__") eqn:En; [exact Hacc |].
  apply forallb_obj_set; [| exact Hacc]. simpl.
  destruct (wellFormed_set_required (requiredIncludes req n)
              (convertOpenAPISchemaToSchemaField s n)) as [Hw Hn].
  rewrite Hw, Hn, En. destruct (converted_name s n) as [Hn' _]. rewrite Hn', String.eqb_refl.
  simpl. apply Hs.
Qed.

(** X15: every field that the OpenAPI schema conversion produces is well
    formed at every depth, whatever the document carries as [type].  It
    has the name it was converted under and is not required; its type is
    one of string, number, integer, boolean, array, object and unknown,
    and it is unknown exactly when the schema has no [$ref] and its
    [type] is a truthy value other than the seven strings that the
    converter knows (["null"], say, or an array of types); [items]
    appears only on an array and [properties] only on an object; every
    property is stored under its own name and none under [__proto__];
    constraints are never an empty object; and the metadata is always
    there. *)
Theorem openapi_converted_field_well_formed :
  forall (schema : OpenAPISchema) (name : string),
    sf_name (convertOpenAPISchemaToSchemaField schema name) = name
    /\ sf_required (convertOpenAPISchemaToSchemaField schema name) = false
    /\ wellFormed (convertOpenAPISchemaToSchemaField schema name) = true
    /\ (sf_type (convertOpenAPISchemaToSchemaField schema name) = DataType.UNKNOWN
        <-> truthy_opt_string (s_ref schema) = false
            /\ exists v, s_type schema = Some v /\ truthy v = true /\ knownType v = false).
Proof.
  intros schema name.
  destruct (converted_name schema name) as [Hn Hr]. split; [exact Hn |]. split; [exact Hr |].
  clear Hn Hr. split.
  - revert name.
    induction schema as [ty fmt desc dflt ex en mn mx mnl mxl pat items props req ref nul ro wo
                            dep IHitems IHprops] using OpenAPISchema_nested_ind.
    intros name. rewrite convertOpenAPISchemaToSchemaField_unfold. cbv zeta.
    unfold resolve. cbn [s_ref].
    destruct (match ref with
              | Some r => truthy_string r
              | None => false
              end) eqn:Eref.
    + destruct ref as [r |]; [| discriminate]. rewrite Eref. reflexivity.
    + assert (Hres : match ref with
                     | Some r => if truthy_string r then resolveSchemaReference r
                                 else mkOpenAPISchema ty fmt desc dflt ex en mn mx mnl mxl pat
                                        items props req ref nul ro wo dep
                     | None => mkOpenAPISchema ty fmt desc dflt ex en mn mx mnl mxl pat items
                                 props req ref nul ro wo dep
                     end
                     = mkOpenAPISchema ty fmt desc dflt ex en mn mx mnl mxl pat items
                         props req ref nul ro wo dep).
      { destruct ref as [r |]; [now rewrite Eref | reflexivity]. }
      rewrite Hres. cbn [s_items s_properties s_required].
      apply fieldOfResolved_wellFormed.
      * intros i Hi. destruct items as [i0 |]; simpl in Hi; [| discriminate].
        inversion Hi; subst i. destruct (converted_name i0 "item") as [Hn Hr].
        repeat split; auto.
      * intros ps Hps. destruct props as [ps0 |]; simpl in Hps; [| discriminate].
        inversion Hps; subst ps. clear Hps.
        rewrite convertProperties_fold.
        apply properties_loop_wellFormed; [exact (IHprops ps0 eq_refl) | reflexivity].
  - rewrite convertOpenAPISchemaToSchemaField_unfold. cbv zeta.
    unfold fieldOfResolved. cbn [sf_type]. rewrite mapped_unknown.
    unfold resolve. destruct (s_ref schema) as [r |] eqn:Eref; cbn [truthy_opt_string].
    + destruct (truthy_string r) eqn:Er.
      * split; [| intros [H _]; discriminate H].
        intros (v & Hv & Ht & Hk). simpl in Hv. inversion Hv; subst v. discriminate Hk.
      * split; [intros H; split; [reflexivity | exact H] | intros [_ H]; exact H].
    + split; [intros H; split; [reflexivity | exact H] | intros [_ H]; exact H].
Qed.

Lemma obj_set_fresh {A : Type} (k : string) (v : A) (m : list (string * A)) :
  ~ In k (map fst m) -> obj_set k v m = (m ++ [(k, v)])%list.
Proof.
  induction m as [| [k' v'] rest IH]; simpl; intros H; [reflexivity |].
  destruct (String.eqb k k') eqn:E.
  - apply String.eqb_eq in E. subst k'. exfalso. apply H. now left.
  - f_equal. apply IH. intros Hin. apply H. now right.
Qed.

(** Setting the entries of a list with distinct, fresh keys appends them
    in order. *)
Lemma fold_obj_set_fresh {A B : Type} (f : string * A -> B) (ps : list (string * A))
    (acc : list (string * B)) :
  NoDup (map fst ps) ->
  (forall k, In k (map fst ps) -> ~ In k (map fst acc)) ->
  fold_left (fun acc kv => obj_set (fst kv) (f kv) acc) ps acc
  = (acc ++ map (fun kv => (fst kv, f kv)) ps)%list.
Proof.
  revert acc. induction ps as [| [k a] rest IH]; intros acc Hnd Hfresh; simpl.
  - now rewrite app_nil_r.
  - inversion Hnd as [| x l Hnotin Hrest]; subst.
    rewrite obj_set_fresh by (apply Hfresh; now left).
    rewrite IH; [now rewrite <- app_assoc | exact Hrest |].
    intros k' Hk'. rewrite map_app, in_app_iff. simpl. intros [Hin | [Heq | []]].
    + apply (Hfresh k'); [now right | exact Hin].
    + subst k'. contradiction.
Qed.

(** The same for assignments to an object literal: the entry named
    [__proto__] is skipped. *)
Lemma fold_plain_set_fresh {A B : Type} (f : string * A -> B) (ps : list (string * A))
    (acc : list (string * B)) :
  NoDup (map fst ps) ->
  (forall k, In k (map fst ps) -> ~ In k (map fst acc)) ->
  fold_left (fun acc kv => plain_set (fst kv) (f kv) acc) ps acc
  = (acc ++ map (fun kv => (fst kv, f kv)) (ownEntries ps))%list.
Proof.
  revert acc. induction ps as [| [k a] rest IH]; intros acc Hnd Hfresh; simpl.
  - now rewrite app_nil_r.
  - inversion Hnd as [| x l Hnotin Hrest]; subst.
    unfold plain_set at 2. unfold ownEntries. simpl.
    destruct (String.eqb k "__proto__") eqn:Ek; simpl.
    + apply IH; [exact Hrest |]. intros k' Hk'. apply Hfresh. now right.
    + rewrite obj_set_fresh by (apply Hfresh; now left).
      rewrite IH; [now rewrite <- app_assoc | exact Hrest |].
      intros k' Hk'. rewrite map_app, in_app_iff. simpl. intros [Hin | [Heq | []]].
      * apply (Hfresh k'); [now right | exact Hin].
      * subst k'. contradiction.
Qed.

(** X16: whether a property is required is decided by the parent alone.
    For an object schema without [$ref] whose [properties] have distinct
    names, the converted properties are the properties other than
    [__proto__], in order, each converted under its own name and marked
    required exactly when the parent's [required] list names it; the
    property named [__proto__], if there is one, is not among them. *)
Theorem openapi_required_comes_from_parent :
  forall (schema : OpenAPISchema) (name : string) (ps : list (string * OpenAPISchema)),
    truthy_opt_string (s_ref schema) = false ->
    s_type schema = Some (JStr "object") ->
    s_properties schema = Some ps ->
    NoDup (map fst ps) ->
    sf_properties (convertOpenAPISchemaToSchemaField schema name)
    = Some (map (fun kv =>
                   (fst kv,
                    sf_set_required (requiredIncludes (s_required schema) (fst kv))
                      (convertOpenAPISchemaToSchemaField (snd kv) (fst kv))))
              (ownEntries ps))
    /\ (forall n f,
          obj_get n (match sf_properties (convertOpenAPISchemaToSchemaField schema name) with
                     | Some props => props
                     | None => []
                     end) = Some f ->
          sf_name f = n
          /\ String.eqb n "__proto__" = false
          /\ (sf_required f = true <-> exists names, s_required schema = Some names /\ In n names)).
Proof.
  intros schema name ps Href Hty Hps Hnd.
  assert (H : sf_properties (convertOpenAPISchemaToSchemaField schema name)
              = Some (map (fun kv =>
                             (fst kv,
                              sf_set_required (requiredIncludes (s_required schema) (fst kv))
                                (convertOpenAPISchemaToSchemaField (snd kv) (fst kv))))
                        (ownEntries ps))).
  { rewrite convertOpenAPISchemaToSchemaField_unfold. cbv zeta.
    assert (Hres : resolve schema = schema).
    { unfold resolve. destruct (s_ref schema) as [r |]; [| reflexivity].
      simpl in Href. now rewrite Href. }
    rewrite Hres. unfold fieldOfResolved. cbn [sf_properties].
    unfold typeIs. rewrite Hty, Hps. simpl. f_equal.
    rewrite convertProperties_fold.
    rewrite (fold_plain_set_fresh
               (fun kv => sf_set_required (requiredIncludes (s_required schema) (fst kv))
                            (convertOpenAPISchemaToSchemaField (snd kv) (fst kv)))
               ps [] Hnd); [reflexivity |].
    intros k _ []. }
  split; [exact H |].
  rewrite H. intros n f Hget. apply obj_get_In_pair in Hget.
  apply in_map_iff in Hget. destruct Hget as [[k s] [Heq Hin]]. simpl in Heq.
  inversion Heq; subst n f. clear Heq.
  unfold ownEntries in Hin. apply filter_In in Hin. destruct Hin as [Hin Hown].
  simpl in Hown. apply negb_true_iff in Hown.
  destruct (wellFormed_set_required (requiredIncludes (s_required schema) k)
              (convertOpenAPISchemaToSchemaField s k)) as [_ Hn].
  rewrite Hn. destruct (converted_name s k) as [Hn' _]. split; [exact Hn' |].
  split; [exact Hown |].
  assert (Hr : sf_required (sf_set_required (requiredIncludes (s_required schema) k)
                              (convertOpenAPISchemaToSchemaField s k))
               = requiredIncludes (s_required schema) k).
  { now destruct (convertOpenAPISchemaToSchemaField s k). }
  rewrite Hr. unfold requiredIncludes.
  destruct (s_required schema) as [names |].
  - rewrite existsb_keys_In. split; [intros Hk; now exists names | intros [ns [Hns Hk]]; congruence].
  - split; [discriminate | intros [ns [Hns _]]; discriminate].
Qed.

End OpenAPIConvertFacts.

(** The theorem on a schema for a pet with the properties [id], [tags]
    and [__proto__], of which [id] is required: the converted field has
    the two properties [id] and [tags]. *)
Lemma openapi_required_comes_from_parent_witness :
  sf_properties (OpenAPI.convertOpenAPISchemaToSchemaField OpenAPIConvert.petSchema "Pet")
  = Some (map (fun kv =>
                 (fst kv,
                  sf_set_required
                    (OpenAPI.requiredIncludes (OpenAPI.s_required OpenAPIConvert.petSchema) (fst kv))
                    (OpenAPI.convertOpenAPISchemaToSchemaField (snd kv) (fst kv))))
            (OpenAPIConvert.ownEntries OpenAPIConvert.petProperties))
  /\ (forall n f,
        obj_get n (match sf_properties
                           (OpenAPI.convertOpenAPISchemaToSchemaField OpenAPIConvert.petSchema
                              "Pet") with
                   | Some props => props
                   | None => []
                   end) = Some f ->
        sf_name f = n
        /\ String.eqb n "__proto__" = false
        /\ (sf_required f = true
            <-> exists names,
                  OpenAPI.s_required OpenAPIConvert.petSchema = Some names /\ In n names)).
Proof.
  apply (openapi_required_comes_from_parent OpenAPIConvert.petSchema "Pet").
  - reflexivity.
  - reflexivity.
  - reflexivity.
  - repeat constructor; simpl; intuition discriminate.
Defined.

(* ------------------------------------------------------------------ *)
(** ** REST converter: type definitions and authentication             *)
(* ------------------------------------------------------------------ *)

Section OpenAPIDefinitionsFacts.
Import OpenAPI OpenAPIConvert.

Lemma addTypeDefinitions_lookup (schemas : list (string * OpenAPISchema))
    (types : list (string * SchemaField)) (n : string) :
  NoDup (map fst schemas) ->
  obj_get n (addTypeDefinitions schemas types)
  = if String.eqb n "__proto__" then obj_get n types
    else match obj_get n schemas with
         | Some s => Some (convertOpenAPISchemaToSchemaField s n)
         | None => obj_get n types
         end.
Proof.
  unfold addTypeDefinitions. revert types.
  induction schemas as [| [k s] rest IH]; intros types Hnd; simpl.
  - now destruct (String.eqb n "__proto__").
  - inversion Hnd as [| x l Hnotin Hrest]; subst.
    rewrite (IH _ Hrest). rewrite obj_get_plain_set.
    destruct (String.eqb n "__proto__") eqn:En.
    + destruct (String.eqb k "__proto__") eqn:Ek; [reflexivity |].
      destruct (String.eqb n k) eqn:E; [| reflexivity].
      apply String.eqb_eq in E. subst k. congruence.
    + destruct (String.eqb n k) eqn:E.
      * apply String.eqb_eq in E. subst k. rewrite En.
        apply obj_get_None_keys in Hnotin. now rewrite Hnotin.
      * destruct (obj_get n rest); [reflexivity |].
        now destruct (String.eqb k "__proto__").
Qed.

(** X17: every component schema and every Swagger definition with a
    name other than [__proto__] becomes a reusable type under its own
    name, converted under that name, and nothing else does: the types
    never have an own property [__proto__], even when a schema or a
    definition has that name.  When a name occurs in both, the definition
    gives the type. *)
Theorem openapi_type_definitions :
  forall (spec : Specification) (n : string),
    NoDup (map fst (componentSchemas spec)) ->
    NoDup (map fst (swaggerDefinitions spec)) ->
    obj_get n (extractTypeDefinitions spec [])
    = if String.eqb n "__proto__" then None
      else match obj_get n (swaggerDefinitions spec) with
           | Some s => Some (convertOpenAPISchemaToSchemaField s n)
           | None =>
               match obj_get n (componentSchemas spec) with
               | Some s => Some (convertOpenAPISchemaToSchemaField s n)
               | None => None
               end
           end.
Proof.
  intros spec n Hndc Hndd. unfold extractTypeDefinitions.
  set (types1 := match components spec with
                 | Some c =>
                     match comp_schemas c with
                     | Some schemas => addTypeDefinitions schemas []
                     | None => []
                     end
                 | None => []
                 end).
  assert (H1 : obj_get n types1
               = if String.eqb n "__proto__" then None
                 else match obj_get n (componentSchemas spec) with
                      | Some s => Some (convertOpenAPISchemaToSchemaField s n)
                      | None => None
                      end).
  { subst types1. unfold componentSchemas in *.
    destruct (components spec) as [c |]; [| now destruct (String.eqb n "__proto__")].
    destruct (comp_schemas c) as [l |]; [| now destruct (String.eqb n "__proto__")].
    now apply addTypeDefinitions_lookup. }
  unfold swaggerDefinitions in *. destruct (definitions spec) as [l |].
  - rewrite (addTypeDefinitions_lookup l types1 n Hndd). rewrite H1.
    now destruct (String.eqb n "__proto__").
  - simpl. rewrite H1. now destruct (String.eqb n "__proto__").
Qed.

Lemma dedupe_spec (scopes : list string) :
  NoDup (dedupe scopes) /\ (forall s, In s (dedupe scopes) <-> In s scopes).
Proof.
  unfold dedupe.
  assert (G : forall seen, NoDup seen ->
                NoDup (fold_left (fun seen s => WebSocket.setAdd s seen) scopes seen)
                /\ (forall s, In s (fold_left (fun seen s => WebSocket.setAdd s seen) scopes seen)
                              <-> In s seen \/ In s scopes)).
  { induction scopes as [| x rest IH]; intros seen Hnd; simpl.
    - split; [exact Hnd | intros s; tauto].
    - destruct (IH (WebSocket.setAdd x seen) (NoDup_setAdd x seen Hnd)) as [H1 H2].
      split; [exact H1 |]. intros s. rewrite H2, In_setAdd. intuition. }
  destruct (G [] (NoDup_nil _)) as [H1 H2]. split; [exact H1 |].
  intros s. rewrite H2. simpl. tauto.
Qed.

Lemma collected_scopes (flows : list (string * OAuthFlow)) (acc : list string) (s : string) :
  In s (fold_left
          (fun scopes flow =>
             match flow_scopes (snd flow) with
             | Some names => (scopes ++ names)%list
             | None => scopes
             end)
          flows acc)
  <-> In s acc
      \/ exists flow names, In flow flows /\ flow_scopes (snd flow) = Some names /\ In s names.
Proof.
  revert acc. induction flows as [| flow rest IH]; intros acc; simpl.
  - split; [now left | intros [H | [f [ns [[] _]]]]; exact H].
  - rewrite IH. split.
    + intros [H | [f [ns [Hin Hrest]]]].
      * destruct (flow_scopes (snd flow)) as [names |] eqn:E; [| now left].
        apply in_app_or in H. destruct H as [H | H]; [now left |].
        right. exists flow, names. auto.
      * right. exists f, ns. tauto.
    + intros [H | [f [ns [[Hf | Hin] [Hs Hns]]]]].
      * left. destruct (flow_scopes (snd flow)); [apply in_or_app; now left | exact H].
      * subst f. left. rewrite Hs. apply in_or_app. now right.
      * right. exists f, ns. tauto.
Qed.

(** X18: [extractAuthentication] always answers, from the first declared
    security scheme alone.  The answer is [none] exactly when no scheme is
    declared; it carries scopes only for an OAuth2 scheme, and these
    scopes are the scope names of all the flows of that scheme, each listed
    once. *)
Theorem openapi_authentication_scopes :
  forall (spec : Specification),
    exists a,
      extractAuthentication spec = Some a
      /\ (auth_type a = AuthNone
          <-> securitySchemesOf spec = None \/ securitySchemesOf spec = Some [])
      /\ (forall scopes,
            auth_scopes a = Some scopes ->
            auth_type a = AuthOAuth2
            /\ NoDup scopes
            /\ exists key first rest,
                 securitySchemesOf spec = Some ((key, first) :: rest)
                 /\ (forall s, In s scopes
                               <-> exists flows flow names,
                                     sec_flows first = Some flows /\ In flow flows
                                     /\ flow_scopes (snd flow) = Some names /\ In s names)).
Proof.
  intros spec. unfold extractAuthentication.
  destruct (securitySchemesOf spec) as [[| [key first] rest] |].
  - eexists. split; [reflexivity |]. simpl. split; [tauto |]. discriminate.
  - assert (Hsc : forall scopes,
               Some (extractOAuth2Scopes first) = Some scopes ->
               NoDup scopes
               /\ exists key0 first0 rest0,
                    Some ((key, first) :: rest) = Some ((key0, first0) :: rest0)
                    /\ (forall s, In s scopes
                                  <-> exists flows flow names,
                                        sec_flows first0 = Some flows /\ In flow flows
                                        /\ flow_scopes (snd flow) = Some names /\ In s names)).
    { intros scopes H. inversion H; subst scopes. clear H. unfold extractOAuth2Scopes.
      split; [apply dedupe_spec |]. exists key, first, rest. split; [reflexivity |].
      intros s. rewrite (proj2 (dedupe_spec _) s).
      destruct (sec_flows first) as [flows |].
      - rewrite collected_scopes. split.
        + intros [[] | [flow [names H]]]. now exists flows, flow, names.
        + intros [fl [flow [names [Hfl H]]]]. inversion Hfl; subst fl.
          right. now exists flow, names.
      - simpl. split; [intros [] | intros [fl [flow [names [Hfl _]]]]; discriminate]. }
    destruct (sec_type first) as [[] |].
    + eexists. split; [reflexivity |]. simpl.
      split; [split; [discriminate | intros [H | H]; discriminate] |].
      intros scopes H. discriminate.
    + eexists. split; [reflexivity |]. simpl. split.
      * split; [| intros [H | H]; discriminate].
        destruct (sec_scheme first) as [sch |]; [destruct (String.eqb sch "bearer") |];
          discriminate.
      * intros scopes H. discriminate.
    + eexists. split; [reflexivity |]. simpl.
      split; [split; [discriminate | intros [H | H]; discriminate] |].
      intros scopes H. split; [reflexivity |]. exact (Hsc scopes H).
    + eexists. split; [reflexivity |]. simpl.
      split; [split; [discriminate | intros [H | H]; discriminate] |].
      intros scopes H. discriminate.
    + eexists. split; [reflexivity |]. simpl.
      split; [split; [discriminate | intros [H | H]; discriminate] |].
      intros scopes H. discriminate.
  - eexists. split; [reflexivity |]. simpl. split; [tauto |]. discriminate.
Qed.

End OpenAPIDefinitionsFacts.

(** The theorem on a specification with the component schemas [Pet] and
    [__proto__] and the definition [Order]: [Pet] is a type, [__proto__]
    is none. *)
Lemma openapi_type_definitions_witness :
  obj_get "Pet" (OpenAPIConvert.extractTypeDefinitions OpenAPIConvert.exampleSpecification [])
  = Some (OpenAPI.convertOpenAPISchemaToSchemaField OpenAPIConvert.petSchema "Pet")
  /\ obj_get "__proto__"
       (OpenAPIConvert.extractTypeDefinitions OpenAPIConvert.exampleSpecification [])
     = None
  /\ map fst (OpenAPIConvert.extractTypeDefinitions OpenAPIConvert.exampleSpecification [])
     = ["Pet"; "Order"].
Proof.
  split; [| split].
  - apply (openapi_type_definitions OpenAPIConvert.exampleSpecification "Pet");
      repeat constructor; simpl; intuition discriminate.
  - apply (openapi_type_definitions OpenAPIConvert.exampleSpecification "__proto__");
      repeat constructor; simpl; intuition discriminate.
  - reflexivity.
Defined.

(* ------------------------------------------------------------------ *)
(** ** REST converter: the hash of the schema id                       *)
(* ------------------------------------------------------------------ *)

Lemma toInt32_range (z : Z) :
  (-2147483648 <= OpenAPIConvert.toInt32 z < 2147483648)%Z.
Proof.
  unfold OpenAPIConvert.toInt32.
  pose proof (Z.mod_pos_bound (z + 2147483648) 4294967296 ltac:(lia)). lia.
Qed.

Lemma toInt32_quotient (z : Z) :
  OpenAPIConvert.toInt32 z = (z - 4294967296 * ((z + 2147483648) / 4294967296))%Z.
Proof.
  unfold OpenAPIConvert.toInt32.
  pose proof (Z.div_mod (z + 2147483648) 4294967296 ltac:(lia)). lia.
Qed.

Lemma toInt32_shift (z k : Z) :
  OpenAPIConvert.toInt32 (z - 4294967296 * k) = OpenAPIConvert.toInt32 z.
Proof.
  unfold OpenAPIConvert.toInt32. f_equal.
  replace (z - 4294967296 * k + 2147483648)%Z
    with ((z + 2147483648) + (- k) * 4294967296)%Z by lia.
  apply Z.mod_add. lia.
Qed.

Lemma hashStep_polynomial (p c : Z) :
  OpenAPIConvert.hashStep (OpenAPIConvert.toInt32 p) c = OpenAPIConvert.toInt32 (31 * p + c).
Proof.
  unfold OpenAPIConvert.hashStep. rewrite Z.shiftl_mul_pow2 by lia.
  change (2 ^ 5)%Z with 32%Z.
  rewrite (toInt32_quotient (OpenAPIConvert.toInt32 p * 32)).
  rewrite (toInt32_quotient p).
  set (q0 := ((p + 2147483648) / 4294967296)%Z).
  set (q1 := (((p - 4294967296 * q0) * 32 + 2147483648) / 4294967296)%Z).
  replace ((p - 4294967296 * q0) * 32 - 4294967296 * q1 - (p - 4294967296 * q0) + c)%Z
    with ((31 * p + c) - 4294967296 * (31 * q0 + q1))%Z by lia.
  apply toInt32_shift.
Qed.

(** X19: the hash behind a REST schema id is the signed 32-bit reading of
    the polynomial hash with multiplier 31 over the code units of the URL:
    it always lies in the 32-bit range, whatever the length of the URL, and
    it is the wrapped value of [c0 * 31^(n-1) + ... + c(n-1)]. *)
Theorem rest_schema_id_hash_is_32_bit_polynomial :
  forall codeUnits : list Z,
    OpenAPIConvert.hashCode codeUnits
    = OpenAPIConvert.toInt32 (OpenAPIConvert.polynomial31 codeUnits)
    /\ (-2147483648 <= OpenAPIConvert.hashCode codeUnits < 2147483648)%Z.
Proof.
  intros codeUnits.
  assert (H : OpenAPIConvert.hashCode codeUnits
              = OpenAPIConvert.toInt32 (OpenAPIConvert.polynomial31 codeUnits)).
  { unfold OpenAPIConvert.hashCode, OpenAPIConvert.polynomial31.
    change 0%Z with (OpenAPIConvert.toInt32 0) at 1.
    generalize 0%Z as p. induction codeUnits as [| c rest IH]; intros p; simpl; [reflexivity |].
    rewrite hashStep_polynomial. apply IH. }
  split; [exact H |]. rewrite H. apply toInt32_range.
Qed.

(* ------------------------------------------------------------------ *)
(** ** REST connector: what discovery and introspection can give       *)
(* ------------------------------------------------------------------ *)

Section RestOutcomeFacts.
Import Rest RestOutcomes.

Variable toLowerCase : string -> string.
Variable world : World.

Lemma probePaths_first (baseUrl : string) (before : list string) (path : string)
    (after : list string) (t : nat) :
  (forall i p, nth_error before i = Some p ->
               probeFails (axios_head world (t + i) (baseUrl ++ p))) ->
  probeAccepts (axios_head world (t + length before) (baseUrl ++ path)) ->
  probePaths world baseUrl (before ++ path :: after) t
  = (Ok (Some (baseUrl ++ path)), t + length before + 1).
Proof.
  revert t. induction before as [| p0 rest IH]; intros t Hfail Hacc; simpl.
  - unfold head. simpl in Hacc. rewrite Nat.add_0_r in Hacc.
    destruct (axios_head world t (baseUrl ++ path)) as [contentType |]; simpl in Hacc;
      [| contradiction].
    rewrite Hacc. f_equal. lia.
  - unfold head. pose proof (Hfail 0 p0 eq_refl) as H0. rewrite Nat.add_0_r in H0.
    assert (Hnext : probePaths world baseUrl (rest ++ path :: after) (S t)
                    = (Ok (Some (baseUrl ++ path)), S t + length rest + 1)).
    { apply IH.
      - intros i p Hi. replace (S t + i) with (t + S i) by lia. now apply Hfail.
      - replace (S t + length rest) with (t + length (p0 :: rest)) by (simpl; lia). exact Hacc. }
    destruct (axios_head world t (baseUrl ++ p0)) as [contentType |]; simpl in H0.
    + rewrite H0, Hnext. f_equal. simpl. lia.
    + rewrite Hnext. f_equal. simpl. lia.
Qed.

Lemma probePaths_sound (baseUrl : string) (pathsToTry : list string) (t : nat) :
  exists found t',
    probePaths world baseUrl pathsToTry t = (Ok found, t')
    /\ t <= t' <= t + length pathsToTry
    /\ (found = None -> t' = t + length pathsToTry)
    /\ (forall u, found = Some u ->
          exists path, In path pathsToTry /\ u = baseUrl ++ path /\ t < t'
                       /\ probeAccepts (axios_head world (t' - 1) u)).
Proof.
  revert t. induction pathsToTry as [| path rest IH]; intros t; simpl.
  - exists None, t. unfold Http.ret. repeat split; try lia. intros u H. discriminate.
  - unfold head.
    destruct (IH (S t)) as [found [t' [Hrun [Hb [Hnone Hsome]]]]].
    assert (Hrest : exists found t',
               probePaths world baseUrl rest (S t) = (Ok found, t')
               /\ t <= t' <= t + S (length rest)
               /\ (found = None -> t' = t + S (length rest))
               /\ (forall u, found = Some u ->
                     exists p, (path = p \/ In p rest) /\ u = baseUrl ++ p /\ t < t'
                               /\ probeAccepts (axios_head world (t' - 1) u))).
    { exists found, t'. split; [exact Hrun |]. split; [lia |].
      split; [intros H; rewrite (Hnone H); lia |].
      intros u Hu. destruct (Hsome u Hu) as [p [Hin [Heq [Hlt Hacc]]]].
      exists p. repeat split; auto. lia. }
    destruct (axios_head world t (baseUrl ++ path)) as [contentType |] eqn:Ehead;
      [| exact Hrest].
    destruct (acceptableContentType contentType) eqn:Eacc; [| exact Hrest].
    exists (Some (baseUrl ++ path)), (S t). split; [reflexivity |]. split; [lia |].
    split; [discriminate |].
    intros u Hu. inversion Hu; subst u. exists path. repeat split; auto.
    replace (S t - 1) with t by lia. rewrite Ehead. exact Eacc.
Qed.

(** X20: discovery probes the candidate paths in order and answers with
    the first one that is accepted.  When neither an explicit [specUrl] nor
    a specification-looking URL short-cuts it, and the probes of the paths
    before [path] fail while the probe of [path] is accepted, the
    discovered URL is the base URL (one trailing slash removed) followed by
    [path], found with exactly one HEAD request per path up to it. *)
Theorem rest_discovery_first_accepted_path :
  forall (config : RESTConnectorConfig) (before : list string) (path : string)
         (after : list string) (t : nat),
    truthy_opt_string (specUrl config) = false ->
    looksLikeSpecUrl toLowerCase (url config) = false ->
    getPathsToTry config = (before ++ path :: after)%list ->
    (forall i p, nth_error before i = Some p ->
                 probeFails (axios_head world (t + i)
                               (removeTrailingSlash (url config) ++ p))) ->
    probeAccepts (axios_head world (t + length before)
                    (removeTrailingSlash (url config) ++ path)) ->
    discoverSpecificationUrl toLowerCase world config t
    = (Ok (Some (removeTrailingSlash (url config) ++ path)), t + length before + 1).
Proof.
  intros config before path after t Hspec Hlooks Hpaths Hfail Hacc.
  unfold discoverSpecificationUrl. rewrite Hspec, Hlooks, Hpaths.
  now apply probePaths_first.
Qed.

(** X21: discovery never throws, and what it answers is accounted for.
    With an explicit [specUrl] it answers that URL without any request.
    Otherwise it makes at most one request per candidate path; an answer
    found by probing is the base URL followed by one of the candidate
    paths, accepted by the last request made; and the answer "not found"
    comes only after every candidate path was probed. *)
Theorem rest_discovery_sound :
  forall (config : RESTConnectorConfig) (t : nat),
    exists found t',
      discoverSpecificationUrl toLowerCase world config t = (Ok found, t')
      /\ t <= t' <= t + length (getPathsToTry config)
      /\ (truthy_opt_string (specUrl config) = true -> found = specUrl config /\ t' = t)
      /\ (found = None -> t' = t + length (getPathsToTry config))
      /\ (forall u, found = Some u ->
            (t' = t /\ (specUrl config = Some u \/ url config = u))
            \/ (exists path,
                   In path (getPathsToTry config)
                   /\ u = removeTrailingSlash (url config) ++ path
                   /\ t < t'
                   /\ probeAccepts (axios_head world (t' - 1) u))).
Proof.
  intros config t. unfold discoverSpecificationUrl.
  destruct (truthy_opt_string (specUrl config)) eqn:Espec.
  - exists (specUrl config), t. unfold Http.ret. split; [reflexivity |]. split; [lia |].
    split; [auto |]. split.
    + intros H. rewrite H in Espec. discriminate.
    + intros u Hu. left. auto.
  - destruct (looksLikeSpecUrl toLowerCase (url config)) eqn:Elooks.
    + exists (Some (url config)), t. unfold Http.ret. split; [reflexivity |]. split; [lia |].
      split; [discriminate |]. split; [discriminate |].
      intros u Hu. inversion Hu. left. auto.
    + destruct (probePaths_sound (removeTrailingSlash (url config)) (getPathsToTry config) t)
        as [found [t' [Hrun [Hb [Hnone Hsome]]]]].
      exists found, t'. split; [exact Hrun |]. split; [exact Hb |].
      split; [discriminate |]. split; [exact Hnone |].
      intros u Hu. right. exact (Hsome u Hu).
Qed.

Lemma discover_bound (config : RESTConnectorConfig) (t : nat) :
  exists found t',
    discoverSpecificationUrl toLowerCase world config t = (Ok found, t')
    /\ t <= t' <= t + length (getPathsToTry config).
Proof.
  unfold discoverSpecificationUrl.
  destruct (truthy_opt_string (specUrl config)).
  - exists (specUrl config), t. unfold Http.ret. split; [reflexivity | lia].
  - destruct (looksLikeSpecUrl toLowerCase (url config)).
    + exists (Some (url config)), t. unfold Http.ret. split; [reflexivity | lia].
    + destruct (probePaths_sound (removeTrailingSlash (url config)) (getPathsToTry config) t)
        as [found [t' [Hrun [Hb _]]]].
      now exists found, t'.
Qed.

Lemma testConnection_outcome (config : RESTConnectorConfig) (t : nat) :
  exists out t',
    testConnection toLowerCase world config t = (out, t')
    /\ t <= t' <= t + length (getPathsToTry config) + 1
    /\ match out with
       | Ok ct => ct_success ct = false -> isSome (ct_error ct) = true
       | Throw e => e_class e = ConnectionError
       end.
Proof.
  unfold testConnection, Http.bindM.
  destruct (discover_bound config t) as [found [t0 [Hrun Hb]]]. rewrite Hrun.
  destruct found as [specUrl |].
  - unfold fetchSpecification.
    destruct (axios_get world t0 specUrl) as [data | failure].
    + destruct (truthy_data data);
        [destruct (detectSpecificationFormat (numberToString world) data) |];
        eexists; eexists; (split; [reflexivity |]);
        (split; [lia |]); simpl; auto.
    + destruct (Http.isAxiosError failure); eexists; eexists; (split; [reflexivity |]);
        (split; [lia |]); simpl; auto.
  - unfold Http.ret. eexists. eexists. split; [reflexivity |]. split; [lia |]. simpl. auto.
Qed.

Lemma introspectParsed_outcome (config : RESTConnectorConfig) (specUrl : string)
    (data : ResponseData) (spec : Parsed) (r : IntrospectionResult) :
  introspectParsed world config specUrl data spec = Ok r -> resultShaped r.
Proof.
  unfold introspectParsed.
  destruct (validateParsed (numberToString world) spec) as [v |]; cbn [Js.bind];
    [| discriminate].
  destruct (valid v); cbn [negb].
  - destruct (match spec with
              | ParsedObject s => convertSchema world s specUrl
              | ParsedNull => Throw (mkJsError TypeError "Cannot read properties of null")
              | ParsedPrimitive =>
                  convertSchema world (mkOpenAPISpecification None None None None) specUrl
              end) as [converted |]; cbn [Js.bind]; [| discriminate].
    destruct (detectSpecificationFormat (numberToString world) data) as [specFormat |];
      cbn [Js.bind]; [| discriminate].
    intros H. inversion H. unfold resultShaped. simpl. auto.
  - intros H. inversion H. unfold resultShaped. simpl. auto.
Qed.

(** X22: every outcome of the REST [introspect].  It makes at most two
    discoveries and two fetches, i.e. at most [2 * (n + 1)] requests for n
    candidate paths.  When it returns, a success carries a schema, its
    warnings and no error, and a failure carries an error and no schema.
    When it throws, the error is an [IntrospectionError] or a
    [ConnectionError], never anything else. *)
Theorem rest_introspect_outcomes :
  forall (config : RESTConnectorConfig) (t : nat),
    exists out t',
      introspect toLowerCase world config t = (out, t')
      /\ t <= t' <= t + 2 * (length (getPathsToTry config) + 1)
      /\ match out with
         | Ok r => resultShaped r
         | Throw e => e_class e = IntrospectionError \/ e_class e = ConnectionError
         end.
Proof.
  intros config t.
  assert (Hcatch : forall (e : JsError) (t' : nat),
             exists e', (match e_class e with
                         | ConnectionError => Http.throw e
                         | _ => Http.throw (mkJsError IntrospectionError
                                              ("REST introspection failed: " ++ e_message e))
                         end : Http.M IntrospectionResult) t' = (Throw e', t')
                        /\ (e_class e' = IntrospectionError \/ e_class e' = ConnectionError)).
  { intros e t'. destruct (e_class e) eqn:Ec; unfold Http.throw; eexists;
      (split; [reflexivity |]); simpl; auto. }
  assert (Hbody : exists out t',
             introspectBody toLowerCase world config t = (out, t')
             /\ t <= t' <= t + 2 * (length (getPathsToTry config) + 1)
             /\ match out with
                | Ok r => resultShaped r
                | Throw _ => True
                end).
  { unfold introspectBody, Http.bindM.
    destruct (testConnection_outcome config t) as [out [t1 [Hrun [Hb Hout]]]]. rewrite Hrun.
    destruct out as [ct | e]; [| eexists; eexists; split; [reflexivity | split; [lia | exact I]]].
    destruct (ct_success ct) eqn:Esucc; simpl.
    - destruct (discover_bound config t1) as [found [t2 [Hrun2 Hb2]]]. rewrite Hrun2.
      destruct found as [specUrl |].
      + unfold fetchSpecification.
        destruct (axios_get world t2 specUrl) as [data | failure].
        * eexists. eexists. split; [reflexivity |]. split; [lia |].
          destruct (parseSpecification world data specUrl) as [spec |]; simpl; [| exact I].
          destruct (introspectParsed world config specUrl data spec) as [r |] eqn:Er;
            [| exact I].
          exact (introspectParsed_outcome _ _ _ _ _ Er).
        * eexists. eexists. split; [reflexivity |]. split; [lia | exact I].
      + unfold Http.ret. eexists. eexists. split; [reflexivity |]. split; [lia |].
        unfold resultShaped. simpl. auto.
    - unfold Http.ret. eexists. eexists. split; [reflexivity |]. split; [lia |].
      unfold resultShaped. simpl. auto. }
  destruct Hbody as [out [t' [Hrun [Hb Hout]]]].
  unfold introspect, Http.tryCatch. rewrite Hrun.
  destruct out as [r | e].
  - exists (Ok r), t'. auto.
  - destruct (Hcatch e t') as [e' [He' Hclass]].
    exists (Throw e'), t'. split; [exact He' |]. split; [exact Hb | exact Hclass].
Qed.

End RestOutcomeFacts.

Lemma rest_discovery_first_accepted_path_witness :
  Rest.discoverSpecificationUrl asciiToLowerCase
    (RestOutcomes.swaggerWorld Rest.DataNull)
    (Rest.defaultConfig "https://api.example.com/") 0
  = (Ok (Some (Rest.removeTrailingSlash
                 (Rest.url (Rest.defaultConfig "https://api.example.com/"))
               ++ "/swagger.json")),
     0 + length ["/openapi.json"; "/openapi.yaml"] + 1).
Proof.
  apply (rest_discovery_first_accepted_path asciiToLowerCase
           (RestOutcomes.swaggerWorld Rest.DataNull)
           (Rest.defaultConfig "https://api.example.com/")
           ["/openapi.json"; "/openapi.yaml"] "/swagger.json"
           ["/swagger.yaml"; "/api-docs"; "/api/docs"; "/docs/openapi.json";
            "/docs/swagger.json"; "/v1/openapi.json"; "/v1/swagger.json";
            "/api/v1/openapi.json"; "/api/v1/swagger.json"] 0).
  - reflexivity.
  - reflexivity.
  - reflexivity.
  - intros i p H. destruct i as [| [| i]]; simpl in H.
    + inversion H. exact I.
    + inversion H. exact I.
    + destruct i; discriminate.
  - reflexivity.
Defined.

(* ------------------------------------------------------------------ *)
(** ** GraphQL connector: what introspection can give                  *)
(* ------------------------------------------------------------------ *)

Section GraphQLOutcomeFacts.
Import GraphQLConn GraphQLOutcomes.

Variable INTROSPECTION_QUERY : string.
Variable SIMPLE_INTROSPECTION_QUERY : string.
Variable HEALTH_CHECK_QUERY : string.
Variable world : World.

Lemma graphql_testConnection_outcome (config : GraphQLConnectorConfig) (t : nat) :
  exists out,
    testConnection HEALTH_CHECK_QUERY world config t = (out, S t)
    /\ match out with
       | Ok ct => ct_success ct = false -> isSome (ct_error ct) = true
       | Throw e => e_class e = ConnectionError \/ e_class e = AuthenticationError
       end.
Proof.
  unfold testConnection, executeGraphQLQuery.
  destruct (axios_post world t (url config) HEALTH_CHECK_QUERY) as [data | failure].
  - destruct (data_schema data), (errors data); eexists; (split; [reflexivity |]); simpl;
      try (intros H; discriminate H); auto.
  - destruct (Http.isAxiosError failure); [destruct (isAuthFailure failure) |];
      eexists; (split; [reflexivity |]); simpl; auto.
Qed.

Lemma processIntrospectionResult_shaped (s : GraphQLIntrospectionSchema) (sourceUrl : string)
    (warnings : list string) :
  resultShaped (processIntrospectionResult world s sourceUrl warnings).
Proof.
  unfold processIntrospectionResult, resultShaped.
  destruct (convertSchema world s sourceUrl); simpl; auto.
Qed.

(** X23: every outcome of the GraphQL [introspect].  It makes at most
    three requests: the health check, the selected introspection query
    and, only after errors in the full query, the simplified query.  When
    it returns, a success carries a schema, its warnings and no error, and
    a failure carries an error and no schema.  When it throws, the error is
    an [IntrospectionError], a [ConnectionError] or an
    [AuthenticationError]. *)
Theorem graphql_introspect_outcomes :
  forall (config : GraphQLConnectorConfig) (t : nat),
    exists out t',
      introspect INTROSPECTION_QUERY SIMPLE_INTROSPECTION_QUERY HEALTH_CHECK_QUERY world config t
      = (out, t')
      /\ t < t' <= t + 3
      /\ (t' = t + 3 ->
          selectIntrospectionQuery INTROSPECTION_QUERY SIMPLE_INTROSPECTION_QUERY config
          = INTROSPECTION_QUERY)
      /\ match out with
         | Ok r => resultShaped r
         | Throw e =>
             e_class e = IntrospectionError \/ e_class e = ConnectionError
             \/ e_class e = AuthenticationError
         end.
Proof.
  intros config t.
  assert (Hbody : exists out t',
             introspectBody INTROSPECTION_QUERY SIMPLE_INTROSPECTION_QUERY HEALTH_CHECK_QUERY
               world config t = (out, t')
             /\ t < t' <= t + 3
             /\ (t' = t + 3 ->
                 selectIntrospectionQuery INTROSPECTION_QUERY SIMPLE_INTROSPECTION_QUERY config
                 = INTROSPECTION_QUERY)
             /\ match out with
                | Ok r => resultShaped r
                | Throw _ => True
                end).
  { unfold introspectBody, Http.bindM.
    destruct (graphql_testConnection_outcome config t) as [out [Hrun Hout]]. rewrite Hrun.
    destruct out as [ct | e];
      [| eexists; eexists; split; [reflexivity | split; [lia | split; [lia | exact I]]]].
    destruct (ct_success ct) eqn:Esucc; simpl.
    - unfold executeGraphQLQuery.
      set (query := selectIntrospectionQuery INTROSPECTION_QUERY SIMPLE_INTROSPECTION_QUERY
                      config).
      destruct (axios_post world (S t) (url config) query) as [data | failure].
      + destruct (hasErrors data).
        * destruct (String.eqb query INTROSPECTION_QUERY) eqn:Eq.
          -- apply String.eqb_eq in Eq.
             destruct (axios_post world (S (S t)) (url config) SIMPLE_INTROSPECTION_QUERY)
               as [simpleData | failure].
             ++ destruct (data_schema simpleData) as [s |]; eexists; eexists;
                  (split; [reflexivity |]); (split; [lia |]); (split; [intros _; exact Eq |]).
                ** apply processIntrospectionResult_shaped.
                ** unfold resultShaped, introspectionFailed. simpl. auto.
             ++ eexists. eexists. split; [reflexivity |]. split; [lia |].
                split; [intros _; exact Eq | exact I].
          -- eexists. eexists. split; [reflexivity |]. split; [lia |]. split; [lia |].
             unfold resultShaped, introspectionFailed. simpl. auto.
        * destruct (data_schema data) as [s |]; eexists; eexists;
            (split; [reflexivity |]); (split; [lia |]); (split; [lia |]).
          -- apply processIntrospectionResult_shaped.
          -- unfold resultShaped. simpl. auto.
      + eexists. eexists. split; [reflexivity |]. split; [lia |]. split; [lia | exact I].
    - unfold Http.ret. eexists. eexists. split; [reflexivity |]. split; [lia |].
      split; [lia |]. unfold resultShaped. simpl. auto. }
  destruct Hbody as [out [t' [Hrun [Hb [Hq Hout]]]]].
  unfold introspect, Http.tryCatch. rewrite Hrun.
  destruct out as [r | e].
  - exists (Ok r), t'. auto.
  - destruct (e_class e) eqn:Ec; unfold Http.throw; eexists; eexists;
      (split; [reflexivity |]); (split; [exact Hb |]); (split; [exact Hq |]); simpl; auto.
Qed.

End GraphQLOutcomeFacts.

(* ------------------------------------------------------------------ *)
(** ** WebSocket connector: events                                     *)
(* ------------------------------------------------------------------ *)

Section WebSocketEventFacts.
Import WebSocket WebSocketConv WebSocketEvents.

Lemma eventMapOf_snoc (messages : list WebSocketMessage) (m : WebSocketMessage) :
  eventMapOf (messages ++ [m]) = recordMessage (eventMapOf messages) m.
Proof. unfold eventMapOf. now rewrite fold_left_app. Qed.

Lemma messagesOf_snoc (n : string) (messages : list WebSocketMessage) (m : WebSocketMessage) :
  messagesOf n (messages ++ [m])
  = (messagesOf n messages ++ (if String.eqb (eventNameOf m) n then [m] else []))%list.
Proof. unfold messagesOf. rewrite filter_app. reflexivity. Qed.

Lemma sameDirection_refl (d : Direction) : sameDirection d d = true.
Proof. now destruct d. Qed.

Lemma summaryDirection_snoc (g : list WebSocketMessage) (m : WebSocketMessage) :
  g <> [] ->
  summaryDirection (g ++ [m])
  = if sameDirection (summaryDirection g) (directionOf (msg_direction m))
    then summaryDirection g else Bidirectional.
Proof.
  destruct g as [| h rest]; [contradiction |]. intros _. simpl.
  rewrite forallb_app. simpl. rewrite andb_true_r.
  destruct (forallb _ rest); simpl.
  - destruct (sameDirection (directionOf (msg_direction h)) (directionOf (msg_direction m)));
      reflexivity.
  - now destruct (msg_direction m).
Qed.

Lemma firstn_five_snoc {A : Type} (g : list A) (m : A) :
  firstn 5 (g ++ [m])
  = if (length (firstn 5 g) <? 5)%nat then (firstn 5 g ++ [m])%list else firstn 5 g.
Proof.
  rewrite length_firstn. destruct (Nat.ltb_spec (Nat.min 5 (length g)) 5) as [H | H].
  - assert (Hlen : length g < 5) by lia.
    assert (Hg : firstn 5 g = g) by (apply firstn_all2; lia). rewrite Hg.
    apply firstn_all2. rewrite length_app. simpl. lia.
  - assert (Hlen : 5 <= length g) by lia.
    rewrite firstn_app. replace (5 - length g) with 0 by lia. simpl. apply app_nil_r.
Qed.

Lemma countMessage_eventOf (n : string) (g : list WebSocketMessage) (m : WebSocketMessage) :
  g <> [] -> countMessage (eventOf n g) m = eventOf n (g ++ [m]).
Proof.
  intros Hg. unfold countMessage, eventOf.
  cbn [ev_name ev_description ev_direction ev_examples ev_frequency ev_deprecated].
  rewrite (summaryDirection_snoc g m Hg), firstn_five_snoc, length_app.
  cbn [length]. now rewrite Nat.add_1_r.
Qed.

(** The entry of the event map for a name is the event that the messages
    of that name add up to. *)
Lemma eventMapOf_lookup (messages : list WebSocketMessage) (n : string) :
  obj_get n (eventMapOf messages)
  = match messagesOf n messages with
    | [] => None
    | g => Some (eventOf n g)
    end.
Proof.
  induction messages as [| m messages IH] using rev_ind; [reflexivity |].
  rewrite eventMapOf_snoc, messagesOf_snoc. unfold recordMessage.
  rewrite obj_get_obj_set. rewrite (String.eqb_sym n (eventNameOf m)).
  destruct (String.eqb (eventNameOf m) n) eqn:E.
  - apply String.eqb_eq in E. rewrite E. rewrite IH.
    destruct (messagesOf n messages) as [| h rest] eqn:Eg.
    + simpl. f_equal. unfold countMessage, eventOf. simpl.
      now rewrite sameDirection_refl.
    + rewrite countMessage_eventOf by discriminate.
      now destruct ((h :: rest) ++ [m])%list eqn:Eapp; [destruct rest; discriminate |].
  - rewrite app_nil_r. exact IH.
Qed.

Lemma eventMapOf_keys (messages : list WebSocketMessage) :
  NoDup (map fst (eventMapOf messages))
  /\ (forall n, In n (map fst (eventMapOf messages)) <-> In n (map eventNameOf messages)).
Proof.
  induction messages as [| m messages [IH1 IH2]] using rev_ind.
  - split; [constructor | intros n; simpl; tauto].
  - rewrite eventMapOf_snoc. unfold recordMessage. split.
    + now apply NoDup_keys_obj_set.
    + intros n. rewrite In_keys_obj_set, IH2, map_app, in_app_iff. simpl. intuition.
Qed.

Lemma eventMapOf_frequencies (messages : list WebSocketMessage) :
  list_sum (map (fun kv => ev_frequency (snd kv)) (eventMapOf messages)) = length messages.
Proof.
  induction messages as [| m messages IH] using rev_ind; [reflexivity |].
  rewrite eventMapOf_snoc, length_app, <- IH. simpl. unfold recordMessage.
  generalize (eventMapOf messages) as eventMap. intros eventMap.
  induction eventMap as [| [k e] rest IHm]; simpl; [reflexivity |].
  destruct (String.eqb (eventNameOf m) k) eqn:E; simpl; [lia |].
  rewrite IHm. lia.
Qed.

(** X24: the events extracted from a capture.  Their names are pairwise
    distinct and every message belongs to exactly one of them, the one
    named by its [event] (or ["message"]).  For each event, [frequency] is
    the number of its messages (so the frequencies add up to the number of
    messages), [examples] are its first five messages in order, and
    [direction] is the direction its messages share, or [bidirectional]
    when they differ. *)
Theorem websocket_extractEvents_groups_messages :
  forall messages : list WebSocketMessage,
    NoDup (map ev_name (extractEvents messages))
    /\ (forall e, In e (extractEvents messages) ->
          messagesOf (ev_name e) messages <> []
          /\ e = eventOf (ev_name e) (messagesOf (ev_name e) messages)
          /\ ev_frequency e = length (messagesOf (ev_name e) messages)
          /\ length (ev_examples e) <= 5)
    /\ (forall m, In m messages ->
          exists e, In e (extractEvents messages) /\ ev_name e = eventNameOf m)
    /\ list_sum (map ev_frequency (extractEvents messages)) = length messages.
Proof.
  intros messages. destruct (eventMapOf_keys messages) as [Hnd Hkeys].
  assert (Hentry : forall k e, In (k, e) (eventMapOf messages) ->
             messagesOf k messages <> [] /\ e = eventOf k (messagesOf k messages)).
  { intros k e Hin.
    assert (Hget : obj_get k (eventMapOf messages) = Some e).
    { destruct (obj_get k (eventMapOf messages)) as [e' |] eqn:Eget.
      - apply obj_get_In_pair in Eget. f_equal.
        exact (NoDup_keys_unique k e' e _ Hnd Eget Hin).
      - apply obj_get_None_keys in Eget. exfalso. apply Eget.
        apply in_map_iff. now exists (k, e). }
    rewrite eventMapOf_lookup in Hget.
    destruct (messagesOf k messages) as [| h rest]; [discriminate |].
    inversion Hget. split; [discriminate | reflexivity]. }
  assert (Hnames : map ev_name (extractEvents messages) = map fst (eventMapOf messages)).
  { unfold extractEvents. rewrite map_map. apply map_ext_in. intros [k e] Hin.
    destruct (Hentry k e Hin) as [_ He]. simpl. now rewrite He. }
  split; [now rewrite Hnames |]. split; [| split].
  - intros e Hin. unfold extractEvents in Hin. apply in_map_iff in Hin.
    destruct Hin as [[k e'] [Heq Hin]]. simpl in Heq. subst e'.
    destruct (Hentry k e Hin) as [Hne He].
    assert (Hk : ev_name e = k) by now rewrite He.
    rewrite Hk. split; [exact Hne |]. split; [exact He |].
    split; [now rewrite He |].
    rewrite He. cbn [eventOf ev_examples]. rewrite length_firstn. lia.
  - intros m Hin.
    assert (Hk : In (eventNameOf m) (map fst (eventMapOf messages))).
    { apply Hkeys. now apply in_map. }
    rewrite <- Hnames in Hk. apply in_map_iff in Hk. destruct Hk as [e [He Hin']].
    now exists e.
  - unfold extractEvents. rewrite map_map. apply eventMapOf_frequencies.
Qed.

End WebSocketEventFacts.

(* ------------------------------------------------------------------ *)
(** ** WebSocket connector: the fields of an inferred pattern          *)
(* ------------------------------------------------------------------ *)

Lemma NoDup_filter_partition {A : Type} (p : A -> bool) (l : list A) :
  NoDup l -> NoDup (filter p l ++ filter (fun x => negb (p x)) l).
Proof.
  intros Hnd. apply NoDup_app.
  - now apply NoDup_filter.
  - now apply NoDup_filter.
  - intros x H1 H2. apply filter_In in H1. apply filter_In in H2.
    destruct H1 as [_ H1], H2 as [_ H2]. rewrite H1 in H2. discriminate.
Qed.

Lemma In_filter_partition {A : Type} (p : A -> bool) (l : list A) (x : A) :
  In x (filter p l ++ filter (fun y => negb (p y)) l) <-> In x l.
Proof.
  rewrite in_app_iff, !filter_In. destruct (p x); simpl; intuition discriminate.
Qed.

Section PatternFieldFacts.
Import WebSocket.

Variable inherited : JsValue -> string -> bool.

Lemma emitPatterns_ids (entries : list (string * PatternData)) :
  forall patternId,
    map (fun e => wp_id (snd e)) (emitPatterns inherited patternId entries)
    = map (fun i => "pattern_" ++ natToString i)
        (seq patternId (length (emitPatterns inherited patternId entries))).
Proof.
  induction entries as [| [s pd] rest IH]; intros patternId; simpl; [reflexivity |].
  destruct (length (pd_examples pd) <? 2)%nat; [apply IH |].
  simpl. f_equal. apply IH.
Qed.

Lemma find_first_observation (obs : list (string * string)) (f : string) :
  In f (map fst obs) ->
  exists t, find (fun o => String.eqb f (fst o)) obs = Some (f, t) /\ In (f, t) obs.
Proof.
  induction obs as [| [name ty] rest IH]; simpl; [intros [] |].
  destruct (String.eqb f name) eqn:E.
  - apply String.eqb_eq in E. subst name. intros _. exists ty. auto.
  - intros [H | H]; [subst name; rewrite String.eqb_refl in E; discriminate |].
    destruct (IH H) as [t [Hfind Hin]]. exists t. auto.
Qed.

(** The types of an inferred pattern: every listed field but [__proto__]
    has an entry, and [__proto__] has none. *)
Lemma inferred_field_types (messages : list WebSocketMessage) (s : string)
    (p : WebSocketMessagePattern) (f : string) :
  In (s, p) (patternEntries inherited messages) ->
  In f (wp_requiredFields p ++ wp_optionalFields p) ->
  isSome (obj_get f (wp_fieldTypes p)) = negb (String.eqb f "__proto__").
Proof.
  intros Hin Hf. unfold patternEntries in Hin.
  rewrite buildPatternMap_payloads, patternMap_groups in Hin.
  set (payloads := analysedPayloads messages) in *.
  destruct (emitPatterns_In inherited _ s p 1 Hin) as (i & pd & Hpd & Hlen & Hp).
  apply in_map_iff in Hpd. destruct Hpd as (s' & Heq & _).
  inversion Heq; subst s' pd. clear Heq. subst p.
  set (g := groupOf s payloads) in *.
  unfold patternOf, patternDataOf in *.
  cbn [wp_requiredFields wp_optionalFields wp_fieldTypes pd_examples pd_analysis] in *.
  fold g in Hf. fold g.
  destruct (recordField_run (flat_map (fun ex => observations ex "") g))
    as (Hfields & _ & Htypes & _).
  cbv zeta in Hfields, Htypes.
  rewrite <- (analysisOf_observations g) in Hfields, Htypes.
  rewrite In_filter_partition in Hf.
  rewrite fieldTypes_lookup.
  rewrite (proj2 (existsb_eqb_In f _) Hf).
  rewrite Htypes.
  destruct (find_first_observation _ f (proj1 (Hfields f) Hf)) as [t [Hfind _]].
  rewrite Hfind. now destruct (String.eqb f "__proto__").
Qed.

(** X25: the field lists of an inferred pattern.  For the pattern of a
    group of examples, [requiredFields] and [optionalFields] together list
    every field name that the analysis observed in the group, nested
    dot-qualified names included, each exactly once; a name is required
    exactly when every example has a property of that very name, so a
    nested name is optional unless examples carry it as a top-level
    property; and every listed name but [__proto__] has a type in
    [fieldTypes], the [typeof] of the first observation under that name,
    while [__proto__], also when it is listed, never has one.  The ids of
    the patterns are [pattern_1], [pattern_2], ... in order. *)
Theorem websocket_pattern_fields_partition :
  forall (messages : list WebSocketMessage),
    map wp_id (analyzeMessagePatterns inherited messages)
    = map (fun i => "pattern_" ++ natToString i)
        (seq 1 (length (analyzeMessagePatterns inherited messages)))
    /\ (forall s p,
          In (s, p) (patternEntries inherited messages) ->
          NoDup (wp_requiredFields p ++ wp_optionalFields p)
          /\ (forall f, In f (wp_requiredFields p ++ wp_optionalFields p)
                        <-> In f (map fst (flat_map (fun ex => observations ex "")
                                             (group s messages))))
          /\ (forall f, In f (wp_requiredFields p)
                        <-> In f (wp_requiredFields p ++ wp_optionalFields p)
                            /\ (forall ex, In ex (group s messages) ->
                                           hasProperty inherited ex f = true))
          /\ (forall f, In f (wp_requiredFields p ++ wp_optionalFields p) ->
                exists t,
                  find (fun o => String.eqb f (fst o))
                    (flat_map (fun ex => observations ex "") (group s messages))
                  = Some (f, t)
                  /\ obj_get f (wp_fieldTypes p)
                     = if String.eqb f "__proto__" then None else Some t)
          /\ wp_examples p = firstn 3 (group s messages)
          /\ wp_template p = nth_error (group s messages) 0).
Proof.
  intros messages. split.
  - unfold analyzeMessagePatterns, patternEntries.
    rewrite map_map, length_map. apply emitPatterns_ids.
  - intros s p Hin. unfold patternEntries, group in *.
    rewrite buildPatternMap_payloads, patternMap_groups in Hin.
    set (payloads := analysedPayloads messages) in *.
    destruct (emitPatterns_In inherited _ s p 1 Hin) as (i & pd & Hpd & Hlen & Hp).
    apply in_map_iff in Hpd. destruct Hpd as (s' & Heq & _).
    inversion Heq; subst s' pd. clear Heq. subst p.
    set (g := groupOf s payloads).
    unfold patternOf, patternDataOf.
    cbn [wp_requiredFields wp_optionalFields wp_fieldTypes wp_examples wp_template
           pd_examples pd_analysis].
    fold g.
    destruct (recordField_run (flat_map (fun ex => observations ex "") g))
      as (Hfields & Hnodup & Htypes & _).
    cbv zeta in Hfields, Hnodup, Htypes.
    rewrite <- (analysisOf_observations g) in Hfields, Hnodup, Htypes.
    set (obs := flat_map (fun ex => observations ex "") g) in *.
    set (fields := fa_fields (analysisOf g)) in *.
    split; [now apply NoDup_filter_partition |].
    split; [intros f; rewrite In_filter_partition; apply Hfields |].
    split.
    + intros f. rewrite In_filter_partition, filter_In. unfold appearsInAll.
      rewrite forallb_forall. tauto.
    + split; [| split; reflexivity].
      intros f Hf. rewrite In_filter_partition in Hf.
      rewrite fieldTypes_lookup.
      rewrite (proj2 (existsb_eqb_In f fields) Hf).
      rewrite Htypes.
      destruct (find_first_observation obs f (proj1 (Hfields f) Hf)) as [t [Hfind Hin']].
      exists t. rewrite Hfind. split; [reflexivity |].
      now destruct (String.eqb f "__proto__").
Qed.

End PatternFieldFacts.

(* ------------------------------------------------------------------ *)
(** ** WebSocket converter: patterns, events and types                 *)
(* ------------------------------------------------------------------ *)

Section WebSocketConvFacts.
Import WebSocket WebSocketConv.

Variable toLowerCase : string -> string.
Variable inherited : JsValue -> string -> bool.
Variable generateSchemaId : string -> string.
Variable extractApiName : string -> string.

Lemma analysedPayload_payloadOf (m : WebSocketMessage) (v : JsValue) :
  analysedPayload m = Some v -> payloadOf m = v /\ isObject v = true.
Proof.
  unfold analysedPayload, payloadOf.
  destruct (msg_parsed m) as [parsed |]; [| discriminate].
  destruct (truthy parsed) eqn:Et; simpl; [| discriminate].
  destruct (isObject parsed) eqn:Eo; [| discriminate].
  intros H. inversion H; subst v. auto.
Qed.

Lemma analysedPayload_in_group (messages : list WebSocketMessage) (m : WebSocketMessage)
    (v : JsValue) :
  In m messages -> analysedPayload m = Some v ->
  In v (group (getMessageSignature v) messages).
Proof.
  intros Hin Hv. unfold group, groupOf. apply filter_In. split.
  - unfold analysedPayloads. apply in_flat_map. exists m. split; [exact Hin |].
    rewrite Hv. now left.
  - apply String.eqb_refl.
Qed.

Lemma own_example_matches (messages : list WebSocketMessage) (s : string)
    (p : WebSocketMessagePattern) (m : WebSocketMessage) (v : JsValue) :
  In (s, p) (patternEntries inherited messages) ->
  In m messages -> analysedPayload m = Some v -> getMessageSignature v = s ->
  messageMatchesPattern inherited m p = true.
Proof.
  intros Hp Hm Hv Hs.
  destruct (analysedPayload_payloadOf m v Hv) as [Hpay Hobj].
  pose proof (analysedPayload_in_group messages m v Hm Hv) as Hg. rewrite Hs in Hg.
  unfold messageMatchesPattern. rewrite Hpay, Hobj. simpl.
  apply forallb_forall. intros f Hf.
  unfold patternEntries, group in *.
  rewrite buildPatternMap_payloads, patternMap_groups in Hp.
  destruct (emitPatterns_In inherited _ s p 1 Hp) as (i & pd & Hpd & _ & Heq).
  apply in_map_iff in Hpd. destruct Hpd as (s' & Hpair & _).
  inversion Hpair; subst s' pd. clear Hpair. subst p.
  unfold patternOf, patternDataOf in Hf.
  cbn [wp_requiredFields pd_examples pd_analysis] in Hf.
  apply filter_In in Hf. destruct Hf as [_ Hall].
  unfold appearsInAll in Hall. rewrite forallb_forall in Hall. now apply Hall.
Qed.

(** An inferred pattern can be typed unless it lists the field
    [__proto__]. *)
Lemma inferred_typesReadable (messages : list WebSocketMessage) (s : string)
    (p : WebSocketMessagePattern) :
  In (s, p) (patternEntries inherited messages) ->
  typesReadable p
  = negb (existsb (String.eqb "__proto__") (wp_requiredFields p ++ wp_optionalFields p)).
Proof.
  intros Hin. unfold typesReadable.
  assert (H : forall f, In f (wp_requiredFields p ++ wp_optionalFields p) ->
                        typeReadable p f = negb (String.eqb "__proto__" f)).
  { intros f Hf. unfold typeReadable.
    rewrite (inferred_field_types inherited messages s p f Hin Hf).
    rewrite (String.eqb_sym "__proto__" f).
    destruct (String.eqb f "__proto__") eqn:E; [| reflexivity].
    apply String.eqb_eq in E. subst f. reflexivity. }
  induction (wp_requiredFields p ++ wp_optionalFields p)%list as [| f rest IH]; [reflexivity |].
  cbn [forallb existsb]. rewrite (H f (or_introl eq_refl)), negb_orb. f_equal.
  apply IH. intros f' Hf'. apply H. now right.
Qed.

(** X26: the examples of a group match the pattern inferred from the
    group.  Hence for an event one of whose examples entered a group of
    two or more payloads the conversion of the event finds a matching
    pattern.  When that pattern lists the field [__proto__], the
    conversion of the event throws the [TypeError] of [mapFieldType];
    otherwise it returns an operation whose message parameter is
    described by the fields of that pattern. *)
Theorem websocket_own_examples_match_pattern :
  forall (messages : list WebSocketMessage) (s : string) (p : WebSocketMessagePattern)
         (m : WebSocketMessage) (v : JsValue),
    In (s, p) (patternEntries inherited messages) ->
    In m messages ->
    analysedPayload m = Some v ->
    getMessageSignature v = s ->
    messageMatchesPattern inherited m p = true
    /\ (forall event,
          In m (ev_examples event) ->
          exists q,
            In q (analyzeMessagePatterns inherited messages)
            /\ findMatchingPattern inherited event (analyzeMessagePatterns inherited messages)
               = Some q
            /\ if existsb (String.eqb "__proto__")
                    (wp_requiredFields q ++ wp_optionalFields q)
               then convertEventToOperation toLowerCase inherited event
                      (analyzeMessagePatterns inherited messages)
                    = Throw notAString
               else exists operation properties,
                      convertEventToOperation toLowerCase inherited event
                        (analyzeMessagePatterns inherited messages)
                      = Ok operation
                      /\ extractFieldsFromPattern toLowerCase q = Ok properties
                      /\ map p_schema (op_parameters operation)
                         = [mkSchemaField "message" DataType.OBJECT true
                              (Some ("Message data for " ++ ev_name event ++ " event"))
                              None None (Some properties) None None]).
Proof.
  intros messages s p m v Hp Hm Hv Hs.
  pose proof (own_example_matches messages s p m v Hp Hm Hv Hs) as Hmatch.
  split; [exact Hmatch |].
  intros event Hex.
  set (patterns := analyzeMessagePatterns inherited messages).
  assert (Hsome : exists q, findMatchingPattern inherited event patterns = Some q).
  { destruct (findMatchingPattern inherited event patterns) as [q |] eqn:Efind;
      [now exists q |].
    exfalso.
    assert (Hin : In p patterns).
    { unfold patterns, analyzeMessagePatterns. apply in_map_iff. now exists (s, p). }
    unfold findMatchingPattern in Efind.
    pose proof (find_none _ _ Efind p Hin) as Hnone. cbv beta in Hnone.
    assert (Ht : existsb (fun example => messageMatchesPattern inherited example p)
                   (ev_examples event) = true).
    { apply existsb_exists. now exists m. }
    congruence. }
  destruct Hsome as [q Hq]. exists q.
  assert (Hin : In q patterns).
  { unfold findMatchingPattern in Hq. now destruct (find_some _ _ Hq). }
  split; [exact Hin |]. split; [exact Hq |].
  assert (Hentry : exists s', In (s', q) (patternEntries inherited messages)).
  { unfold patterns, analyzeMessagePatterns in Hin. apply in_map_iff in Hin.
    destruct Hin as [[s' q'] [Heq Hin]]. simpl in Heq. subst q'. now exists s'. }
  destruct Hentry as [s' Hentry].
  pose proof (extractFieldsFromPattern_outcome toLowerCase q) as Hfields.
  rewrite (inferred_typesReadable messages s' q Hentry) in Hfields.
  unfold convertEventToOperation. cbv zeta. rewrite Hq.
  destruct (existsb (String.eqb "__proto__") (wp_requiredFields q ++ wp_optionalFields q));
    cbn [negb] in Hfields.
  - now rewrite Hfields.
  - destruct Hfields as [properties Hfields]. rewrite Hfields. cbn [Js.bind].
    eexists. exists properties. split; [reflexivity |]. split; reflexivity.
Qed.

(** The types object after the loop over the patterns. *)
Lemma types_loop_lookup (patterns : list WebSocketMessagePattern) :
  forall (acc types : list (string * SchemaField)),
    foldM (fun types pattern =>
             converted <- convertPatternToSchemaField toLowerCase pattern ;;
             Ok (plain_set (wp_name pattern) converted types))
      patterns acc = Ok types ->
    (forall n,
        option_map (@Ok SchemaField) (obj_get n types)
        = if String.eqb n "__proto__" then option_map (@Ok SchemaField) (obj_get n acc)
          else match find (fun p => String.eqb (wp_name p) n) (rev patterns) with
               | Some p => Some (convertPatternToSchemaField toLowerCase p)
               | None => option_map (@Ok SchemaField) (obj_get n acc)
               end)
    /\ length types <= length acc + length patterns.
Proof.
  induction patterns as [| p rest IH]; intros acc types H.
  - simpl in H. inversion H; subst types. split; [| simpl; lia].
    intros n. simpl. now destruct (String.eqb n "__proto__").
  - cbn [foldM] in H.
    destruct (convertPatternToSchemaField toLowerCase p) as [converted | e] eqn:Ec;
      cbn [Js.bind] in H; [| discriminate H].
    destruct (IH _ _ H) as [Hlookup Hlength]. split.
    + intros n. rewrite Hlookup. cbn [rev]. rewrite find_append. cbn [find].
      rewrite obj_get_plain_set.
      destruct (String.eqb n "__proto__") eqn:En.
      * destruct (String.eqb (wp_name p) "__proto__") eqn:Ep; [reflexivity |].
        destruct (String.eqb n (wp_name p)) eqn:E; [| reflexivity].
        apply String.eqb_eq in E. subst n. congruence.
      * destruct (find (fun p0 => String.eqb (wp_name p0) n) (rev rest)); [reflexivity |].
        rewrite (String.eqb_sym (wp_name p) n).
        destruct (String.eqb n (wp_name p)) eqn:E.
        -- apply String.eqb_eq in E. subst n. rewrite En. simpl. now rewrite Ec.
        -- now destruct (String.eqb (wp_name p) "__proto__").
    + assert (Hset : length (plain_set (wp_name p) converted acc) <= S (length acc)).
      { unfold plain_set. destruct (String.eqb (wp_name p) "__proto__"); [lia |].
        apply obj_set_length. }
      cbn [length]. lia.
Qed.

(** X27: the reusable types of a converted WebSocket session.  When the
    type of every listed field of every pattern can be looked up,
    [convertSession] returns; the types are then keyed by pattern name,
    and a later pattern replaces an earlier one of the same name: the
    type under a name other than [__proto__] is the conversion of the
    last pattern with that name, no type is stored under [__proto__],
    and there are at most as many types as patterns.  Otherwise
    [convertSession] throws the [TypeError] of [mapFieldType]. *)
Theorem websocket_types_last_pattern_wins :
  forall (now : Z) (session : WebSocketSession) (patterns : list WebSocketMessagePattern)
         (protocolDetection : ProtocolDetectionResult) (sourceUrl : string)
         (apiName : option string),
    if forallb typesReadable patterns
    then
      exists converted,
        convertSession toLowerCase inherited generateSchemaId extractApiName now session
          patterns protocolDetection sourceUrl apiName
        = Ok converted
        /\ (forall n,
              option_map (@Ok SchemaField) (obj_get n (types converted))
              = if String.eqb n "__proto__" then None
                else option_map (convertPatternToSchemaField toLowerCase)
                       (find (fun p => String.eqb (wp_name p) n) (rev patterns)))
        /\ length (types converted) <= length patterns
    else
      convertSession toLowerCase inherited generateSchemaId extractApiName now session
        patterns protocolDetection sourceUrl apiName
      = Throw notAString.
Proof.
  intros now session patterns protocolDetection sourceUrl apiName.
  unfold convertSession.
  pose proof (types_loop_outcome toLowerCase patterns []) as Htypes.
  destruct (forallb typesReadable patterns) eqn:Hall.
  - destruct Htypes as [types Htypes]. rewrite Htypes. cbn [Js.bind].
    destruct (mapM_returns
                (fun event => convertEventToOperation toLowerCase inherited event patterns)
                (ss_events session)
                (fun event _ =>
                   convertEventToOperation_returns toLowerCase inherited event patterns Hall))
      as [pushed [Hpushed _]].
    rewrite Hpushed. cbn [Js.bind].
    eexists. split; [reflexivity |]. cbn [Schema.types].
    destruct (types_loop_lookup patterns [] types Htypes) as [Hlookup Hlength].
    split; [| exact Hlength].
    intros n. rewrite Hlookup. destruct (String.eqb n "__proto__"); [reflexivity |].
    now destruct (find (fun p => String.eqb (wp_name p) n) (rev patterns)).
  - now rewrite Htypes.
Qed.

End WebSocketConvFacts.

(** The theorem on the capture of three status messages: an event that
    holds one of them is converted with the fields [status] and [id] of
    the inferred pattern. *)
Lemma websocket_own_examples_match_pattern_witness :
  WebSocketConv.messageMatchesPattern WebSocket.objectPrototype
    (WebSocket.jsonMessage (WebSocket.statusPayload 1)) WebSocket.statusPattern = true
  /\ (forall event,
        In (WebSocket.jsonMessage (WebSocket.statusPayload 1)) (WebSocketConv.ev_examples event) ->
        exists q,
          In q (WebSocket.analyzeMessagePatterns WebSocket.objectPrototype
                  WebSocket.statusCapture)
          /\ WebSocketConv.findMatchingPattern WebSocket.objectPrototype event
               (WebSocket.analyzeMessagePatterns WebSocket.objectPrototype
                  WebSocket.statusCapture)
             = Some q
          /\ if existsb (String.eqb "__proto__")
                  (WebSocket.wp_requiredFields q ++ WebSocket.wp_optionalFields q)
             then WebSocketConv.convertEventToOperation asciiToLowerCase
                    WebSocket.objectPrototype event
                    (WebSocket.analyzeMessagePatterns WebSocket.objectPrototype
                       WebSocket.statusCapture)
                  = Throw WebSocketConv.notAString
             else exists operation properties,
                    WebSocketConv.convertEventToOperation asciiToLowerCase
                      WebSocket.objectPrototype event
                      (WebSocket.analyzeMessagePatterns WebSocket.objectPrototype
                         WebSocket.statusCapture)
                    = Ok operation
                    /\ WebSocketConv.extractFieldsFromPattern asciiToLowerCase q = Ok properties
                    /\ map p_schema (op_parameters operation)
                       = [mkSchemaField "message" DataType.OBJECT true
                            (Some ("Message data for " ++ WebSocketConv.ev_name event
                                   ++ " event"))
                            None None (Some properties) None None]).
Proof.
  apply (websocket_own_examples_match_pattern asciiToLowerCase WebSocket.objectPrototype
           WebSocket.statusCapture "id,status" WebSocket.statusPattern
           (WebSocket.jsonMessage (WebSocket.statusPayload 1)) (WebSocket.statusPayload 1)).
  - left. reflexivity.
  - left. reflexivity.
  - reflexivity.
  - reflexivity.
Defined.

(* ------------------------------------------------------------------ *)
(** ** The explorer: registry and auto-detection                       *)
(* ------------------------------------------------------------------ *)

Section ExplorerFacts.
Import Explorer.

Lemma sameProtocol_eq (a b : APIProtocol.t) : sameProtocol a b = true <-> a = b.
Proof. destruct a, b; simpl; split; intros H; congruence. Qed.

Lemma getConnector_register (connector : Connector) (protocol : APIProtocol.t)
    (connectors : list (APIProtocol.t * Connector)) :
  getConnector protocol (register connector connectors)
  = if sameProtocol protocol (c_protocol connector) then Some connector
    else getConnector protocol connectors.
Proof.
  induction connectors as [| [p c] rest IH]; simpl; [reflexivity |].
  destruct (sameProtocol (c_protocol connector) p) eqn:E; simpl.
  - apply sameProtocol_eq in E. subst p.
    destruct (sameProtocol protocol (c_protocol connector)); reflexivity.
  - rewrite IH. destruct (sameProtocol protocol (c_protocol connector)) eqn:E1; [| reflexivity].
    apply sameProtocol_eq in E1. subst protocol. now rewrite E.
Qed.

Lemma register_protocols_distinct (connector : Connector)
    (connectors : list (APIProtocol.t * Connector)) :
  NoDup (map fst connectors) -> NoDup (map fst (register connector connectors)).
Proof.
  induction connectors as [| [p c] rest IH]; simpl; intros H.
  - constructor; [intros [] | constructor].
  - inversion H as [| x l Hnotin Hrest]; subst.
    destruct (sameProtocol (c_protocol connector) p) eqn:E; simpl.
    + apply sameProtocol_eq in E. subst p. now constructor.
    + constructor; [| now apply IH].
      intros Hin. apply Hnotin. clear - Hin E.
      induction rest as [| [p' c'] rest IH]; simpl in *.
      * destruct Hin as [Hin | []]. subst p.
        destruct (c_protocol connector); discriminate.
      * destruct (sameProtocol (c_protocol connector) p') eqn:E'; simpl in Hin.
        -- apply sameProtocol_eq in E'. subst p'.
           destruct Hin as [Hin | Hin]; [| now right].
           subst p. destruct (c_protocol connector); discriminate.
        -- destruct Hin as [Hin | Hin]; [now left | right; now apply IH].
Qed.

Variable parseURL : string -> option URL.
Variable toLowerCase : string -> string.

Lemma restCanHandle_any_url (url : string) :
  restCanHandle parseURL toLowerCase url = isSome (parseURL url).
Proof.
  unfold restCanHandle. destruct (parseURL url) as [u |]; [| reflexivity].
  destruct (existsb _ _); [reflexivity |].
  destruct (endsWith _ _ || endsWith _ _ || endsWith _ _); reflexivity.
Qed.

(** X28: auto-detection never selects the WebSocket connector.  In the
    registry that [initialize] builds (GraphQL, REST, WebSocket, at most
    one connector per protocol), [findConnectorForUrl] answers GraphQL
    when the GraphQL connector can handle the URL, otherwise REST for
    every URL that parses, and nothing for a URL that does not parse: the
    REST connector accepts every valid URL, [ws:] and [wss:] URLs
    included, and it is asked before the WebSocket connector.  The
    WebSocket connector is still reached by protocol. *)
Theorem explorer_auto_detection_never_websocket :
  forall url : string,
    option_map c_protocol (findConnectorForUrl (defaultRegistry parseURL toLowerCase) url)
    = (if graphqlCanHandle parseURL toLowerCase url then Some APIProtocol.GRAPHQL
       else if isSome (parseURL url) then Some APIProtocol.REST
       else None)
    /\ option_map c_protocol (findConnectorForUrl (defaultRegistry parseURL toLowerCase) url)
       <> Some APIProtocol.WEBSOCKET
    /\ getConnector APIProtocol.WEBSOCKET (defaultRegistry parseURL toLowerCase)
       = Some (WebSocketConnector parseURL)
    /\ NoDup (map fst (defaultRegistry parseURL toLowerCase)).
Proof.
  intros url.
  assert (H : option_map c_protocol
                (findConnectorForUrl (defaultRegistry parseURL toLowerCase) url)
              = (if graphqlCanHandle parseURL toLowerCase url then Some APIProtocol.GRAPHQL
                 else if isSome (parseURL url) then Some APIProtocol.REST
                 else None)).
  { unfold findConnectorForUrl, getAllConnectors, defaultRegistry. simpl.
    destruct (graphqlCanHandle parseURL toLowerCase url); [reflexivity |].
    rewrite restCanHandle_any_url.
    destruct (parseURL url) as [u |] eqn:Eu; [reflexivity |]. simpl.
    unfold websocketCanHandle. now rewrite Eu. }
  split; [exact H |]. split; [| split].
  - rewrite H. destruct (graphqlCanHandle parseURL toLowerCase url); [discriminate |].
    destruct (isSome (parseURL url)); discriminate.
  - reflexivity.
  - unfold defaultRegistry. repeat apply register_protocols_distinct. constructor.
Qed.

End ExplorerFacts.

(* ------------------------------------------------------------------ *)
(** ** The explorer: [introspect]                                      *)
(* ------------------------------------------------------------------ *)

Lemma rethrown_class (e : JsError) :
  e_class (Explorer.rethrown e) = IntrospectionError
  \/ e_class (Explorer.rethrown e) = ConnectionError.
Proof.
  unfold Explorer.rethrown. destruct (e_class e) eqn:E; simpl; auto.
Qed.

(** X29: every outcome of the explorer's [introspect].  On an explorer
    that is not initialized the initialization comes first, outside the
    [try]: what it throws (a plain [Error] for a storage type that is
    neither [memory] nor [file], or what the storage's [initialize]
    throws) escapes [introspect] as it is: no request is made and the
    explorer stays uninitialized.  Once the explorer is initialized, what
    [introspect] throws is an [IntrospectionError] or a
    [ConnectionError] and nothing else: any other error of the connector,
    an [AuthenticationError] included, comes out as an
    [IntrospectionError] "Introspection failed: ...", and a missing
    connector as an [IntrospectionError] too; the storage is then
    untouched.  What it returns is the result of the connector,
    unchanged, whatever the storage does; the storage is written only
    when [autoSave] is on and the result is a success with a schema.  In
    particular a 401 or 403 answer to the GraphQL health check surfaces
    as an [IntrospectionError]. *)
Theorem explorer_introspect_outcomes :
  (forall (R : Type) (successOf : R -> bool) (schemaOf : R -> option UniversalSchema)
          (St : Type) (store : UniversalSchema -> St -> Result string * St)
          (construct : string -> St) (initializeOf : St -> Result unit * St)
          (configured : option string)
          (connector : option (Http.M R)) (protocolName : string) (autoSave : bool)
          (t : nat) (explorer : Explorer.State St),
      exists out t' explorer',
        Explorer.introspect R successOf schemaOf St store construct initializeOf configured
          connector protocolName autoSave t explorer = (out, t', explorer')
        /\ match Explorer.ensureInitialized St construct initializeOf configured explorer with
           | (Throw e0, uninitialized) =>
               out = Throw e0 /\ t' = t /\ explorer' = uninitialized
               /\ Explorer.ex_initialized explorer = false
               /\ Explorer.ex_initialized explorer' = false
           | (Ok _, initialized) =>
               Explorer.ex_initialized explorer' = true
               /\ match out with
                  | Throw e =>
                      (e_class e = IntrospectionError \/ e_class e = ConnectionError)
                      /\ Explorer.ex_storage explorer' = Explorer.ex_storage initialized
                  | Ok result =>
                      (exists introspectOf,
                          connector = Some introspectOf /\ introspectOf t = (Ok result, t'))
                      /\ (Explorer.ex_storage explorer' = Explorer.ex_storage initialized
                          \/ (autoSave = true /\ successOf result = true
                              /\ exists schema,
                                   schemaOf result = Some schema
                                   /\ Explorer.ex_storage explorer'
                                      = snd (store schema (Explorer.ex_storage initialized))))
                  end
           end)
  /\ (forall (R : Type) (successOf : R -> bool) (schemaOf : R -> option UniversalSchema)
             (St : Type) (store : UniversalSchema -> St -> Result string * St)
             (construct : string -> St) (initializeOf : St -> Result unit * St)
             (type : string)
             (connector : option (Http.M R)) (protocolName : string) (autoSave : bool)
             (t : nat) (storage : St),
         String.eqb type "memory" || String.eqb type "file" = false ->
         Explorer.introspect R successOf schemaOf St store construct initializeOf (Some type)
           connector protocolName autoSave t (Explorer.mkState false storage)
         = (Throw (mkJsError PlainError ("Unsupported storage type: " ++ type)),
            t, Explorer.mkState false storage))
  /\ (forall (INTROSPECTION_QUERY SIMPLE_INTROSPECTION_QUERY HEALTH_CHECK_QUERY : string)
             (world : GraphQLConn.World) (config : GraphQLConn.GraphQLConnectorConfig)
             (St : Type) (store : UniversalSchema -> St -> Result string * St)
             (construct : string -> St) (initializeOf : St -> Result unit * St)
             (configured : option string)
             (autoSave : bool) (t : nat) (storage : St)
             (status : nat) (statusText message : string),
         GraphQLConn.axios_post world t (GraphQLConn.url config) HEALTH_CHECK_QUERY
         = GraphQLConn.PostRejected (Http.HttpError status statusText message) ->
         status = 401 \/ status = 403 ->
         Explorer.introspect GraphQLConn.IntrospectionResult GraphQLConn.success
           GraphQLConn.schema St store construct initializeOf configured
           (Some (GraphQLConn.introspect INTROSPECTION_QUERY SIMPLE_INTROSPECTION_QUERY
                    HEALTH_CHECK_QUERY world config))
           "graphql" autoSave t (Explorer.mkState true storage)
         = (Throw (mkJsError IntrospectionError
                     ("Introspection failed: Authentication failed: " ++ statusText)),
            S t, Explorer.mkState true storage)).
Proof.
  split; [| split].
  - intros R successOf schemaOf St store construct initializeOf configured connector
      protocolName autoSave t explorer.
    unfold Explorer.introspect.
    assert (Hensure :
              match Explorer.ensureInitialized St construct initializeOf configured explorer with
              | (Throw _, uninitialized) =>
                  Explorer.ex_initialized explorer = false
                  /\ Explorer.ex_initialized uninitialized = false
              | (Ok _, initialized) => Explorer.ex_initialized initialized = true
              end).
    { unfold Explorer.ensureInitialized.
      destruct (Explorer.ex_initialized explorer) eqn:Ei; [exact Ei |].
      destruct (Explorer.initializeStorage St construct initializeOf configured
                  (Explorer.ex_storage explorer)) as [[u | e] storage]; simpl; auto. }
    destruct (Explorer.ensureInitialized St construct initializeOf configured explorer)
      as [[u | e0] explorer1].
    + unfold Explorer.tryIntrospect. destruct connector as [introspectOf |].
      * destruct (introspectOf t) as [[result | e] t'] eqn:Erun.
        -- eexists. eexists. eexists. split; [reflexivity |].
           split; [exact Hensure |].
           split; [now exists introspectOf |].
           cbn [Explorer.ex_storage]. unfold Explorer.autoSaveResult.
           destruct autoSave; simpl; [| now left].
           destruct (successOf result) eqn:Es; [| now left].
           destruct (schemaOf result) as [schema |] eqn:Esch; [| now left].
           right. repeat split. now exists schema.
        -- eexists. eexists. eexists. split; [reflexivity |].
           split; [exact Hensure |].
           split; [apply rethrown_class | reflexivity].
      * eexists. eexists. eexists. split; [reflexivity |].
        split; [exact Hensure |].
        split; [apply rethrown_class | reflexivity].
    + eexists. eexists. eexists. split; [reflexivity |].
      destruct Hensure as [H1 H2]. auto.
  - intros R successOf schemaOf St store construct initializeOf type connector protocolName
      autoSave t storage Htype.
    unfold Explorer.introspect, Explorer.ensureInitialized, Explorer.initializeStorage.
    cbn [Explorer.ex_initialized Explorer.ex_storage]. now rewrite Htype.
  - intros IQ SQ HQ world config St store construct initializeOf configured autoSave t storage
      status statusText message Hpost Hstatus.
    unfold Explorer.introspect, Explorer.ensureInitialized, Explorer.tryIntrospect,
      GraphQLConn.introspect, Http.tryCatch,
      GraphQLConn.introspectBody, Http.bindM, GraphQLConn.testConnection,
      GraphQLConn.executeGraphQLQuery.
    cbn [Explorer.ex_initialized Explorer.ex_storage].
    rewrite Hpost. simpl.
    assert (Hauth : (Nat.eqb status 401 || Nat.eqb status 403) = true).
    { destruct Hstatus as [-> | ->]; reflexivity. }
    rewrite Hauth. reflexivity.
Qed.

(** The theorem on an explorer that is configured with the storage type
    [database] and not yet initialized, where the plain [Error] of the
    initialization escapes, and on an initialized explorer whose GraphQL
    endpoint answers 401. *)
Lemma explorer_introspect_outcomes_witness :
  Explorer.introspect GraphQLConn.IntrospectionResult GraphQLConn.success
    GraphQLConn.schema Storage.MemoryStorage (Explorer.memoryStore 5000)
    Explorer.memoryConstruct Explorer.memoryInitialize (Some "database")
    (Some (GraphQLConn.introspect GraphQLConn.exampleFullQuery GraphQLConn.exampleSimpleQuery
             GraphQLConn.exampleHealthQuery GraphQLConn.unauthorizedWorld
             GraphQLConn.exampleConfig))
    "graphql" true 0 (Explorer.mkState false Storage.newMemoryStorage)
  = (Throw (mkJsError PlainError ("Unsupported storage type: " ++ "database")),
     0, Explorer.mkState false Storage.newMemoryStorage)
  /\ Explorer.introspect GraphQLConn.IntrospectionResult GraphQLConn.success
       GraphQLConn.schema Storage.MemoryStorage (Explorer.memoryStore 5000)
       Explorer.memoryConstruct Explorer.memoryInitialize (Some "memory")
       (Some (GraphQLConn.introspect GraphQLConn.exampleFullQuery GraphQLConn.exampleSimpleQuery
                GraphQLConn.exampleHealthQuery GraphQLConn.unauthorizedWorld
                GraphQLConn.exampleConfig))
       "graphql" true 0 (Explorer.mkState true Storage.exampleMemory)
     = (Throw (mkJsError IntrospectionError
                 ("Introspection failed: Authentication failed: " ++ "Unauthorized")),
        1, Explorer.mkState true Storage.exampleMemory).
Proof.
  split.
  - apply (proj1 (proj2 explorer_introspect_outcomes)). reflexivity.
  - apply (proj2 (proj2 explorer_introspect_outcomes)
             GraphQLConn.exampleFullQuery GraphQLConn.exampleSimpleQuery
             GraphQLConn.exampleHealthQuery GraphQLConn.unauthorizedWorld
             GraphQLConn.exampleConfig Storage.MemoryStorage (Explorer.memoryStore 5000)
             Explorer.memoryConstruct Explorer.memoryInitialize (Some "memory")
             true 0 Storage.exampleMemory 401 "Unauthorized"
             "Request failed with status code 401").
    + reflexivity.
    + left. reflexivity.
Defined.

(** X30: an auto-saved schema can be read back.  When the connector
    returns a success with a schema, [autoSave] is on, and the explorer
    is initialized with a memory storage that is initialized with a
    ceiling that is not negative, the explorer returns the connector's
    result and afterwards [retrieve] of the schema's id returns that
    schema. *)
Theorem explorer_auto_saved_schema_is_retrievable :
  forall (R : Type) (successOf : R -> bool) (schemaOf : R -> option UniversalSchema)
         (construct : string -> Storage.MemoryStorage)
         (initializeOf : Storage.MemoryStorage -> Result unit * Storage.MemoryStorage)
         (configured : option string)
         (introspectOf : Http.M R) (protocolName : string) (now : Z) (t t' : nat)
         (storage : Storage.MemoryStorage) (result : R) (schema : UniversalSchema),
    introspectOf t = (Ok result, t') ->
    successOf result = true ->
    schemaOf result = Some schema ->
    Storage.m_initialized storage = true ->
    (forall ceiling,
        Storage.maxSchemas (Storage.m_config storage) = Some ceiling -> (0 <= ceiling)%Z) ->
    exists storage',
      Explorer.introspect R successOf schemaOf Storage.MemoryStorage (Explorer.memoryStore now)
        construct initializeOf configured
        (Some introspectOf) protocolName true t (Explorer.mkState true storage)
      = (Ok result, t', Explorer.mkState true storage')
      /\ Memory.retrieve (id schema) storage' = Ok (Some schema).
Proof.
  intros R successOf schemaOf construct initializeOf configured introspectOf protocolName now
    t t' storage result schema Hrun Hsucc Hschema Hinit Hceiling.
  unfold Explorer.introspect, Explorer.ensureInitialized, Explorer.tryIntrospect.
  cbn [Explorer.ex_initialized Explorer.ex_storage]. rewrite Hrun.
  unfold Explorer.autoSaveResult. rewrite Hsucc, Hschema. simpl.
  destruct (store_returns now schema storage Hinit Hceiling) as [removed [Hstore _]].
  unfold Explorer.memoryStore. rewrite Hstore. simpl.
  eexists. split; [reflexivity |].
  rewrite retrieve_returns by reflexivity. simpl.
  now rewrite obj_get_obj_set, String.eqb_refl.
Qed.

Lemma explorer_auto_saved_schema_is_retrievable_witness :
  exists storage',
    Explorer.introspect Rest.IntrospectionResult Rest.success Rest.schema
      Storage.MemoryStorage (Explorer.memoryStore 5000)
      Explorer.memoryConstruct Explorer.memoryInitialize (Some "memory")
      (Some (Rest.introspect asciiToLowerCase
               (Rest.servingWorld (Rest.DataObject (Rest.petstoreSpec "3.0.0")))
               (Rest.defaultConfig "https://api.example.com")))
      "rest" true 0 (Explorer.mkState true Storage.exampleMemory)
    = (Ok (Rest.mkIntrospectionResult true
             (Some (Rest.convertedExample (Some "Petstore")
                      "https://api.example.com/openapi.json"))
             None (Some [])
             (Some (Rest.MetaIntrospected "https://api.example.com"
                      "https://api.example.com/openapi.json" "OpenAPI 3.0.0" 0 0))),
       4, Explorer.mkState true storage')
    /\ Memory.retrieve
         (id (Rest.convertedExample (Some "Petstore") "https://api.example.com/openapi.json"))
         storage'
       = Ok (Some (Rest.convertedExample (Some "Petstore")
                     "https://api.example.com/openapi.json")).
Proof.
  apply (explorer_auto_saved_schema_is_retrievable Rest.IntrospectionResult Rest.success
           Rest.schema Explorer.memoryConstruct Explorer.memoryInitialize (Some "memory")
           (Rest.introspect asciiToLowerCase
              (Rest.servingWorld (Rest.DataObject (Rest.petstoreSpec "3.0.0")))
              (Rest.defaultConfig "https://api.example.com"))
           "rest" 5000 0 4 Storage.exampleMemory).
  - reflexivity.
  - reflexivity.
  - reflexivity.
  - reflexivity.
  - intros ceiling H. inversion H. lia.
Defined.

(* ------------------------------------------------------------------ *)
(** ** WebSocket connector: protocol detection                         *)
(* ------------------------------------------------------------------ *)

(** [detectProtocol] in closed form: STOMP commands win over Socket.IO
    patterns; JSON messages raise the confidence of a raw endpoint to 0.7
    and lower none; and the reasoning is never empty. *)
Lemma detectProtocol_priorities (messages : list WebSocket.WebSocketMessage) :
  WebSocketConv.pdr_protocol (WebSocketEvents.detectProtocol messages)
  = (if existsb WebSocketEvents.looksLikeSTOMP messages then WebSocketConv.STOMP
     else if existsb WebSocketEvents.looksLikeSocketIO messages then WebSocketConv.SOCKET_IO
     else WebSocketConv.RAW)
  /\ WebSocketConv.pdr_confidence (WebSocketEvents.detectProtocol messages)
     = (if existsb WebSocketEvents.looksLikeSTOMP messages then (9 # 10)%Q
        else if existsb WebSocketEvents.looksLikeSocketIO messages then (4 # 5)%Q
        else if existsb WebSocketEvents.isJSONMessage messages then (7 # 10)%Q
        else (1 # 2)%Q)
  /\ 1 <= length (WebSocketConv.pdr_reasoning (WebSocketEvents.detectProtocol messages)) <= 3.
Proof.
  unfold WebSocketEvents.detectProtocol.
  assert (Hjson : (0 <? length (filter WebSocketEvents.isJSONMessage messages))%nat
                  = existsb WebSocketEvents.isJSONMessage messages).
  { induction messages as [| m rest IH]; simpl; [reflexivity |].
    destruct (WebSocketEvents.isJSONMessage m); simpl; [reflexivity | exact IH]. }
  rewrite Hjson.
  destruct (existsb WebSocketEvents.looksLikeSocketIO messages),
    (existsb WebSocketEvents.looksLikeSTOMP messages),
    (existsb WebSocketEvents.isJSONMessage messages); simpl; repeat split; lia.
Qed.
